(* ===== verification/_CoqProject ===== *)
-Q . S2P
Prelude.v
PyStr.v
Json.v
Csv.v
Clock.v
Loads.v
Request.v
Store.v
StoreSpec.v
Schema.v
Features.v
Detector.v
Decoy.v
Training.v
Handlers.v
Alerts.v
Routes.v
Config.v
Startup.v
Service.v
System.v
Legacy.v
Concurrency.v
