(* ===== verification/Prelude.v ===== *)
(** * Verification of the Sukraksha-Miraj honeypot backend

    The program is a Flask service, src/Backend/app.py (an earlier,
    truncated version is src/app.py).  Each request to a scoring endpoint
    ([/api/login], [/api/query]) goes through four steps.  First, the
    blocklist gate: a source address found in the [Blocklist] table gets
    403.  Second, the feature extractor: payload length, request rate over
    the last minute, a client-tool flag, an SQL-signature flag and a count
    of suspicious characters.  Third, the anomaly model (an
    IsolationForest) judges the features.  Fourth, if the verdict is
    anomalous, a deception step draws a fake profile name and rewrites the
    decoy credentials bundle on disk.  Every scored request is then logged
    as one row of the [Log] table.  Two administrative endpoints also
    change state: [/api/actions/block] adds an address to the blocklist
    and [/api/decoy/generate] rewrites the decoy files.

    ** Files and what they model

    - Prelude.v (this file): Python exceptions [PyExc]; the result type
      [res] ([Ok] or [Raise]); the handler monad [PyM S A := S -> res A * S]
      with [ret], [raise], [bind], [st_get], [try_except] and the notation
      [x <- m ;; k] in [hp_scope]; [preserves R m], which says a
      computation only moves its state along a preorder [R]; and Python's
      [len] and [sum(1 for ...)] on [Z] ([zlen], [zcount]).  It also holds
      the hint databases [hp] and [hp_rw] and the shared Ltac.
    - PyStr.v: the Python string operations the code calls.  These are
      substring search [x in s] ([contains], with its specification),
      [upper], [lower], [count], [rstrip], [join] and [os.path.basename].
    - Json.v: Python values built from JSON ([json]), [json.dumps] and
      [str()] of them, with the bound on the length of [str(z)].
    - Csv.v: the [csv.writer] of the excel dialect ([csv_row],
      [csv_text]) that writes the decoy tables and the export report, and,
      as the reference it is judged by, CPython's [csv.reader] state
      machine fed line by line as a file opened with [newline=''] splits
      it ([csv_read]); this reader is not code of the repository.
    - Request.v: the parts of Flask's [request] the handlers read, and
      [extract_payload_and_params] (app.py 95-120).
    - Store.v: the SQLite database.  [Db] holds both tables in rowid
      order plus two health switches: whether reads and whether writes
      currently succeed.  It models the queries and commits the handlers
      issue ([blocklist_first], [count_logs_since], [commit_log],
      [commit_block], the last enforcing the UNIQUE constraint on
      [Blocklist.ip]), and the rate tracker [get_reqs_per_min] (87-93).
    - StoreSpec.v: the storage contract of the specification (append,
      count since, is blocked, add entry) as the class [Storage], an
      abstract store [AStore] of (source, time) events and blocked
      sources, the contract [storage_refines] with client lemmas proved
      from it alone, and [db_storage], the SQLite store as its instance.
    - Schema.v: what lies under [Db]: the models [Log] and [Blocklist]
      (43-63) as column declarations ([Model], [Column]), the SQLite file
      as tables keyed by name ([SqliteFile]), [db.create_all()] (65-66)
      as the creation of the missing tables ([create_all]), the insert of
      a new object with its column defaults, its rowid and its UNIQUE
      check ([sql_insert], with the constructor arguments of the handlers
      as [log_params] and [block_params]), and the ORM's loading of rows
      ([db_view]).  Flask-SQLAlchemy's default table name
      ([camel_to_snake_case]) is library behaviour written out.
    - Features.v: [has_sql_signature], [count_special_chars] and
      [features_from_request] (71-137).
    - Detector.v: the model as an interface.  [OutlierModel M] gives the
      label [predict] returns, or [None] when [predict] raises.  On top of
      it sits the wrapper [is_anomaly_from_features] (169-178).
    - Decoy.v: the fake-data source as an interface ([Faker F], one
      method per kind of draw, with the Faker calls as [FakeCall]) and
      its laws ([FakerLaws]: a password has the length asked for, [lexify]
      fills its pattern with letters, [random_element] picks an element,
      [random_int] stays in range, other draws are short); the file system
      [Fs] with the content of each file ([FText] for CSV text, [FZip] for
      an archive by its members); and the three generators (183-245),
      each row drawn in Python's evaluation order through the state monad
      [FakeM] and written with [csv_text].
    - Training.v: the synthetic data [train_model] fits the forest on
      (142-153): numpy's [RandomState] as an interface with laws
      ([RandomStateLaws]), the five columns drawn in order, clipped
      ([clip], [zclip]) and stacked ([vstack_T]), and the fit as the
      interface [IForestFit]; the classifier [clf] of Startup.v is that
      fit on the data of [RandomState(42)] ([fitted_model]).
    - Handlers.v: the world [World F], made of the store, the decoy
      directory, the Faker state and the clock.  It defines [api_login],
      [api_query], [api_block] and [api_decoy_generate] as [PyM World
      Response].  [flask_dispatch] turns an escaped exception into the 500
      of the [errorhandler(500)] and keeps the state changes made before
      the raise, as Flask does.
    - System.v: the running service.  An [Event] is either a request to
      one of the four endpoints or a change of environment: the clock
      advances, store health changes, or the decoy directory's permissions
      change.  [step] performs one event, [run] a sequence of events, and
      [reachable] holds the states a sequence of events reaches from an
      empty store.
    - Clock.v: [datetime.utcnow()] as microseconds since the epoch, its
      calendar fields ([civil_from_days], [to_datetime]) and the two
      renderings the code prints, [isoformat()] and
      [strftime('%Y%m%d%H%M%S')].
    - Loads.v: [json.loads] (CPython's decoder on the modelled value
      types), a recursive-descent parser over the text, used by the alert
      feed to read the stored profile back.
    - Alerts.v: [api_alerts] (334-361): the [limit] argument through
      [int()] ([py_int]), the query with SQLite's LIMIT rule ([sql_limit]),
      and the rendering of each row ([alert_row]).
    - Routes.v: the other views, [root], [api_status], [api_tables],
      [download_fn] and [api_export_report] (258-332, 478-501), and the
      404 handler.  A file sent by [send_file] is the body [{file: path}].
      The export selects the logs ([export_selection], with
      [datetime.fromisoformat] as a parameter) and writes their report
      ([export_row], [write_export]).
    - Config.v: the paths under [BASE_DIR] (24-28, 36), with [BASE_DIR]
      a parameter, and [os.makedirs(..., exist_ok=True)] of the decoy
      and export directories (30-31) over the set of existing
      directories ([Dirs]).
    - Startup.v: the module-level code run at import: the model is
      loaded from [MODEL_FILE] or trained and saved ([load_or_train],
      with the file as state), then each missing decoy file is generated
      ([ensure_decoys]); [startup] composes them.
    - Service.v: the whole application.  One [Rule] per [@app.route]
      decorator, Werkzeug's matching as the application sees it
      ([route_of]: exact static paths, the [path] converter, [HEAD] with
      [GET], automatic [OPTIONS], 404 and 405), [view_handler] from a
      matched view to its handler, and [app], the answer to one request;
      also the unused [errorhandler(403)] and the port of the entry
      point.
    - Legacy.v: src/app.py in [Module Legacy]: its functions, its
      startup code, its paths and directories, its two models (without
      [__tablename__]) and [db.create_all()], and [gen_employees_csv] as
      far as the file goes; compared with the current backend.
    - Concurrency.v: requests served concurrently.  Each state-changing
      handler is cut at its SQLite statements into atomic steps of a
      [Thread] ([gate], [login_score], [query_score], [block_check],
      [block_commit]; the scoring parts reuse [login_row] and
      [query_outcome] of Handlers.v).  A scheduler picks which thread
      steps next ([sched_step], [run_sched]); [tstep] is the step relation
      of a pool of threads and [cstep] adds the environment events of
      System.v.

    Components talk to each other only through these definitions.  The
    handlers' theorems hold for every [OutlierModel] and every [Faker]
    instance, so nothing depends on the trained forest or on the random
    data.

    ** Theorems

    - Handlers.v: the functional behaviour of each handler on each branch.
      A request from a blocked address leaves the world untouched.  A login
      or query that is scored gets its response and exactly one log row,
      whose content is stated.  The block action is idempotent.  Error
      paths: a store that refuses reads gives 500; a JSON [q] that is not
      a string raises in [q.upper()]; a block body that is not a dict
      raises.
    - StoreSpec.v: the SQLite store refines the abstract store.
    - Schema.v: [db.create_all()] starts from the empty store on a new
      file and leaves a file in use as it is; every row keeps one value of
      its column's type per column.  Lemmas check the list model of
      Store.v against the file (each commit is the insert of its object
      seen through [db_view]); they validate the model, not the program.
    - Config.v: whatever [BASE_DIR] is, [/download] never sends the
      model, the database or an export report; after lines 30-31 both
      directories exist or the import stops with PermissionError.
    - Features.v: bounds on every feature; case-insensitivity of the SQL
      test; redundancy of its signature list; monotonicity of the rate in
      the log; a JSON body that does not parse is scored as empty; a
      concrete scan is flagged.
    - Detector.v: the verdict fails safe.
    - Training.v: the forest is fitted on exactly 3000 rows, each within
      the clipping box of the code, whatever the generator draws.
    - System.v: every handler is shown to [preserve] the relation
      [evolves]: the clock and health stay put, both tables only grow, and
      new rows are stamped with the clock.  From this, by rule induction on
      [reachable], comes the service invariant: rowids increase, each
      address is blocked at most once, and no row is stamped in the
      future.  Also: an address once blocked is never scored again; the
      rate feature never counts the current request; a minute of silence
      empties the rate window.
    - Csv.v and Loads.v hold models of Python's [csv] and [json]
      modules, library code; their round-trip lemmas
      ([csv_read_text_core], [loads_dumps_wf]) are what the decoy, export
      and alert-feed theorems read the written text back with.
    - Decoy.v: each generator's file reads back as its header and its
      rows: employees with ids [1..n], a department of the four and a
      salary in range; projects with ids [1..n] and a four-letter honey
      token; the credentials bundle holds exactly the CSV written beside
      it, whose [n] rows carry a twelve-character password and a
      three-letter honey token.
    - Alerts.v: the feed returns the newest rows first, [min(n, #rows)]
      of them; a negative limit returns the whole log; a limit that is not
      an integer gives 500; an anomalous login shows up at the head of
      the feed with its profile; [int()] reads back [str()] of an integer.
    - Routes.v: the download links [/api/tables] advertises are served
      once the decoys are generated; [/download] never leaves the decoy
      directory; the export never answers 200 (the view returns [None]),
      yet writes a report that reads back as the selected logs, newest
      first; two exports in one second write the same file.
    - Startup.v: the service starts with the stored model, or trains one,
      and dies exactly when no model can be loaded or saved; a restart
      reuses the saved model; after a start on a writable directory every
      advertised download is served; the decoy check is idempotent.
    - Service.v: every answer of the application is typed (a known
      status and a JSON list or dict with distinct keys, never the 403
      handler's body) or one of Werkzeug's default pages; through the
      router no [/download/] URL leaves the decoy directory.
    - Legacy.v: refinement of the earlier character count and of its
      verdict wrapper; the earlier and the current startup code are
      equivalent; on a database of the earlier version the current one
      starts with an empty log (the old rows stay in table [log]) and
      the same blocklist; the earlier [gen_employees_csv] writes only the
      header row.
    - Concurrency.v: the store invariant holds
      under every interleaving; no block is lost; two overlapping blocks
      of one address get 200 and 500; a login that passed the gate before
      a block committed is still scored and logged.

    ** Bounds and representation

    Integers are Python integers, so they are [Z] with no width.  The clock
    is in microseconds, the resolution of [datetime.utcnow()], and the rate
    window is [60 * 10^6] of them.  The clock never goes back: the
    clock-advance event of System.v ignores a negative step, so
    [datetime.utcnow()] is assumed monotone (a wall clock set back by NTP
    or by hand is not modelled); the invariant that no row is stamped in
    the future (System.v, Concurrency.v) and the expiry of the rate
    window depend on this assumption.  Text is [string] over 8-bit characters.
    [upper] and [lower] change ASCII letters only, which is Python's
    behaviour on ASCII text; request text is taken as ASCII.  The only
    definition with fuel is the JSON parser of Loads.v: [loads s] runs
    [parse_value] with [S (length s)] steps, and every nested call
    consumes at least one character, so the fuel never runs out; the
    round-trip lemma proves it for the text [json.dumps] writes
    ([jsize_le_length]).  Calendar fields are proved in range
    ([civil_from_days_range]); [datetime] itself only represents years 1
    to 9999, and the clock is assumed to stay there.  The CSV reader has
    CPython's default [field_size_limit] of 131072 characters; the
    decoy theorems meet it through the Faker law that a draw without a
    length argument is at most [FAKE_MAX = 1024] characters, the export
    theorem through [log_fits] (SQLite's 64-bit rowids and columns within
    the limit), and [str(z)] of an integer below [2^k] has at most [k + 2]
    characters ([z_to_string_bound]).

    ** Not modelled

    - The algorithms of the libraries the model code calls: numpy's
      sampling (the interface [RandomState] with its laws stands for
      it) and scikit-learn's IsolationForest [fit] and [predict] (the
      interfaces [IForestFit] and [OutlierModel]); the classifier of
      Startup.v is a parameter for this reason.
    - The bytes of the ZIP archive (its DEFLATE encoding; the archive is
      its list of members) and the random choices of Faker (only the laws
      above are assumed of them).
    - Floats and characters beyond 8 bits in [json.loads]: they lie
      outside the [json] value type and make the parser fail.
    - The bytes [send_file] sends (a sent file is its path), and the
      parser of [datetime.fromisoformat], a parameter of the export.
    - A write that fails half-way: a directory either accepts a whole
      generator's or export's writes or refuses them at [open].
    - Werkzeug's URL handling below the rules: percent-decoding, the
      merging of repeated slashes and the redirects of rules with a
      trailing slash (no rule here has one); the bodies of its default
      405 and [OPTIONS] pages.  The logging configuration (line 19) and
      the value of [BASE_DIR] (an absolute path, a parameter).
    - SQLite's storage of values (DateTime as text, Boolean as an
      integer) and its length-free [String(n)] columns: a row holds the
      typed values SQLAlchemy binds and loads.  A table whose columns
      differ from its model's is outside [db_view].
    - Werkzeug's JSON and form parsing, given as the request's parsed
      fields.
    - Concurrency finer than one SQLite statement: the scoring step of
      a login or query (rate query, verdict, decoy files) is one atomic
      step, and decoy files written by two requests at once are counted,
      not interleaved byte by byte.  Waits on SQLite's lock and on the file
      system are not modelled either: a handler is a fixed number of
      atomic steps by construction, so no termination or latency bound
      is claimed for it. *)

From stdpp Require Export base list strings gmap.
From Stdlib Require Export ZArith Lia.

Declare Scope hp_scope.
Delimit Scope hp_scope with hp.
Open Scope hp_scope.

(** ** Python exceptions and the state/exception monad of a request handler *)

(** The exceptions the modelled code can raise and not catch. *)
Inductive PyExc :=
| AttributeError   (** a method called on a value of the wrong type *)
| OperationalError (** the SQLite store refused a query or a commit *)
| InterfaceError   (** a value SQLite cannot bind as a parameter *)
| IntegrityError   (** an insert that violates a UNIQUE column *)
| ValueError       (** [int(...)] of a string that is not a number *)
| BadRequest       (** Flask's [get_json()] on a body that does not parse *)
| TypeError        (** Flask given a view result that is not a response *)
| IsADirectoryError (** [open()] of a directory, as [send_file] does *)
| FileNotFoundError (** [open()] or [joblib.load] of a missing file *)
| PermissionError  (** a write into a directory that refuses it *)
| UnpicklingError. (** [joblib.load] of a file that holds no model *)

#[export] Instance PyExc_eq_dec : EqDecision PyExc.
Proof. solve_decision. Defined.

(** The result of running Python code: a value, or an exception that
    escaped. *)
Inductive res (A : Type) :=
| Ok (a : A)
| Raise (e : PyExc).
Arguments Ok {A} a.
Arguments Raise {A} e.

(** Handler code threads a state [S]; an exception keeps the state changes
    made before it (the files written, the random draws done). *)
Definition PyM (S A : Type) := S -> res A * S.

Definition ret {S A} (a : A) : PyM S A := fun s => (Ok a, s).
Definition raise {S A} (e : PyExc) : PyM S A := fun s => (Raise e, s).
Definition bind {S A B} (m : PyM S A) (k : A -> PyM S B) : PyM S B :=
  fun s => match m s with
           | (Ok a, s') => k a s'
           | (Raise e, s') => (Raise e, s')
           end.
Definition st_get {S} : PyM S S := fun s => (Ok s, s).
Definition st_put {S} (s : S) : PyM S unit := fun _ => (Ok tt, s).
Definition st_modify {S} (f : S -> S) : PyM S unit := fun s => (Ok tt, f s).

(** [try m except: h]: run [h] in the state [m] left when it raised. *)
Definition try_except {S A} (m : PyM S A) (h : PyExc -> PyM S A) : PyM S A :=
  fun s => match m s with
           | (Ok a, s') => (Ok a, s')
           | (Raise e, s') => h e s'
           end.

Notation "x <- m ;; k" := (bind m (fun x => k))
  (at level 100, m at next level, right associativity) : hp_scope.
Notation "m ;; k" := (bind m (fun _ => k))
  (at level 100, right associativity) : hp_scope.

(** ** Invariants of stateful code *)

(** [m] only moves the state along the preorder [R], whatever happens. *)
Definition preserves {S A} (R : S -> S -> Prop) (m : PyM S A) : Prop :=
  forall s, R s (m s).2.

(** ** Python integers *)

(** Python's [len] and counters return unbounded integers, modelled as [Z]. *)
Definition zlen {A} (l : list A) : Z := Z.of_nat (length l).

(** [sum(1 for x in l if p(x))]. *)
Definition zcount {A} (p : A -> bool) (l : list A) : Z :=
  fold_right (fun x acc => if p x then (1 + acc)%Z else acc) 0%Z l.

(** A Python 0/1 flag: [1 if b else 0]. *)
Definition flag (b : bool) : Z := if b then 1%Z else 0%Z.

(** ** Lemmas *)

Lemma bind_ret_l {S A B} (a : A) (k : A -> PyM S B) s :
  bind (ret a) k s = k a s.
Proof. reflexivity. Qed.

Lemma bind_assoc {S A B C} (m : PyM S A) (k : A -> PyM S B) (h : B -> PyM S C) s :
  bind (bind m k) h s = bind m (fun a => bind (k a) h) s.
Proof. unfold bind. destruct (m s) as [[a|e] s']; reflexivity. Qed.

Lemma bind_raise {S A B} e (k : A -> PyM S B) s :
  bind (raise e) k s = (Raise e, s).
Proof. reflexivity. Qed.

Section Preserves.
Context {S : Type} (R : S -> S -> Prop) `{!PreOrder R}.

Lemma preserves_ret {A} (a : A) : preserves R (ret a).
Proof. intros s. simpl. reflexivity. Qed.

Lemma preserves_raise {A} e : preserves R (@raise S A e).
Proof. intros s. simpl. reflexivity. Qed.

Lemma preserves_get : preserves R st_get.
Proof. intros s. simpl. reflexivity. Qed.

Lemma preserves_bind {A B} (m : PyM S A) (k : A -> PyM S B) :
  preserves R m -> (forall a, preserves R (k a)) -> preserves R (bind m k).
Proof.
  intros Hm Hk s. unfold bind. specialize (Hm s).
  destruct (m s) as [[a|e] s'] eqn:E; simpl in *; [|exact Hm].
  etransitivity; [exact Hm | apply Hk].
Qed.

Lemma preserves_try {A} (m : PyM S A) (h : PyExc -> PyM S A) :
  preserves R m -> (forall e, preserves R (h e)) -> preserves R (try_except m h).
Proof.
  intros Hm Hh s. unfold try_except. specialize (Hm s).
  destruct (m s) as [[a|e] s'] eqn:E; simpl in *; [exact Hm|].
  etransitivity; [exact Hm | apply Hh].
Qed.
End Preserves.

Lemma zlen_nonneg {A} (l : list A) : (0 <= zlen l)%Z.
Proof. unfold zlen. lia. Qed.

Lemma zlen_app {A} (l1 l2 : list A) : zlen (l1 ++ l2) = (zlen l1 + zlen l2)%Z.
Proof. unfold zlen. rewrite length_app. lia. Qed.


Lemma zcount_app {A} (p : A -> bool) l1 l2 :
  zcount p (l1 ++ l2) = (zcount p l1 + zcount p l2)%Z.
Proof. induction l1 as [|x l1 IH]; simpl; [lia|]. destruct (p x); lia. Qed.

Lemma zcount_bounds {A} (p : A -> bool) l : (0 <= zcount p l <= zlen l)%Z.
Proof.
  unfold zlen. induction l as [|x l IH]; simpl; [lia|]. destruct (p x); lia.
Qed.


Lemma flag_range b : flag b = 0%Z \/ flag b = 1%Z.
Proof. destruct b; auto. Qed.

Lemma flag_true b : flag b = 1%Z <-> b = true.
Proof. destruct b; simpl; split; congruence. Qed.

(** ** Lists *)

Lemma lookup_map_Some {A B} (f : A -> B) (l : list A) (i : nat) (x : A) :
  l !! i = Some x -> map f l !! i = Some (f x).
Proof.
  revert i. induction l as [|y l IH]; intros [|i] Hi; simpl in *; try discriminate.
  - congruence.
  - apply IH. exact Hi.
Qed.

Lemma insert_middle {A} (l1 l2 : list A) (x y : A) (n : nat) :
  n = length l1 -> <[n := y]> (l1 ++ x :: l2)%list = (l1 ++ y :: l2)%list.
Proof. intros ->. rewrite <- (Nat.add_0_r (length l1)), insert_app_r. reflexivity. Qed.

(** Replacing the element at [i] changes a weighted sum by the
    difference of the weights. *)
Lemma sum_list_with_insert {A} (f : A -> nat) (l : list A) (i : nat) (x y : A) :
  l !! i = Some y -> (sum_list_with f (<[i := x]> l) + f y = sum_list_with f l + f x)%nat.
Proof.
  revert i. induction l as [|z l IH]; intros [|i] Hi; simpl in *; try discriminate.
  - injection Hi as ->. lia.
  - specialize (IH i Hi). lia.
Qed.

(** A relation between indices and rows that, on indices satisfying
    [Q], implies [R] of the row gives [R] of every row. *)
Lemma Forall2_Forall_r {A B} (P : A -> B -> Prop) (Q : A -> Prop) (R : B -> Prop)
    (xs : list A) (ys : list B) :
  Forall2 P xs ys -> Forall Q xs -> (forall x y, Q x -> P x y -> R y) -> Forall R ys.
Proof.
  intros HP HQ HR. induction HP as [|x y xs ys Hxy _ IH]; [constructor|].
  inversion HQ; subst. constructor; eauto.
Qed.

(** [any(p(x) for x in l)] is false: [p] fails on every element. *)
Lemma existsb_false_Forall {A} (p : A -> bool) (l : list A) :
  existsb p l = false -> Forall (fun x => p x = false) l.
Proof.
  induction l as [|x l IH]; simpl; [constructor|].
  rewrite orb_false_iff. intros [H1 H2]. constructor; auto.
Qed.

(** [any(p(y) for y in map(f, l))] tests [q] on [l] when [q = p ∘ f]. *)
Lemma existsb_map_ext {A B} (p : B -> bool) (q : A -> bool) (f : A -> B) (l : list A) :
  (forall x, p (f x) = q x) -> existsb p (map f l) = existsb q l.
Proof. intros Hpq. induction l as [|x l IH]; simpl; [done|]. by rewrite Hpq, IH. Qed.

(** ** Automation shared by the development *)

Create HintDb hp discriminated.
Create Rewrite HintDb hp_rw.
#[export] Hint Resolve zlen_nonneg zcount_bounds flag_range : hp.
#[export] Hint Rewrite @zlen_app @zcount_app @bind_ret_l @bind_raise : hp_rw.

(** Case analysis on the [if]s and [match]es of a modelled handler. *)
Ltac hp_cases :=
  repeat (first [ progress simplify_eq/=
                | case_match ]).
