(* ===== verification/PyStr.v ===== *)
(** * Python [str] operations used by the backend

    Python text is modelled as Rocq's [string] (8-bit characters).  The
    case mappings [str.upper]/[str.lower] are Python's on ASCII letters; the
    development treats request text as ASCII (see the root header).  This
    file holds [x in s] (substring search) with its specification, the case
    mappings, [s.count(c)], [s.rstrip(c)], [sep.join], [os.path.basename]
    and Python's truthiness of a string. *)
From S2P Require Import Prelude.
From Stdlib Require Import Ascii String.

Open Scope string_scope.

(** ** Truthiness and substring search *)

(** [not s] for a Python string: only the empty string is falsy. *)
Definition str_truthy (s : string) : bool :=
  match s with EmptyString => false | String _ _ => true end.

(** [needle in hay]: Python's substring test. *)
Fixpoint contains (needle hay : string) : bool :=
  prefix needle hay ||
  match hay with
  | EmptyString => false
  | String _ hay' => contains needle hay'
  end.

(** [c in chars] for a one-character string [c]. *)
Definition char_in (c : ascii) (chars : string) : bool :=
  contains (String c EmptyString) chars.

(** ** Case mappings (ASCII letters) *)

Definition upper_char (c : ascii) : ascii :=
  let n := nat_of_ascii c in
  if ((97 <=? n) && (n <=? 122))%nat then ascii_of_nat (n - 32)%nat else c.

Definition lower_char (c : ascii) : ascii :=
  let n := nat_of_ascii c in
  if ((65 <=? n) && (n <=? 90))%nat then ascii_of_nat (n + 32)%nat else c.

Fixpoint str_map (f : ascii -> ascii) (s : string) : string :=
  match s with
  | EmptyString => EmptyString
  | String c s' => String (f c) (str_map f s')
  end.

(** [s.upper()] and [s.lower()]. *)
Definition py_upper (s : string) : string := str_map upper_char s.
Definition py_lower (s : string) : string := str_map lower_char s.

Definition is_cased (c : ascii) : bool := negb (Ascii.eqb (upper_char c) (lower_char c)).

(** [s.title()]: a cased character is upper-cased after an uncased one
    and lower-cased after a cased one. *)
Fixpoint title_from (prev_cased : bool) (s : string) : string :=
  match s with
  | EmptyString => EmptyString
  | String c s' =>
      if is_cased c then String (if prev_cased then lower_char c else upper_char c) (title_from true s')
      else String c (title_from false s')
  end.

Definition py_title (s : string) : string := title_from false s.

(** ** Counting, stripping, joining *)

(** [s.count(c)] for a one-character [c] (occurrences cannot overlap). *)
Definition str_count_char (c : ascii) (s : string) : Z :=
  zcount (fun d => bool_decide (d = c)) (list_ascii_of_string s).

(** Drop the leading characters equal to [c]. *)
Fixpoint lstrip_list (c : ascii) (l : list ascii) : list ascii :=
  match l with
  | [] => []
  | d :: l' => if bool_decide (d = c) then lstrip_list c l' else l
  end.

(** [s.rstrip(c)] for a one-character [c]: drop every trailing [c]. *)
Definition rstrip_char (c : ascii) (s : string) : string :=
  string_of_list_ascii (rev (lstrip_list c (rev (list_ascii_of_string s)))).

(** [sep.join(l)]. *)
Fixpoint py_join (sep : string) (l : list string) : string :=
  match l with
  | [] => EmptyString
  | [x] => x
  | x :: l' => x ++ sep ++ py_join sep l'
  end.

(** [os.path.basename(p)]: the text after the last ['/']. *)
Fixpoint basename_acc (acc : string) (p : string) : string :=
  match p with
  | EmptyString => acc
  | String c p' =>
      if bool_decide (c = "/"%char) then basename_acc EmptyString p'
      else basename_acc (acc ++ String c EmptyString) p'
  end.
Definition basename (p : string) : string := basename_acc EmptyString p.

(** ** Lemmas *)

(** stdpp makes [append] opaque to [simpl]; its two equations. *)
Lemma string_app_nil_l (b : string) : EmptyString ++ b = b.
Proof. reflexivity. Qed.

Lemma string_app_cons (c : ascii) (a b : string) : String c a ++ b = String c (a ++ b).
Proof. reflexivity. Qed.

Ltac str_simpl := repeat progress (rewrite ?string_app_nil_l, ?string_app_cons in *).

Lemma prefix_cons (c d : ascii) (n h : string) :
  prefix (String c n) (String d h) = if ascii_dec c d then prefix n h else false.
Proof. reflexivity. Qed.

Lemma prefix_spec (n h : string) :
  prefix n h = true <-> exists b, h = n ++ b.
Proof.
  revert h. induction n as [|c n IH]; intros h; simpl.
  - destruct h; split; eauto.
  - destruct h as [|d h].
    + split; [discriminate|]. intros [b Hb]. discriminate.
    + rewrite prefix_cons. destruct (ascii_dec c d) as [->|Hne].
      * rewrite IH. split; intros [b Hb]; exists b; rewrite ?string_app_cons in *; congruence.
      * split; [discriminate|]. intros [b Hb]. rewrite string_app_cons in Hb. congruence.
Qed.

Lemma contains_nil (n : string) : contains n EmptyString = prefix n EmptyString || false.
Proof. destruct n; reflexivity. Qed.

Lemma contains_cons (n : string) c h :
  contains n (String c h) = prefix n (String c h) || contains n h.
Proof. destruct n; reflexivity. Qed.

Lemma contains_spec (n h : string) :
  contains n h = true <-> exists a b, h = a ++ n ++ b.
Proof.
  induction h as [|c h IH]; [rewrite contains_nil | rewrite contains_cons].
  - rewrite orb_false_r, prefix_spec. split.
    + intros [b Hb]. exists EmptyString, b. exact Hb.
    + intros [a [b Hab]]. destruct a; [eauto | discriminate].
  - rewrite orb_true_iff, prefix_spec, IH. split.
    + intros [[b Hb] | [a [b Hab]]].
      * exists EmptyString, b. exact Hb.
      * exists (String c a), b. rewrite Hab. reflexivity.
    + intros [[|d a] [b Hab]]; rewrite ?string_app_nil_l, ?string_app_cons in Hab.
      * left. eauto.
      * right. injection Hab as -> ->. eauto.
Qed.

Lemma string_app_assoc (a b c : string) : (a ++ b) ++ c = a ++ (b ++ c).
Proof. induction a as [|x a IH]; str_simpl; congruence. Qed.

Lemma string_app_nil_r (a : string) : a ++ EmptyString = a.
Proof. induction a as [|x a IH]; str_simpl; congruence. Qed.

(** Substring search is transitive: the engine's redundant signatures rest
    on it. *)
Lemma contains_trans (a b c : string) :
  contains a b = true -> contains b c = true -> contains a c = true.
Proof.
  rewrite !contains_spec. intros [x [y ->]] [u [v ->]].
  exists (u ++ x), (y ++ v). rewrite !string_app_assoc. reflexivity.
Qed.

Lemma contains_refl (a : string) : contains a a = true.
Proof.
  apply contains_spec. exists EmptyString, EmptyString.
  simpl. rewrite string_app_nil_r. reflexivity.
Qed.

Lemma contains_app_l (n a b : string) :
  contains n a = true -> contains n (a ++ b) = true.
Proof.
  rewrite !contains_spec. intros [x [y ->]]. exists x, (y ++ b).
  rewrite !string_app_assoc. reflexivity.
Qed.

Lemma contains_app_r (n a b : string) :
  contains n b = true -> contains n (a ++ b) = true.
Proof.
  rewrite !contains_spec. intros [x [y ->]]. exists (a ++ x), y.
  rewrite !string_app_assoc. reflexivity.
Qed.

Lemma list_ascii_app (a b : string) :
  list_ascii_of_string (a ++ b) = (list_ascii_of_string a ++ list_ascii_of_string b)%list.
Proof. induction a as [|x a IH]; simpl; str_simpl; simpl; congruence. Qed.

(** [c in s] is membership of the character. *)
Lemma char_in_spec (c : ascii) (s : string) :
  char_in c s = true <-> c ∈ list_ascii_of_string s.
Proof.
  unfold char_in. rewrite contains_spec. split.
  - intros [a [b ->]]. rewrite list_ascii_app. simpl. set_solver.
  - induction s as [|d s IH]; simpl; [set_solver|].
    rewrite elem_of_cons. intros [->|Hin].
    + exists EmptyString, s. reflexivity.
    + destruct (IH Hin) as [a [b ->]]. exists (String d a), b. reflexivity.
Qed.

Lemma str_map_app (f : ascii -> ascii) (a b : string) :
  str_map f (a ++ b) = str_map f a ++ str_map f b.
Proof. induction a as [|x a IH]; simpl; str_simpl; simpl; congruence. Qed.

Lemma string_length_app (a b : string) :
  String.length (a ++ b) = (String.length a + String.length b)%nat.
Proof. induction a as [|x a IH]; str_simpl; simpl; congruence. Qed.

Lemma str_map_length (f : ascii -> ascii) (s : string) :
  String.length (str_map f s) = String.length s.
Proof. induction s as [|x s IH]; simpl; congruence. Qed.

(** A match survives a case mapping of both sides. *)
Lemma contains_str_map (f : ascii -> ascii) (n h : string) :
  contains n h = true -> contains (str_map f n) (str_map f h) = true.
Proof.
  rewrite !contains_spec. intros [a [b ->]].
  exists (str_map f a), (str_map f b). rewrite !str_map_app. reflexivity.
Qed.

Lemma upper_char_idem (c : ascii) : upper_char (upper_char c) = upper_char c.
Proof.
  unfold upper_char.
  destruct ((97 <=? nat_of_ascii c) && (nat_of_ascii c <=? 122))%nat eqn:E; [|rewrite E; reflexivity].
  apply andb_true_iff in E as [E1 E2]. apply Nat.leb_le in E1, E2.
  rewrite nat_ascii_embedding by lia.
  replace ((97 <=? nat_of_ascii c - 32) && (nat_of_ascii c - 32 <=? 122))%nat with false
    by (symmetry; apply andb_false_iff; left; apply Nat.leb_gt; lia).
  reflexivity.
Qed.

Lemma title_from_length (b : bool) (s : string) :
  String.length (title_from b s) = String.length s.
Proof.
  revert b. induction s as [|c s IH]; intros b; simpl; [reflexivity|].
  destruct (is_cased c); simpl; rewrite IH; reflexivity.
Qed.

Lemma py_upper_idem (s : string) : py_upper (py_upper s) = py_upper s.
Proof. unfold py_upper. induction s as [|c s IH]; simpl; [reflexivity|]. rewrite upper_char_idem. f_equal. exact IH. Qed.

Lemma list_ascii_length (s : string) :
  List.length (list_ascii_of_string s) = String.length s.
Proof. induction s as [|c s IH]; simpl; congruence. Qed.

Lemma str_count_char_bounds (c : ascii) (s : string) :
  (0 <= str_count_char c s <= Z.of_nat (String.length s))%Z.
Proof.
  unfold str_count_char. pose proof (zcount_bounds (fun d => bool_decide (d = c)) (list_ascii_of_string s)).
  unfold zlen in H. rewrite list_ascii_length in H. exact H.
Qed.

#[export] Hint Resolve contains_refl contains_app_l contains_app_r contains_str_map : hp.
#[export] Hint Rewrite string_app_assoc string_app_nil_r list_ascii_app str_map_app : hp_rw.
