(* ===== verification/Json.v ===== *)
(** * JSON values, [json.dumps] and Python's [str]/[repr] of them

    A request body parsed by Flask's [get_json] and every body a handler
    returns through [jsonify] is a Python value built from dicts, lists,
    strings, integers, booleans and [None]; [json] below is that value
    ([JNull] is Python's [None]; floats are not modelled).  [dumps] is
    [json.dumps] with its default separators [", "] and [": "] and the
    [ensure_ascii] switch; [py_str] is [str(v)], which the query handler
    stores as the logged payload. *)
From S2P Require Import Prelude PyStr.
From Stdlib Require Import Ascii String DecimalString DecimalFacts.

Open Scope string_scope.

Inductive json :=
| JNull
| JBool (b : bool)
| JNum (z : Z)
| JStr (s : string)
| JArr (l : list json)
| JObj (l : list (string * json)).

(** The induction principle for the nested lists. *)
Section json_ind_nested.
Variable P : json -> Prop.
Hypothesis HNull : P JNull.
Hypothesis HBool : forall b, P (JBool b).
Hypothesis HNum : forall z, P (JNum z).
Hypothesis HStr : forall s, P (JStr s).
Hypothesis HArr : forall l, Forall P l -> P (JArr l).
Hypothesis HObj : forall l, Forall (fun kv => P kv.2) l -> P (JObj l).

Fixpoint json_ind' (j : json) : P j :=
  match j with
  | JNull => HNull
  | JBool b => HBool b
  | JNum z => HNum z
  | JStr s => HStr s
  | JArr l =>
      HArr l ((fix go (l : list json) : Forall P l :=
                 match l with
                 | [] => Forall_nil_2 P
                 | x :: l' => Forall_cons_2 P x l' (json_ind' x) (go l')
                 end) l)
  | JObj l =>
      HObj l ((fix go (l : list (string * json)) : Forall (fun kv => P kv.2) l :=
                 match l with
                 | [] => Forall_nil_2 _
                 | kv :: l' => Forall_cons_2 _ kv l' (json_ind' kv.2) (go l')
                 end) l)
  end.
End json_ind_nested.

(** Python truthiness: [None], [False], [0], the empty string, [[]] and [{}] are falsy. *)
Definition py_truthy (j : json) : bool :=
  match j with
  | JNull => false
  | JBool b => b
  | JNum z => negb (Z.eqb z 0)
  | JStr s => str_truthy s
  | JArr l => negb (bool_decide (l = []))
  | JObj l => negb (bool_decide (l = []))
  end.

(** [d.get(k)] on a dict (the first binding; a Python dict has one). *)
Fixpoint obj_get (k : string) (l : list (string * json)) : option json :=
  match l with
  | [] => None
  | (k', v) :: l' => if String.eqb k k' then Some v else obj_get k l'
  end.

(** [x or y] on Python values. *)
Definition py_or (x y : json) : json := if py_truthy x then x else y.

(** ** Printing numbers and characters *)

(** [str(z)] for a Python int. *)
Definition z_to_string (z : Z) : string := NilZero.string_of_int (Z.to_int z).

Definition hex_digit (n : nat) : ascii :=
  if (n <? 10)%nat then ascii_of_nat (48 + n)%nat else ascii_of_nat (87 + n)%nat.

(** Two lower-case hex digits of a byte. *)
Definition hex2 (n : nat) : string :=
  String (hex_digit (n / 16)) (String (hex_digit (n mod 16)) EmptyString).

Definition char1 (c : ascii) : string := String c EmptyString.

(** The double-quote character. *)
Definition dq : ascii := "034"%char.

(** ** [json.dumps] *)

(** The escape of one character in a JSON string literal: the table
    [ESCAPE_DCT] of CPython's [json.encoder]; with [ensure_ascii] every
    character outside [' '..'~'] is written [\u00XX]. *)
Definition json_escape_char (ensure_ascii : bool) (c : ascii) : string :=
  let n := nat_of_ascii c in
  if (n =? 34)%nat then "\" ++ char1 dq
  else if (n =? 92)%nat then "\\"
  else if (n =? 10)%nat then "\n"
  else if (n =? 13)%nat then "\r"
  else if (n =? 9)%nat then "\t"
  else if (n =? 8)%nat then "\b"
  else if (n =? 12)%nat then "\f"
  else if (n <? 32)%nat || (ensure_ascii && (126 <? n)%nat) then "\u00" ++ hex2 n
  else char1 c.

Fixpoint json_escape (ensure_ascii : bool) (s : string) : string :=
  match s with
  | EmptyString => EmptyString
  | String c s' => json_escape_char ensure_ascii c ++ json_escape ensure_ascii s'
  end.

Definition dumps_str (ensure_ascii : bool) (s : string) : string :=
  char1 dq ++ json_escape ensure_ascii s ++ char1 dq.

(** [json.dumps(v, ensure_ascii=ea)]. *)
Fixpoint dumps (ea : bool) (j : json) : string :=
  match j with
  | JNull => "null"
  | JBool true => "true"
  | JBool false => "false"
  | JNum z => z_to_string z
  | JStr s => dumps_str ea s
  | JArr l => "[" ++ py_join ", " (map (dumps ea) l) ++ "]"
  | JObj l =>
      "{" ++ py_join ", " (map (fun kv => dumps_str ea kv.1 ++ ": " ++ dumps ea kv.2) l)
      ++ "}"
  end.

(** ** [repr] and [str] *)

(** [str.isprintable()] on a Latin-1 character. *)
Definition py_printable (c : ascii) : bool :=
  let n := nat_of_ascii c in
  ((32 <=? n) && (n <=? 126))%nat || ((161 <=? n) && negb (n =? 173))%nat.

Definition repr_char (quote : ascii) (c : ascii) : string :=
  let n := nat_of_ascii c in
  if (n =? 92)%nat then "\\"
  else if bool_decide (c = quote) then "\" ++ char1 quote
  else if (n =? 9)%nat then "\t"
  else if (n =? 10)%nat then "\n"
  else if (n =? 13)%nat then "\r"
  else if py_printable c then char1 c
  else "\x" ++ hex2 n.

Fixpoint repr_chars (quote : ascii) (s : string) : string :=
  match s with
  | EmptyString => EmptyString
  | String c s' => repr_char quote c ++ repr_chars quote s'
  end.

(** [repr(s)]: single quotes unless [s] has a single quote and no double
    quote. *)
Definition repr_str (s : string) : string :=
  let quote := if contains "'" s && negb (contains (char1 dq) s) then dq else "'"%char in
  char1 quote ++ repr_chars quote s ++ char1 quote.

Fixpoint py_repr (j : json) : string :=
  match j with
  | JNull => "None"
  | JBool true => "True"
  | JBool false => "False"
  | JNum z => z_to_string z
  | JStr s => repr_str s
  | JArr l => "[" ++ py_join ", " (map py_repr l) ++ "]"
  | JObj l => "{" ++ py_join ", " (map (fun kv => repr_str kv.1 ++ ": " ++ py_repr kv.2) l) ++ "}"
  end.

(** [str(v)]: a string is itself, everything else its [repr]. *)
Definition py_str (j : json) : string :=
  match j with
  | JStr s => s
  | _ => py_repr j
  end.

(** ** The length of [str(z)] *)

Lemma little_double_digits (d : Decimal.uint) :
  (Decimal.nb_digits (Decimal.Little.double d) <= S (Decimal.nb_digits d))%nat /\
  (Decimal.nb_digits (Decimal.Little.succ_double d) <= S (Decimal.nb_digits d))%nat.
Proof. induction d; simpl; lia. Qed.

Lemma to_little_uint_digits (p : positive) :
  (Decimal.nb_digits (Pos.to_little_uint p) <= Pos.size_nat p)%nat.
Proof.
  induction p as [p IH|p IH|]; simpl.
  - pose proof (proj2 (little_double_digits (Pos.to_little_uint p))). lia.
  - pose proof (proj1 (little_double_digits (Pos.to_little_uint p))). lia.
  - reflexivity.
Qed.

Lemma size_nat_bound (p : positive) (k : nat) :
  (Z.pos p < 2 ^ Z.of_nat k)%Z -> (Pos.size_nat p <= k)%nat.
Proof.
  revert k. induction p as [p IH|p IH|]; intros [|k] Hp; simpl;
    rewrite ?Nat2Z.inj_succ, ?Z.pow_succ_r in Hp by lia; try lia.
  - apply le_n_S, IH. lia.
  - apply le_n_S, IH. lia.
Qed.

Lemma string_of_uint_length (d : Decimal.uint) :
  String.length (NilEmpty.string_of_uint d) = Decimal.nb_digits d.
Proof. induction d; simpl; congruence. Qed.

Lemma nilzero_length (d : Decimal.uint) :
  (String.length (NilZero.string_of_uint d) <= S (Decimal.nb_digits d))%nat.
Proof.
  destruct d; unfold NilZero.string_of_uint; rewrite ?string_of_uint_length; simpl; lia.
Qed.

(** [str(z)] of an integer below [2^k] in absolute value has at most
    [k + 2] characters: the digits and a sign. *)
Lemma z_to_string_bound (z : Z) (k : nat) :
  (Z.abs z < 2 ^ Z.of_nat k)%Z -> (String.length (z_to_string z) <= k + 2)%nat.
Proof.
  intros Hz. unfold z_to_string.
  assert (Hp : forall p, (Z.pos p < 2 ^ Z.of_nat k)%Z ->
                 (String.length (NilZero.string_of_uint (Pos.to_uint p)) <= S k)%nat).
  { intros p Hp. pose proof (to_little_uint_digits p). pose proof (size_nat_bound p k Hp).
    pose proof (nilzero_length (Pos.to_uint p)). unfold Pos.to_uint in *.
    rewrite nb_digits_rev in *. lia. }
  destruct z as [|p|p]; simpl in *; [lia | specialize (Hp p Hz); lia | specialize (Hp p Hz); lia].
Qed.
