(* ===== verification/Csv.v ===== *)
(** * CSV text: Python's [csv.writer] and [csv.reader]

    Every file the backend writes is produced by [csv.writer(f)] over a
    file opened with [newline=''] (the decoy tables, lines 186-200,
    209-220, 229-237, and the export report, lines 495-499), in the
    default [excel] dialect: delimiter [,], quote character (a double quote),
    doubled quotes, line terminator [\r\n], [QUOTE_MINIMAL].  This file
    holds that writer ([csv_row], [csv_text]) and, as the reference it is
    judged against, the reader a client of those files runs: the state
    machine of CPython's [_csv.c] ([parse_process_char]) fed line by line
    the way iterating a file opened with [newline=''] splits it
    (universal newlines, terminators kept), with the reader's
    [field_size_limit] of 131072 characters.  Both are models of Python's
    [csv] module, not code of the repository; the round trip
    [csv_read_text_core] (reading the text back gives exactly the rows
    written, when no field exceeds the limit) is the lemma through which
    the decoy and export theorems read the files the backend writes. *)
From S2P Require Import Prelude PyStr Json.
From Stdlib Require Import Ascii String.

Open Scope string_scope.

Definition cr : ascii := "013"%char.
Definition lf : ascii := "010"%char.
Definition comma : ascii := ","%char.

Definition is_crlf (c : ascii) : bool := Ascii.eqb c cr || Ascii.eqb c lf.

(** ** The writer *)

(** [QUOTE_MINIMAL]: a field is quoted when it holds the delimiter, the
    quote character or a line-break character. *)
Definition special (c : ascii) : bool := Ascii.eqb c comma || Ascii.eqb c dq || is_crlf c.

Definition needs_quotes (f : string) : bool := existsb special (list_ascii_of_string f).

(** [doublequote=True]: a quote inside a quoted field is written twice. *)
Fixpoint double_quotes (l : list ascii) : list ascii :=
  match l with
  | [] => []
  | c :: l' => if Ascii.eqb c dq then dq :: dq :: double_quotes l' else c :: double_quotes l'
  end.

Definition csv_field (f : string) : list ascii :=
  if needs_quotes f then dq :: double_quotes (list_ascii_of_string f) ++ [dq]
  else list_ascii_of_string f.

Fixpoint join_fields (fs : list string) : list ascii :=
  match fs with
  | [] => []
  | [f] => csv_field f
  | f :: fs' => csv_field f ++ comma :: join_fields fs'
  end.

(** [w.writerow(row)]: a row whose only field is empty is written as a
    quoted empty field, so that it does not read back as an empty row. *)
Definition csv_row (row : list string) : list ascii :=
  match row with
  | [EmptyString] => [dq; dq; cr; lf]
  | _ => join_fields row ++ [cr; lf]
  end.

(** The text of a file after [writerow] was called on each row in turn. *)
Definition csv_text (rows : list (list string)) : string :=
  string_of_list_ascii (List.concat (map csv_row rows)).

(** ** The reader *)

Inductive PState :=
| StartRecord | StartField | InField | InQuotedField | QuoteInQuotedField | EatCrnl.

#[export] Instance PState_eq_dec : EqDecision PState.
Proof. solve_decision. Defined.

(** A character of a line, or the end of the line ([EOL] in [_csv.c]). *)
Inductive Ev := Ch (c : ascii) | Eol.

(** The reader: its state, the field being read (reversed), the fields
    of the record being read (reversed) and the records returned so far
    (reversed). *)
Record Rd := mkRd {
  rd_state : PState;
  rd_field : list ascii;
  rd_fields : list string;
  rd_rows : list (list string)
}.

(** [csv.field_size_limit()]'s default. *)
Definition field_limit : nat := 131072.

Definition set_state (r : Rd) (s : PState) : Rd :=
  mkRd s (rd_field r) (rd_fields r) (rd_rows r).

(** [parse_add_char]: a field may not grow past the limit. *)
Definition add_char (r : Rd) (c : ascii) (s : PState) : option Rd :=
  if bool_decide (List.length (rd_field r) < field_limit)
  then Some (mkRd s (c :: rd_field r) (rd_fields r) (rd_rows r)) else None.

(** [parse_save_field]. *)
Definition save_field (r : Rd) (s : PState) : Rd :=
  mkRd s [] (string_of_list_ascii (List.rev (rd_field r)) :: rd_fields r) (rd_rows r).

(** The record is returned and the reader reset ([parse_reset]). *)
Definition emit (r : Rd) : Rd := mkRd StartRecord [] [] (List.rev (rd_fields r) :: rd_rows r).

(** The [START_FIELD] case on a character. *)
Definition start_field (r : Rd) (c : ascii) : option Rd :=
  if is_crlf c then Some (save_field r EatCrnl)
  else if Ascii.eqb c dq then Some (set_state r InQuotedField)
  else if Ascii.eqb c comma then Some (save_field r StartField)
  else add_char r c InField.

(** [parse_process_char]; [None] is [csv.Error] (a line break in an
    unquoted field, or a field over the limit). *)
Definition parse_process_char (r : Rd) (e : Ev) : option Rd :=
  match rd_state r, e with
  | StartRecord, Eol => Some r
  | StartRecord, Ch c => if is_crlf c then Some (set_state r EatCrnl) else start_field r c
  | StartField, Eol => Some (save_field r StartRecord)
  | StartField, Ch c => start_field r c
  | InField, Eol => Some (save_field r StartRecord)
  | InField, Ch c =>
      if is_crlf c then Some (save_field r EatCrnl)
      else if Ascii.eqb c comma then Some (save_field r StartField)
      else add_char r c InField
  | InQuotedField, Eol => Some r
  | InQuotedField, Ch c =>
      if Ascii.eqb c dq then Some (set_state r QuoteInQuotedField)
      else add_char r c InQuotedField
  | QuoteInQuotedField, Eol => Some (save_field r StartRecord)
  | QuoteInQuotedField, Ch c =>
      if Ascii.eqb c dq then add_char r c InQuotedField
      else if Ascii.eqb c comma then Some (save_field r StartField)
      else if is_crlf c then Some (save_field r EatCrnl)
      else add_char r c InField
  | EatCrnl, Eol => Some (set_state r StartRecord)
  | EatCrnl, Ch c => if is_crlf c then Some r else None
  end.

(** The end of a line: [Reader_iternext] returns the record when the
    state is back at [START_RECORD]. *)
Definition end_line (r : Rd) : option Rd :=
  r' ← parse_process_char r Eol;
  Some (if bool_decide (rd_state r' = StartRecord) then emit r' else r').

(** Where the line being read stands: nothing read since the last line
    ended, some characters read, or a [\r] read that ends the line unless
    a [\n] follows. *)
Inductive LineSt := LFresh | LOpen | LPendCr.

(** One character of the file. *)
Definition reader_step (p : Rd * LineSt) (c : ascii) : option (Rd * LineSt) :=
  let '(r, ln) := p in
  if Ascii.eqb c lf then
    r1 ← parse_process_char r (Ch c); r2 ← end_line r1; Some (r2, LFresh)
  else
    r1 ← (match ln with LPendCr => end_line r | _ => Some r end);
    r2 ← parse_process_char r1 (Ch c);
    Some (r2, if Ascii.eqb c cr then LPendCr else LOpen).

Fixpoint run_chars (p : Rd * LineSt) (s : list ascii) : option (Rd * LineSt) :=
  match s with
  | [] => Some p
  | c :: s' => p' ← reader_step p c; run_chars p' s'
  end.

(** The end of the file: the last line ends, and a record left open in
    a quoted field is returned as it stands ([strict=False]). *)
Definition reader_finish (p : Rd * LineSt) : option Rd :=
  let '(r, ln) := p in
  r1 ← (match ln with LFresh => Some r | _ => end_line r end);
  Some (if bool_decide (rd_state r1 = InQuotedField) || negb (bool_decide (rd_field r1 = []))
        then emit (save_field r1 StartRecord) else r1).

Definition rd_init : Rd := mkRd StartRecord [] [] [].

(** [list(csv.reader(open(path, newline='')))]. *)
Definition csv_read (s : string) : option (list (list string)) :=
  p ← run_chars (rd_init, LFresh) (list_ascii_of_string s);
  r ← reader_finish p;
  Some (List.rev (rd_rows r)).

(** Every field of every row within the reader's limit. *)
Definition rows_fit (rows : list (list string)) : Prop :=
  Forall (Forall (fun f => String.length f <= field_limit)) rows.

(** The states in which the field being read ends at a delimiter or a
    line break. *)
Definition closable (s : PState) : Prop :=
  s = StartField \/ s = InField \/ s = QuoteInQuotedField.

(** ** Lemmas *)

Lemma field_limit_large : (4096 <= field_limit)%nat.
Proof. apply Nat.leb_le. vm_compute. reflexivity. Qed.

Lemma special_false (c : ascii) :
  special c = false ->
  Ascii.eqb c comma = false /\ Ascii.eqb c dq = false /\ Ascii.eqb c cr = false /\ Ascii.eqb c lf = false.
Proof. unfold special, is_crlf. rewrite !orb_false_iff. tauto. Qed.

Lemma run_chars_app (p : Rd * LineSt) (a b : list ascii) :
  run_chars p (a ++ b) = p' ← run_chars p a; run_chars p' b.
Proof.
  revert p. induction a as [|c a IH]; intros p; simpl; [reflexivity|].
  destruct (reader_step p c); simpl; [apply IH | reflexivity].
Qed.

Lemma add_char_ok (r : Rd) (c : ascii) (st : PState) :
  List.length (rd_field r) < field_limit -> add_char r c st = Some (mkRd st (c :: rd_field r) (rd_fields r) (rd_rows r)).
Proof. intros Hl. unfold add_char. rewrite bool_decide_true by exact Hl. reflexivity. Qed.

Lemma end_line_quoted (r : Rd) : rd_state r = InQuotedField -> end_line r = Some r.
Proof.
  intros Hs. unfold end_line, parse_process_char. rewrite Hs. simpl.
  rewrite Hs. reflexivity.
Qed.

Lemma pending_quoted (r : Rd) (ln : LineSt) :
  rd_state r = InQuotedField -> (match ln with LPendCr => end_line r | _ => Some r end) = Some r.
Proof. intros Hs. destruct ln; [reflexivity | reflexivity | apply end_line_quoted, Hs]. Qed.

Lemma reader_step_other (r : Rd) (ln : LineSt) (c : ascii) :
  Ascii.eqb c lf = false ->
  reader_step (r, ln) c =
  r1 ← (match ln with LPendCr => end_line r | _ => Some r end);
  r2 ← parse_process_char r1 (Ch c);
  Some (r2, if Ascii.eqb c cr then LPendCr else LOpen).
Proof. intros H. unfold reader_step. rewrite H. reflexivity. Qed.

(** The closing quote of a quoted field, or the first of a doubled one. *)
Lemma step_quote (r : Rd) (ln : LineSt) :
  rd_state r = InQuotedField -> reader_step (r, ln) dq = Some (set_state r QuoteInQuotedField, LOpen).
Proof.
  intros Hs. rewrite reader_step_other by reflexivity. rewrite pending_quoted by exact Hs.
  simpl. unfold parse_process_char. rewrite Hs. reflexivity.
Qed.

(** Any other character inside quotes is kept, line breaks included. *)
Lemma step_quoted (r : Rd) (ln : LineSt) (c : ascii) :
  rd_state r = InQuotedField -> c <> dq -> List.length (rd_field r) < field_limit ->
  exists ln', reader_step (r, ln) c = Some (mkRd InQuotedField (c :: rd_field r) (rd_fields r) (rd_rows r), ln').
Proof.
  intros Hs Hc Hl.
  assert (Hp : parse_process_char r (Ch c) = Some (mkRd InQuotedField (c :: rd_field r) (rd_fields r) (rd_rows r))).
  { unfold parse_process_char. rewrite Hs, (proj2 (Ascii.eqb_neq c dq) Hc).
    apply add_char_ok, Hl. }
  destruct (Ascii.eqb c lf) eqn:Ec.
  - unfold reader_step. rewrite Ec, Hp. cbn -[end_line]. rewrite end_line_quoted by reflexivity. eexists; reflexivity.
  - rewrite reader_step_other by exact Ec. rewrite pending_quoted by exact Hs. simpl. rewrite Hp.
    eexists; reflexivity.
Qed.

(** The body of a quoted field and its closing quote. *)
Lemma run_quoted (body : list ascii) (r : Rd) (ln : LineSt) :
  rd_state r = InQuotedField -> List.length (rd_field r) + List.length body <= field_limit ->
  run_chars (r, ln) (double_quotes body ++ [dq]) =
  Some (mkRd QuoteInQuotedField (List.rev body ++ rd_field r) (rd_fields r) (rd_rows r), LOpen).
Proof.
  revert r ln. induction body as [|c body IH]; intros r ln Hs Hl.
  - cbn [double_quotes app run_chars]. rewrite step_quote by exact Hs. reflexivity.
  - cbn [List.length] in Hl. cbn [double_quotes].
    destruct (Ascii.eqb_spec c dq) as [->|Hc]; cbn [app run_chars].
    + rewrite step_quote by exact Hs. cbn [mbind option_bind].
      rewrite reader_step_other by reflexivity. cbn -[run_chars add_char field_limit].
      rewrite add_char_ok by (simpl; lia). cbn [mbind option_bind].
      rewrite IH by (simpl; auto; lia). cbn [List.rev]. rewrite <- app_assoc. reflexivity.
    + destruct (step_quoted r ln c Hs Hc) as [ln' E]; [lia|]. rewrite E. cbn [mbind option_bind].
      rewrite IH by (simpl; auto; lia). cbn [List.rev]. rewrite <- app_assoc. reflexivity.
Qed.

(** A character outside quotes that is not special starts or extends an
    unquoted field. *)
Lemma step_plain (r : Rd) (ln : LineSt) (c : ascii) :
  (rd_state r = StartField \/ rd_state r = InField) -> ln <> LPendCr -> special c = false ->
  List.length (rd_field r) < field_limit ->
  reader_step (r, ln) c = Some (mkRd InField (c :: rd_field r) (rd_fields r) (rd_rows r), LOpen).
Proof.
  intros Hs Hln Hc Hl. destruct (special_false c Hc) as (Hcm & Hdq & Hcr & Hlf).
  rewrite reader_step_other by exact Hlf.
  assert (Hp : (match ln with LPendCr => end_line r | _ => Some r end) = Some r) by (destruct ln; congruence).
  rewrite Hp. cbn [mbind option_bind]. rewrite Hcr.
  unfold parse_process_char. assert (Hcl : is_crlf c = false) by (unfold is_crlf; rewrite Hcr, Hlf; reflexivity).
  destruct Hs as [Hs|Hs]; rewrite Hs; [unfold start_field|]; rewrite Hcl; rewrite ?Hdq, Hcm, add_char_ok by exact Hl;
    reflexivity.
Qed.

Lemma run_plain (l : list ascii) (r : Rd) (ln : LineSt) :
  (rd_state r = StartField \/ rd_state r = InField) -> ln <> LPendCr ->
  Forall (fun c => special c = false) l -> List.length (rd_field r) + List.length l <= field_limit ->
  exists st ln', run_chars (r, ln) l = Some (mkRd st (List.rev l ++ rd_field r) (rd_fields r) (rd_rows r), ln') /\
                 (st = StartField \/ st = InField) /\ ln' <> LPendCr.
Proof.
  revert r ln. induction l as [|c l IH]; intros r ln Hs Hln Hl Hlen.
  - exists (rd_state r), ln. destruct r; simpl in *. auto.
  - inversion Hl as [|? ? Hc Hl']; subst. cbn [List.length] in Hlen. cbn [run_chars].
    rewrite step_plain by (auto; lia). cbn [mbind option_bind].
    destruct (IH (mkRd InField (c :: rd_field r) (rd_fields r) (rd_rows r)) LOpen) as (st & ln' & E & Hst & Hln');
      [simpl; auto | discriminate | exact Hl' | simpl; lia |].
    exists st, ln'. rewrite E. cbn [List.rev rd_field rd_fields rd_rows]. rewrite <- app_assoc. auto.
Qed.

(** A delimiter ends the field being read. *)
Lemma step_comma (r : Rd) (ln : LineSt) :
  closable (rd_state r) -> ln <> LPendCr -> reader_step (r, ln) comma = Some (save_field r StartField, LOpen).
Proof.
  intros Hs Hln. rewrite reader_step_other by reflexivity.
  assert (Hp : (match ln with LPendCr => end_line r | _ => Some r end) = Some r) by (destruct ln; congruence).
  rewrite Hp. cbn [mbind option_bind]. unfold parse_process_char.
  destruct Hs as [Hs|[Hs|Hs]]; rewrite Hs; reflexivity.
Qed.

(** The line terminator ends the field and returns the record. *)
Lemma run_crlf (r : Rd) (ln : LineSt) :
  closable (rd_state r) -> ln <> LPendCr ->
  run_chars (r, ln) [cr; lf] =
  Some (mkRd StartRecord [] [] (List.rev (string_of_list_ascii (List.rev (rd_field r)) :: rd_fields r) :: rd_rows r), LFresh).
Proof.
  intros Hs Hln. cbn [run_chars]. rewrite reader_step_other by reflexivity.
  assert (Hp : (match ln with LPendCr => end_line r | _ => Some r end) = Some r) by (destruct ln; congruence).
  rewrite Hp. cbn [mbind option_bind]. unfold parse_process_char at 1.
  destruct Hs as [Hs|[Hs|Hs]]; rewrite Hs; reflexivity.
Qed.

(** One field, quoted or not, read from the start of a field. *)
Lemma run_field (f : string) (r : Rd) (ln : LineSt) :
  rd_state r = StartField -> rd_field r = [] -> ln <> LPendCr -> String.length f <= field_limit ->
  exists r' ln', run_chars (r, ln) (csv_field f) = Some (r', ln') /\ closable (rd_state r') /\
    rd_field r' = List.rev (list_ascii_of_string f) /\ rd_fields r' = rd_fields r /\
    rd_rows r' = rd_rows r /\ ln' <> LPendCr.
Proof.
  intros Hs Hf Hln Hlen. rewrite <- list_ascii_length in Hlen. unfold csv_field.
  destruct (needs_quotes f) eqn:Eq.
  - cbn [run_chars]. rewrite reader_step_other by reflexivity.
    assert (Hp : (match ln with LPendCr => end_line r | _ => Some r end) = Some r) by (destruct ln; congruence).
    rewrite Hp. cbn [mbind option_bind]. unfold parse_process_char at 1. rewrite Hs. cbn -[run_chars].
    rewrite run_quoted; [| reflexivity | cbn [set_state rd_field]; rewrite Hf; cbn [List.length]; lia].
    eexists _, _. split; [reflexivity|].
    simpl. rewrite ?Hf, ?app_nil_r. unfold closable. repeat split; auto; discriminate.
  - unfold needs_quotes in Eq. apply existsb_false_Forall in Eq.
    destruct (run_plain (list_ascii_of_string f) r ln) as (st & ln' & E & Hst & Hln');
      [auto | exact Hln | exact Eq | rewrite Hf; simpl; lia |].
    rewrite E. eexists _, _. split; [reflexivity|]. simpl. rewrite Hf, app_nil_r.
    unfold closable. intuition.
Qed.

(** The fields of a row and its terminator, read from the start of a
    field: the record returned holds the fields read before and these. *)
Lemma run_join (fs : list string) (r : Rd) (ln : LineSt) :
  fs <> [] -> rd_state r = StartField -> rd_field r = [] -> ln <> LPendCr ->
  Forall (fun f => String.length f <= field_limit) fs ->
  run_chars (r, ln) (join_fields fs ++ [cr; lf]) =
  Some (mkRd StartRecord [] [] ((List.rev (rd_fields r) ++ fs)%list :: rd_rows r), LFresh).
Proof.
  revert r ln. induction fs as [|f fs IH]; intros r ln Hne Hs Hf Hln Hlen; [congruence|].
  inversion Hlen as [|? ? Hl1 Hl2]; subst.
  destruct (run_field f r ln) as (r1 & ln1 & E1 & Hc1 & Hf1 & Hfs1 & Hrw1 & Hln1); auto.
  destruct fs as [|f2 fs'].
  - cbn [join_fields]. rewrite run_chars_app, E1. cbn [mbind option_bind].
    rewrite run_crlf by auto. rewrite Hf1, Hfs1, Hrw1, rev_involutive, string_of_list_ascii_of_string.
    reflexivity.
  - cbn [join_fields]. rewrite <- app_assoc, run_chars_app, E1. cbn [mbind option_bind app run_chars].
    rewrite step_comma by auto. cbn [mbind option_bind].
    rewrite IH by (simpl; auto; discriminate). unfold save_field. cbn [rd_fields rd_rows].
    rewrite Hf1, Hfs1, Hrw1, rev_involutive, string_of_list_ascii_of_string.
    cbn [List.rev]. rewrite <- app_assoc. reflexivity.
Qed.

(** At the start of a record a character other than a line break starts
    the first field. *)
Lemma run_start_record (x : list ascii) (y : list string) (z : list (list string)) (c : ascii) (s : list ascii) :
  is_crlf c = false ->
  run_chars (mkRd StartRecord x y z, LFresh) (c :: s) = run_chars (mkRd StartField x y z, LFresh) (c :: s).
Proof.
  intros Hc. assert (Hlf : Ascii.eqb c lf = false) by (unfold is_crlf in Hc; apply orb_false_iff in Hc; tauto).
  cbn [run_chars]. rewrite !reader_step_other by exact Hlf. cbn [mbind option_bind].
  unfold parse_process_char. cbn [rd_state]. rewrite Hc. reflexivity.
Qed.

(** A row other than [[]] and [[ '' ]] does not start with a line break. *)
Lemma join_fields_head (row : list string) :
  row <> [] -> row <> [EmptyString] ->
  exists c s, (join_fields row ++ [cr; lf])%list = c :: s /\ is_crlf c = false.
Proof.
  destruct row as [|f fs]; [congruence|]. intros _ Hne.
  destruct f as [|c0 f'].
  - destruct fs as [|f2 fs]; [congruence|]. eexists _, _. split; reflexivity.
  - assert (Hh : exists c s, csv_field (String c0 f') = c :: s /\ is_crlf c = false).
    { unfold csv_field. destruct (needs_quotes (String c0 f')) eqn:Eq.
      - eexists _, _. split; reflexivity.
      - unfold needs_quotes in Eq. simpl in Eq. apply orb_false_iff in Eq as [Hc0 _].
        exists c0, (list_ascii_of_string f'). split; [reflexivity|].
        unfold special in Hc0. rewrite !orb_false_iff in Hc0. tauto. }
    destruct Hh as (c & s & E & Hc). exists c.
    destruct fs as [|f2 fs]; cbn [join_fields]; rewrite E; eexists; split; [reflexivity | exact Hc | reflexivity | exact Hc].
Qed.

(** One written row is read back as one record. *)
Lemma run_row (row : list string) (rows : list (list string)) :
  Forall (fun f => String.length f <= field_limit) row ->
  run_chars (mkRd StartRecord [] [] rows, LFresh) (csv_row row) = Some (mkRd StartRecord [] [] (row :: rows), LFresh).
Proof.
  intros Hlen. destruct (decide (row = [])) as [->|Hne]; [reflexivity|].
  destruct (decide (row = [EmptyString])) as [->|Hne1]; [reflexivity|].
  assert (Hrow : csv_row row = (join_fields row ++ [cr; lf])%list).
  { destruct row as [|[|c f] [|f2 fs]]; congruence || reflexivity. }
  destruct (join_fields_head row Hne Hne1) as (c & s & E & Hc).
  rewrite Hrow, E, run_start_record by exact Hc. rewrite <- E.
  rewrite run_join by (simpl; auto; discriminate). reflexivity.
Qed.

Lemma run_text (rows acc : list (list string)) :
  rows_fit rows ->
  run_chars (mkRd StartRecord [] [] acc, LFresh) (List.concat (map csv_row rows)) =
  Some (mkRd StartRecord [] [] (List.rev rows ++ acc)%list, LFresh).
Proof.
  revert acc. induction rows as [|row rows IH]; intros acc Hfit; [reflexivity|].
  inversion Hfit; subst. cbn [map List.concat]. rewrite run_chars_app, run_row by assumption.
  cbn [mbind option_bind]. rewrite IH by assumption. cbn [List.rev]. rewrite <- app_assoc. reflexivity.
Qed.

(** Reading back what the writer wrote, the form the files' theorems use. *)
Lemma csv_read_text_core (rows : list (list string)) :
  rows_fit rows -> csv_read (csv_text rows) = Some rows.
Proof.
  intros Hfit. unfold csv_read, csv_text. rewrite list_ascii_of_string_of_list_ascii.
  unfold rd_init. rewrite run_text by exact Hfit. cbn [mbind option_bind reader_finish rd_state rd_field].
  rewrite bool_decide_false by discriminate. cbn. rewrite app_nil_r, rev_involutive. reflexivity.
Qed.

