(* ===== verification/Clock.v ===== *)
(** * The clock: [datetime.utcnow()] and its renderings

    The handlers stamp rows with [datetime.datetime.utcnow()], a naive UTC
    datetime with microsecond resolution; the development keeps it as the
    number of microseconds since 1970-01-01T00:00:00.  Two renderings of
    it reach the outside: [isoformat()] (the [timestamp] fields of
    [/api/alerts] and of the root endpoint, src/Backend/app.py lines 276,
    356) and [strftime('%Y%m%d%H%M%S')] (the export file name, line 493).
    The calendar date of a day number is the proleptic Gregorian
    conversion that CPython's [_ord2ymd] computes, written here in
    Hinnant's closed form.  [datetime] only represents years 1 to 9999;
    the clock is assumed to stay in that range (a [utcnow()] beyond it
    cannot occur). *)
From S2P Require Import Prelude PyStr Json.
From Stdlib Require Import Ascii String.

Open Scope string_scope.
Open Scope Z_scope.

Definition US_PER_SEC : Z := 1000000.
Definition US_PER_DAY : Z := 86400 * US_PER_SEC.

(** The civil date [(year, month, day)] of a day number counted from
    1970-01-01. *)
Definition civil_from_days (days : Z) : Z * Z * Z :=
  let z := days + 719468 in
  let era := z / 146097 in
  let doe := z - era * 146097 in
  let yoe := (doe - doe / 1460 + doe / 36524 - doe / 146096) / 365 in
  let doy := doe - (365 * yoe + yoe / 4 - yoe / 100) in
  let mp := (5 * doy + 2) / 153 in
  let d := doy - (153 * mp + 2) / 5 + 1 in
  let m := if mp <? 10 then mp + 3 else mp - 9 in
  let y := yoe + era * 400 + (if m <=? 2 then 1 else 0) in
  (y, m, d).

(** The fields of a [datetime]: date, hour, minute, second, microsecond. *)
Record DateTime := mkDateTime {
  dt_year : Z; dt_month : Z; dt_day : Z;
  dt_hour : Z; dt_minute : Z; dt_second : Z; dt_microsecond : Z
}.

Definition to_datetime (t : Z) : DateTime :=
  let '(y, m, d) := civil_from_days (t / US_PER_DAY) in
  let r := t mod US_PER_DAY in
  mkDateTime y m d (r / (3600 * US_PER_SEC)) ((r / (60 * US_PER_SEC)) mod 60)
             ((r / US_PER_SEC) mod 60) (r mod US_PER_SEC).

Definition digit_char (z : Z) : ascii := ascii_of_nat (48 + Z.to_nat z).

(** [%0wd] of a value below [10^w]: exactly [w] decimal digits. *)
Fixpoint digits_fw (w : nat) (z : Z) : string :=
  match w with
  | O => EmptyString
  | S w' => digits_fw w' (z / 10) ++ char1 (digit_char (z mod 10))
  end.

(** [dt.isoformat()]: the microseconds are printed only when not zero. *)
Definition isoformat (t : Z) : string :=
  let dt := to_datetime t in
  digits_fw 4 (dt_year dt) ++ "-" ++ digits_fw 2 (dt_month dt) ++ "-" ++
  digits_fw 2 (dt_day dt) ++ "T" ++ digits_fw 2 (dt_hour dt) ++ ":" ++
  digits_fw 2 (dt_minute dt) ++ ":" ++ digits_fw 2 (dt_second dt) ++
  (if Z.eqb (dt_microsecond dt) 0 then EmptyString
   else "." ++ digits_fw 6 (dt_microsecond dt)).

(** [d.isoformat()] of a [date], given as days since 1970-01-01. *)
Definition date_isoformat (days : Z) : string :=
  let '(y, m, d) := civil_from_days days in
  digits_fw 4 y ++ "-" ++ digits_fw 2 m ++ "-" ++ digits_fw 2 d.

(** [dt.strftime('%Y%m%d%H%M%S')]; glibc prints [%Y] without padding. *)
Definition strftime_compact (t : Z) : string :=
  let dt := to_datetime t in
  z_to_string (dt_year dt) ++ digits_fw 2 (dt_month dt) ++ digits_fw 2 (dt_day dt) ++
  digits_fw 2 (dt_hour dt) ++ digits_fw 2 (dt_minute dt) ++ digits_fw 2 (dt_second dt).

(** ** Lemmas *)

Lemma digits_fw_length (w : nat) (z : Z) : String.length (digits_fw w z) = w.
Proof.
  revert z. induction w as [|w IH]; intros z; simpl; [reflexivity|].
  rewrite string_length_app, IH. simpl. lia.
Qed.

(** The month and day of a civil date are in range. *)
Lemma civil_from_days_range (days : Z) :
  let '(_, m, d) := civil_from_days days in (1 <= m <= 12 /\ 1 <= d <= 31)%Z.
Proof.
  unfold civil_from_days. cbv zeta.
  set (z := days + 719468). set (era := z / 146097). set (doe := z - era * 146097).
  assert (Hdoe : (0 <= doe < 146097)%Z) by (subst doe era; Z.div_mod_to_equations; lia).
  set (yoe := (doe - doe / 1460 + doe / 36524 - doe / 146096) / 365).
  assert (Hyoe : (0 <= yoe <= 399)%Z) by (subst yoe; Z.div_mod_to_equations; lia).
  set (doy := doe - (365 * yoe + yoe / 4 - yoe / 100)).
  assert (Hdoy : (0 <= doy <= 365)%Z) by (subst doy yoe; Z.div_mod_to_equations; lia).
  set (mp := (5 * doy + 2) / 153).
  assert (Hmp : (0 <= mp <= 11)%Z) by (subst mp; Z.div_mod_to_equations; lia).
  assert (Hd : (1 <= doy - (153 * mp + 2) / 5 + 1 <= 31)%Z)
    by (subst mp; Z.div_mod_to_equations; lia).
  destruct (mp <? 10)%Z eqn:E; [apply Z.ltb_lt in E | apply Z.ltb_ge in E];
    split; (lia || exact Hd).
Qed.

(** [isoformat()] has 19 characters, 26 with microseconds. *)
Lemma isoformat_length (t : Z) : (String.length (isoformat t) <= 26)%nat.
Proof.
  unfold isoformat. rewrite !string_length_app, !digits_fw_length.
  destruct (Z.eqb _ 0); simpl; rewrite ?string_length_app, ?digits_fw_length; simpl; lia.
Qed.

Lemma date_isoformat_length (days : Z) : String.length (date_isoformat days) = 10%nat.
Proof.
  unfold date_isoformat. destruct (civil_from_days days) as [[y m] d].
  rewrite !string_length_app, !digits_fw_length. reflexivity.
Qed.
