(* ===== verification/Loads.v ===== *)
(** * [json.loads]

    [/api/alerts] (src/Backend/app.py, line 346) reads each stored
    profile back with [json.loads(l.profile)], inside a [try] that turns
    any failure into [None].  This file models CPython's decoder on the
    value types of Json.v: whitespace, [null], [true], [false], integers
    (an optional minus, then [0] or digits not starting with [0]), strings with their escapes, arrays and objects;
    a repeated key keeps its first position and its last value, as a
    Python dict does.  A number with a fraction or an exponent, [NaN] or
    [Infinity], and a [\u] escape above [00ff] produce values outside
    [json] (floats, characters beyond 8 bits): the decoder fails on them
    here, and the handler's [except] maps both outcomes to the same
    [None]; the values [dumps] writes never contain them.  [loads] returns
    [None] exactly where the modelled decoder raises [JSONDecodeError].
    The recursion on nested values is bounded by fuel: [loads] gives the
    decoder one unit per character of its input, which [loads_dumps_wf]
    shows is enough.  This is a model of Python's [json] module, not code
    of the repository; the alert-feed theorems use it. *)
From S2P Require Import Prelude PyStr Json.
From Stdlib Require Import Ascii String Decimal DecimalString DecimalPos.

Open Scope string_scope.

(** ** Lexical helpers *)

(** JSON whitespace: space, tab, line feed, carriage return. *)
Definition is_ws (c : ascii) : bool :=
  let n := nat_of_ascii c in ((n =? 32) || (n =? 9) || (n =? 10) || (n =? 13))%nat.

Fixpoint skip_ws (s : string) : string :=
  match s with
  | String c s' => if is_ws c then skip_ws s' else s
  | EmptyString => EmptyString
  end.

(** The rest of [s] after the character [c], if [s] starts with it. *)
Definition strip_char (c : ascii) (s : string) : option string :=
  match s with
  | String d s' => if Ascii.eqb c d then Some s' else None
  | EmptyString => None
  end.

(** The rest of [s] after the literal [p]. *)
Fixpoint strip_prefix (p s : string) : option string :=
  match p with
  | EmptyString => Some s
  | String c p' => match strip_char c s with Some s' => strip_prefix p' s' | None => None end
  end.

Definition is_digit (c : ascii) : bool :=
  let n := nat_of_ascii c in ((48 <=? n) && (n <=? 57))%nat.

(** The maximal run of digits at the head of [s], and what follows it. *)
Fixpoint take_digits (s : string) : string * string :=
  match s with
  | String c s' =>
      if is_digit c then let '(ds, r) := take_digits s' in (String c ds, r) else (EmptyString, s)
  | EmptyString => (EmptyString, EmptyString)
  end.

(** ** Numbers *)

(** An optional minus, then [0] or a digit run not starting with [0],
    not followed by a fraction or an exponent. *)
Definition parse_number (s : string) : option (Z * string) :=
  let '(neg, s1) := match strip_char "-" s with Some s' => (true, s') | None => (false, s) end in
  let '(ds, r) := take_digits s1 in
  let leading_zero := match ds with String "0"%char (String _ _) => true | _ => false end in
  let frac := match r with
              | String c _ => Ascii.eqb c "." || Ascii.eqb c "e" || Ascii.eqb c "E"
              | EmptyString => false
              end in
  if leading_zero || frac then None
  else match ds with
       | EmptyString => None
       | _ => match NilEmpty.uint_of_string ds with
              | Some d => Some (if neg then Z.opp (Z.of_uint d) else Z.of_uint d, r)
              | None => None
              end
       end.

(** ** Strings *)

Definition hex_val (c : ascii) : option nat :=
  let n := nat_of_ascii c in
  if ((48 <=? n) && (n <=? 57))%nat then Some (n - 48)%nat
  else if ((97 <=? n) && (n <=? 102))%nat then Some (n - 87)%nat
  else if ((65 <=? n) && (n <=? 70))%nat then Some (n - 55)%nat
  else None.

Definition hex4 (a b c d : ascii) : option nat :=
  match hex_val a, hex_val b, hex_val c, hex_val d with
  | Some x, Some y, Some z, Some w => Some (((x * 16 + y) * 16 + z) * 16 + w)%nat
  | _, _, _, _ => None
  end.

(** The one-character escapes: a backslash followed by the double quote,
    backslash, slash, [b], [f], [n], [r] or [t]. *)
Definition simple_escape (e : ascii) : option ascii :=
  let n := nat_of_ascii e in
  if (n =? 34)%nat then Some dq
  else if (n =? 92)%nat then Some e
  else if (n =? 47)%nat then Some e
  else if (n =? 98)%nat then Some (ascii_of_nat 8)
  else if (n =? 102)%nat then Some (ascii_of_nat 12)
  else if (n =? 110)%nat then Some (ascii_of_nat 10)
  else if (n =? 114)%nat then Some (ascii_of_nat 13)
  else if (n =? 116)%nat then Some (ascii_of_nat 9)
  else None.

Definition cons_fst (c : ascii) (o : option (string * string)) : option (string * string) :=
  match o with Some (x, r) => Some (String c x, r) | None => None end.

(** The body of a string literal after its opening quote: the decoded
    text and the input after the closing quote.  A raw control character
    is an error ([strict=True]). *)
Fixpoint parse_str_body (s : string) : option (string * string) :=
  match s with
  | EmptyString => None
  | String c s' =>
      if Ascii.eqb c dq then Some (EmptyString, s')
      else if Ascii.eqb c "\" then
        match s' with
        | String e s'' =>
            if Ascii.eqb e "u" then
              match s'' with
              | String h1 (String h2 (String h3 (String h4 r))) =>
                  match hex4 h1 h2 h3 h4 with
                  | Some v => if (v <? 256)%nat then cons_fst (ascii_of_nat v) (parse_str_body r)
                              else None
                  | None => None
                  end
              | _ => None
              end
            else match simple_escape e with
                 | Some d => cons_fst d (parse_str_body s'')
                 | None => None
                 end
        | EmptyString => None
        end
      else if (nat_of_ascii c <? 32)%nat then None
      else cons_fst c (parse_str_body s')
  end.

(** [d[k] = v] on a dict: in place if [k] is bound, else at the end. *)
Fixpoint obj_set (k : string) (v : json) (l : list (string * json)) : list (string * json) :=
  match l with
  | [] => [(k, v)]
  | (k', v') :: l' => if String.eqb k k' then (k, v) :: l' else (k', v') :: obj_set k v l'
  end.

(** ** Values *)

(** A member [key : value] of an object, given the value parser;
    the input after it, with the whitespace that follows skipped. *)
Definition parse_member (pv : string -> option (json * string)) (s : string)
    : option (string * json * string) :=
  match strip_char dq s with
  | Some s1 =>
      match parse_str_body s1 with
      | Some (k, s2) =>
          match strip_char ":" (skip_ws s2) with
          | Some s3 =>
              match pv (skip_ws s3) with
              | Some (v, s4) => Some (k, v, skip_ws s4)
              | None => None
              end
          | None => None
          end
      | None => None
      end
  | None => None
  end.

Fixpoint parse_value (n : nat) (s : string) {struct n} : option (json * string) :=
  match n with
  | O => None
  | S n' =>
      match s with
      | EmptyString => None
      | String c s' =>
          if Ascii.eqb c dq then
            match parse_str_body s' with Some (x, r) => Some (JStr x, r) | None => None end
          else if Ascii.eqb c "[" then
            let s1 := skip_ws s' in
            match strip_char "]" s1 with
            | Some r => Some (JArr [], r)
            | None =>
                match parse_value n' s1 with
                | Some (v, r) => parse_arr_tail n' [v] (skip_ws r)
                | None => None
                end
            end
          else if Ascii.eqb c "{" then
            let s1 := skip_ws s' in
            match strip_char "}" s1 with
            | Some r => Some (JObj [], r)
            | None =>
                match parse_member (parse_value n') s1 with
                | Some (k, v, r) => parse_obj_tail n' [(k, v)] r
                | None => None
                end
            end
          else match strip_prefix "null" s with
               | Some r => Some (JNull, r)
               | None =>
                 match strip_prefix "true" s with
                 | Some r => Some (JBool true, r)
                 | None =>
                   match strip_prefix "false" s with
                   | Some r => Some (JBool false, r)
                   | None =>
                       match parse_number s with
                       | Some (z, r) => Some (JNum z, r)
                       | None => None
                       end
                   end
                 end
               end
      end
  end
with parse_arr_tail (n : nat) (acc : list json) (s : string) {struct n} : option (json * string) :=
  match n with
  | O => None
  | S n' =>
      match strip_char "]" s with
      | Some r => Some (JArr acc, r)
      | None =>
          match strip_char "," s with
          | Some r =>
              match parse_value n' (skip_ws r) with
              | Some (v, r') => parse_arr_tail n' (acc ++ [v]) (skip_ws r')
              | None => None
              end
          | None => None
          end
      end
  end
with parse_obj_tail (n : nat) (acc : list (string * json)) (s : string) {struct n}
    : option (json * string) :=
  match n with
  | O => None
  | S n' =>
      match strip_char "}" s with
      | Some r => Some (JObj acc, r)
      | None =>
          match strip_char "," s with
          | Some r =>
              match parse_member (parse_value n') (skip_ws r) with
              | Some (k, v, r') => parse_obj_tail n' (obj_set k v acc) r'
              | None => None
              end
          | None => None
          end
      end
  end.

(** [json.loads(s)]: one value between optional whitespace. *)
Definition loads (s : string) : option json :=
  match parse_value (S (String.length s)) (skip_ws s) with
  | Some (j, r) => match skip_ws r with EmptyString => Some j | _ => None end
  | None => None
  end.

(** ** Measures for the round trip *)

(** Python dicts have distinct keys: the values [dumps] is applied to. *)
Fixpoint json_wf (j : json) : bool :=
  match j with
  | JArr l => forallb json_wf l
  | JObj l => bool_decide (NoDup (map fst l)) && forallb (fun kv => json_wf kv.2) l
  | _ => true
  end.

(** The decoder fuel a value needs. *)
Fixpoint jsize (j : json) : nat :=
  match j with
  | JArr l => S (list_sum (map (fun x => S (jsize x)) l))
  | JObj l => S (list_sum (map (fun kv => S (jsize kv.2)) l))
  | _ => 1%nat
  end.

(** The characters a value written by [dumps] can start with. *)
Definition value_start (c : ascii) : bool :=
  Ascii.eqb c dq || Ascii.eqb c "[" || Ascii.eqb c "{" || Ascii.eqb c "n" ||
  Ascii.eqb c "t" || Ascii.eqb c "f" || Ascii.eqb c "-" || is_digit c.

(** [sep.join(l)] after its first element. *)
Definition join_tail (sep : string) (l : list string) : string :=
  fold_right (fun y acc => sep ++ y ++ acc) EmptyString l.

(** ** Lemmas *)

(** Every character's escape, as [dumps] writes it with [ensure_ascii],
    decodes to the character. *)
Lemma parse_str_body_escape_char (c : ascii) (t : string) :
  parse_str_body (json_escape_char true c ++ t) = cons_fst c (parse_str_body t).
Proof. destruct c as [[] [] [] [] [] [] [] []]; reflexivity. Qed.

Lemma parse_str_body_escape (s t : string) :
  parse_str_body (json_escape true s ++ String dq t) = Some (s, t).
Proof.
  induction s as [|c s IH]; simpl; [reflexivity|].
  rewrite string_app_assoc, parse_str_body_escape_char, IH. reflexivity.
Qed.

(** [take_digits] reads exactly the digits [string_of_uint] writes. *)
Lemma take_digits_uint (d : uint) (r : string) :
  match r with String c _ => is_digit c = false | EmptyString => True end ->
  take_digits (NilEmpty.string_of_uint d ++ r) = (NilEmpty.string_of_uint d, r).
Proof.
  intros Hr. induction d; simpl; try (rewrite IHd; reflexivity).
  destruct r as [|c r]; [reflexivity|]. simpl. rewrite Hr. reflexivity.
Qed.

Lemma nzhead_not_D0 (d x : uint) : nzhead d <> D0 x.
Proof. induction d; simpl; congruence. Qed.

(** The decimal digits of a positive number start with a digit 1-9. *)
Lemma pos_to_uint_head (p : positive) :
  match Pos.to_uint p with Nil | D0 _ => False | _ => True end.
Proof.
  pose proof (DecimalPos.Unsigned.to_of (Pos.to_uint p)) as H.
  rewrite DecimalPos.Unsigned.of_to in H. simpl in H.
  pose proof (DecimalPos.Unsigned.to_uint_nonzero p) as Hz.
  destruct (Pos.to_uint p) as [|u|u|u|u|u|u|u|u|u|u] eqn:E; auto;
    try (apply (DecimalPos.Unsigned.to_uint_nonnil p); exact E).
  - unfold unorm in H. simpl in H.
    destruct (nzhead u) as [|x|x|x|x|x|x|x|x|x|x] eqn:E2; try discriminate H.
    + apply Hz. injection H as ->. reflexivity.
    + exfalso. exact (nzhead_not_D0 u x E2).
Qed.

(** What may follow a value in the text [dumps] writes. *)
Definition delimited (r : string) : bool :=
  match r with
  | EmptyString => true
  | String c _ => Ascii.eqb c "," || Ascii.eqb c "]" || Ascii.eqb c "}"
  end.

Lemma delimited_not_digit (r : string) :
  delimited r = true -> match r with String c _ => is_digit c = false | EmptyString => True end.
Proof.
  destruct r as [|c r]; [auto|]. simpl.
  destruct (Ascii.eqb_spec c ","); [subst; reflexivity|].
  destruct (Ascii.eqb_spec c "]"); [subst; reflexivity|].
  destruct (Ascii.eqb_spec c "}"); [subst; reflexivity|]. discriminate.
Qed.

Lemma delimited_frac (r : string) :
  delimited r = true ->
  match r with String c _ => Ascii.eqb c "." || Ascii.eqb c "e" || Ascii.eqb c "E" | EmptyString => false end
  = false.
Proof.
  destruct r as [|c r]; [auto|]. simpl.
  destruct (Ascii.eqb_spec c ","); [subst; reflexivity|].
  destruct (Ascii.eqb_spec c "]"); [subst; reflexivity|].
  destruct (Ascii.eqb_spec c "}"); [subst; reflexivity|]. discriminate.
Qed.

Lemma z_of_uint_pos (p : positive) : Z.of_uint (Pos.to_uint p) = Zpos p.
Proof. unfold Z.of_uint. rewrite DecimalPos.Unsigned.of_to. reflexivity. Qed.

(** The digits of a positive number followed by a delimiter parse back. *)
Lemma parse_number_pos (neg : bool) (p : positive) (r : string) :
  delimited r = true ->
  parse_number ((if neg then "-" else EmptyString) ++
                NilEmpty.string_of_uint (Pos.to_uint p) ++ r) =
  Some (if neg then Zneg p else Zpos p, r).
Proof.
  intros Hr. pose proof (pos_to_uint_head p) as Hh.
  pose proof (take_digits_uint (Pos.to_uint p) r (delimited_not_digit r Hr)) as Ht.
  pose proof (NilEmpty.usu (Pos.to_uint p)) as Hu. pose proof (z_of_uint_pos p) as Hz.
  pose proof (delimited_frac r Hr) as Hf.
  unfold parse_number.
  destruct (Pos.to_uint p) as [|u|u|u|u|u|u|u|u|u|u]; try contradiction;
    destruct neg; simpl in *; rewrite Ht, Hf; simpl; rewrite Hu, Hz; reflexivity.
Qed.

Lemma parse_number_z (z : Z) (r : string) :
  delimited r = true -> parse_number (z_to_string z ++ r) = Some (z, r).
Proof.
  intros Hr. destruct z as [|p|p].
  - pose proof (delimited_frac r Hr) as Hf. pose proof (delimited_not_digit r Hr) as Hd.
    unfold parse_number. simpl.
    destruct r as [|c r]; simpl in *; [reflexivity|]. rewrite Hd. simpl in *. rewrite Hf. reflexivity.
  - replace (z_to_string (Zpos p)) with (EmptyString ++ NilEmpty.string_of_uint (Pos.to_uint p))
      by (unfold z_to_string; simpl; pose proof (pos_to_uint_head p);
          destruct (Pos.to_uint p); (contradiction || reflexivity)).
    rewrite string_app_assoc. apply (parse_number_pos false p r Hr).
  - replace (z_to_string (Zneg p)) with ("-" ++ NilEmpty.string_of_uint (Pos.to_uint p))
      by (unfold z_to_string; simpl; pose proof (pos_to_uint_head p);
          destruct (Pos.to_uint p); (contradiction || reflexivity)).
    rewrite string_app_assoc. apply (parse_number_pos true p r Hr).
Qed.

Lemma py_join_cons (sep x : string) (xs : list string) :
  py_join sep (x :: xs) = x ++ join_tail sep xs.
Proof.
  revert x. induction xs as [|y ys IH]; intros x.
  - simpl. rewrite string_app_nil_r. reflexivity.
  - change (py_join sep (x :: y :: ys)) with (x ++ sep ++ py_join sep (y :: ys)).
    rewrite IH. reflexivity.
Qed.

Lemma value_start_not_ws (c : ascii) : value_start c = true -> is_ws c = false.
Proof. destruct c as [[] [] [] [] [] [] [] []]; (discriminate || reflexivity). Qed.

Lemma skip_ws_value (c : ascii) (s : string) :
  value_start c = true -> skip_ws (String c s) = String c s.
Proof. intros H. simpl. rewrite (value_start_not_ws c H). reflexivity. Qed.

Lemma strip_close_value (c d : ascii) (s : string) :
  value_start c = true -> (Ascii.eqb d "]" || Ascii.eqb d "}") = true ->
  strip_char d (String c s) = None.
Proof.
  intros Hc Hd. simpl. destruct (Ascii.eqb_spec d c) as [<-|]; [|reflexivity].
  destruct d as [[] [] [] [] [] [] [] []]; (discriminate || reflexivity).
Qed.

Lemma skip_ws_delimited (r : string) : delimited r = true -> skip_ws r = r.
Proof.
  destruct r as [|c r]; [reflexivity|]. simpl.
  destruct (Ascii.eqb_spec c ","); [subst; reflexivity|].
  destruct (Ascii.eqb_spec c "]"); [subst; reflexivity|].
  destruct (Ascii.eqb_spec c "}"); [subst; reflexivity|]. discriminate.
Qed.

(** A number starts with a digit or a minus sign. *)
Lemma z_to_string_head (z : Z) :
  exists c s, z_to_string z = String c s /\ (is_digit c || Ascii.eqb c "-") = true.
Proof.
  destruct z as [|p|p]; [eexists _, _; split; reflexivity| |];
    unfold z_to_string; simpl; pose proof (pos_to_uint_head p);
    destruct (Pos.to_uint p); (contradiction || (eexists _, _; split; reflexivity)).
Qed.

Lemma dumps_head (j : json) : exists c s, dumps true j = String c s /\ value_start c = true.
Proof.
  destruct j as [| [] | z | s | l | l]; try (eexists _, _; split; reflexivity).
  destruct (z_to_string_head z) as (c & s & Hs & Hc). exists c, s. simpl. split; [exact Hs|].
  unfold value_start. destruct (is_digit c); [rewrite !orb_true_r; reflexivity|].
  simpl in Hc. rewrite Hc. rewrite !orb_true_r. reflexivity.
Qed.

Lemma parse_value_num_head (n : nat) (c : ascii) (s : string) :
  (is_digit c || Ascii.eqb c "-") = true ->
  parse_value (S n) (String c s) =
  match parse_number (String c s) with Some (z, r) => Some (JNum z, r) | None => None end.
Proof. destruct c as [[] [] [] [] [] [] [] []]; (discriminate || reflexivity). Qed.

Lemma delimited_join_tail (xs : list string) (close : ascii) (r : string) :
  (Ascii.eqb close "]" || Ascii.eqb close "}") = true ->
  delimited (join_tail ", " xs ++ String close r) = true.
Proof. intros Hc. destruct xs; simpl; [destruct (close =? ",")%char; [reflexivity | exact Hc] | reflexivity]. Qed.

Lemma skip_ws_dumps (j : json) (t : string) : skip_ws (dumps true j ++ t) = dumps true j ++ t.
Proof.
  destruct (dumps_head j) as (c & s & Hd & Hc). rewrite Hd. str_simpl. apply skip_ws_value, Hc.
Qed.

Lemma strip_close_dumps (j : json) (d : ascii) (t : string) :
  (Ascii.eqb d "]" || Ascii.eqb d "}") = true -> strip_char d (dumps true j ++ t) = None.
Proof.
  intros Hd'. destruct (dumps_head j) as (c & s & Hd & Hc). rewrite Hd. str_simpl.
  apply strip_close_value; assumption.
Qed.

Lemma parse_arr_tail_dumps (xs : list json) :
  Forall (fun x => json_wf x = true -> forall n r, (jsize x <= n)%nat -> delimited r = true ->
                   parse_value n (dumps true x ++ r) = Some (x, r)) xs ->
  forallb json_wf xs = true ->
  forall m acc r, (S (list_sum (map (fun x => S (jsize x)) xs)) <= m)%nat -> delimited r = true ->
  parse_arr_tail m acc (join_tail ", " (map (dumps true) xs) ++ String "]" r) = Some (JArr (acc ++ xs), r).
Proof.
  induction 1 as [|y ys Hy Hys IH]; intros Hwf m acc r Hm Hr; destruct m as [|m]; try lia.
  - simpl. rewrite app_nil_r. reflexivity.
  - simpl in Hwf, Hm. apply andb_true_iff in Hwf as [Hwy Hwys].
    set (T := join_tail ", " (map (dumps true) ys) ++ String "]" r).
    assert (HT : delimited T = true) by (apply delimited_join_tail; reflexivity).
    change (join_tail ", " (map (dumps true) (y :: ys))) with (", " ++ dumps true y ++ join_tail ", " (map (dumps true) ys)).
    rewrite !string_app_assoc. fold T. str_simpl. simpl. str_simpl.
    rewrite skip_ws_dumps, (Hy Hwy m T ltac:(lia) HT), (skip_ws_delimited T HT).
    unfold T. rewrite (IH Hwys m (acc ++ [y])%list r ltac:(lia) Hr), <- app_assoc. reflexivity.
Qed.

Lemma parse_member_dumps (m : nat) (k : string) (v : json) (R : string) :
  parse_value m (dumps true v ++ R) = Some (v, R) -> delimited R = true ->
  parse_member (parse_value m) ((dumps_str true k ++ ": " ++ dumps true v) ++ R) = Some (k, v, R).
Proof.
  intros Hv HR. unfold parse_member, dumps_str, char1. rewrite !string_app_assoc. str_simpl.
  cbn [strip_char]. rewrite Ascii.eqb_refl. str_simpl. cbv iota beta.
  rewrite parse_str_body_escape. simpl. str_simpl.
  rewrite skip_ws_dumps, Hv, (skip_ws_delimited R HR). reflexivity.
Qed.

Lemma obj_set_fresh (k : string) (v : json) (l : list (string * json)) :
  k ∉ map fst l -> obj_set k v l = (l ++ [(k, v)])%list.
Proof.
  induction l as [|[k' v'] l IH]; simpl; [reflexivity|]. rewrite elem_of_cons. intros Hk.
  destruct (String.eqb_spec k k'); [naive_solver|]. rewrite IH by naive_solver. reflexivity.
Qed.

Lemma parse_obj_tail_comma (m : nat) (acc : list (string * json)) (s : string) :
  parse_obj_tail (S m) acc (String "," s) =
  match parse_member (parse_value m) (skip_ws s) with
  | Some (k, v, r') => parse_obj_tail m (obj_set k v acc) r'
  | None => None
  end.
Proof. reflexivity. Qed.

Lemma skip_ws_space (s : string) : skip_ws (String " " s) = skip_ws s.
Proof. reflexivity. Qed.

Lemma skip_ws_dumps_str (s t : string) : skip_ws (dumps_str true s ++ t) = dumps_str true s ++ t.
Proof. unfold dumps_str, char1. str_simpl. apply skip_ws_value. reflexivity. Qed.

Lemma parse_obj_tail_dumps (kvs : list (string * json)) :
  Forall (fun kv => json_wf kv.2 = true -> forall n r, (jsize kv.2 <= n)%nat -> delimited r = true ->
                    parse_value n (dumps true kv.2 ++ r) = Some (kv.2, r)) kvs ->
  forallb (fun kv => json_wf kv.2) kvs = true ->
  forall m acc r, NoDup (map fst (acc ++ kvs)) ->
  (S (list_sum (map (fun kv => S (jsize kv.2)) kvs)) <= m)%nat -> delimited r = true ->
  parse_obj_tail m acc
    (join_tail ", " (map (fun kv => dumps_str true kv.1 ++ ": " ++ dumps true kv.2) kvs) ++ String "}" r)
  = Some (JObj (acc ++ kvs), r).
Proof.
  induction 1 as [|[k v] ys Hy Hys IH]; intros Hwf m acc r Hnd Hm Hr; destruct m as [|m]; try lia.
  - simpl. rewrite app_nil_r. reflexivity.
  - simpl in Hwf, Hm, Hy. apply andb_true_iff in Hwf as [Hwy Hwys].
    set (T := join_tail ", " (map (fun kv => dumps_str true kv.1 ++ ": " ++ dumps true kv.2) ys)
              ++ String "}" r).
    assert (HT : delimited T = true) by (apply delimited_join_tail; reflexivity).
    change (join_tail ", " (map (fun kv => dumps_str true kv.1 ++ ": " ++ dumps true kv.2) ((k, v) :: ys)))
      with (", " ++ (dumps_str true k ++ ": " ++ dumps true v) ++
            join_tail ", " (map (fun kv => dumps_str true kv.1 ++ ": " ++ dumps true kv.2) ys)).
    set (M := dumps_str true k ++ ": " ++ dumps true v).
    rewrite !string_app_assoc. fold T.
    change (", " ++ M ++ T) with (String "," (String " " (M ++ T))).
    rewrite parse_obj_tail_comma, skip_ws_space. unfold M.
    rewrite string_app_assoc, skip_ws_dumps_str, <- string_app_assoc.
    rewrite (parse_member_dumps m k v T (Hy Hwy m T ltac:(lia) HT) HT).
    rewrite obj_set_fresh.
    + unfold T. rewrite (IH Hwys m (acc ++ [(k, v)])%list r), <- app_assoc; [reflexivity | | lia | exact Hr].
      rewrite <- app_assoc. exact Hnd.
    + rewrite map_app in Hnd. simpl in Hnd. apply NoDup_app in Hnd as (_ & Hdis & _).
      intros Hin. apply (Hdis k Hin). left.
Qed.

Lemma parse_value_str_eq (n : nat) (s : string) :
  parse_value (S n) (String dq s) =
  match parse_str_body s with Some (x, r) => Some (JStr x, r) | None => None end.
Proof. reflexivity. Qed.

Lemma parse_value_arr_eq (n : nat) (s : string) :
  parse_value (S n) (String "[" s) =
  match strip_char "]" (skip_ws s) with
  | Some r => Some (JArr [], r)
  | None => match parse_value n (skip_ws s) with
            | Some (v, r) => parse_arr_tail n [v] (skip_ws r)
            | None => None
            end
  end.
Proof. reflexivity. Qed.

Lemma parse_value_obj_eq (n : nat) (s : string) :
  parse_value (S n) (String "{" s) =
  match strip_char "}" (skip_ws s) with
  | Some r => Some (JObj [], r)
  | None => match parse_member (parse_value n) (skip_ws s) with
            | Some (k, v, r) => parse_obj_tail n [(k, v)] r
            | None => None
            end
  end.
Proof. reflexivity. Qed.

(** The decoder reads back what the encoder writes, followed by anything
    that may follow a value, given fuel [jsize j]. *)
Lemma parse_dumps (j : json) :
  json_wf j = true -> forall n r, (jsize j <= n)%nat -> delimited r = true ->
  parse_value n (dumps true j ++ r) = Some (j, r).
Proof.
  induction j as [| b | z | s | l IH | l IH] using json_ind';
    intros Hwf n r Hn Hr; destruct n as [|n]; simpl in Hn; try lia.
  - reflexivity.
  - destruct b; reflexivity.
  - destruct (z_to_string_head z) as (c & s & Hs & Hc).
    pose proof (parse_number_z z r Hr) as Hp.
    change (dumps true (JNum z)) with (z_to_string z). rewrite Hs in *. str_simpl.
    rewrite parse_value_num_head by exact Hc. rewrite Hp. reflexivity.
  - change (dumps true (JStr s)) with (dumps_str true s). unfold dumps_str, char1.
    rewrite !string_app_assoc. str_simpl. rewrite parse_value_str_eq, parse_str_body_escape.
    reflexivity.
  - destruct l as [|x xs]; [reflexivity|].
    simpl in Hn, Hwf. apply andb_true_iff in Hwf as [Hwx Hwxs]. apply Forall_cons in IH as [IHx IHxs].
    change (dumps true (JArr (x :: xs)))
      with ("[" ++ py_join ", " (dumps true x :: map (dumps true) xs) ++ "]").
    rewrite py_join_cons, !string_app_assoc. str_simpl.
    set (T := join_tail ", " (map (dumps true) xs) ++ String "]" r).
    assert (HT : delimited T = true) by (apply delimited_join_tail; reflexivity).
    rewrite parse_value_arr_eq, skip_ws_dumps, strip_close_dumps by reflexivity.
    rewrite (IHx Hwx n T ltac:(lia) HT), (skip_ws_delimited T HT).
    unfold T. rewrite (parse_arr_tail_dumps xs IHxs Hwxs n [x] r ltac:(lia) Hr). reflexivity.
  - destruct l as [|[k v] kvs]; [reflexivity|].
    simpl in Hn, Hwf. apply andb_true_iff in Hwf as [Hnd Hw]. apply bool_decide_eq_true in Hnd.
    apply andb_true_iff in Hw as [Hwv Hwkvs]. apply Forall_cons in IH as [IHv IHkvs].
    change (dumps true (JObj ((k, v) :: kvs)))
      with ("{" ++ py_join ", " ((dumps_str true k ++ ": " ++ dumps true v) ::
              map (fun kv => dumps_str true kv.1 ++ ": " ++ dumps true kv.2) kvs) ++ "}").
    rewrite py_join_cons.
    set (M := dumps_str true k ++ ": " ++ dumps true v).
    rewrite !string_app_assoc. str_simpl.
    set (T := join_tail ", " (map (fun kv => dumps_str true kv.1 ++ ": " ++ dumps true kv.2) kvs)
              ++ String "}" r).
    assert (HT : delimited T = true) by (apply delimited_join_tail; reflexivity).
    rewrite parse_value_obj_eq. unfold M.
    rewrite string_app_assoc, skip_ws_dumps_str.
    replace (strip_char "}" (dumps_str true k ++ (": " ++ dumps true v) ++ T)) with (@None string)
      by (unfold dumps_str, char1; str_simpl; reflexivity).
    rewrite <- string_app_assoc.
    rewrite (parse_member_dumps n k v T (IHv Hwv n T ltac:(simpl; lia) HT) HT).
    unfold T. rewrite (parse_obj_tail_dumps kvs IHkvs Hwkvs n [(k, v)] r Hnd ltac:(lia) Hr).
    reflexivity.
Qed.

Lemma join_tail_length (sep : string) (ys : list string) :
  String.length (join_tail sep ys) = list_sum (map (fun y => String.length sep + String.length y)%nat ys).
Proof.
  induction ys as [|y ys IH]; simpl; [reflexivity|].
  rewrite !string_length_app, IH. lia.
Qed.

Lemma list_sum_map_le {A} (f g : A -> nat) (l : list A) :
  Forall (fun x => f x <= g x)%nat l -> (list_sum (map f l) <= list_sum (map g l))%nat.
Proof. induction 1; simpl; lia. Qed.

Lemma z_to_string_length (z : Z) : (1 <= String.length (z_to_string z))%nat.
Proof. destruct (z_to_string_head z) as (c & s & -> & _). simpl. lia. Qed.

Lemma dumps_str_length (s : string) : (2 <= String.length (dumps_str true s))%nat.
Proof. unfold dumps_str, char1. rewrite !string_length_app. simpl. lia. Qed.

Lemma member_length (k : string) (v : json) :
  (4 + String.length (dumps true v) <= String.length (dumps_str true k ++ ": " ++ dumps true v))%nat.
Proof.
  rewrite !string_length_app. pose proof (dumps_str_length k).
  change (String.length ": ") with 2%nat. lia.
Qed.

Lemma join_tail_members_length (kvs : list (string * json)) :
  Forall (fun kv => jsize kv.2 <= String.length (dumps true kv.2))%nat kvs ->
  (list_sum (map (fun kv => S (jsize kv.2)) kvs) <=
   String.length (join_tail ", " (map (fun kv => dumps_str true kv.1 ++ ": " ++ dumps true kv.2) kvs)))%nat.
Proof.
  induction 1 as [|[k v] kvs Hv _ IH]; simpl; [lia|].
  rewrite !string_length_app. pose proof (member_length k v). simpl in *. lia.
Qed.

(** The fuel a value needs is at most the length of its text. *)
Lemma jsize_le_length (j : json) : (jsize j <= String.length (dumps true j))%nat.
Proof.
  induction j as [| b | z | s | l IH | l IH] using json_ind'.
  - simpl. lia.
  - destruct b; simpl; lia.
  - simpl. apply z_to_string_length.
  - simpl. unfold dumps_str, char1. rewrite !string_length_app. simpl. lia.
  - destruct l as [|x xs]; [simpl; lia|]. apply Forall_cons in IH as [IHx IHxs].
    change (dumps true (JArr (x :: xs)))
      with ("[" ++ py_join ", " (dumps true x :: map (dumps true) xs) ++ "]").
    rewrite py_join_cons, !string_length_app, join_tail_length, map_map. simpl.
    assert (Hs : (list_sum (map (fun y => S (jsize y)) xs) <=
                  list_sum (map (fun y => S (S (String.length (dumps true y)))) xs))%nat)
      by (apply list_sum_map_le; eapply Forall_impl; [exact IHxs|]; intros y Hy; cbv beta in *; lia).
    lia.
  - destruct l as [|[k v] kvs]; [simpl; lia|]. apply Forall_cons in IH as [IHv IHkvs].
    change (dumps true (JObj ((k, v) :: kvs)))
      with ("{" ++ py_join ", " ((dumps_str true k ++ ": " ++ dumps true v) ::
              map (fun kv => dumps_str true kv.1 ++ ": " ++ dumps true kv.2) kvs) ++ "}").
    rewrite py_join_cons, !string_length_app.
    pose proof (member_length k v). pose proof (join_tail_members_length kvs IHkvs).
    simpl in IHv |- *. lia.
Qed.

(** The round trip, used by the alert feed. *)
Lemma loads_dumps_wf (j : json) : json_wf j = true -> loads (dumps true j) = Some j.
Proof.
  intros Hwf. unfold loads.
  pose proof (skip_ws_dumps j EmptyString) as Hs. rewrite string_app_nil_r in Hs. rewrite Hs.
  pose proof (parse_dumps j Hwf (S (String.length (dumps true j))) EmptyString) as Hp.
  rewrite string_app_nil_r in Hp. rewrite Hp; [reflexivity | | reflexivity].
  pose proof (jsize_le_length j). lia.
Qed.

