(* ===== verification/Request.v ===== *)
(** * The inbound request and payload normalisation

    [Request] holds what the handlers read from Flask's [request]: the
    peer address, the headers, path, method and URL root, whether the
    mimetype is JSON, the body as parsed JSON, the parsed form fields and
    the raw body text.  [extract_payload_and_params] is the backend's
    normaliser (src/Backend/app.py, lines 95-120) over these inputs. *)
From S2P Require Import Prelude PyStr Json.
From Stdlib Require Import Ascii String.

Open Scope string_scope.

Record Request := mkRequest {
  req_remote_addr : option string;         (** [request.remote_addr] *)
  req_headers : list (string * string);    (** header lines, in order *)
  req_path : string;                       (** [request.path] *)
  req_method : string;                     (** [request.method] *)
  req_url_root : string;                   (** [request.url_root] *)
  req_is_json : bool;                      (** [request.is_json] (the mimetype) *)
  req_body_json : option json;             (** the body parsed as JSON; [None] if it does not parse *)
  req_form : option (list (string * string)); (** the form fields in order; [None] if parsing raises *)
  req_data : string;                       (** [request.get_data(as_text=True)] *)
  req_args : list (string * string)        (** [request.args], the query string's pairs in order *)
}.

(** ** Reading the request *)

(** [request.headers.get(name, default)]: header names compare without case. *)
Fixpoint header_lookup (name : string) (hs : list (string * string)) : option string :=
  match hs with
  | [] => None
  | (k, v) :: hs' =>
      if String.eqb (py_lower k) (py_lower name) then Some v else header_lookup name hs'
  end.

Definition header_get (r : Request) (name default : string) : string :=
  match header_lookup name (req_headers r) with Some v => v | None => default end.

(** [request.remote_addr or request.headers.get('X-Forwarded-For','127.0.0.1')]. *)
Definition client_ip (r : Request) : string :=
  match req_remote_addr r with
  | Some a => if str_truthy a then a else header_get r "X-Forwarded-For" "127.0.0.1"
  | None => header_get r "X-Forwarded-For" "127.0.0.1"
  end.

(** [request.get_json(silent=True)]: [None] unless the mimetype is JSON and
    the body parses (a body [null] also gives [None]). *)
Definition get_json (r : Request) : json :=
  if req_is_json r then match req_body_json r with Some j => j | None => JNull end
  else JNull.

(** [MultiDict.items()]: one pair per key, the key's first value, in the
    order keys first appear. *)
Fixpoint md_items_go (seen : list string) (l : list (string * string)) : list (string * string) :=
  match l with
  | [] => []
  | (k, v) :: l' =>
      if existsb (String.eqb k) seen then md_items_go seen l'
      else (k, v) :: md_items_go (k :: seen) l'
  end.
Definition md_items (l : list (string * string)) : list (string * string) := md_items_go [] l.

(** [MultiDict.get(k)]: the first value of [k]. *)
Fixpoint md_get (k : string) (l : list (string * string)) : option string :=
  match l with
  | [] => None
  | (k', v) :: l' => if String.eqb k k' then Some v else md_get k l'
  end.

(** ** [extract_payload_and_params] *)

(** The raw branch: a query-like body counts its [&]-separated fields. *)
Definition raw_num_params (raw : string) : Z :=
  if str_truthy raw && (char_in "=" raw || char_in "&" raw)
  then (str_count_char "&" raw + 1)%Z else 0%Z.

Definition form_payload (items : list (string * string)) : string :=
  py_join "&" (map (fun kv => kv.1 ++ "=" ++ kv.2) items).

(** The JSON branch keeps [("", 0)] when [get_json] gives [None]; reading
    [request.form] is the one step that can raise, and its handler falls
    back to the raw body with [num_params] still [0]. *)
Definition extract_payload_and_params (r : Request) : string * Z :=
  if req_is_json r then
    let j := get_json r in
    match j with
    | JNull => ("", 0%Z)
    | JObj l => (dumps false j, zlen l)
    | _ => (dumps false j, 1%Z)
    end
  else
    match req_form r with
    | None => (req_data r, 0%Z)
    | Some f =>
        let items := md_items f in
        if bool_decide (items <> [])
        then (form_payload items, zlen items)
        else (req_data r, raw_num_params (req_data r))
    end.

(** ** Lemmas *)

Lemma raw_num_params_nonneg (raw : string) : (0 <= raw_num_params raw)%Z.
Proof.
  unfold raw_num_params. pose proof (str_count_char_bounds "&" raw).
  destruct (_ && _); lia.
Qed.

Lemma extract_num_params_nonneg (r : Request) :
  (0 <= (extract_payload_and_params r).2)%Z.
Proof.
  unfold extract_payload_and_params.
  pose proof (raw_num_params_nonneg (req_data r)).
  repeat case_match; simpl; auto using zlen_nonneg with lia.
Qed.

#[export] Hint Resolve raw_num_params_nonneg extract_num_params_nonneg : hp.
