(* ===== verification/Store.v ===== *)
(** * The SQLite store: the [logs] and [blocklist] tables

    [LogRow] and [BlockRow] are the rows of the SQLAlchemy models [Log] and
    [Blocklist] (src/Backend/app.py, lines 43-63); [Db] is the database:
    both tables in rowid order, and two switches saying whether reads and
    writes currently succeed (a locked or full SQLite file makes them raise
    [OperationalError]).  The operations are the queries and commits the
    handlers issue; [get_reqs_per_min] is the rate tracker (lines 87-93).
    Timestamps are microseconds ([datetime.utcnow()] has that resolution). *)
From S2P Require Import Prelude PyStr Json.
From Stdlib Require Import Ascii String Sorted.

Open Scope string_scope.

(** The columns a handler sets when it builds a [Log(...)]. *)
Record LogFields := mkLogFields {
  lf_ip : string;
  lf_ua : string;
  lf_path : string;
  lf_method : string;
  lf_payload : string;
  lf_num_params : Z;
  lf_payload_len : Z;
  lf_anomaly : bool;
  lf_profile : option string;
  lf_decoy_file : option string
}.

(** A stored row: the rowid and the [timestamp] default are filled in by
    the commit. *)
Record LogRow := mkLogRow {
  log_id : Z;
  log_timestamp : Z;
  log_fields : LogFields
}.

Record BlockRow := mkBlockRow {
  blk_id : Z;
  blk_ip : string;               (** UNIQUE *)
  blk_reason : option string;
  blk_timestamp : Z
}.

Record Db := mkDb {
  db_logs : list LogRow;         (** rowid order *)
  db_blocklist : list BlockRow;  (** rowid order *)
  db_reads_ok : bool;
  db_writes_ok : bool
}.

Definition empty_db : Db := mkDb [] [] true true.

(** SQLite gives a new row of an [INTEGER PRIMARY KEY] table the rowid
    [max(rowid) + 1] ([1] in an empty table). *)
Definition next_rowid (ids : list Z) : Z := (1 + fold_right Z.max 0 ids)%Z.

(** ** Queries *)

(** [Blocklist.query.filter_by(ip=ip).first()]. *)
Definition blocklist_first (db : Db) (ip : string) : res (option BlockRow) :=
  if db_reads_ok db
  then Ok (List.find (fun b => String.eqb (blk_ip b) ip) (db_blocklist db))
  else Raise OperationalError.

(** [Log.query.filter(Log.ip == ip, Log.timestamp >= cutoff).count()]. *)
Definition count_logs_since (db : Db) (ip : string) (cutoff : Z) : res Z :=
  if db_reads_ok db
  then Ok (zcount (fun l => String.eqb (lf_ip (log_fields l)) ip && (cutoff <=? log_timestamp l)%Z)
                  (db_logs db))
  else Raise OperationalError.

(** ** Commits *)

(** [db.session.add(Log(...)); db.session.commit()] at time [now]. *)
Definition commit_log (db : Db) (lf : LogFields) (now : Z) : res Db :=
  if db_writes_ok db
  then Ok {| db_logs := db_logs db ++ [mkLogRow (next_rowid (map log_id (db_logs db))) now lf];
             db_blocklist := db_blocklist db;
             db_reads_ok := db_reads_ok db;
             db_writes_ok := db_writes_ok db |}
  else Raise OperationalError.

(** [db.session.add(Blocklist(ip=ip, reason=reason)); db.session.commit()]:
    the UNIQUE constraint on [ip] rejects a second row for an address. *)
Definition commit_block (db : Db) (ip : string) (reason : option string) (now : Z) : res Db :=
  if db_writes_ok db then
    if existsb (fun b => String.eqb (blk_ip b) ip) (db_blocklist db)
    then Raise IntegrityError
    else Ok {| db_logs := db_logs db;
               db_blocklist := db_blocklist db ++
                 [mkBlockRow (next_rowid (map blk_id (db_blocklist db))) ip reason now];
               db_reads_ok := db_reads_ok db;
               db_writes_ok := db_writes_ok db |}
  else Raise OperationalError.

(** ** The rate tracker *)

(** [timedelta(seconds=60)] in microseconds. *)
Definition window_us : Z := (60 * 1000000)%Z.

(** [get_reqs_per_min(ip)]: the source's rows of the last minute, [0] when
    the query raises. *)
Definition get_reqs_per_min (db : Db) (ip : string) (now : Z) : Z :=
  match count_logs_since db ip (now - window_us) with
  | Ok n => n
  | Raise _ => 0%Z
  end.

(** ** Well-formedness of the store *)

(** Rowids increase along each table and blocked addresses are unique. *)
Definition db_wf (db : Db) : Prop :=
  StronglySorted Z.lt (map log_id (db_logs db)) /\
  StronglySorted Z.lt (map blk_id (db_blocklist db)) /\
  NoDup (map blk_ip (db_blocklist db)).

(** ** Lemmas *)

Lemma fold_max_ge (ids : list Z) x : x ∈ ids -> (x <= fold_right Z.max 0 ids)%Z.
Proof.
  induction ids as [|y ids IH]; simpl; [set_solver|].
  rewrite elem_of_cons. intros [->|Hin]; [lia|]. specialize (IH Hin). lia.
Qed.

(** Appending the next rowid keeps rowids strictly increasing. *)
Lemma sorted_snoc_next_rowid (ids : list Z) :
  StronglySorted Z.lt ids -> StronglySorted Z.lt (ids ++ [next_rowid ids]).
Proof.
  unfold next_rowid. intros H. assert (Hlt : Forall (fun x => x < 1 + fold_right Z.max 0 ids)%Z ids).
  { apply Forall_forall. intros x Hx. apply fold_max_ge in Hx. lia. }
  revert H Hlt. generalize (1 + fold_right Z.max 0 ids)%Z as n.
  induction ids as [|x ids IH]; intros n H Hlt; simpl.
  - repeat constructor.
  - inversion H as [|? ? Hs Hf]; subst. inversion Hlt; subst.
    constructor; [auto|]. apply Forall_app. split; [exact Hf|]. constructor; [lia|constructor].
Qed.

Lemma zcount_snoc {A} (p : A -> bool) (l : list A) x :
  zcount p (l ++ [x]) = (zcount p l + (if p x then 1 else 0))%Z.
Proof. rewrite zcount_app. simpl. destruct (p x); lia. Qed.

Lemma existsb_blk_true (bl : list BlockRow) (ip : string) :
  existsb (fun b => String.eqb (blk_ip b) ip) bl = true -> ip ∈ map blk_ip bl.
Proof.
  intros Hex. apply existsb_exists in Hex as [b [Hin Heq]]. apply String.eqb_eq in Heq.
  subst ip. apply list_elem_of_In, in_map. exact Hin.
Qed.

Lemma blocklist_first_found (db : Db) (ip : string) (b : BlockRow) :
  blocklist_first db ip = Ok (Some b) -> ip ∈ map blk_ip (db_blocklist db).
Proof.
  unfold blocklist_first. destruct (db_reads_ok db); [|discriminate]. intros [= Hf].
  apply List.find_some in Hf as [Hin Heq]. apply String.eqb_eq in Heq. subst ip.
  apply list_elem_of_In, in_map. exact Hin.
Qed.

Lemma blocklist_first_absent (db : Db) (ip : string) :
  blocklist_first db ip = Ok None -> ip ∉ map blk_ip (db_blocklist db).
Proof.
  unfold blocklist_first. destruct (db_reads_ok db); [|discriminate]. intros [= Hf] Hin.
  apply list_elem_of_In, in_map_iff in Hin as [b [Hb Hin]].
  pose proof (List.find_none _ _ Hf b Hin) as Hn. simpl in Hn. subst ip.
  rewrite String.eqb_refl in Hn. discriminate.
Qed.

Lemma commit_block_logs (db db' : Db) (ip : string) (reason : option string) (now : Z) :
  commit_block db ip reason now = Ok db' -> db_logs db' = db_logs db.
Proof.
  unfold commit_block. destruct (db_writes_ok db); [|discriminate].
  destruct (existsb _ _); [discriminate|]. intros [= <-]. reflexivity.
Qed.

(** After the commit, or after the UNIQUE constraint rejected it, the
    address is blocked. *)
Lemma commit_block_outcome (db : Db) (ip : string) (reason : option string) (now : Z) :
  db_writes_ok db = true ->
  (exists db', commit_block db ip reason now = Ok db' /\ ip ∈ map blk_ip (db_blocklist db')) \/
  (commit_block db ip reason now = Raise IntegrityError /\ ip ∈ map blk_ip (db_blocklist db)).
Proof.
  intros Hw. unfold commit_block. rewrite Hw.
  destruct (existsb _ _) eqn:He.
  - right. split; [reflexivity|]. apply existsb_blk_true. exact He.
  - left. eexists. split; [reflexivity|]. simpl. rewrite map_app. apply elem_of_app. right.
    apply list_elem_of_singleton. reflexivity.
Qed.
