(* ===== verification/StoreSpec.v ===== *)
(** * The storage contract and the SQLite store as its implementation

    The specification names four operations a storage collaborator
    exposes to the core: append a log record, count a source's records
    since a time, ask whether a source is blocked, add a blocklist entry;
    each may fail.  [Storage] is that interface as a class.  Its abstract
    model [AStore] keeps what the core may rely on: the sequence of
    (source, time) events appended and the set of blocked sources.
    [storage_refines abs] states that every operation of an
    implementation that succeeds does what the abstract operation does on
    the image by [abs], and that an entry is rejected as a duplicate only
    for a source already blocked.  The instance [db_storage] is the
    SQLite store of Store.v, with the queries and commits the handlers of
    src/Backend/app.py issue; [db_abs] is its abstraction. *)
From S2P Require Import Prelude PyStr Json Store.
From Stdlib Require Import Ascii String.

Open Scope string_scope.

(** ** The interface *)

Class Storage (S : Type) := {
  append_log : S -> LogFields -> Z -> res S;
  count_since : S -> string -> Z -> res Z;
  is_blocked : S -> string -> res bool;
  add_entry : S -> string -> option string -> Z -> res S
}.

(** ** The abstract store *)

Record AStore := mkAStore {
  a_events : list (string * Z);
  a_blocked : gset string
}.

Definition a_append (s : AStore) (ip : string) (t : Z) : AStore :=
  mkAStore (a_events s ++ [(ip, t)])%list (a_blocked s).

Definition a_count (s : AStore) (ip : string) (cutoff : Z) : Z :=
  zcount (fun e => String.eqb e.1 ip && (cutoff <=? e.2)%Z) (a_events s).

Definition a_is_blocked (s : AStore) (ip : string) : bool := bool_decide (ip ∈ a_blocked s).

Definition a_add (s : AStore) (ip : string) : AStore :=
  mkAStore (a_events s) ({[ip]} ∪ a_blocked s).

(** The contract an implementation meets through the abstraction [abs]. *)
Definition storage_refines {S : Type} `{Storage S} (abs : S -> AStore) : Prop :=
  (forall s lf t s', append_log s lf t = Ok s' -> abs s' = a_append (abs s) (lf_ip lf) t) /\
  (forall s ip c n, count_since s ip c = Ok n -> n = a_count (abs s) ip c) /\
  (forall s ip b, is_blocked s ip = Ok b -> b = a_is_blocked (abs s) ip) /\
  (forall s ip r t s', add_entry s ip r t = Ok s' ->
     ip ∉ a_blocked (abs s) /\ abs s' = a_add (abs s) ip) /\
  (forall s ip r t, add_entry s ip r t = Raise IntegrityError -> ip ∈ a_blocked (abs s)).

(** ** The SQLite store *)

#[export] Instance db_storage : Storage Db := {
  append_log := commit_log;
  count_since := count_logs_since;
  is_blocked db ip := match blocklist_first db ip with
                      | Ok o => Ok (bool_decide (is_Some o))
                      | Raise e => Raise e
                      end;
  add_entry := commit_block
}.

Definition db_abs (db : Db) : AStore :=
  mkAStore (map (fun l => (lf_ip (log_fields l), log_timestamp l)) (db_logs db))
           (list_to_set (map blk_ip (db_blocklist db))).

(** ** Lemmas *)

Lemma zcount_map {A B} (p : B -> bool) (f : A -> B) (l : list A) :
  zcount p (map f l) = zcount (fun x => p (f x)) l.
Proof. induction l as [|x l IH]; simpl; [reflexivity|]. rewrite IH. reflexivity. Qed.

Lemma db_abs_blocked (db : Db) (ip : string) :
  ip ∈ a_blocked (db_abs db) <-> ip ∈ map blk_ip (db_blocklist db).
Proof. unfold db_abs. simpl. apply elem_of_list_to_set. Qed.

Lemma commit_log_abs (db db' : Db) (lf : LogFields) (now : Z) :
  commit_log db lf now = Ok db' -> db_abs db' = a_append (db_abs db) (lf_ip lf) now.
Proof.
  unfold commit_log. destruct (db_writes_ok db); [|discriminate]. intros [= <-].
  unfold db_abs, a_append. simpl. rewrite map_app. reflexivity.
Qed.

Lemma count_logs_since_abs (db : Db) (ip : string) (c n : Z) :
  count_logs_since db ip c = Ok n -> n = a_count (db_abs db) ip c.
Proof.
  unfold count_logs_since. destruct (db_reads_ok db); [|discriminate]. intros [= <-].
  unfold a_count, db_abs. simpl. rewrite zcount_map. reflexivity.
Qed.

Lemma blocklist_first_abs (db : Db) (ip : string) (o : option BlockRow) :
  blocklist_first db ip = Ok o -> bool_decide (is_Some o) = a_is_blocked (db_abs db) ip.
Proof.
  intros Hf. unfold a_is_blocked. apply bool_decide_ext. rewrite db_abs_blocked.
  destruct o as [b|].
  - split; [intros _; eapply blocklist_first_found; exact Hf | intros _; eexists; reflexivity].
  - split; [intros [? ?]; discriminate | intros Hin; exfalso; eapply blocklist_first_absent; eauto].
Qed.

Lemma commit_block_abs (db db' : Db) (ip : string) (r : option string) (now : Z) :
  commit_block db ip r now = Ok db' ->
  ip ∉ a_blocked (db_abs db) /\ db_abs db' = a_add (db_abs db) ip.
Proof.
  unfold commit_block. destruct (db_writes_ok db); [|discriminate].
  destruct (existsb _ _) eqn:He; [discriminate|]. intros [= <-]. split.
  - rewrite db_abs_blocked. intros Hin. apply list_elem_of_In, in_map_iff in Hin as [b [Hb Hin]].
    assert (existsb (fun b => String.eqb (blk_ip b) ip) (db_blocklist db) = true)
      by (apply existsb_exists; exists b; split; [exact Hin | apply String.eqb_eq; exact Hb]).
    congruence.
  - unfold db_abs, a_add. simpl. rewrite map_app, list_to_set_app_L. simpl. f_equal. set_solver.
Qed.

Lemma commit_block_integrity (db : Db) (ip : string) (r : option string) (now : Z) :
  commit_block db ip r now = Raise IntegrityError -> ip ∈ a_blocked (db_abs db).
Proof.
  unfold commit_block. destruct (db_writes_ok db); [|discriminate].
  destruct (existsb _ _) eqn:He; [|discriminate]. intros _.
  rewrite db_abs_blocked. apply existsb_blk_true. exact He.
Qed.

(** ** Clients of the contract

    What the core may conclude from the contract alone, for any storage
    that meets it. *)
Section StorageClient.
Context {S : Type} `{Storage S} (abs : S -> AStore).
Hypothesis Habs : storage_refines abs.

(** A source just added reads back as blocked. *)
Lemma add_then_blocked (s s' : S) (ip : string) (r : option string) (t : Z) (b : bool) :
  add_entry s ip r t = Ok s' -> is_blocked s' ip = Ok b -> b = true.
Proof.
  intros Ha Hb. destruct Habs as (_ & _ & Hbl & Had & _).
  rewrite (Hbl _ _ _ Hb). destruct (Had _ _ _ _ _ Ha) as [_ ->].
  unfold a_is_blocked, a_add. simpl. apply bool_decide_eq_true. set_solver.
Qed.

(** An appended event is counted by a window that contains its time. *)
Lemma append_then_counted (s s' : S) (lf : LogFields) (t c n n' : Z) :
  append_log s lf t = Ok s' -> count_since s (lf_ip lf) c = Ok n ->
  count_since s' (lf_ip lf) c = Ok n' -> (c <= t)%Z -> n' = (n + 1)%Z.
Proof.
  intros Ha Hn Hn' Hc. destruct Habs as (Hap & Hcnt & _).
  rewrite (Hcnt _ _ _ _ Hn'), (Hcnt _ _ _ _ Hn), (Hap _ _ _ _ Ha).
  unfold a_count, a_append. simpl. rewrite zcount_app. simpl.
  rewrite String.eqb_refl. replace (c <=? t)%Z with true by (symmetry; apply Z.leb_le; exact Hc).
  simpl. lia.
Qed.
End StorageClient.

(** ** Properties *)

(** C15: the SQLite store meets the storage contract: a successful append,
    count, lookup or insert does what the abstract store does (appending
    the event, counting the source's events in the window, testing
    membership, adding the source), an insert succeeds only for a source
    not yet blocked, and the UNIQUE constraint rejects only a source
    already blocked. *)
Theorem db_storage_refines : storage_refines db_abs.
Proof.
  split; [intros ? ? ? ? E; exact (commit_log_abs _ _ _ _ E)|].
  split; [intros ? ? ? ? E; exact (count_logs_since_abs _ _ _ _ E)|].
  split; [|split; [intros ? ? ? ? ? E; exact (commit_block_abs _ _ _ _ _ E)
                 | intros ? ? ? ? E; exact (commit_block_integrity _ _ _ _ E)]].
  intros db ip b. simpl. destruct (blocklist_first db ip) as [o|e] eqn:Hf; [|discriminate].
  intros [= <-]. eapply blocklist_first_abs. exact Hf.
Qed.
