(* ===== verification/Schema.v ===== *)
(** * The SQLite file behind the store: the models, [db.create_all()] and the ORM

    [Store.v] sees the database as two lists of rows.  This file models
    what lies under that view: the SQLAlchemy models [Log] and [Blocklist]
    (src/Backend/app.py, lines 43-63) as column declarations ([Model]),
    the SQLite file as a catalogue of tables keyed by name, each with its
    columns and its rows of SQL values ([SqliteFile]), [db.create_all()]
    (lines 65-66) as the creation of every missing table, the insert of a
    new [Log(...)] or [Blocklist(...)] object (lines 380-391, 434-445,
    462) with the column defaults and the rowid filled in and the UNIQUE
    constraints checked, and the ORM's loading of rows into objects
    ([db_view]).  Lemmas check the list model of [Store.v] against this
    one (its two commits are these inserts seen through [db_view]); the
    property of the file is [create_all_startup]. *)
From S2P Require Import Prelude PyStr Json Store.
From Stdlib Require Import Ascii String.

Open Scope string_scope.

(** ** Declarations *)

(** The column types the models use. *)
Inductive ColType := CInteger | CString (n : nat) | CText | CDateTime | CBoolean.

(** The [default=] of a column: a constant, or [datetime.datetime.utcnow]
    called at insert time. *)
Inductive ColDefault := NoDefault | DefInt (z : Z) | DefStr (s : string) | DefBool (b : bool) | DefUtcnow.

(** [db.Column(type, primary_key=..., unique=..., nullable=..., default=...)];
    [col_nullable] is the argument as written, [None] when absent. *)
Record Column := mkColumn {
  col_name : string;
  col_type : ColType;
  col_primary : bool;
  col_unique : bool;
  col_nullable : option bool;
  col_default : ColDefault
}.

(** A model class: its name, its [__tablename__] if it sets one, and its
    columns in declaration order. *)
Record Model := mkModel {
  model_class : string;
  model_tablename : option string;
  model_columns : list Column
}.

#[export] Instance ColType_eq_dec : EqDecision ColType.
Proof. solve_decision. Defined.
#[export] Instance ColDefault_eq_dec : EqDecision ColDefault.
Proof. solve_decision. Defined.
#[export] Instance Column_eq_dec : EqDecision Column.
Proof. solve_decision. Defined.

(** A column with no keyword argument but its type. *)
Definition plain (n : string) (t : ColType) : Column := mkColumn n t false false None NoDefault.

(** [class Log(db.Model)], lines 43-56. *)
Definition Log : Model :=
  mkModel "Log" (Some "logs")
    [mkColumn "id" CInteger true false None NoDefault;
     plain "ip" (CString 64);
     plain "ua" CText;
     plain "path" (CString 256);
     plain "method" (CString 8);
     plain "payload" CText;
     mkColumn "num_params" CInteger false false None (DefInt 0);
     mkColumn "payload_len" CInteger false false None (DefInt 0);
     mkColumn "timestamp" CDateTime false false None DefUtcnow;
     mkColumn "anomaly" CBoolean false false None (DefBool false);
     mkColumn "profile" CText false false (Some true) NoDefault;
     mkColumn "decoy_file" (CString 512) false false (Some true) NoDefault].

(** [class Blocklist(db.Model)], lines 58-63. *)
Definition Blocklist : Model :=
  mkModel "Blocklist" (Some "blocklist")
    [mkColumn "id" CInteger true false None NoDefault;
     mkColumn "ip" (CString 64) false true None NoDefault;
     mkColumn "reason" (CString 256) false false None (DefStr "manual");
     mkColumn "timestamp" CDateTime false false None DefUtcnow].

(** The models [db.create_all()] creates, in declaration order. *)
Definition current_models : list Model := [Log; Blocklist].

(** ** Table names *)

Definition is_upper (c : ascii) : bool := let n := nat_of_ascii c in ((65 <=? n) && (n <=? 90))%nat.
Definition is_lower_or_digit (c : ascii) : bool :=
  let n := nat_of_ascii c in (((97 <=? n) && (n <=? 122)) || ((48 <=? n) && (n <=? 57)))%nat.
Definition is_lower (c : ascii) : bool := let n := nat_of_ascii c in ((97 <=? n) && (n <=? 122))%nat.

(** Flask-SQLAlchemy's [camel_to_snake_case]: an [_] before a capital
    that follows a lower-case letter or a digit, or that starts a word
    (not at the start, followed by a lower-case letter); then [lower()]
    and [lstrip('_')]. *)
Fixpoint snake_chars (prev : option ascii) (s : list ascii) : list ascii :=
  match s with
  | [] => []
  | c :: s' =>
      let brk := is_upper c &&
                 match prev with
                 | None => false
                 | Some p => is_lower_or_digit p ||
                             match s' with n :: _ => is_lower n | [] => false end
                 end in
      (if brk then ["_"%char; lower_char c] else [lower_char c]) ++ snake_chars (Some c) s'
  end.

Definition camel_to_snake_case (name : string) : string :=
  string_of_list_ascii (lstrip_list "_"%char (snake_chars None (list_ascii_of_string name))).

(** The table of a model: [__tablename__], or the name Flask-SQLAlchemy
    derives from the class name. *)
Definition tablename (m : Model) : string :=
  match model_tablename m with
  | Some t => t
  | None => camel_to_snake_case (model_class m)
  end.

(** ** The SQLite file *)

(** The values SQLAlchemy binds and loads for these column types
    ([DateTime] as the microsecond clock of [Clock.v]). *)
Inductive SqlValue := SqlInt (z : Z) | SqlText (s : string) | SqlBool (b : bool) | SqlTime (t : Z) | SqlNull.

#[export] Instance SqlValue_eq_dec : EqDecision SqlValue.
Proof. solve_decision. Defined.

(** A row holds one value per column, in column order. *)
Definition Row := list SqlValue.

Record Table := mkTable { tbl_columns : list Column; tbl_rows : list Row }.

(** The tables of the file, by name. *)
Abbreviation SqliteFile := (gmap string Table).

(** The file, and whether reads and writes currently succeed (as in
    [Store.Db]). *)
Record Sqlite := mkSqlite { sq_file : SqliteFile; sq_reads_ok : bool; sq_writes_ok : bool }.

(** [CREATE TABLE] for a model whose table is missing ([checkfirst]). *)
Definition create_table (f : SqliteFile) (m : Model) : SqliteFile :=
  match f !! tablename m with
  | Some _ => f
  | None => <[tablename m := mkTable (model_columns m) []]> f
  end.

(** [db.create_all()]: lines 65-66 with [current_models]. *)
Definition create_all (ms : list Model) (f : SqliteFile) : SqliteFile := foldl create_table f ms.

(** ** Inserting an object *)

(** The value of column [n] of a row. *)
Fixpoint row_get (cols : list Column) (r : Row) (n : string) : option SqlValue :=
  match cols, r with
  | c :: cols', v :: r' => if String.eqb (col_name c) n then Some v else row_get cols' r' n
  | _, _ => None
  end.

(** A keyword argument of the constructor. *)
Fixpoint param_get (params : list (string * SqlValue)) (n : string) : option SqlValue :=
  match params with
  | [] => None
  | (k, v) :: ps => if String.eqb k n then Some v else param_get ps n
  end.

Definition default_value (c : Column) (now : Z) : SqlValue :=
  match col_default c with
  | NoDefault => SqlNull
  | DefInt z => SqlInt z
  | DefStr s => SqlText s
  | DefBool b => SqlBool b
  | DefUtcnow => SqlTime now
  end.

(** The integer primary key of each row (its rowid). *)
Definition primary_values (cols : list Column) (rows : list Row) : list Z :=
  omap (fun r => match List.find col_primary cols with
                 | Some c => match row_get cols r (col_name c) with Some (SqlInt z) => Some z | _ => None end
                 | None => None
                 end) rows.

(** The row of a new object: each column gets its argument, else the
    rowid for the primary key, else its default. *)
Definition build_row (cols : list Column) (params : list (string * SqlValue)) (rowid now : Z) : Row :=
  map (fun c => match param_get params (col_name c) with
                | Some v => v
                | None => if col_primary c then SqlInt rowid else default_value c now
                end) cols.

(** A primary key or UNIQUE column whose new value is already in the table. *)
Definition violates_unique (cols : list Column) (rows : list Row) (r : Row) : bool :=
  existsb (fun cv => (col_primary cv.1 || col_unique cv.1) &&
                     bool_decide (cv.2 <> SqlNull) &&
                     existsb (fun r' => bool_decide (row_get cols r' (col_name cv.1) = Some cv.2)) rows)
          (combine cols r).

(** [db.session.add(obj); db.session.commit()] for an object of table [tn]. *)
Definition sql_insert (s : Sqlite) (tn : string) (params : list (string * SqlValue)) (now : Z) : res Sqlite :=
  if sq_writes_ok s then
    match sq_file s !! tn with
    | None => Raise OperationalError
    | Some t =>
        let r := build_row (tbl_columns t) params (next_rowid (primary_values (tbl_columns t) (tbl_rows t))) now in
        if violates_unique (tbl_columns t) (tbl_rows t) r then Raise IntegrityError
        else Ok (mkSqlite (<[tn := mkTable (tbl_columns t) (tbl_rows t ++ [r])]> (sq_file s))
                          (sq_reads_ok s) (sq_writes_ok s))
    end
  else Raise OperationalError.

(** ** Loading rows into objects *)

Definition get_int (cols : list Column) (r : Row) (n : string) : option Z :=
  match row_get cols r n with Some (SqlInt z) => Some z | _ => None end.
Definition get_text (cols : list Column) (r : Row) (n : string) : option string :=
  match row_get cols r n with Some (SqlText s) => Some s | _ => None end.
Definition get_time (cols : list Column) (r : Row) (n : string) : option Z :=
  match row_get cols r n with Some (SqlTime t) => Some t | _ => None end.
Definition get_bool (cols : list Column) (r : Row) (n : string) : option bool :=
  match row_get cols r n with Some (SqlBool b) => Some b | _ => None end.
(** A nullable text column: [None] for NULL. *)
Definition get_opt_text (cols : list Column) (r : Row) (n : string) : option (option string) :=
  match row_get cols r n with
  | Some (SqlText s) => Some (Some s)
  | Some SqlNull => Some None
  | _ => None
  end.

Definition opt_text (o : option string) : SqlValue :=
  match o with Some s => SqlText s | None => SqlNull end.

(** A [Log] object loaded from a row of [logs]; a row with a NULL where
    [Store.LogFields] has a string (which no handler writes) is outside
    the view. *)
Definition row_to_log (cols : list Column) (r : Row) : option LogRow :=
  id ← get_int cols r "id"; ip ← get_text cols r "ip"; ua ← get_text cols r "ua";
  path ← get_text cols r "path"; method ← get_text cols r "method";
  payload ← get_text cols r "payload"; np ← get_int cols r "num_params";
  pl ← get_int cols r "payload_len"; ts ← get_time cols r "timestamp";
  anom ← get_bool cols r "anomaly"; profile ← get_opt_text cols r "profile";
  decoy ← get_opt_text cols r "decoy_file";
  Some (mkLogRow id ts (mkLogFields ip ua path method payload np pl anom profile decoy)).

(** A [Blocklist] object loaded from a row of [blocklist]. *)
Definition row_to_block (cols : list Column) (r : Row) : option BlockRow :=
  id ← get_int cols r "id"; ip ← get_text cols r "ip"; reason ← get_opt_text cols r "reason";
  ts ← get_time cols r "timestamp";
  Some (mkBlockRow id ip reason ts).

(** The rows of a model's table as objects: the ORM's [SELECT] names the
    model's columns, so a table with other columns is outside the view. *)
Definition load_table {A} (f : SqliteFile) (m : Model) (dec : list Column -> Row -> option A) : option (list A) :=
  t ← f !! tablename m;
  if bool_decide (tbl_columns t = model_columns m) then mapM (dec (tbl_columns t)) (tbl_rows t) else None.

(** The store of [Store.v] as the current models see the file. *)
Definition db_view (s : Sqlite) : option Db :=
  logs ← load_table (sq_file s) Log row_to_log;
  blocks ← load_table (sq_file s) Blocklist row_to_block;
  Some (mkDb logs blocks (sq_reads_ok s) (sq_writes_ok s)).

(** The keyword arguments of [Log(...)] in [api_login] (lines 380-391)
    and [api_query] (lines 434-445). *)
Definition log_params (lf : LogFields) : list (string * SqlValue) :=
  [("ip", SqlText (lf_ip lf)); ("ua", SqlText (lf_ua lf)); ("path", SqlText (lf_path lf));
   ("method", SqlText (lf_method lf)); ("payload", SqlText (lf_payload lf));
   ("num_params", SqlInt (lf_num_params lf)); ("payload_len", SqlInt (lf_payload_len lf));
   ("anomaly", SqlBool (lf_anomaly lf)); ("profile", opt_text (lf_profile lf));
   ("decoy_file", opt_text (lf_decoy_file lf))].

(** [Blocklist(ip=ip, reason=reason)] in [api_block] (line 462). *)
Definition block_params (ip : string) (reason : option string) : list (string * SqlValue) :=
  [("ip", SqlText ip); ("reason", opt_text reason)].

(** The two commits of the handlers on the file. *)
Definition sql_commit_log (s : Sqlite) (lf : LogFields) (now : Z) : res Sqlite :=
  sql_insert s (tablename Log) (log_params lf) now.
Definition sql_commit_block (s : Sqlite) (ip : string) (reason : option string) (now : Z) : res Sqlite :=
  sql_insert s (tablename Blocklist) (block_params ip reason) now.

(** Column [n] of each row holds the encoding of the matching object. *)
Definition rows_col {A} (cols : list Column) (n : string) (enc : A -> SqlValue) (rows : list Row) (xs : list A) : Prop :=
  Forall2 (fun r x => row_get cols r n = Some (enc x)) rows xs.

(** ** Well-typed files *)

(** A value SQLAlchemy can store in a column: its type, or NULL in a
    nullable column (every column but the primary key, unless
    [nullable=False]). *)
Definition value_fits (c : Column) (v : SqlValue) : bool :=
  match v, col_type c with
  | SqlNull, _ => negb (col_primary c) && default true (col_nullable c)
  | SqlInt _, CInteger | SqlText _, CString _ | SqlText _, CText
  | SqlTime _, CDateTime | SqlBool _, CBoolean => true
  | _, _ => false
  end.

Definition row_fits (cols : list Column) (r : Row) : Prop :=
  Forall2 (fun c v => value_fits c v = true) cols r.

(** Every row of every table has one fitting value per column. *)
Definition file_wf (f : SqliteFile) : Prop :=
  map_Forall (fun _ t => Forall (row_fits (tbl_columns t)) (tbl_rows t)) f.

(** ** Example data *)

(** The file of a first start: both tables created and empty. *)
Definition first_start : Sqlite := mkSqlite (create_all current_models ∅) true true.

Definition witness_fields : LogFields :=
  mkLogFields "10.0.0.5" "curl/8.0" "/api/login" "POST" "{}" 1 2 true (Some "{}") None.

(** ** Lemmas *)

Lemma next_rowid_fresh (ids : list Z) (x : Z) : x ∈ ids -> (x < next_rowid ids)%Z.
Proof. intros Hx. apply fold_max_ge in Hx. unfold next_rowid. lia. Qed.

Lemma row_to_log_build (lf : LogFields) (id now : Z) :
  row_to_log (model_columns Log) (build_row (model_columns Log) (log_params lf) id now) =
  Some (mkLogRow id now lf).
Proof. destruct lf as [ip ua path method payload np pl anom [p|] [d|]]; reflexivity. Qed.

Lemma get_int_Some (cols : list Column) (r : Row) (n : string) (z : Z) :
  get_int cols r n = Some z -> row_get cols r n = Some (SqlInt z).
Proof. unfold get_int. repeat case_match; congruence. Qed.

Lemma get_text_Some (cols : list Column) (r : Row) (n : string) (s : string) :
  get_text cols r n = Some s -> row_get cols r n = Some (SqlText s).
Proof. unfold get_text. repeat case_match; congruence. Qed.

(** Peel the binds of a decoder that returned [Some]. *)
Ltac peel_binds H := repeat (apply bind_Some in H as (?&?&H)); simplify_eq.

Lemma row_to_log_id (cols : list Column) (r : Row) (l : LogRow) :
  row_to_log cols r = Some l -> row_get cols r "id" = Some (SqlInt (log_id l)).
Proof. unfold row_to_log. intros H. peel_binds H. by apply get_int_Some. Qed.

Lemma rows_col_decoded {A B} (cols : list Column) (n : string) (enc : B -> SqlValue)
    (dec : Row -> option A) (key : A -> B) rows xs :
  (forall r x, dec r = Some x -> row_get cols r n = Some (enc (key x))) ->
  mapM dec rows = Some xs -> rows_col cols n enc rows (map key xs).
Proof.
  intros Hk Hm. apply mapM_Some in Hm. unfold rows_col.
  induction Hm; simpl; constructor; eauto.
Qed.

(** A [WHERE col = v] test over the rows is the same test over the objects. *)
Lemma existsb_rows_col {A} (cols : list Column) (n : string) (enc : A -> SqlValue) rows xs (v : SqlValue) :
  rows_col cols n enc rows xs ->
  existsb (fun r => bool_decide (row_get cols r n = Some v)) rows = existsb (fun x => bool_decide (enc x = v)) xs.
Proof.
  intros Hc. induction Hc as [|r x rows xs Hr _ IH]; simpl; [done|]. rewrite Hr, IH.
  f_equal. apply bool_decide_ext. split; [by intros [=]|by intros ->].
Qed.

Lemma primary_values_ids (cols : list Column) (c : Column) rows ids :
  List.find col_primary cols = Some c -> col_name c = "id" ->
  rows_col cols "id" SqlInt rows ids -> primary_values cols rows = ids.
Proof.
  intros Hf Hn Hids. unfold primary_values. rewrite Hf, Hn.
  induction Hids as [|r z rows ids Hr _ IH]; simpl; [done|]. rewrite Hr. f_equal. exact IH.
Qed.

(** The next rowid is in no row. *)
Lemma next_rowid_unused (ids : list Z) :
  existsb (fun z => bool_decide (SqlInt z = SqlInt (next_rowid ids))) ids = false.
Proof.
  apply not_true_iff_false. intros (x & Hx & Heq)%existsb_exists.
  apply bool_decide_eq_true in Heq as [= ->]. apply list_elem_of_In, next_rowid_fresh in Hx. lia.
Qed.

Lemma log_row_unique (lf : LogFields) (rows : list Row) (id now : Z) :
  violates_unique (model_columns Log) rows (build_row (model_columns Log) (log_params lf) id now) =
  existsb (fun r' => bool_decide (row_get (model_columns Log) r' "id" = Some (SqlInt id))) rows.
Proof.
  destruct lf. cbn. rewrite bool_decide_true by discriminate. by rewrite orb_false_r.
Qed.

Lemma mapM_snoc {A B} (f : A -> option B) (l : list A) (xs : list B) (x : A) (y : B) :
  mapM f l = Some xs -> f x = Some y -> mapM f (l ++ [x])%list = Some (xs ++ [y])%list.
Proof. rewrite !mapM_Some. intros Hl Hx. apply Forall2_app; [done|by constructor]. Qed.

(** The parts of a view: the table of each model and its objects. *)
Lemma db_view_Some (s : Sqlite) (db : Db) :
  db_view s = Some db ->
  exists tl tb, sq_file s !! tablename Log = Some tl /\ tbl_columns tl = model_columns Log /\
    mapM (row_to_log (model_columns Log)) (tbl_rows tl) = Some (db_logs db) /\
    sq_file s !! tablename Blocklist = Some tb /\ tbl_columns tb = model_columns Blocklist /\
    mapM (row_to_block (model_columns Blocklist)) (tbl_rows tb) = Some (db_blocklist db) /\
    db_reads_ok db = sq_reads_ok s /\ db_writes_ok db = sq_writes_ok s.
Proof.
  unfold db_view, load_table. intros H.
  apply bind_Some in H as (logs & Hl & H). apply bind_Some in H as (bl & Hb & [= <-]).
  apply bind_Some in Hl as (tl & Htl & Hl). apply bind_Some in Hb as (tb & Htb & Hb).
  case_bool_decide as Hcl; [|discriminate]. case_bool_decide as Hcb; [|discriminate].
  exists tl, tb. rewrite <- Hcl, <- Hcb. repeat split; assumption.
Qed.

Lemma row_to_block_build (ip : string) (reason : option string) (id now : Z) :
  row_to_block (model_columns Blocklist) (build_row (model_columns Blocklist) (block_params ip reason) id now) =
  Some (mkBlockRow id ip reason now).
Proof. destruct reason; reflexivity. Qed.

Lemma row_to_block_id (cols : list Column) (r : Row) (b : BlockRow) :
  row_to_block cols r = Some b -> row_get cols r "id" = Some (SqlInt (blk_id b)).
Proof. unfold row_to_block. intros H. peel_binds H. by apply get_int_Some. Qed.

Lemma row_to_block_ip (cols : list Column) (r : Row) (b : BlockRow) :
  row_to_block cols r = Some b -> row_get cols r "ip" = Some (SqlText (blk_ip b)).
Proof. unfold row_to_block. intros H. peel_binds H. by apply get_text_Some. Qed.

Lemma block_row_unique (ip : string) (reason : option string) (rows : list Row) (id now : Z) :
  violates_unique (model_columns Blocklist) rows (build_row (model_columns Blocklist) (block_params ip reason) id now) =
  existsb (fun r' => bool_decide (row_get (model_columns Blocklist) r' "id" = Some (SqlInt id))) rows ||
  existsb (fun r' => bool_decide (row_get (model_columns Blocklist) r' "ip" = Some (SqlText ip))) rows.
Proof. cbn. rewrite !bool_decide_true by discriminate. by rewrite !orb_false_r. Qed.

Lemma sql_text_eqb (a b : string) : bool_decide (SqlText a = SqlText b) = String.eqb a b.
Proof. destruct (String.eqb_spec a b) as [->|Hne]; [by apply bool_decide_true|]. apply bool_decide_false. congruence. Qed.

(** [Store.commit_log] is the insert of the [Log(...)] object. *)
Lemma commit_log_refines (s : Sqlite) (db : Db) (lf : LogFields) (now : Z) :
  db_view s = Some db ->
  match sql_commit_log s lf now with
  | Ok s' => exists db', commit_log db lf now = Ok db' /\ db_view s' = Some db'
  | Raise e => commit_log db lf now = Raise e
  end.
Proof.
  intros (tl & tb & Htl & Hcl & Hl & Htb & Hcb & Hb & Hr & Hw)%db_view_Some.
  unfold sql_commit_log, sql_insert, commit_log. rewrite Hw, Htl, Hcl.
  destruct (sq_writes_ok s); [|done].
  pose proof (rows_col_decoded _ _ SqlInt _ log_id _ _ (row_to_log_id _) Hl) as Hids.
  rewrite (primary_values_ids (model_columns Log) _ _ _ eq_refl eq_refl Hids).
  rewrite log_row_unique, (existsb_rows_col _ _ _ _ _ _ Hids), next_rowid_unused.
  eexists; split; [reflexivity|].
  unfold db_view, load_table; cbn [sq_file sq_reads_ok sq_writes_ok].
  rewrite lookup_insert_eq, lookup_insert_ne, Htb by discriminate. cbn [mbind option_bind tbl_columns tbl_rows].
  rewrite !bool_decide_true by done.
  rewrite (mapM_snoc _ _ _ _ _ Hl (row_to_log_build _ _ _)), Hcb, Hb. simpl. by rewrite Hr.
Qed.

(** [Store.commit_block] is the insert of the [Blocklist(...)] object. *)
Lemma commit_block_refines (s : Sqlite) (db : Db) (ip : string) (reason : option string) (now : Z) :
  db_view s = Some db ->
  match sql_commit_block s ip reason now with
  | Ok s' => exists db', commit_block db ip reason now = Ok db' /\ db_view s' = Some db'
  | Raise e => commit_block db ip reason now = Raise e
  end.
Proof.
  intros (tl & tb & Htl & Hcl & Hl & Htb & Hcb & Hb & Hr & Hw)%db_view_Some.
  unfold sql_commit_block, sql_insert, commit_block. rewrite Hw, Htb, Hcb.
  destruct (sq_writes_ok s); [|done].
  pose proof (rows_col_decoded _ _ SqlInt _ blk_id _ _ (row_to_block_id _) Hb) as Hids.
  pose proof (rows_col_decoded _ _ SqlText _ blk_ip _ _ (row_to_block_ip _) Hb) as Hips.
  rewrite (primary_values_ids (model_columns Blocklist) _ _ _ eq_refl eq_refl Hids).
  rewrite block_row_unique, (existsb_rows_col _ _ _ _ _ _ Hids), next_rowid_unused,
    (existsb_rows_col _ _ _ _ _ _ Hips), (existsb_map_ext _ _ _ _ (fun b => sql_text_eqb (blk_ip b) ip)).
  cbn [orb].
  destruct (existsb _ (db_blocklist db)); [done|].
  eexists; split; [reflexivity|].
  unfold db_view, load_table; cbn [sq_file sq_reads_ok sq_writes_ok].
  rewrite lookup_insert_eq, lookup_insert_ne, Htl by discriminate. cbn [mbind option_bind tbl_columns tbl_rows].
  rewrite !bool_decide_true by done.
  rewrite Hcl, Hl, (mapM_snoc _ _ _ _ _ Hb (row_to_block_build _ _ _ _)). simpl. by rewrite Hr.
Qed.

Lemma create_table_keeps (f : SqliteFile) (m : Model) (n : string) (t : Table) :
  f !! n = Some t -> create_table f m !! n = Some t.
Proof.
  intros Hn. unfold create_table. destruct (f !! tablename m) eqn:Hm; [done|].
  rewrite lookup_insert_ne; [done|]. intros Heq. subst n. congruence.
Qed.

(** [create_all] never touches a table that exists: it does not migrate. *)
Lemma create_all_keeps (ms : list Model) (f : SqliteFile) (n : string) (t : Table) :
  f !! n = Some t -> create_all ms f !! n = Some t.
Proof.
  unfold create_all. revert f. induction ms as [|m ms IH]; intros f Hn; simpl; [done|].
  apply IH, create_table_keeps, Hn.
Qed.

Lemma create_table_absent (f : SqliteFile) (m : Model) (n : string) :
  f !! n = None -> n <> tablename m -> create_table f m !! n = None.
Proof.
  intros Hn Hne. unfold create_table. destruct (f !! tablename m); [done|].
  by rewrite lookup_insert_ne by congruence.
Qed.

Lemma create_table_new (f : SqliteFile) (m : Model) :
  f !! tablename m = None -> create_table f m !! tablename m = Some (mkTable (model_columns m) []).
Proof. intros Hm. unfold create_table. rewrite Hm. apply lookup_insert_eq. Qed.

Lemma create_table_has (f : SqliteFile) (m : Model) : is_Some (create_table f m !! tablename m).
Proof.
  destruct (f !! tablename m) eqn:E; [by rewrite (create_table_keeps _ _ _ _ E)|].
  by rewrite create_table_new.
Qed.

(** After [create_all], every model has its table. *)
Lemma create_all_has (ms : list Model) (f : SqliteFile) (m : Model) :
  m ∈ ms -> is_Some (create_all ms f !! tablename m).
Proof.
  unfold create_all. revert f. induction ms as [|m' ms IH]; intros f Hm; [set_solver|]. simpl.
  apply elem_of_cons in Hm as [<-|Hm]; [|by apply IH].
  destruct (create_table_has f m) as [t Ht]. exists t. by apply create_all_keeps.
Qed.

Lemma load_table_empty {A} (f : SqliteFile) (m : Model) (dec : list Column -> Row -> option A) :
  f !! tablename m = Some (mkTable (model_columns m) []) -> load_table f m dec = Some [].
Proof. intros Hf. unfold load_table. rewrite Hf. cbn. by rewrite bool_decide_true. Qed.

(** [db.create_all()] on a file without the [logs] table: that table
    starts empty, the [blocklist] table is used as it is. *)
Lemma create_all_view_existing (f : SqliteFile) (bs : list BlockRow) (r w : bool) :
  f !! tablename Log = None -> load_table f Blocklist row_to_block = Some bs ->
  db_view (mkSqlite (create_all current_models f) r w) = Some (mkDb [] bs r w).
Proof.
  intros Hl Hb. unfold load_table in Hb. apply bind_Some in Hb as (tb & Htb & Hb).
  unfold db_view. cbn [sq_file sq_reads_ok sq_writes_ok].
  unfold create_all, current_models. cbn [foldl].
  rewrite (load_table_empty _ Log); cycle 1.
  { by apply create_table_keeps, create_table_new. }
  unfold load_table at 1. rewrite (create_table_keeps _ _ _ tb); [|apply create_table_keeps, Htb].
  cbn [mbind option_bind]. by rewrite Hb.
Qed.

(** A first start: both tables are created empty. *)
Lemma create_all_fresh (f : SqliteFile) (r w : bool) :
  f !! tablename Log = None -> f !! tablename Blocklist = None ->
  db_view (mkSqlite (create_all current_models f) r w) = Some (mkDb [] [] r w).
Proof.
  intros Hl Hb. unfold db_view, create_all, current_models. cbn [sq_file sq_reads_ok sq_writes_ok foldl].
  rewrite (load_table_empty _ Log), (load_table_empty _ Blocklist); [done| |].
  - apply create_table_new, create_table_absent; [done|discriminate].
  - by apply create_table_keeps, create_table_new.
Qed.

Lemma load_table_same {A} (f f' : SqliteFile) (m : Model) (dec : list Column -> Row -> option A) :
  f' !! tablename m = f !! tablename m -> load_table f' m dec = load_table f m dec.
Proof. intros H. unfold load_table. by rewrite H. Qed.

(** A restart: the store is read back as it was. *)
Lemma create_all_restart (s : Sqlite) (db : Db) :
  db_view s = Some db ->
  db_view (mkSqlite (create_all current_models (sq_file s)) (sq_reads_ok s) (sq_writes_ok s)) = Some db.
Proof.
  intros Hv. pose proof Hv as (tl & tb & Htl & _ & _ & Htb & _)%db_view_Some.
  rewrite <- Hv. unfold db_view. cbn [sq_file sq_reads_ok sq_writes_ok].
  rewrite (load_table_same (sq_file s) _ Log), (load_table_same (sq_file s) _ Blocklist); [done| |];
    by erewrite create_all_keeps.
Qed.

(** ** The file stays well typed *)

Lemma log_row_fits (lf : LogFields) (id now : Z) :
  row_fits (model_columns Log) (build_row (model_columns Log) (log_params lf) id now).
Proof. destruct lf as [? ? ? ? ? ? ? ? [?|] [?|]]; repeat constructor. Qed.

Lemma block_row_fits (ip : string) (reason : option string) (id now : Z) :
  row_fits (model_columns Blocklist) (build_row (model_columns Blocklist) (block_params ip reason) id now).
Proof. destruct reason; repeat constructor. Qed.

(** An insert of a fitting row into a table of a well-typed file. *)
Lemma sql_insert_wf (s s' : Sqlite) (tn : string) (params : list (string * SqlValue)) (now : Z) :
  file_wf (sq_file s) ->
  (forall t rowid, sq_file s !! tn = Some t -> row_fits (tbl_columns t) (build_row (tbl_columns t) params rowid now)) ->
  sql_insert s tn params now = Ok s' -> file_wf (sq_file s').
Proof.
  intros Hwf Hfit. unfold sql_insert. destruct (sq_writes_ok s); [|discriminate].
  destruct (sq_file s !! tn) as [t|] eqn:Ht; [|discriminate].
  destruct (violates_unique _ _ _); [discriminate|]. intros [= <-]. cbn [sq_file].
  apply map_Forall_insert_2; [|exact Hwf]. cbn [tbl_columns tbl_rows].
  apply Forall_app. split; [exact (Hwf tn t Ht)|]. constructor; [by apply Hfit|constructor].
Qed.

Lemma create_all_wf (ms : list Model) (f : SqliteFile) : file_wf f -> file_wf (create_all ms f).
Proof.
  unfold create_all. revert f. induction ms as [|m ms IH]; intros f Hf; simpl; [done|].
  apply IH. unfold create_table. destruct (f !! tablename m); [done|].
  apply map_Forall_insert_2; [constructor|exact Hf].
Qed.

(** Every operation on the file keeps it well typed: [db.create_all()]
    and the two commits of the handlers on a file the models can read. *)
Theorem file_wf_preserved :
  (forall (ms : list Model) (f : SqliteFile), file_wf f -> file_wf (create_all ms f)) /\
  (forall (s s' : Sqlite) (db : Db) (lf : LogFields) (now : Z),
     db_view s = Some db -> file_wf (sq_file s) -> sql_commit_log s lf now = Ok s' -> file_wf (sq_file s')) /\
  (forall (s s' : Sqlite) (db : Db) (ip : string) (reason : option string) (now : Z),
     db_view s = Some db -> file_wf (sq_file s) -> sql_commit_block s ip reason now = Ok s' -> file_wf (sq_file s')).
Proof.
  split; [exact create_all_wf|]. split.
  - intros s s' db lf now (tl & tb & Htl & Hcl & _)%db_view_Some Hwf.
    apply sql_insert_wf; [done|]. intros t rowid Ht. rewrite Htl in Ht. injection Ht as <-.
    rewrite Hcl. apply log_row_fits.
  - intros s s' db ip reason now (tl & tb & _ & _ & _ & Htb & Hcb & _)%db_view_Some Hwf.
    apply sql_insert_wf; [done|]. intros t rowid Ht. rewrite Htb in Ht. injection Ht as <-.
    rewrite Hcb. apply block_row_fits.
Qed.

(** ** Properties *)

(** C35: [db.create_all()] at startup: on a file without the two tables
    the service starts from the empty store [empty_db], and on a file it
    already uses it creates nothing and the store is read back unchanged. *)
Theorem create_all_startup :
  (forall (f : SqliteFile) (r w : bool),
     f !! tablename Log = None -> f !! tablename Blocklist = None ->
     db_view (mkSqlite (create_all current_models f) r w) = Some (mkDb [] [] r w)) /\
  (forall (s : Sqlite) (db : Db),
     db_view s = Some db ->
     db_view (mkSqlite (create_all current_models (sq_file s)) (sq_reads_ok s) (sq_writes_ok s)) = Some db).
Proof. split; [apply create_all_fresh | apply create_all_restart]. Qed.

Lemma create_all_startup_witness :
  (∅ : SqliteFile) !! tablename Log = None /\ (∅ : SqliteFile) !! tablename Blocklist = None /\
  db_view first_start = Some empty_db /\
  db_view (mkSqlite (create_all current_models (sq_file first_start)) true true) = Some empty_db.
Proof.
  assert (Hl : (∅ : SqliteFile) !! tablename Log = None) by reflexivity.
  assert (Hb : (∅ : SqliteFile) !! tablename Blocklist = None) by reflexivity.
  assert (H : db_view first_start = Some empty_db) by exact (proj1 create_all_startup _ true true Hl Hb).
  split; [exact Hl|]. split; [exact Hb|]. split; [exact H|].
  exact (proj2 create_all_startup _ _ H).
Defined.
