(* ===== verification/Features.v ===== *)
(** * The feature extractor

    [features_from_request] (src/Backend/app.py, lines 122-137) turns a
    request, its source address and the store at time [now] into the
    feature dict the model scores, through [has_sql_signature] (lines
    71-80), [count_special_chars] (82-85), the user-agent token test (127)
    and the rate tracker of Store.v.  The theorems bound every feature,
    show the SQL test case-insensitive and its signature list redundant,
    show the extractor deterministic with a rate feature monotone in the
    log, and show that a JSON-typed body that does not parse reaches the
    model as an empty payload. *)
From S2P Require Import Prelude PyStr Json Request Store.
From Stdlib Require Import Ascii String.

Open Scope string_scope.

(** ** Signatures and character classes *)

Definition SQL_SIGS : list string :=
  ["--"; " OR "; "AND 1=1"; "UNION SELECT"; "SELECT *"; "DROP TABLE"; ";--"; "1=1"].

(** [has_sql_signature(s)]: falsy values are not signatures; [s.upper()]
    on a value that is not a string raises [AttributeError], which the
    function catches. *)
Definition has_sql_signature (s : json) : bool :=
  if negb (py_truthy s) then false
  else match s with
       | JStr t => existsb (fun sig => contains sig (py_upper t)) SQL_SIGS
       | _ => false
       end.

(** The character set of line 85: the double quote followed by
    [ '`;-=()[]{}<> ]. *)
Definition SPECIAL_CHARS : string := String dq "'`;-=()[]{}<>".

Definition count_special_chars (s : string) : Z :=
  if negb (str_truthy s) then 0%Z
  else zcount (fun c => char_in c SPECIAL_CHARS) (list_ascii_of_string s).

Definition UA_TOKENS : list string := ["curl"; "sqlmap"; "nmap"; "bot"; "scanner"].

Definition ua_flag_of (ua : string) : Z :=
  flag (existsb (fun k => contains k (py_lower ua)) UA_TOKENS).

(** ** The feature dict *)

Record Features := mkFeatures {
  payload_len : Z;
  reqs_per_min : Z;
  ua_flag : Z;
  sql_flag : Z;
  special_chars : Z;
  num_params : Z
}.

Definition features_from_request (db : Db) (now : Z) (r : Request) (ip : string) : Features :=
  let ua := header_get r "User-Agent" "" in
  let '(payload, np) := extract_payload_and_params r in
  {| payload_len := Z.of_nat (String.length payload);
     reqs_per_min := get_reqs_per_min db ip now;
     ua_flag := ua_flag_of ua;
     sql_flag := flag (has_sql_signature (JStr payload));
     special_chars := count_special_chars payload;
     num_params := np |}.

(** [feat['sql_flag'] = 1], the query handler's override. *)
Definition set_sql_flag (f : Features) : Features :=
  {| payload_len := payload_len f; reqs_per_min := reqs_per_min f; ua_flag := ua_flag f;
     sql_flag := 1%Z; special_chars := special_chars f; num_params := num_params f |}.

(** ** A minimal signature list *)

(** The signatures ["AND 1=1"] and [";--"] contain ["1=1"] and ["--"]. *)
Definition SQL_SIGS_MIN : list string :=
  ["--"; " OR "; "UNION SELECT"; "SELECT *"; "DROP TABLE"; "1=1"].

Definition has_sql_signature_min (s : json) : bool :=
  if negb (py_truthy s) then false
  else match s with
       | JStr t => existsb (fun sig => contains sig (py_upper t)) SQL_SIGS_MIN
       | _ => false
       end.

(** ** Requests of the witnesses *)

Definition witness_raw_request : Request :=
  mkRequest (Some "203.0.113.7") [("user-agent", "curl/7.68")] "/api/query" "POST"
            "http://honeypot.local/" false None (Some []) "id=1 UNION SELECT * FROM users" [].

Definition witness_bad_json_request : Request :=
  mkRequest (Some "203.0.113.7") [("User-Agent", "Mozilla/5.0")] "/api/login" "POST"
            "http://honeypot.local/" true None (Some []) "{x: 1 UNION SELECT password FROM users" [].

Definition witness_log_row : LogRow :=
  mkLogRow 1 0 (mkLogFields "203.0.113.7" "curl" "/api/login" "POST" "" 0 0 false None None).

(** ** Helper lemmas *)

Lemma count_special_chars_bounds (s : string) :
  (0 <= count_special_chars s <= Z.of_nat (String.length s))%Z.
Proof.
  unfold count_special_chars. destruct (negb (str_truthy s)); [lia|].
  pose proof (zcount_bounds (fun c => char_in c SPECIAL_CHARS) (list_ascii_of_string s)) as H.
  unfold zlen in H. rewrite list_ascii_length in H. exact H.
Qed.

Lemma count_logs_nonneg (db : Db) ip cutoff n :
  count_logs_since db ip cutoff = Ok n -> (0 <= n)%Z.
Proof.
  unfold count_logs_since. destruct (db_reads_ok db); intros H; inversion H.
  apply zcount_bounds.
Qed.

Lemma get_reqs_per_min_nonneg (db : Db) ip now : (0 <= get_reqs_per_min db ip now)%Z.
Proof.
  unfold get_reqs_per_min. destruct (count_logs_since db ip _) eqn:E; [|lia].
  eapply count_logs_nonneg; eauto.
Qed.

Lemma upper_lower_char (c : ascii) : upper_char (lower_char c) = upper_char c.
Proof.
  unfold upper_char, lower_char.
  destruct ((65 <=? nat_of_ascii c) && (nat_of_ascii c <=? 90))%nat eqn:E.
  - apply andb_true_iff in E as [E1 E2]. apply Nat.leb_le in E1, E2.
    rewrite nat_ascii_embedding by lia.
    replace ((97 <=? nat_of_ascii c + 32) && (nat_of_ascii c + 32 <=? 122))%nat with true
      by (symmetry; apply andb_true_iff; split; apply Nat.leb_le; lia).
    replace ((97 <=? nat_of_ascii c) && (nat_of_ascii c <=? 122))%nat with false
      by (symmetry; apply andb_false_iff; left; apply Nat.leb_gt; lia).
    rewrite Nat.add_sub. apply ascii_nat_embedding.
  - reflexivity.
Qed.

Lemma py_upper_lower (s : string) : py_upper (py_lower s) = py_upper s.
Proof.
  unfold py_upper, py_lower. induction s as [|c s IH]; simpl; [reflexivity|].
  rewrite upper_lower_char, IH. reflexivity.
Qed.

Lemma str_truthy_lower (s : string) : str_truthy (py_lower s) = str_truthy s.
Proof. destruct s; reflexivity. Qed.

Lemma py_upper_sig (sig : string) : sig ∈ SQL_SIGS -> py_upper sig = sig.
Proof. intros H. repeat (rewrite elem_of_cons in H; destruct H as [->|H]; [reflexivity|]). set_solver. Qed.

Lemma zcount_app_le {A} (p : A -> bool) (l1 l2 : list A) :
  (zcount p l1 <= zcount p (l1 ++ l2))%Z.
Proof. rewrite zcount_app. pose proof (zcount_bounds p l2). lia. Qed.

(** The rate feature only grows when rows are appended to the log. *)
Lemma get_reqs_per_min_mono (db db' : Db) extra ip now :
  db_logs db' = (db_logs db ++ extra)%list -> db_reads_ok db' = db_reads_ok db ->
  (get_reqs_per_min db ip now <= get_reqs_per_min db' ip now)%Z.
Proof.
  intros Hl Hr. unfold get_reqs_per_min, count_logs_since. rewrite Hr, Hl.
  destruct (db_reads_ok db); [apply zcount_app_le | lia].
Qed.

(** ** Properties of the extractor *)

(** C9: every feature the extractor produces is a
    non-negative integer, the user-agent and SQL flags are 0 or 1, and the
    special-character count never exceeds the payload length. *)
Theorem features_bounds (db : Db) (now : Z) (r : Request) (ip : string) :
  let f := features_from_request db now r ip in
  (0 <= payload_len f)%Z /\ (0 <= reqs_per_min f)%Z /\
  (ua_flag f = 0 \/ ua_flag f = 1)%Z /\ (sql_flag f = 0 \/ sql_flag f = 1)%Z /\
  (0 <= special_chars f <= payload_len f)%Z /\ (0 <= num_params f)%Z.
Proof.
  unfold features_from_request.
  pose proof (extract_num_params_nonneg r) as Hn.
  destruct (extract_payload_and_params r) as [payload np]; simpl in *.
  pose proof (count_special_chars_bounds payload).
  pose proof (get_reqs_per_min_nonneg db ip now).
  unfold ua_flag_of. repeat split; auto using flag_range with lia.
Qed.

(** A string that contains one of the SQL
    signatures, written in any mix of letter cases, is flagged. *)
Theorem sql_signature_any_case (sig w a b : string) :
  sig ∈ SQL_SIGS -> py_upper w = sig -> has_sql_signature (JStr (a ++ w ++ b)) = true.
Proof.
  intros Hsig Hw. unfold has_sql_signature.
  assert (Ht : py_truthy (JStr (a ++ w ++ b)) = true).
  { assert (w <> EmptyString) by (intros ->; subst; set_solver).
    destruct a; [destruct w; [congruence|reflexivity] | reflexivity]. }
  rewrite Ht. cbn [negb]. apply existsb_exists. exists sig. split; [apply list_elem_of_In; exact Hsig|].
  unfold py_upper. rewrite !str_map_app. fold (py_upper w). rewrite Hw.
  apply contains_app_r, contains_app_l, contains_refl.
Qed.

Lemma sql_sigs_redundant_str (t : string) :
  existsb (fun sig => contains sig t) SQL_SIGS =
  existsb (fun sig => contains sig t) SQL_SIGS_MIN.
Proof.
  simpl. destruct (contains "--" t) eqn:E1; [reflexivity|].
  destruct (contains " OR " t); [reflexivity|].
  destruct (contains "AND 1=1" t) eqn:E3.
  { symmetry. rewrite !orb_true_iff. right; right; right; right; right; left.
    apply (contains_trans _ "AND 1=1"); [reflexivity | exact E3]. }
  destruct (contains "UNION SELECT" t); [reflexivity|].
  destruct (contains "SELECT *" t); [reflexivity|].
  destruct (contains "DROP TABLE" t); [reflexivity|].
  destruct (contains ";--" t) eqn:E7; [|reflexivity].
  exfalso. assert (contains "--" t = true) by (apply (contains_trans _ ";--"); [reflexivity | exact E7]).
  congruence.
Qed.

(** The eight-signature test of the code decides
    the same as the six signatures left when ["AND 1=1"] and [";--"], which
    contain ["1=1"] and ["--"], are dropped. *)
Theorem sql_sigs_redundant (s : json) : has_sql_signature s = has_sql_signature_min s.
Proof.
  unfold has_sql_signature, has_sql_signature_min.
  destruct (negb (py_truthy s)); [reflexivity|].
  destruct s; try reflexivity. apply sql_sigs_redundant_str.
Qed.

(** C7: a request whose mimetype is JSON but whose
    body does not parse reaches the model as an empty payload, whatever
    its raw text: payload length, SQL flag, special characters and
    parameter count are all 0 (the spec asks for a raw-text fallback). *)
Theorem malformed_json_blind (db : Db) (now : Z) (r : Request) (ip : string) :
  req_is_json r = true -> req_body_json r = None ->
  let f := features_from_request db now r ip in
  payload_len f = 0%Z /\ sql_flag f = 0%Z /\ special_chars f = 0%Z /\ num_params f = 0%Z.
Proof.
  intros Hj Hb. unfold features_from_request, extract_payload_and_params, get_json.
  rewrite Hj, Hb. simpl. repeat split.
Qed.

(** Extracting twice from the same request
    while the log only grows gives the same features except the request
    rate, which does not decrease. *)
Theorem features_log_monotone (db db' : Db) (extra : list LogRow) (now : Z) (r : Request) (ip : string) :
  db_logs db' = (db_logs db ++ extra)%list -> db_reads_ok db' = db_reads_ok db ->
  let f := features_from_request db now r ip in
  let f' := features_from_request db' now r ip in
  f' = {| payload_len := payload_len f; reqs_per_min := reqs_per_min f';
          ua_flag := ua_flag f; sql_flag := sql_flag f;
          special_chars := special_chars f; num_params := num_params f |} /\
  (reqs_per_min f <= reqs_per_min f')%Z.
Proof.
  intros Hl Hr. unfold features_from_request.
  destruct (extract_payload_and_params r) as [payload np]; simpl.
  split; [reflexivity|]. eapply get_reqs_per_min_mono; eauto.
Qed.

(** A raw (not JSON, no form fields) body
    [id=1 UNION SELECT * FROM users] sent with the client string
    [curl/7.68] is scored with the SQL and user-agent flags set, payload
    length 30 and one query-like parameter, whatever the store. *)
Theorem raw_scenario_flags (db : Db) (now : Z) (r : Request) (ip : string) :
  req_is_json r = false -> req_form r = Some [] ->
  req_data r = "id=1 UNION SELECT * FROM users" ->
  header_lookup "User-Agent" (req_headers r) = Some "curl/7.68" ->
  let f := features_from_request db now r ip in
  sql_flag f = 1%Z /\ ua_flag f = 1%Z /\ payload_len f = 30%Z /\ num_params f = 1%Z.
Proof.
  intros Hj Hf Hd Hu. unfold features_from_request, extract_payload_and_params, header_get.
  rewrite Hj, Hf, Hd, Hu. vm_compute. repeat split.
Qed.

(** ** Witnesses *)

Lemma raw_scenario_flags_witness :
  req_is_json witness_raw_request = false /\ req_form witness_raw_request = Some [] /\
  req_data witness_raw_request = "id=1 UNION SELECT * FROM users" /\
  header_lookup "User-Agent" (req_headers witness_raw_request) = Some "curl/7.68" /\
  (let f := features_from_request empty_db 0 witness_raw_request "203.0.113.7" in
   sql_flag f = 1%Z /\ ua_flag f = 1%Z /\ payload_len f = 30%Z /\ num_params f = 1%Z).
Proof.
  split; [reflexivity|]. split; [reflexivity|]. split; [reflexivity|]. split; [reflexivity|].
  apply raw_scenario_flags; reflexivity.
Defined.

Lemma sql_signature_any_case_witness :
  "UNION SELECT" ∈ SQL_SIGS /\ py_upper "union select" = "UNION SELECT" /\
  has_sql_signature (JStr ("id=1 " ++ "union select" ++ " * FROM users")) = true.
Proof.
  split; [apply list_elem_of_In; simpl; tauto|]. split; [reflexivity|].
  apply (sql_signature_any_case "UNION SELECT"); [apply list_elem_of_In; simpl; tauto | reflexivity].
Defined.

Lemma malformed_json_blind_witness :
  req_is_json witness_bad_json_request = true /\ req_body_json witness_bad_json_request = None /\
  (let f := features_from_request empty_db 0 witness_bad_json_request "203.0.113.7" in
   payload_len f = 0%Z /\ sql_flag f = 0%Z /\ special_chars f = 0%Z /\ num_params f = 0%Z).
Proof.
  split; [reflexivity|]. split; [reflexivity|]. apply malformed_json_blind; reflexivity.
Defined.

Lemma features_log_monotone_witness :
  db_logs (mkDb [witness_log_row] [] true true) = (db_logs empty_db ++ [witness_log_row])%list /\
  db_reads_ok (mkDb [witness_log_row] [] true true) = db_reads_ok empty_db /\
  (let f := features_from_request empty_db 0 witness_raw_request "203.0.113.7" in
   let f' := features_from_request (mkDb [witness_log_row] [] true true) 0 witness_raw_request "203.0.113.7" in
   f' = {| payload_len := payload_len f; reqs_per_min := reqs_per_min f';
           ua_flag := ua_flag f; sql_flag := sql_flag f;
           special_chars := special_chars f; num_params := num_params f |} /\
   (reqs_per_min f <= reqs_per_min f')%Z).
Proof.
  split; [reflexivity|]. split; [reflexivity|].
  apply (features_log_monotone empty_db _ [witness_log_row]); reflexivity.
Defined.
