(* ===== verification/Detector.v ===== *)
(** * The anomaly model

    The trained IsolationForest (src/Backend/app.py, lines 142-167) is an
    artifact of random training data and is not modelled; what the engine
    relies on is its [predict] on one row, an interface: [OutlierModel M]
    gives, for a model [M], the label of a row ([Some 1] inlier,
    [Some (-1)] outlier) or [None] when [predict] raises.  The global
    [model] may be [None].  [is_anomaly_from_features] (lines 169-178) is
    the wrapper the handlers call; every theorem of the handlers holds for
    any instance.  Two instances serve the witnesses: a threshold model and
    a model whose [predict] always raises. *)
From S2P Require Import Prelude PyStr Json Request Store Features.

Class OutlierModel (M : Type) := {
  om_predict : M -> list Z -> option Z
}.

(** The row [[payload_len, reqs_per_min, ua_flag, sql_flag, special_chars]]
    of line 173: [num_params] is not scored. *)
Definition feature_row (f : Features) : list Z :=
  [payload_len f; reqs_per_min f; ua_flag f; sql_flag f; special_chars f].

(** [is_anomaly_from_features(feat)]: [False] without a model or when
    [predict] raises; otherwise whether the label is [-1]. *)
Definition is_anomaly_from_features {M} `{OutlierModel M} (model : option M) (f : Features) : bool :=
  match model with
  | None => false
  | Some m =>
      match om_predict m (feature_row f) with
      | Some p => Z.eqb p (-1)
      | None => false
      end
  end.

(** ** Instances used by the witnesses *)

(** A model that flags a row when any feature exceeds its bound. *)
Record ThresholdModel := mkThreshold { tm_bounds : list Z }.

#[export] Instance threshold_outlier_model : OutlierModel ThresholdModel := {
  om_predict m row :=
    if existsb (fun '(x, bnd) => (bnd <? x)%Z) (combine row (tm_bounds m))
    then Some (-1)%Z else Some 1%Z
}.

(** A model whose [predict] raises on every row. *)
Record BrokenModel := mkBroken { bm_tag : unit }.

#[export] Instance broken_outlier_model : OutlierModel BrokenModel := {
  om_predict _ _ := None
}.

(** The features of the witnesses. *)
Definition witness_features : Features := mkFeatures 30 0 1 1 1 1.

(** ** Lemmas *)

Section Verdict.
Context {M : Type} `{OutlierModel M}.

Lemma is_anomaly_true (model : option M) (f : Features) :
  is_anomaly_from_features model f = true <->
  exists m, model = Some m /\ om_predict m (feature_row f) = Some (-1)%Z.
Proof.
  unfold is_anomaly_from_features. split.
  - destruct model as [m|]; [|discriminate].
    destruct (om_predict m _) as [p|] eqn:E; [|discriminate].
    intros Hp. apply Z.eqb_eq in Hp. subst. eauto.
  - intros [m [-> Hm]]. rewrite Hm. reflexivity.
Qed.

(** The verdict depends on the scored row only. *)
Lemma is_anomaly_row (model : option M) (f f' : Features) :
  feature_row f = feature_row f' ->
  is_anomaly_from_features model f = is_anomaly_from_features model f'.
Proof. intros Hr. unfold is_anomaly_from_features. rewrite Hr. reflexivity. Qed.

(** C11: without a model, or when the model's
    [predict] raises, the verdict is "not anomalous" (and the wrapper
    never raises). *)
Theorem anomaly_fail_safe (model : option M) (f : Features) :
  model = None \/ (exists m, model = Some m /\ om_predict m (feature_row f) = None) ->
  is_anomaly_from_features model f = false.
Proof. intros [-> | [m [-> Hm]]]; simpl; [reflexivity|]. rewrite Hm. reflexivity. Qed.
End Verdict.

Lemma anomaly_fail_safe_witness :
  ((Some (mkBroken tt) : option BrokenModel) = None \/
   (exists m, (Some (mkBroken tt) : option BrokenModel) = Some m /\
              om_predict m (feature_row witness_features) = None)) /\
  is_anomaly_from_features (Some (mkBroken tt)) witness_features = false.
Proof.
  assert (Hh : (Some (mkBroken tt) : option BrokenModel) = None \/
   (exists m, (Some (mkBroken tt) : option BrokenModel) = Some m /\
              om_predict m (feature_row witness_features) = None))
    by (right; exists (mkBroken tt); split; reflexivity).
  split; [exact Hh | apply anomaly_fail_safe; exact Hh].
Defined.
