(* ===== verification/Decoy.v ===== *)
(** * Decoy files and the fake-data source

    The decoy generators (src/Backend/app.py, lines 183-245) write CSV and
    ZIP files under [DECOY_DIR] with rows drawn from Faker.  [FakeCall]
    names each Faker call the generators make, with its arguments, and
    [Faker F] is the fake-data source as an interface over its state [F]
    (its random generator); [FakerLaws] states what Faker guarantees of
    the draws the decoys rely on.  A generator threads that state through
    its draws in the order Python evaluates them ([FakeM], a state monad).
    [Fs] is the file system the backend touches: the decoy and export
    directories, whether each accepts writes, and the content of every
    file written ([FText] for a CSV file, [FZip] for a ZIP archive given
    by its members; the DEFLATE encoding of the archive is not modelled). *)
From S2P Require Import Prelude PyStr Json Csv Clock.
From Stdlib Require Import Ascii String.

Open Scope string_scope.

(** ** Faker *)

Inductive FakeCall :=
| FName                                     (** [fake.name()] *)
| FCompanyEmail                             (** [fake.company_email()] *)
| FRandomElement (elements : list string)   (** [fake.random_element(elements=...)] *)
| FJob                                      (** [fake.job()] *)
| FPhoneNumber                              (** [fake.phone_number()] *)
| FPassword (length : nat)                  (** [fake.password(length=...)] *)
| FBs                                       (** [fake.bs()] *)
| FSentence (nb_words : nat)                (** [fake.sentence(nb_words=...)] *)
| FUserName                                 (** [fake.user_name()] *)
| FWord                                     (** [fake.word()] *)
| FLexify (text : string)                   (** [fake.lexify(text=...)] *)
| FDomainWord.                              (** [fake.domain_word()] *)

Class Faker (F : Type) := {
  fake_str : FakeCall -> F -> string * F;
  fake_random_int : Z -> Z -> F -> Z * F;             (** [fake.random_int(min, max)] *)
  fake_date_between : string -> string -> F -> Z * F  (** [fake.date_between(...)], in days since 1970-01-01 *)
}.

(** A letter of [string.ascii_letters]. *)
Definition ascii_letter (c : ascii) : bool :=
  let n := nat_of_ascii c in (((65 <=? n) && (n <=? 90)) || ((97 <=? n) && (n <=? 122)))%nat.

(** [fake.lexify(text)]: every [?] of [text] replaced by a letter. *)
Fixpoint lexified (text s : string) : bool :=
  match text, s with
  | EmptyString, EmptyString => true
  | String t text', String c s' =>
      (if Ascii.eqb t "?" then ascii_letter c else Ascii.eqb c t) && lexified text' s'
  | _, _ => false
  end.

(** The longest string a Faker provider without a length argument draws
    here (a name, an e-mail address, a twelve-word sentence, ...). *)
Definition FAKE_MAX : nat := 1024.

(** What Faker guarantees of one draw: [password(length=k)] has [k]
    characters, [lexify] fills the pattern, [random_element] picks one of
    the elements, and the other providers draw short strings. *)
Definition draw_ok (c : FakeCall) (s : string) : Prop :=
  match c with
  | FPassword k => String.length s = k
  | FLexify text => lexified text s = true
  | FRandomElement els => els <> [] -> s ∈ els
  | _ => (String.length s <= FAKE_MAX)%nat
  end.

Class FakerLaws (F : Type) `{Faker F} := {
  fake_draw_ok c f : draw_ok c (fake_str c f).1;
  random_int_range lo hi f : (lo <= hi)%Z -> (lo <= (fake_random_int lo hi f).1 <= hi)%Z
}.

Section FakeMonad.
Context {F : Type}.

(** The draws of a generator: the Faker state threaded through them. *)
Definition FakeM (A : Type) : Type := F -> A * F.

#[export] Instance fake_mret : MRet FakeM := fun A a f => (a, f).
#[export] Instance fake_mbind : MBind FakeM := fun A B k m f => let '(a, f') := m f in k a f'.
End FakeMonad.
Arguments FakeM : clear implicits.

Section Draws.
Context {F : Type} `{Faker F}.

Definition draw (c : FakeCall) : FakeM F string := fake_str c.
Definition random_int (lo hi : Z) : FakeM F Z := fake_random_int lo hi.
Definition date_between (start_date end_date : string) : FakeM F Z := fake_date_between start_date end_date.

Definition fake_name (fk : F) : string * F := fake_str FName fk.

(** [for i in ids: w.writerow(row(i))]: the rows in order. *)
Fixpoint draw_rows (row : nat -> FakeM F (list string)) (ids : list nat) : FakeM F (list (list string)) :=
  match ids with
  | [] => mret []
  | i :: ids' => r ← row i; rs ← draw_rows row ids'; mret (r :: rs)
  end.
End Draws.

(** ** Files *)

Inductive FileData :=
| FText (s : string)
| FZip (members : list (string * string)).   (** [(arcname, content)] *)

Record Fs := mkFs {
  fs_decoy_dir : string;
  fs_writable : bool;             (** the decoy directory accepts writes *)
  fs_files : gmap string FileData;
  fs_exports_dir : string;
  fs_exports_writable : bool      (** the exports directory accepts writes *)
}.

(** [os.path.join(a, b)]. *)
Fixpoint ends_with_slash (a : string) : bool :=
  match a with
  | EmptyString => false
  | String c EmptyString => bool_decide (c = "/"%char)
  | String _ a' => ends_with_slash a'
  end.

Definition path_join (a b : string) : string :=
  match b with
  | String c _ => if bool_decide (c = "/"%char) then b
                  else if negb (str_truthy a) || ends_with_slash a then a ++ b else a ++ "/" ++ b
  | EmptyString => if negb (str_truthy a) || ends_with_slash a then a ++ b else a ++ "/" ++ b
  end.

(** [open(fn, 'w')] and a complete write of [d]. *)
Definition write_file (fs : Fs) (fn : string) (d : FileData) : Fs :=
  {| fs_decoy_dir := fs_decoy_dir fs; fs_writable := fs_writable fs;
     fs_files := <[fn := d]> (fs_files fs);
     fs_exports_dir := fs_exports_dir fs; fs_exports_writable := fs_exports_writable fs |}.

(** ** The generators *)

Definition employees_header : list string :=
  ["id"; "name"; "email"; "dept"; "role"; "phone"; "join_date"; "salary"; "password"].
Definition employee_depts : list string := ["IT"; "Ops"; "HR"; "R&D"].
Definition projects_header : list string :=
  ["id"; "title"; "description"; "owner_email"; "repo_url"; "secret_token"].
Definition credentials_header : list string := ["service"; "username"; "password"; "notes"].

Section Generators.
Context {F : Type} `{Faker F}.

(** One row of [decoy_employees.csv] (lines 190-200), its cells drawn
    left to right. *)
Definition employee_row (i : nat) : FakeM F (list string) :=
  name ← draw FName; email ← draw FCompanyEmail; dept ← draw (FRandomElement employee_depts);
  job ← draw FJob; phone ← draw FPhoneNumber; join ← date_between "-5y" "today";
  salary ← random_int 20000 250000; pw ← draw (FPassword 10);
  mret [z_to_string (Z.of_nat i); name; email; dept; job; phone; date_isoformat join;
        z_to_string salary; pw].

(** One row of [decoy_projects.csv] (lines 213-220). *)
Definition project_row (i : nat) : FakeM F (list string) :=
  bs ← draw FBs; desc ← draw (FSentence 12); email ← draw FCompanyEmail;
  user ← draw FUserName; word ← draw FWord; token ← draw (FLexify "????");
  mret [z_to_string (Z.of_nat i); py_title bs; desc; email;
        "https://git.internal/" ++ user ++ "/" ++ word; "HONEY_" ++ py_upper token].

(** One row of [credentials.csv] (lines 233-237). *)
Definition credential_row (_ : nat) : FakeM F (list string) :=
  dw ← draw FDomainWord; user ← draw FUserName; pw ← draw (FPassword 12);
  token ← draw (FLexify "???");
  mret [dw ++ ".internal"; user; pw; "Backup token - HONEY_" ++ py_upper token].

(** [gen_employees_csv(n=200)]: the path is returned even when writing
    failed (the exception is only logged). *)
Definition gen_employees_csv (n : nat) (fs : Fs) (fk : F) : string * Fs * F :=
  let fn := path_join (fs_decoy_dir fs) "decoy_employees.csv" in
  if fs_writable fs then
    let '(rows, fk') := draw_rows employee_row (seq 1 n) fk in
    (fn, write_file fs fn (FText (csv_text (employees_header :: rows))), fk')
  else (fn, fs, fk).

(** [gen_projects_csv(n=50)]. *)
Definition gen_projects_csv (n : nat) (fs : Fs) (fk : F) : string * Fs * F :=
  let fn := path_join (fs_decoy_dir fs) "decoy_projects.csv" in
  if fs_writable fs then
    let '(rows, fk') := draw_rows project_row (seq 1 n) fk in
    (fn, write_file fs fn (FText (csv_text (projects_header :: rows))), fk')
  else (fn, fs, fk).

(** [gen_credentials_zip(n=50)]: the CSV, then the ZIP holding the file
    just written under the name [credentials.csv]; the ZIP's path, or
    [None] when writing failed. *)
Definition gen_credentials_zip (n : nat) (fs : Fs) (fk : F) : option string * Fs * F :=
  let csv_fn := path_join (fs_decoy_dir fs) "credentials.csv" in
  let zip_fn := path_join (fs_decoy_dir fs) "credentials_backup.zip" in
  if fs_writable fs then
    let '(rows, fk') := draw_rows credential_row (seq 0 n) fk in
    let fs1 := write_file fs csv_fn (FText (csv_text (credentials_header :: rows))) in
    match fs_files fs1 !! csv_fn with
    | Some (FText data) => (Some zip_fn, write_file fs1 zip_fn (FZip [("credentials.csv", data)]), fk')
    | _ => (None, fs1, fk')
    end
  else (None, fs, fk).
End Generators.

(** A file name without a directory separator. *)
Definition no_slash (n : string) : Prop := "/"%char ∉ list_ascii_of_string n.

(** A Faker whose state counts the draws, for the witnesses. *)
Definition counting_draw (c : FakeCall) : string :=
  match c with
  | FName => "Jane Roe"
  | FCompanyEmail => "jroe@example.com"
  | FRandomElement els => default EmptyString (head els)
  | FJob => "Analyst"
  | FPhoneNumber => "555-0100"
  | FPassword k => string_of_list_ascii (repeat "x"%char k)
  | FBs => "synergize scalable platforms"
  | FSentence _ => "Quarterly roadmap for the internal platform."
  | FUserName => "jroe"
  | FWord => "vault"
  | FLexify text => str_map (fun t => if Ascii.eqb t "?" then "q"%char else t) text
  | FDomainWord => "acme"
  end.

#[export] Instance counting_faker : Faker nat := {
  fake_str c n := (counting_draw c, S n);
  fake_random_int lo _ n := (lo, S n);
  fake_date_between _ _ n := (19000%Z, S n)
}.

#[export] Instance counting_faker_laws : FakerLaws nat.
Proof.
  split.
  - intros c n. destruct c as [| |els| | |k| | | | |text|]; simpl; try (vm_compute; lia).
    + destruct els as [|e els]; [congruence|]. intros _. left.
    + induction k as [|k IH]; simpl; [reflexivity|]. rewrite IH. reflexivity.
    + induction text as [|t text IH]; [reflexivity|]. simpl.
      destruct (Ascii.eqb t "?"); simpl; rewrite ?Ascii.eqb_refl; exact IH.
  - intros lo hi n Hle. simpl. lia.
Qed.

(** A writable decoy directory, for the witnesses. *)
Definition witness_decoy_fs : Fs := mkFs "/srv/honeypot/decoys" true ∅ "/srv/honeypot/exports" true.

(** ** The content of the decoy files *)

Definition is_upper_letter (c : ascii) : bool :=
  let n := nat_of_ascii c in ((65 <=? n) && (n <=? 90))%nat.

(** [HONEY_] followed by [k] upper-case letters: the marker a copied
    decoy carries. *)
Definition honey_token (k : nat) (s : string) : Prop :=
  exists t, s = "HONEY_" ++ t /\ String.length t = k /\
            Forall (fun c => is_upper_letter c = true) (list_ascii_of_string t).

(** A row of [decoy_employees.csv]: its id, a department of the four, a
    salary in the range drawn, a ten-character password. *)
Definition employee_ok (i : nat) (row : list string) : Prop :=
  exists name email dept job phone join salary pw,
    row = [z_to_string (Z.of_nat i); name; email; dept; job; phone; join; z_to_string salary; pw] /\
    dept ∈ employee_depts /\ (20000 <= salary <= 250000)%Z /\ String.length pw = 10%nat.

(** A row of [decoy_projects.csv]: its id, a repository under
    [git.internal] and a four-letter honey token. *)
Definition project_ok (i : nat) (row : list string) : Prop :=
  exists title desc email repo token,
    row = [z_to_string (Z.of_nat i); title; desc; email; "https://git.internal/" ++ repo; token] /\
    honey_token 4 token.

(** A row of [credentials.csv]: a twelve-character password and notes
    carrying a three-letter honey token. *)
Definition credential_ok (row : list string) : Prop :=
  exists service user pw token,
    row = [service; user; pw; "Backup token - " ++ token] /\ String.length pw = 12%nat /\
    honey_token 3 token.

(** ** Lemmas *)

Lemma basename_acc_no_slash (acc n : string) :
  no_slash n -> basename_acc acc n = acc ++ n.
Proof.
  unfold no_slash. revert acc. induction n as [|c n IH]; intros acc Hn; simpl.
  - rewrite string_app_nil_r. reflexivity.
  - simpl in Hn. rewrite elem_of_cons in Hn.
    rewrite bool_decide_false by (intros ->; apply Hn; left; reflexivity).
    rewrite IH by (intros Hin; apply Hn; right; exact Hin).
    rewrite string_app_assoc. reflexivity.
Qed.

Lemma basename_acc_after_slash (acc p n : string) :
  basename_acc acc (p ++ String "/" n) = basename_acc EmptyString n.
Proof.
  revert acc. induction p as [|c p IH]; intros acc; str_simpl; simpl.
  - reflexivity.
  - case_bool_decide; apply IH.
Qed.

Lemma ends_with_slash_spec (d : string) :
  ends_with_slash d = true -> exists d', d = d' ++ "/".
Proof.
  induction d as [|c d IH]; simpl; [discriminate|].
  destruct d as [|c' d'].
  - intros Hc. apply bool_decide_eq_true in Hc. subst. exists EmptyString. reflexivity.
  - intros Hd. destruct (IH Hd) as [e He]. exists (String c e). rewrite He. reflexivity.
Qed.

(** The basename of a joined path is its last component. *)
Lemma basename_path_join (d n : string) :
  no_slash n -> str_truthy n = true -> basename (path_join d n) = n.
Proof.
  intros Hn Ht. unfold basename, path_join.
  destruct n as [|c n']; [discriminate|].
  rewrite bool_decide_false by (intros ->; apply Hn; left; reflexivity).
  destruct (negb (str_truthy d)) eqn:Ed; simpl.
  - destruct d; [|discriminate]. apply basename_acc_no_slash. exact Hn.
  - destruct (ends_with_slash d) eqn:E.
    + destruct (ends_with_slash_spec d E) as [d' ->]. rewrite string_app_assoc.
      str_simpl. rewrite basename_acc_after_slash. apply basename_acc_no_slash. exact Hn.
    + str_simpl. rewrite basename_acc_after_slash. apply basename_acc_no_slash. exact Hn.
Qed.

Section GeneratorLemmas.
Context {F : Type} `{Faker F}.

Lemma write_file_dom (fs : Fs) (fn : string) (d : FileData) :
  dom (fs_files (write_file fs fn d)) = {[fn]} ∪ dom (fs_files fs).
Proof. unfold write_file. simpl. rewrite dom_insert_L. reflexivity. Qed.

Lemma write_file_dir (fs : Fs) (fn : string) (d : FileData) :
  fs_decoy_dir (write_file fs fn d) = fs_decoy_dir fs /\ fs_writable (write_file fs fn d) = fs_writable fs.
Proof. split; reflexivity. Qed.

(** Reading back the file just written. *)
Lemma write_file_lookup (fs : Fs) (fn : string) (d : FileData) :
  fs_files (write_file fs fn d) !! fn = Some d.
Proof. unfold write_file. simpl. apply lookup_insert_eq. Qed.

(** What each generator does to the file system: a writable directory
    gains the generator's files (whatever their content), a read-only one
    is left as it was, with the Faker state. *)
Lemma gen_employees_csv_fs (n : nat) (fs : Fs) (fk : F) :
  let '(p, fs', fk') := gen_employees_csv n fs fk in
  p = path_join (fs_decoy_dir fs) "decoy_employees.csv" /\
  (if fs_writable fs then exists d, fs' = write_file fs p d else fs' = fs /\ fk' = fk).
Proof.
  unfold gen_employees_csv. destruct (fs_writable fs); [|auto].
  destruct (draw_rows employee_row (seq 1 n) fk). eauto.
Qed.

Lemma gen_projects_csv_fs (n : nat) (fs : Fs) (fk : F) :
  let '(p, fs', fk') := gen_projects_csv n fs fk in
  p = path_join (fs_decoy_dir fs) "decoy_projects.csv" /\
  (if fs_writable fs then exists d, fs' = write_file fs p d else fs' = fs /\ fk' = fk).
Proof.
  unfold gen_projects_csv. destruct (fs_writable fs); [|auto].
  destruct (draw_rows project_row (seq 1 n) fk). eauto.
Qed.

Lemma gen_credentials_zip_fs (n : nat) (fs : Fs) (fk : F) :
  let '(p, fs', fk') := gen_credentials_zip n fs fk in
  if fs_writable fs
  then p = Some (path_join (fs_decoy_dir fs) "credentials_backup.zip") /\
       exists d1 d2, fs' = write_file (write_file fs (path_join (fs_decoy_dir fs) "credentials.csv") d1)
                                      (path_join (fs_decoy_dir fs) "credentials_backup.zip") d2
  else p = None /\ fs' = fs /\ fk' = fk.
Proof.
  unfold gen_credentials_zip. destruct (fs_writable fs); [|auto].
  destruct (draw_rows credential_row (seq 0 n) fk). rewrite write_file_lookup. eauto.
Qed.

(** The credentials bundle is produced exactly when the directory is
    writable, under the name [credentials_backup.zip]. *)
Lemma gen_credentials_zip_path (n : nat) (fs : Fs) (fk : F) :
  (gen_credentials_zip n fs fk).1.1 =
  if fs_writable fs then Some (path_join (fs_decoy_dir fs) "credentials_backup.zip") else None.
Proof.
  unfold gen_credentials_zip. destruct (fs_writable fs); [|reflexivity].
  destruct (draw_rows credential_row (seq 0 n) fk). rewrite write_file_lookup. reflexivity.
Qed.

Lemma gen_credentials_zip_basename (n : nat) (fs : Fs) (fk : F) p :
  (gen_credentials_zip n fs fk).1.1 = Some p -> basename p = "credentials_backup.zip".
Proof.
  rewrite gen_credentials_zip_path. destruct (fs_writable fs); [|discriminate].
  intros Hp. assert (p = path_join (fs_decoy_dir fs) "credentials_backup.zip") as -> by congruence.
  apply basename_path_join; [|reflexivity].
  unfold no_slash. simpl. set_solver.
Qed.
End GeneratorLemmas.

(** ** The content of the decoy files *)

(** Run the next Faker draw of the goal, keeping what the laws say of it. *)
Ltac draw_step :=
  match goal with
  | |- context [fake_str ?c ?f] =>
      let L := fresh "L" in pose proof (fake_draw_ok c f) as L;
      destruct (fake_str c f) as [? ?]; cbn [fst snd draw_ok] in L
  | |- context [fake_random_int ?lo ?hi ?f] =>
      let L := fresh "L" in pose proof (random_int_range lo hi f) as L;
      destruct (fake_random_int lo hi f) as [? ?]; cbn [fst snd] in L
  | |- context [fake_date_between ?a ?b ?f] => destruct (fake_date_between a b f) as [? ?]
  end.

Lemma list_ascii_str_map (g : ascii -> ascii) (s : string) :
  list_ascii_of_string (str_map g s) = map g (list_ascii_of_string s).
Proof. induction s as [|c s IH]; simpl; congruence. Qed.

Lemma lexified_length (text s : string) : lexified text s = true -> String.length s = String.length text.
Proof.
  revert s. induction text as [|t text IH]; intros [|c s]; simpl; try discriminate; [reflexivity|].
  intros E. apply andb_prop in E as [_ E]. f_equal. apply IH, E.
Qed.

(** A pattern of [?]s is filled with letters only. *)
Lemma lexified_letters (text s : string) :
  lexified text s = true -> Forall (fun t => t = "?"%char) (list_ascii_of_string text) ->
  Forall (fun c => ascii_letter c = true) (list_ascii_of_string s).
Proof.
  revert s. induction text as [|t text IH]; intros [|c s]; simpl; try discriminate; [constructor|].
  intros E Hq. inversion Hq as [|? ? Ht Hq']; subst. rewrite Ascii.eqb_refl in E.
  apply andb_prop in E as [Hc E]. constructor; [exact Hc | apply IH; assumption].
Qed.

Lemma upper_char_letter (c : ascii) : ascii_letter c = true -> is_upper_letter (upper_char c) = true.
Proof.
  unfold ascii_letter, is_upper_letter, upper_char. pose proof (nat_ascii_bounded c) as Hb.
  destruct ((97 <=? nat_of_ascii c) && (nat_of_ascii c <=? 122))%nat eqn:E.
  - apply andb_prop in E as [E1 E2]. apply Nat.leb_le in E1, E2. intros _.
    rewrite nat_ascii_embedding by lia. apply andb_true_intro. split; apply Nat.leb_le; lia.
  - rewrite orb_false_r. auto.
Qed.

(** [HONEY_ + fake.lexify('??..?').upper()] is a honey token. *)
Lemma honey_of_lexify (text tok : string) :
  lexified text tok = true -> Forall (fun t => t = "?"%char) (list_ascii_of_string text) ->
  honey_token (String.length text) ("HONEY_" ++ py_upper tok).
Proof.
  intros E Hq. exists (py_upper tok). split; [reflexivity|]. split.
  - unfold py_upper. rewrite str_map_length. apply lexified_length, E.
  - unfold py_upper. rewrite list_ascii_str_map. apply Forall_map.
    eapply Forall_impl; [exact (lexified_letters text tok E Hq)|]. apply upper_char_letter.
Qed.

Section ContentLemmas.
Context {F : Type} `{FakerLaws F}.

(** Every row drawn satisfies what each single draw satisfies. *)
Lemma draw_rows_forall2 (row : nat -> FakeM F (list string)) (P : nat -> list string -> Prop)
    (ids : list nat) (fk : F) :
  (forall i f, P i (row i f).1) -> Forall2 P ids (draw_rows row ids fk).1.
Proof.
  intros Hrow. revert fk. induction ids as [|i ids IH]; intros fk; [constructor|].
  cbn [draw_rows]. unfold mbind, mret, fake_mbind, fake_mret.
  pose proof (Hrow i fk) as Hi. destruct (row i fk) as [r f1]. specialize (IH f1).
  destruct (draw_rows row ids f1) as [rs f2]. constructor; assumption.
Qed.

Lemma employee_row_ok (i : nat) (f : F) : employee_ok i (employee_row i f).1.
Proof.
  unfold employee_row, draw, random_int, date_between, mbind, mret, fake_mbind, fake_mret.
  repeat draw_step. cbn [fst].
  do 8 eexists. split; [reflexivity|]. split; [apply L1; discriminate|]. split; [apply L4; lia | exact L5].
Qed.

Lemma project_row_ok (i : nat) (f : F) : project_ok i (project_row i f).1.
Proof.
  unfold project_row, draw, mbind, mret, fake_mbind, fake_mret.
  repeat draw_step. cbn [fst].
  do 5 eexists. split; [reflexivity|].
  apply (honey_of_lexify "????"); [assumption | repeat constructor].
Qed.

Lemma credential_row_ok (i : nat) (f : F) : credential_ok (credential_row i f).1.
Proof.
  unfold credential_row, draw, mbind, mret, fake_mbind, fake_mret.
  repeat draw_step. cbn [fst].
  do 4 eexists. split; [reflexivity|]. split; [assumption|].
  apply (honey_of_lexify "???"); [assumption | repeat constructor].
Qed.

(** Each cell within the CSV reader's limit: the draws are short, the
    numbers have few digits. *)
Ltac cells_fit :=
  pose proof field_limit_large; unfold FAKE_MAX in *;
  repeat (apply Forall_cons; split;
          [rewrite ?string_length_app, ?date_isoformat_length, ?title_from_length, ?str_map_length;
           cbn [String.length] in *; lia|]);
  constructor.

Lemma header_fits (h : list string) :
  h = employees_header \/ h = projects_header \/ h = credentials_header ->
  Forall (fun c => String.length c <= field_limit)%nat h.
Proof. intros [-> | [-> | ->]]; cells_fit. Qed.

Lemma dept_length (d : string) : d ∈ employee_depts -> (String.length d <= 3)%nat.
Proof. unfold employee_depts. rewrite !elem_of_cons, elem_of_nil. intros [-> | [-> | [-> | [-> | []]]]]; simpl; lia. Qed.

Lemma employee_row_fits (i : nat) (f : F) :
  (Z.of_nat i < 2 ^ 62)%Z -> Forall (fun c => String.length c <= field_limit)%nat (employee_row i f).1.
Proof.
  intros Hi. unfold employee_row, draw, random_int, date_between, mbind, mret, fake_mbind, fake_mret.
  repeat draw_step. cbn [fst].
  pose proof (z_to_string_bound (Z.of_nat i) 62 ltac:(lia)).
  assert (Hs : (20000 <= z0 <= 250000)%Z) by (apply L4; lia).
  pose proof (z_to_string_bound z0 18 ltac:(simpl; lia)).
  pose proof (dept_length s1 (L1 ltac:(discriminate))). cells_fit.
Qed.

Lemma project_row_fits (i : nat) (f : F) :
  (Z.of_nat i < 2 ^ 62)%Z -> Forall (fun c => String.length c <= field_limit)%nat (project_row i f).1.
Proof.
  intros Hi. unfold project_row, draw, mbind, mret, fake_mbind, fake_mret.
  repeat draw_step. cbn [fst].
  pose proof (z_to_string_bound (Z.of_nat i) 62 ltac:(lia)).
  pose proof (lexified_length _ _ L4). unfold py_title, py_upper in *.
  rewrite ?str_map_length, ?title_from_length in *. cells_fit.
Qed.

Lemma credential_row_fits (i : nat) (f : F) :
  Forall (fun c => String.length c <= field_limit)%nat (credential_row i f).1.
Proof.
  unfold credential_row, draw, mbind, mret, fake_mbind, fake_mret.
  repeat draw_step. cbn [fst]. pose proof (lexified_length _ _ L2). unfold py_upper in *.
  rewrite ?str_map_length in *. cells_fit.
Qed.

(** Rows drawn for the indices [1..n] fit the reader. *)
Lemma drawn_rows_fit (row : nat -> FakeM F (list string)) (n : nat) (fk : F) :
  (forall i f, (Z.of_nat i < 2 ^ 62)%Z -> Forall (fun c => String.length c <= field_limit)%nat (row i f).1) ->
  (Z.of_nat n < 2 ^ 62)%Z -> rows_fit (draw_rows row (seq 1 n) fk).1.
Proof.
  intros Hrow Hn. unfold rows_fit.
  apply (Forall2_Forall_r (fun i r => (Z.of_nat i < 2 ^ 62)%Z -> Forall (fun c => String.length c <= field_limit)%nat r)
                          (fun i => (Z.of_nat i < 2 ^ 62)%Z) _ (seq 1 n)).
  - apply draw_rows_forall2. intros i f. apply Hrow.
  - apply Forall_forall. intros i Hi. apply elem_of_seq in Hi. lia.
  - auto.
Qed.

(** C18: on a writable decoy directory, [gen_employees_csv(n)] writes a
    file that [csv.reader] reads back as the header and [n] rows, in the
    order of their ids [1..n], each with a department of the four, a
    salary in [20000..250000] and a ten-character password. *)
Theorem gen_employees_contents (n : nat) (fs : Fs) (fk : F) :
  fs_writable fs = true -> (Z.of_nat n < 2 ^ 62)%Z ->
  let '(p, fs', _) := gen_employees_csv n fs fk in
  exists d rows, fs_files fs' !! p = Some (FText d) /\
    csv_read d = Some (employees_header :: rows) /\ Forall2 employee_ok (seq 1 n) rows.
Proof.
  intros Hw Hn. unfold gen_employees_csv. rewrite Hw.
  pose proof (draw_rows_forall2 employee_row employee_ok (seq 1 n) fk employee_row_ok) as Hok.
  pose proof (drawn_rows_fit employee_row n fk employee_row_fits Hn) as Hfit.
  destruct (draw_rows employee_row (seq 1 n) fk) as [rows fk']. simpl in Hok, Hfit.
  exists (csv_text (employees_header :: rows)), rows. split; [apply write_file_lookup|].
  split; [|exact Hok]. apply csv_read_text_core. constructor; [apply header_fits; auto | exact Hfit].
Qed.

(** C19: on a writable decoy directory, [gen_projects_csv(n)] writes a
    file that reads back as the header and [n] rows in id order, each
    with a repository under [git.internal] and a honey token [HONEY_]
    followed by four upper-case letters. *)
Theorem gen_projects_contents (n : nat) (fs : Fs) (fk : F) :
  fs_writable fs = true -> (Z.of_nat n < 2 ^ 62)%Z ->
  let '(p, fs', _) := gen_projects_csv n fs fk in
  exists d rows, fs_files fs' !! p = Some (FText d) /\
    csv_read d = Some (projects_header :: rows) /\ Forall2 project_ok (seq 1 n) rows.
Proof.
  intros Hw Hn. unfold gen_projects_csv. rewrite Hw.
  pose proof (draw_rows_forall2 project_row project_ok (seq 1 n) fk project_row_ok) as Hok.
  pose proof (drawn_rows_fit project_row n fk project_row_fits Hn) as Hfit.
  destruct (draw_rows project_row (seq 1 n) fk) as [rows fk']. simpl in Hok, Hfit.
  exists (csv_text (projects_header :: rows)), rows. split; [apply write_file_lookup|].
  split; [|exact Hok]. apply csv_read_text_core. constructor; [apply header_fits; auto | exact Hfit].
Qed.

Lemma credentials_paths_differ (d : string) :
  path_join d "credentials.csv" <> path_join d "credentials_backup.zip".
Proof.
  intros E. apply (f_equal basename) in E.
  rewrite !basename_path_join in E by (reflexivity || (unfold no_slash; simpl; set_solver)).
  discriminate E.
Qed.

(** C17: on a writable decoy directory, [gen_credentials_zip(n)] returns
    the bundle's path; the bundle holds, as [credentials.csv], exactly
    the CSV file written beside it, which reads back as the header and
    [n] rows, each with a twelve-character password and notes carrying a
    honey token [HONEY_] followed by three upper-case letters. *)
Theorem gen_credentials_contents (n : nat) (fs : Fs) (fk : F) :
  fs_writable fs = true ->
  let '(p, fs', _) := gen_credentials_zip n fs fk in
  exists d rows,
    p = Some (path_join (fs_decoy_dir fs) "credentials_backup.zip") /\
    fs_files fs' !! path_join (fs_decoy_dir fs) "credentials_backup.zip" = Some (FZip [("credentials.csv", d)]) /\
    fs_files fs' !! path_join (fs_decoy_dir fs) "credentials.csv" = Some (FText d) /\
    csv_read d = Some (credentials_header :: rows) /\ List.length rows = n /\ Forall credential_ok rows.
Proof.
  intros Hw. unfold gen_credentials_zip. rewrite Hw.
  pose proof (draw_rows_forall2 credential_row (fun _ => credential_ok) (seq 0 n) fk credential_row_ok) as Hok.
  pose proof (draw_rows_forall2 credential_row (fun _ r => Forall (fun c => String.length c <= field_limit)%nat r)
                                (seq 0 n) fk credential_row_fits) as Hfit.
  destruct (draw_rows credential_row (seq 0 n) fk) as [rows fk']. simpl in Hok, Hfit.
  rewrite write_file_lookup. exists (csv_text (credentials_header :: rows)), rows.
  split; [reflexivity|]. split; [apply write_file_lookup|].
  split; [unfold write_file; cbn [fs_files];
          rewrite lookup_insert_ne by (apply not_eq_sym, credentials_paths_differ);
          apply lookup_insert_eq|].
  split; [|split].
  - apply csv_read_text_core. constructor; [apply header_fits; auto|].
    apply (Forall2_Forall_r _ (fun _ => True) _ _ _ Hfit); [apply Forall_true; auto | auto].
  - apply Forall2_length in Hok. rewrite length_seq in Hok. lia.
  - apply (Forall2_Forall_r _ (fun _ => True) _ _ _ Hok); [apply Forall_true; auto | auto].
Qed.
End ContentLemmas.

(** Clients reason about the generators through [gen_*_fs] and the
    content lemmas; unfolding two hundred rows of draws is never wanted. *)
#[global] Opaque gen_employees_csv gen_projects_csv gen_credentials_zip.

(** Replace a generator's run in the goal by what [gen_*_fs] says of it. *)
Ltac gen_fs :=
  match goal with
  | |- context [gen_employees_csv ?n ?fs ?fk] =>
      let G := fresh "G" in pose proof (gen_employees_csv_fs n fs fk) as G;
      destruct (gen_employees_csv n fs fk) as [[? ?] ?]
  | |- context [gen_projects_csv ?n ?fs ?fk] =>
      let G := fresh "G" in pose proof (gen_projects_csv_fs n fs fk) as G;
      destruct (gen_projects_csv n fs fk) as [[? ?] ?]
  | |- context [gen_credentials_zip ?n ?fs ?fk] =>
      let G := fresh "G" in pose proof (gen_credentials_zip_fs n fs fk) as G;
      destruct (gen_credentials_zip n fs fk) as [[? ?] ?]
  end.

(** ** Witnesses *)

Lemma gen_employees_contents_witness :
  fs_writable witness_decoy_fs = true /\ (Z.of_nat 200 < 2 ^ 62)%Z /\
  let '(p, fs', _) := gen_employees_csv 200 witness_decoy_fs 0%nat in
  exists d rows, fs_files fs' !! p = Some (FText d) /\
    csv_read d = Some (employees_header :: rows) /\ Forall2 employee_ok (seq 1 200) rows.
Proof.
  split; [reflexivity|]. split; [lia|].
  exact (gen_employees_contents 200 witness_decoy_fs 0%nat eq_refl ltac:(lia)).
Defined.

Lemma gen_projects_contents_witness :
  fs_writable witness_decoy_fs = true /\ (Z.of_nat 50 < 2 ^ 62)%Z /\
  let '(p, fs', _) := gen_projects_csv 50 witness_decoy_fs 0%nat in
  exists d rows, fs_files fs' !! p = Some (FText d) /\
    csv_read d = Some (projects_header :: rows) /\ Forall2 project_ok (seq 1 50) rows.
Proof.
  split; [reflexivity|]. split; [lia|].
  exact (gen_projects_contents 50 witness_decoy_fs 0%nat eq_refl ltac:(lia)).
Defined.

Lemma gen_credentials_contents_witness :
  fs_writable witness_decoy_fs = true /\
  let '(p, fs', _) := gen_credentials_zip 50 witness_decoy_fs 0%nat in
  exists d rows,
    p = Some (path_join (fs_decoy_dir witness_decoy_fs) "credentials_backup.zip") /\
    fs_files fs' !! path_join (fs_decoy_dir witness_decoy_fs) "credentials_backup.zip" =
      Some (FZip [("credentials.csv", d)]) /\
    fs_files fs' !! path_join (fs_decoy_dir witness_decoy_fs) "credentials.csv" = Some (FText d) /\
    csv_read d = Some (credentials_header :: rows) /\ List.length rows = 50%nat /\ Forall credential_ok rows.
Proof.
  split; [reflexivity|].
  exact (gen_credentials_contents 50 witness_decoy_fs 0%nat eq_refl).
Defined.
