(* ===== verification/Training.v ===== *)
(** * The synthetic training data of the anomaly model

    [train_model] (src/Backend/app.py, lines 142-156) draws 3000 rows from
    numpy's [RandomState(42)], clips them, stacks them into the matrix
    [X] and fits an IsolationForest on it.  numpy's generator is an
    interface over its state ([RandomState]) with the laws the code relies
    on ([RandomStateLaws]: each draw has the size asked for, and
    [binomial(k, p)] lies in [0..k]); the draws are threaded in the order
    of the code through the state monad [FakeM] of Decoy.v.  A [float64]
    is a rational ([Q]): [clip] only compares and selects, so no rounding
    enters.  The fit is scikit-learn's and is the interface [IForestFit];
    the theorem [fitted_on_box] gives the shape and the ranges of the
    rows the forest is fitted on, whatever the generator draws. *)
From S2P Require Import Prelude Decoy.
From Stdlib Require Import QArith Qminmax.

(** ** numpy's generator *)

Class RandomState (R : Type) := {
  rs_seed : Z -> R;                                  (** [np.random.RandomState(seed)] *)
  rs_normal : Q -> Q -> nat -> R -> list Q * R;      (** [rng.normal(loc, scale, size)] *)
  rs_poisson : Q -> nat -> R -> list Z * R;          (** [rng.poisson(lam, size)] *)
  rs_binomial : Z -> Q -> nat -> R -> list Z * R     (** [rng.binomial(n, p, size)] *)
}.

Class RandomStateLaws (R : Type) `{RandomState R} := {
  normal_size loc scale n r : length (rs_normal loc scale n r).1 = n;
  poisson_size lam n r : length (rs_poisson lam n r).1 = n;
  binomial_size k p n r : length (rs_binomial k p n r).1 = n;
  binomial_range k p n r : (0 <= k)%Z -> Forall (fun x => (0 <= x <= k)%Z) (rs_binomial k p n r).1
}.

(** [IsolationForest(n_estimators, contamination, random_state).fit(X)]. *)
Class IForestFit (M : Type) := {
  iforest_fit : nat -> Q -> Z -> list (list Q) -> M
}.

(** ** The arrays *)

(** [a.clip(lo, hi)] on a float array: [minimum(maximum(a, lo), hi)]. *)
Definition clip (lo hi : Q) (x : Q) : Q := Qmin (Qmax x lo) hi.

(** The same on an integer array. *)
Definition zclip (lo hi : Z) (x : Z) : Z := Z.min (Z.max x lo) hi.

(** [np.vstack([c1, ..., c5]).T]: the rows of the five columns, which
    must have one size ([None] is numpy's [ValueError]). *)
Fixpoint vstack_T (pl : list Q) (rpm ua sql sc : list Z) : option (list (list Q)) :=
  match pl, rpm, ua, sql, sc with
  | [], [], [], [], [] => Some []
  | p :: pl', r :: rpm', u :: ua', s :: sql', c :: sc' =>
      rows ← vstack_T pl' rpm' ua' sql' sc';
      Some ([p; inject_Z r; inject_Z u; inject_Z s; inject_Z c] :: rows)
  | _, _, _, _, _ => None
  end.

(** [n = 3000]. *)
Definition N_TRAIN : nat := 3000.

Section Training.
Context {R : Type} `{RandomState R}.

Definition normal (loc scale : Q) (n : nat) : FakeM R (list Q) := rs_normal loc scale n.
Definition poisson (lam : Q) (n : nat) : FakeM R (list Z) := rs_poisson lam n.
Definition binomial (k : Z) (p : Q) (n : nat) : FakeM R (list Z) := rs_binomial k p n.

(** Lines 144-151: the five columns drawn in order, clipped, stacked. *)
Definition training_data : FakeM R (option (list (list Q))) :=
  payload_len ← normal 60 40 N_TRAIN;
  reqs_per_min ← poisson (3 # 2) N_TRAIN;
  ua_flag ← binomial 1 (2 # 100) N_TRAIN;
  sql_flag ← binomial 1 (2 # 1000) N_TRAIN;
  special_chars ← poisson 2 N_TRAIN;
  mret (vstack_T (map (clip 1 300) payload_len) (map (zclip 0 100) reqs_per_min) ua_flag sql_flag
                 (map (zclip 0 50) special_chars)).

(** Lines 144 and 152-153: the forest fitted on the data of
    [RandomState(42)] ([None] when [vstack] raised). *)
Definition fitted_model {M} `{IForestFit M} : option M :=
  X ← (training_data (rs_seed 42)).1;
  Some (iforest_fit 200 (2 # 100) 42 X).
End Training.

(** A row of [X]: a payload length in [1..300], a rate in [0..100], two
    flags and a special-character count in [0..50], the last four
    integers. *)
Definition train_row_ok (row : list Q) : Prop :=
  exists p r u s c, row = [p; inject_Z r; inject_Z u; inject_Z s; inject_Z c] /\
    (1 <= p <= 300)%Q /\ (0 <= r <= 100)%Z /\ (0 <= u <= 1)%Z /\ (0 <= s <= 1)%Z /\ (0 <= c <= 50)%Z.

(** ** A generator for the witness *)

(** Every normal draw at its mean, every count 0. *)
#[export] Instance mean_rs : RandomState unit := {
  rs_seed _ := tt;
  rs_normal loc _ n r := (repeat loc n, r);
  rs_poisson _ n r := (repeat 0%Z n, r);
  rs_binomial _ _ n r := (repeat 0%Z n, r)
}.

#[export] Instance mean_rs_laws : RandomStateLaws unit.
Proof.
  split; intros; simpl; rewrite ?repeat_length; try done.
  apply Forall_forall. intros x Hx. apply list_elem_of_In, repeat_spec in Hx. lia.
Qed.

(** A forest standing for the fitted one: its training rows. *)
#[export] Instance rows_fit : IForestFit (list (list Q)) := { iforest_fit _ _ _ X := X }.

(** ** Lemmas *)

Lemma clip_range (lo hi x : Q) : (lo <= hi)%Q -> (lo <= clip lo hi x <= hi)%Q.
Proof.
  intros Hle. unfold clip. split.
  - apply Q.min_glb; [apply Q.le_max_r | exact Hle].
  - apply Q.le_min_r.
Qed.

Lemma zclip_range (lo hi x : Z) : (lo <= hi)%Z -> (lo <= zclip lo hi x <= hi)%Z.
Proof. unfold zclip. lia. Qed.

(** Five columns of one size stack into that many rows, each row made of
    the columns' entries. *)
Lemma vstack_T_rows (pl : list Q) (rpm ua sql sc : list Z) (P : Q -> Prop) (Pr Pu Ps Pc : Z -> Prop) :
  length rpm = length pl -> length ua = length pl -> length sql = length pl -> length sc = length pl ->
  Forall P pl -> Forall Pr rpm -> Forall Pu ua -> Forall Ps sql -> Forall Pc sc ->
  exists rows, vstack_T pl rpm ua sql sc = Some rows /\ length rows = length pl /\
    Forall (fun row => exists p r u s c, row = [p; inject_Z r; inject_Z u; inject_Z s; inject_Z c] /\
                        P p /\ Pr r /\ Pu u /\ Ps s /\ Pc c) rows.
Proof.
  revert rpm ua sql sc. induction pl as [|p pl IH]; intros rpm ua sql sc Hr Hu Hs Hc Fp Fr Fu Fs Fc.
  - destruct rpm, ua, sql, sc; try discriminate. exists []. auto.
  - destruct rpm as [|r rpm], ua as [|u ua], sql as [|s sql], sc as [|c sc]; try discriminate.
    simpl in *. inversion Fp; inversion Fr; inversion Fu; inversion Fs; inversion Fc; subst.
    destruct (IH rpm ua sql sc) as (rows & -> & Hl & Hf); auto.
    exists ([p; inject_Z r; inject_Z u; inject_Z s; inject_Z c] :: rows). simpl.
    split; [done|]. split; [by rewrite Hl|]. constructor; [|done]. eauto 12.
Qed.

Lemma Forall_map_all {A B} (f : A -> B) (P : B -> Prop) (l : list A) :
  (forall x, P (f x)) -> Forall P (map f l).
Proof. intros Hf. induction l; constructor; auto. Qed.

Section TrainingProperties.
Context {R : Type} `{RandomStateLaws R}.

(** Lines 144-151 never raise: the data is 3000 rows in the box. *)
Lemma training_rows_in_box (r : R) :
  exists rows, (training_data r).1 = Some rows /\ length rows = N_TRAIN /\ Forall train_row_ok rows.
Proof.
  unfold training_data, mbind, fake_mbind, mret, fake_mret, normal, poisson, binomial.
  pose proof (normal_size 60 40 N_TRAIN r) as S1. destruct (rs_normal 60 40 N_TRAIN r) as [pl r1].
  pose proof (poisson_size (3 # 2) N_TRAIN r1) as S2. destruct (rs_poisson (3 # 2) N_TRAIN r1) as [rpm r2].
  pose proof (binomial_size 1 (2 # 100) N_TRAIN r2) as S3.
  pose proof (binomial_range 1 (2 # 100) N_TRAIN r2 ltac:(lia)) as B3. destruct (rs_binomial 1 (2 # 100) N_TRAIN r2) as [ua r3].
  pose proof (binomial_size 1 (2 # 1000) N_TRAIN r3) as S4.
  pose proof (binomial_range 1 (2 # 1000) N_TRAIN r3 ltac:(lia)) as B4. destruct (rs_binomial 1 (2 # 1000) N_TRAIN r3) as [sql r4].
  pose proof (poisson_size 2 N_TRAIN r4) as S5. destruct (rs_poisson 2 N_TRAIN r4) as [sc r5].
  simpl in *.
  destruct (vstack_T_rows (map (clip 1 300) pl) (map (zclip 0 100) rpm) ua sql (map (zclip 0 50) sc)
              (fun p => 1 <= p <= 300)%Q (fun z => 0 <= z <= 100)%Z (fun z => 0 <= z <= 1)%Z
              (fun z => 0 <= z <= 1)%Z (fun z => 0 <= z <= 50)%Z) as (rows & Hrows & Hlen & Hf);
    rewrite ?length_map; try congruence; try done;
    try (apply Forall_map_all; intros; first [apply clip_range | apply zclip_range]; done).
  exists rows. rewrite length_map in Hlen. split; [done|]. split; [congruence|].
  eapply Forall_impl; [exact Hf|]. intros row (p & z1 & z2 & z3 & z4 & -> & ?). exists p, z1, z2, z3, z4. tauto.
Qed.

(** C34: [train_model] never fails to build its matrix: the forest is
    fitted on exactly 3000 rows, each a payload length clipped to
    [1..300], a rate clipped to [0..100], two 0/1 flags and a
    special-character count clipped to [0..50]. *)
Theorem fitted_on_box {M : Type} `{IForestFit M} :
  exists X, fitted_model (M:=M) = Some (iforest_fit 200 (2 # 100) 42 X) /\
            length X = N_TRAIN /\ Forall train_row_ok X.
Proof.
  destruct (training_rows_in_box (rs_seed 42)) as (X & HX & Hl & Hf).
  exists X. unfold fitted_model. rewrite HX. auto.
Qed.
End TrainingProperties.

(** ** Witness *)

Lemma fitted_on_box_witness :
  exists X, fitted_model (R:=unit) (M:=list (list Q)) = Some (iforest_fit 200 (2 # 100) 42 X) /\
            length X = N_TRAIN /\ Forall train_row_ok X.
Proof. exact (fitted_on_box (R:=unit) (M:=list (list Q))). Defined.
