(* ===== verification/Handlers.v ===== *)
(** * The request handlers (the decision engine)

    The handlers of src/Backend/app.py that score requests and change
    state: [api_login] (lines 363-397), [api_query] (399-451), [api_block]
    (453-468) and [api_decoy_generate] (470-476).  Each is a computation
    of [PyM World Response]: it threads the world (store, decoy directory,
    Faker state, clock) and may raise; [flask_dispatch] turns an escaped
    exception into the 500 response of the [errorhandler(500)] of lines
    527-535, keeping the state changes made before the raise.  Bodies are
    the JSON values given to [jsonify]. *)
From S2P Require Import Prelude PyStr Json Request Store Features Detector Decoy.
From Stdlib Require Import Ascii String.

Open Scope string_scope.

Record World (F : Type) := mkWorld {
  w_db : Db;
  w_fs : Fs;
  w_faker : F;
  w_now : Z      (** [datetime.utcnow()], microseconds *)
}.
Arguments mkWorld {F} _ _ _ _.
Arguments w_db {F} _.
Arguments w_fs {F} _.
Arguments w_faker {F} _.
Arguments w_now {F} _.

(** A response: the status code and the body given to [jsonify]. *)
Definition Response : Type := (Z * json)%type.

Definition resp_blocked : Response := (403%Z, JObj [("status", JStr "blocked")]).
Definition resp_login_fail : Response :=
  (401%Z, JObj [("status", JStr "fail"); ("message", JStr "Invalid credentials")]).
Definition resp_internal_error : Response :=
  (500%Z, JObj [("status", JStr "error"); ("error", JStr "Internal Server Error");
                ("message", JStr "An internal server error occurred.")]).
Definition resp_ip_required : Response :=
  (400%Z, JObj [("status", JStr "error"); ("message", JStr "ip required")]).
Definition resp_db_error : Response :=
  (500%Z, JObj [("status", JStr "error"); ("message", JStr "db error")]).
Definition resp_block_ok : Response :=
  (200%Z, JObj [("status", JStr "ok"); ("blocked", JBool true)]).

(** The row served to an anomalous [SELECT] (line 428). *)
Definition fake_row : json :=
  JObj [("id", JNum 1); ("name", JStr "John Doe"); ("email", JStr "john.doe@company.internal")].

(** [request.url_root.rstrip('/') + '/download/' + os.path.basename(p)]. *)
Definition decoy_url (r : Request) (p : string) : string :=
  rstrip_char "/" (req_url_root r) ++ "/download/" ++ basename p.

(** [json.dumps(profile) if profile else None]. *)
Definition profile_text (profile : option json) : option string :=
  match profile with
  | Some p => if py_truthy p then Some (dumps true p) else None
  | None => None
  end.

(** The decoy reference a deception yields: the bundle's download URL
    when the decoy directory is writable. *)
Definition bundle_url (r : Request) (fs : Fs) : option string :=
  if fs_writable fs
  then Some (decoy_url r (path_join (fs_decoy_dir fs) "credentials_backup.zip"))
  else None.

Definition decoy_json (decoy : option string) : json :=
  match decoy with Some d => JStr d | None => JNull end.

(** Binding a Python value as a parameter of a TEXT column (sqlite3's
    adapters, then the column's TEXT affinity): [None] is NULL, ints and
    booleans become their decimal text, a list or dict cannot be bound. *)
Definition bind_text (v : json) : res (option string) :=
  match v with
  | JNull => Ok None
  | JStr s => Ok (Some s)
  | JNum z => Ok (Some (z_to_string z))
  | JBool b => Ok (Some (if b then "1" else "0"))
  | JArr _ | JObj _ => Raise InterfaceError
  end.

(** [q] of [api_query] (lines 405-413): the JSON dict's ["q"], else the
    form's ["q"], else the raw body, else [None]; reading the form is the
    step that can raise, and the handler then takes the raw body. *)
Definition query_param (r : Request) : json :=
  let q := if req_is_json r then
             match py_or (get_json r) (JObj []) with
             | JObj l => default JNull (obj_get "q" l)
             | _ => JNull
             end
           else JNull in
  match q with
  | JNull =>
      let raw := py_or (JStr (req_data r)) JNull in
      match req_form r with
      | None => raw
      | Some f => py_or (match md_get "q" f with Some v => JStr v | None => JNull end) raw
      end
  | _ => q
  end.

(** The features [api_query] scores (lines 414-416): the extractor's, with
    [sql_flag] forced to 1 when [q] itself carries a signature. *)
Definition query_features (db : Db) (now : Z) (r : Request) : Features :=
  let feat := features_from_request db now r (client_ip r) in
  if has_sql_signature (query_param r) then set_sql_flag feat else feat.

Section Handlers.
Context {F : Type} `{Faker F} {M : Type} `{OutlierModel M}.
Variable model : option M.

Local Notation W := (World F).

(** ** Primitive steps *)

Definition lift_res {A} (x : res A) : PyM W A :=
  fun w => (x, w).

Definition draw_name : PyM W string :=
  fun w => let '(n, fk) := fake_name (w_faker w) in
           (Ok n, mkWorld (w_db w) (w_fs w) fk (w_now w)).

Definition run_gen_credentials_zip : PyM W (option string) :=
  fun w => let '(p, fs, fk) := gen_credentials_zip 50 (w_fs w) (w_faker w) in
           (Ok p, mkWorld (w_db w) fs fk (w_now w)).

Definition run_gen_employees_csv : PyM W string :=
  fun w => let '(p, fs, fk) := gen_employees_csv 200 (w_fs w) (w_faker w) in
           (Ok p, mkWorld (w_db w) fs fk (w_now w)).

Definition run_gen_projects_csv : PyM W string :=
  fun w => let '(p, fs, fk) := gen_projects_csv 50 (w_fs w) (w_faker w) in
           (Ok p, mkWorld (w_db w) fs fk (w_now w)).

Definition set_db (db : Db) : PyM W unit :=
  fun w => (Ok tt, mkWorld db (w_fs w) (w_faker w) (w_now w)).

(** [try: db.session.add(Log(...)); db.session.commit() except: log it]. *)
Definition log_request (lf : LogFields) : PyM W unit :=
  fun w => match commit_log (w_db w) lf (w_now w) with
           | Ok db' => (Ok tt, mkWorld db' (w_fs w) (w_faker w) (w_now w))
           | Raise _ => (Ok tt, w)
           end.

(** The deception branch shared by both scoring handlers: a fake name
    for the profile and a fresh credentials bundle. *)
Definition deceive (r : Request) (purpose : string) : PyM W (option json * option string) :=
  name <- draw_name ;;
  zp <- run_gen_credentials_zip ;;
  ret (Some (JObj [("name", JStr name); ("purpose", JStr purpose)]),
       option_map (decoy_url r) zp).

(** ** [api_login] *)

(** Lines 368-391 of [api_login]: the features, the verdict, the
    deception when anomalous, and the row to log. *)
Definition login_row (r : Request) : PyM W LogFields :=
  let ip := client_ip r in
  w <- st_get ;;
  let feat := features_from_request (w_db w) (w_now w) r ip in
  let anom := is_anomaly_from_features model feat in
  pd <- (if anom then deceive r "suspicious activity detected" else ret (None, None)) ;;
  let '(payload, np) := extract_payload_and_params r in
  ret (mkLogFields ip (header_get r "User-Agent" "") (req_path r) (req_method r)
         payload np (payload_len feat) anom (profile_text pd.1) pd.2).

Definition api_login (r : Request) : PyM W Response :=
  let ip := client_ip r in
  w <- st_get ;;
  blocked <- lift_res (blocklist_first (w_db w) ip) ;;
  match blocked with
  | Some _ => ret resp_blocked
  | None =>
      lf <- login_row r ;;
      log_request lf ;;
      ret resp_login_fail
  end.

(** ** [api_query] *)

(** The rows returned to an anomalous query: one fabricated row for a
    [SELECT]; [q.upper()] raises on a truthy [q] that is not a string. *)
Definition query_rows (q : json) : PyM W (list json) :=
  if py_truthy q then
    match q with
    | JStr s => ret (if contains "SELECT" (py_upper s) then [fake_row] else [])
    | _ => raise AttributeError
    end
  else ret [].

(** Lines 403-450 of [api_query] but the commit: [q], the features, the
    verdict, the deception and the sample rows, the row to log and the
    answer. *)
Definition query_outcome (r : Request) : PyM W (LogFields * Response) :=
  let ip := client_ip r in
  w <- st_get ;;
  let q := query_param r in
  let feat := query_features (w_db w) (w_now w) r in
  let anom := is_anomaly_from_features model feat in
  prd <- (if anom then
            pd <- deceive r "data exfiltration" ;;
            rows <- query_rows q ;;
            ret (pd, rows)
          else ret ((None, None), [])) ;;
  let '((profile, decoy), rows) := prd in
  let '(_, np) := extract_payload_and_params r in
  ret (mkLogFields ip (header_get r "User-Agent" "") (req_path r) (req_method r)
         (py_str q) np (payload_len feat) anom (profile_text profile) decoy,
       (200%Z, JObj [("status", JStr "ok"); ("result", JObj [("rows", JArr rows)]);
                     ("anomaly", JBool anom); ("decoy", decoy_json decoy)])).

Definition api_query (r : Request) : PyM W Response :=
  let ip := client_ip r in
  w <- st_get ;;
  blocked <- lift_res (blocklist_first (w_db w) ip) ;;
  match blocked with
  | Some _ => ret resp_blocked
  | None =>
      out <- query_outcome r ;;
      log_request out.1 ;;
      ret out.2
  end.

(** ** [api_block] *)

(** The [try] block of lines 460-464. *)
Definition block_ip (ip reason : json) : PyM W Response :=
  w <- st_get ;;
  ip_s <- lift_res (bind_text ip) ;;
  let ip_s := default "" ip_s in
  row <- lift_res (blocklist_first (w_db w) ip_s) ;;
  match row with
  | Some _ => ret resp_block_ok
  | None =>
      reason_s <- lift_res (bind_text reason) ;;
      db' <- lift_res (commit_block (w_db w) ip_s reason_s (w_now w)) ;;
      set_db db' ;;
      ret resp_block_ok
  end.

Definition api_block (r : Request) : PyM W Response :=
  match py_or (get_json r) (JObj []) with
  | JObj l =>
      let ip := default JNull (obj_get "ip" l) in
      let reason := default (JStr "manual") (obj_get "reason" l) in
      if negb (py_truthy ip) then ret resp_ip_required
      else try_except (block_ip ip reason) (fun _ => ret resp_db_error)
  | _ => raise AttributeError       (** [data.get] on a list, string or number *)
  end.

(** ** [api_decoy_generate] *)

Definition api_decoy_generate : PyM W Response :=
  emp <- run_gen_employees_csv ;;
  proj <- run_gen_projects_csv ;;
  cred <- run_gen_credentials_zip ;;
  let paths := ([emp; proj] ++ match cred with Some c => [c] | None => [] end)%list in
  ret (200%Z, JObj [("status", JStr "ok");
                    ("files", JArr (map (fun p => JStr (basename p)) (List.filter str_truthy paths)))]).

(** ** Dispatch *)

(** Flask's handling of an escaped exception: the 500 handler. *)
Definition flask_dispatch (h : PyM W Response) (w : W) : Response * W :=
  match h w with
  | (Ok resp, w') => (resp, w')
  | (Raise _, w') => (resp_internal_error, w')
  end.
End Handlers.

(** ** Outcomes of the query handler *)

(** [q] values on which the anomalous branch of [api_query] raises. *)
Definition query_crashes (q : json) : bool :=
  py_truthy q && match q with JStr _ => false | _ => true end.

(** The rows served to an anomalous query that does not raise. *)
Definition anomalous_rows (q : json) : list json :=
  match q with
  | JStr s => if contains "SELECT" (py_upper s) then [fake_row] else []
  | _ => []
  end.

(** ** Worlds and requests of the witnesses *)

(** A threshold model that flags any row with a scanning-tool client or an SQL signature. *)
Definition witness_model : option ThresholdModel := Some (mkThreshold [1000; 100; 0; 0; 100]%Z).

Definition witness_fs : Fs := mkFs "/srv/honeypot/decoys" true ∅ "/srv/honeypot/exports" true.

Definition witness_world : World nat := mkWorld empty_db witness_fs 0%nat 1000000%Z.

Definition witness_blocked_world : World nat :=
  mkWorld (mkDb [] [mkBlockRow 1 "203.0.113.7" (Some "manual") 0] true true) witness_fs 0%nat 1000000%Z.

Definition witness_down_world : World nat :=
  mkWorld (mkDb [] [] false true) witness_fs 0%nat 1000000%Z.

Definition witness_json_request (j : json) : Request :=
  mkRequest (Some "203.0.113.7") [("User-Agent", "curl/7.68")] "/api/query" "POST"
            "http://honeypot.local/" true (Some j) (Some []) "" [].

Definition witness_login_request : Request :=
  mkRequest (Some "203.0.113.7") [("User-Agent", "curl/7.68")] "/api/login" "POST"
            "http://honeypot.local/" false None (Some []) "user=admin' OR 1=1 --" [].

(** ** Lemmas on the primitive steps *)

Lemma blocklist_first_none (db : Db) (ip : string) :
  db_reads_ok db = true -> ip ∉ map blk_ip (db_blocklist db) -> blocklist_first db ip = Ok None.
Proof.
  intros Hr Hn. unfold blocklist_first. rewrite Hr. f_equal.
  induction (db_blocklist db) as [|b bl IH]; simpl in *; [reflexivity|].
  rewrite elem_of_cons in Hn. destruct (String.eqb_spec (blk_ip b) ip); [|apply IH]; naive_solver.
Qed.

Lemma blocklist_first_some (db : Db) (ip : string) :
  db_reads_ok db = true -> ip ∈ map blk_ip (db_blocklist db) ->
  exists b, blocklist_first db ip = Ok (Some b).
Proof.
  intros Hr Hin. unfold blocklist_first. rewrite Hr.
  induction (db_blocklist db) as [|b bl IH]; simpl in *; [set_solver|].
  rewrite elem_of_cons in Hin. destruct (String.eqb_spec (blk_ip b) ip); [eauto|].
  apply IH. naive_solver.
Qed.

Lemma blocklist_first_raise (db : Db) (ip : string) :
  db_reads_ok db = false -> blocklist_first db ip = Raise OperationalError.
Proof. intros Hr. unfold blocklist_first. rewrite Hr. reflexivity. Qed.

Ltac pym_unfold :=
  unfold bind, ret, raise, st_get, lift_res, try_except, set_db in *.

Section HandlerLemmas.
Context {F : Type} `{Faker F} {M : Type} `{OutlierModel M}.
Variable model : option M.

(** The deception branch never raises and touches neither the store nor
    the clock; the bundle's URL is present exactly when the decoy
    directory is writable. *)
Lemma deceive_spec (r : Request) (purpose : string) (w : World F) :
  exists name w',
    deceive r purpose w =
      (Ok (Some (JObj [("name", JStr name); ("purpose", JStr purpose)]), bundle_url r (w_fs w)), w') /\
    w_db w' = w_db w /\ w_now w' = w_now w.
Proof.
  unfold deceive, draw_name, run_gen_credentials_zip. pym_unfold.
  destruct (fake_name (w_faker w)) as [name fk]. simpl.
  pose proof (gen_credentials_zip_path 50 (w_fs w) fk) as Hp.
  destruct (gen_credentials_zip 50 (w_fs w) fk) as [[p fs'] fk']. simpl in Hp |- *. subst p.
  unfold bundle_url. destruct (fs_writable (w_fs w)); eexists _, _; simpl; eauto.
Qed.

(** A log commit appends one row stamped with the clock, or (when writes
    fail) changes nothing; it never raises. *)
Lemma log_request_spec (lf : LogFields) (w : World F) :
  exists w', log_request lf w = (Ok tt, w') /\ w_now w' = w_now w /\
    w_fs w' = w_fs w /\ w_faker w' = w_faker w /\
    db_reads_ok (w_db w') = db_reads_ok (w_db w) /\
    db_blocklist (w_db w') = db_blocklist (w_db w) /\
    db_logs (w_db w') =
      if db_writes_ok (w_db w)
      then (db_logs (w_db w) ++ [mkLogRow (next_rowid (map log_id (db_logs (w_db w)))) (w_now w) lf])%list
      else db_logs (w_db w).
Proof.
  unfold log_request, commit_log. destruct (db_writes_ok (w_db w)); eexists; repeat split.
Qed.
End HandlerLemmas.

Lemma features_payload_len (db : Db) (now : Z) (r : Request) (ip : string) :
  payload_len (features_from_request db now r ip) =
  Z.of_nat (String.length (extract_payload_and_params r).1).
Proof. unfold features_from_request. destruct (extract_payload_and_params r); reflexivity. Qed.

Section GeneratorSteps.
Context {F : Type} `{Faker F}.

Lemma run_gen_employees_csv_spec (w : World F) :
  exists w', run_gen_employees_csv w = (Ok (path_join (fs_decoy_dir (w_fs w)) "decoy_employees.csv"), w') /\
    fs_decoy_dir (w_fs w') = fs_decoy_dir (w_fs w) /\ fs_writable (w_fs w') = fs_writable (w_fs w) /\
    (fs_writable (w_fs w) = false -> w' = w).
Proof.
  unfold run_gen_employees_csv. pose proof (gen_employees_csv_fs 200 (w_fs w) (w_faker w)) as Hg.
  destruct (gen_employees_csv 200 (w_fs w) (w_faker w)) as [[p fs'] fk']. destruct Hg as [-> Hg].
  destruct (fs_writable (w_fs w)) eqn:Hw.
  - destruct Hg as [d ->]. eexists; repeat split; try discriminate. simpl. congruence.
  - destruct Hg as [-> ->]. eexists; repeat split; auto. intros _. destruct w; reflexivity.
Qed.

Lemma run_gen_projects_csv_spec (w : World F) :
  exists w', run_gen_projects_csv w = (Ok (path_join (fs_decoy_dir (w_fs w)) "decoy_projects.csv"), w') /\
    fs_decoy_dir (w_fs w') = fs_decoy_dir (w_fs w) /\ fs_writable (w_fs w') = fs_writable (w_fs w) /\
    (fs_writable (w_fs w) = false -> w' = w).
Proof.
  unfold run_gen_projects_csv. pose proof (gen_projects_csv_fs 50 (w_fs w) (w_faker w)) as Hg.
  destruct (gen_projects_csv 50 (w_fs w) (w_faker w)) as [[p fs'] fk']. destruct Hg as [-> Hg].
  destruct (fs_writable (w_fs w)) eqn:Hw.
  - destruct Hg as [d ->]. eexists; repeat split; try discriminate. simpl. congruence.
  - destruct Hg as [-> ->]. eexists; repeat split; auto. intros _. destruct w; reflexivity.
Qed.

Lemma run_gen_credentials_zip_spec (w : World F) :
  exists w', run_gen_credentials_zip w =
    (Ok (if fs_writable (w_fs w)
         then Some (path_join (fs_decoy_dir (w_fs w)) "credentials_backup.zip") else None), w') /\
    fs_decoy_dir (w_fs w') = fs_decoy_dir (w_fs w) /\ fs_writable (w_fs w') = fs_writable (w_fs w) /\
    (fs_writable (w_fs w) = false -> w' = w).
Proof.
  unfold run_gen_credentials_zip. pose proof (gen_credentials_zip_fs 50 (w_fs w) (w_faker w)) as Hg.
  destruct (gen_credentials_zip 50 (w_fs w) (w_faker w)) as [[p fs'] fk'].
  destruct (fs_writable (w_fs w)) eqn:Hw.
  - destruct Hg as [-> [d1 [d2 ->]]]. eexists; repeat split; try discriminate. simpl. congruence.
  - destruct Hg as [-> [-> ->]]. eexists; repeat split; auto. intros _. destruct w; reflexivity.
Qed.
End GeneratorSteps.

Lemma blocked_gate {F : Type} `{Faker F} {M : Type} `{OutlierModel M}
    (model : option M) (r : Request) (w : World F) :
  db_reads_ok (w_db w) = true -> client_ip r ∈ map blk_ip (db_blocklist (w_db w)) ->
  api_login model r w = (Ok resp_blocked, w) /\ api_query model r w = (Ok resp_blocked, w).
Proof.
  intros Hr Hin. destruct (blocklist_first_some _ _ Hr Hin) as [b Hb].
  unfold api_login, api_query, login_row, query_outcome. pym_unfold. rewrite Hb. split; reflexivity.
Qed.

Lemma existsb_blk_false (bl : list BlockRow) (s : string) :
  s ∉ map blk_ip bl -> existsb (fun b => String.eqb (blk_ip b) s) bl = false.
Proof.
  induction bl as [|b bl IH]; simpl; [reflexivity|]. rewrite elem_of_cons.
  intros Hn. destruct (String.eqb_spec (blk_ip b) s); [naive_solver|]. apply IH. naive_solver.
Qed.

Lemma py_or_obj (l : list (string * json)) : py_or (JObj l) (JObj []) = JObj l.
Proof. unfold py_or. destruct l; reflexivity. Qed.

Lemma str_truthy_app_r (a b : string) : str_truthy b = true -> str_truthy (a ++ b) = true.
Proof. destruct a; [auto | reflexivity]. Qed.

Lemma path_join_truthy (d n : string) : str_truthy n = true -> str_truthy (path_join d n) = true.
Proof.
  intros Hn. unfold path_join. destruct n as [|c n']; [discriminate|].
  case_bool_decide; [reflexivity|].
  destruct (negb (str_truthy d) || ends_with_slash d); apply str_truthy_app_r; [exact Hn|].
  reflexivity.
Qed.

Lemma query_rows_ok {F : Type} (q : json) (w : World F) :
  query_crashes q = false -> query_rows q w = (Ok (anomalous_rows q), w).
Proof.
  unfold query_rows, query_crashes, anomalous_rows, ret, raise.
  destruct (py_truthy q) eqn:Ht; simpl; intros Hc.
  - destruct q; try discriminate; reflexivity.
  - destruct q; try reflexivity. destruct s; [reflexivity | discriminate].
Qed.

(** Run the log commit of a handler through [log_request_spec]. *)
Ltac log_step w2 Hn2 Hb2 Hlogs :=
  match goal with
  | |- context [log_request ?lf ?w0] =>
      let Hl := fresh "Hl" in
      destruct (log_request_spec lf w0) as [w2 [Hl [Hn2 [? [? [? [Hb2 Hlogs]]]]]]];
      rewrite Hl
  end.

Section LoginRow.
Context {F : Type} `{Faker F} {M : Type} `{OutlierModel M}.

(** Preparing the login row never raises, leaves the store and the clock
    alone, and records the source. *)
Lemma login_row_spec (model : option M) (r : Request) (w : World F) :
  exists lf w', login_row model r w = (Ok lf, w') /\ lf_ip lf = client_ip r /\
                w_db w' = w_db w /\ w_now w' = w_now w.
Proof.
  unfold login_row. pym_unfold. cbv zeta.
  destruct (is_anomaly_from_features model _).
  - destruct (deceive_spec r "suspicious activity detected" w) as (name & w1 & E & Hd & Hn).
    rewrite E. destruct (extract_payload_and_params r). eexists _, _. split; [reflexivity|]. auto.
  - destruct (extract_payload_and_params r). eexists _, _. split; [reflexivity|]. auto.
Qed.

(** A login from an address not blocked appends one row from that
    address when the store accepts writes. *)
Lemma login_logs_row (model : option M) (r : Request) (w : World F) :
  db_reads_ok (w_db w) = true -> client_ip r ∉ map blk_ip (db_blocklist (w_db w)) ->
  exists w' lf,
    api_login model r w = (Ok resp_login_fail, w') /\
    db_blocklist (w_db w') = db_blocklist (w_db w) /\
    db_logs (w_db w') =
      (if db_writes_ok (w_db w)
       then db_logs (w_db w) ++ [mkLogRow (next_rowid (map log_id (db_logs (w_db w)))) (w_now w) lf]
       else db_logs (w_db w))%list /\
    lf_ip lf = client_ip r.
Proof.
  intros Hr Hn. unfold api_login. pym_unfold.
  rewrite (blocklist_first_none _ _ Hr Hn). cbv beta iota.
  destruct (login_row_spec model r w) as (lf & w1 & E & Hip & Hd & Hnow). rewrite E.
  log_step w2 Hn2 Hb2 Hlogs. rewrite Hd, Hnow in *. exists w2, lf. auto.
Qed.
End LoginRow.

(** ** Properties of the handlers *)

Section HandlerProperties.
Context {F : Type} `{Faker F} {M : Type} `{OutlierModel M}.

(** C3: a request from an address on the
    blocklist is answered 403 by both scoring endpoints with the world
    left exactly as it was, whatever the model: no features, no model
    call, no decoy, no fake-name draw, no log row. *)
Theorem blocked_source_short_circuits (model : option M) (r : Request) (w : World F) :
  db_reads_ok (w_db w) = true -> client_ip r ∈ map blk_ip (db_blocklist (w_db w)) ->
  api_login model r w = (Ok resp_blocked, w) /\ api_query model r w = (Ok resp_blocked, w).
Proof. apply blocked_gate. Qed.

Lemma login_outcome (model : option M) (r : Request) (w : World F) :
  db_reads_ok (w_db w) = true -> client_ip r ∉ map blk_ip (db_blocklist (w_db w)) ->
  let anom := is_anomaly_from_features model
                (features_from_request (w_db w) (w_now w) r (client_ip r)) in
  exists w' lf,
    api_login model r w = (Ok resp_login_fail, w') /\
    db_blocklist (w_db w') = db_blocklist (w_db w) /\
    db_logs (w_db w') =
      (if db_writes_ok (w_db w)
       then db_logs (w_db w) ++ [mkLogRow (next_rowid (map log_id (db_logs (w_db w)))) (w_now w) lf]
       else db_logs (w_db w))%list /\
    lf_ip lf = client_ip r /\
    lf_payload lf = (extract_payload_and_params r).1 /\
    lf_payload_len lf = Z.of_nat (String.length (lf_payload lf)) /\
    lf_anomaly lf = anom /\
    (lf_profile lf <> None <-> anom = true) /\
    lf_decoy_file lf = (if anom then bundle_url r (w_fs w) else None).
Proof.
  intros Hr Hn anom. unfold api_login, login_row. pym_unfold.
  rewrite (blocklist_first_none _ _ Hr Hn). cbv beta iota.
  fold anom. pose proof (features_payload_len (w_db w) (w_now w) r (client_ip r)) as Hpl.
  destruct (extract_payload_and_params r) as [payload np] eqn:He. simpl in *.
  destruct anom.
  - destruct (deceive_spec r "suspicious activity detected" w) as [name [w1 [Hd [Hdb Hnow]]]].
    rewrite Hd.
    log_step w2 Hn2 Hb2 Hlogs.
    rewrite Hdb, Hnow in *. eexists w2, _. repeat split; eauto; simpl; congruence.
  - log_step w2 Hn2 Hb2 Hlogs.
    eexists w2, _. repeat split; eauto; simpl; congruence.
Qed.

(** C1: a login from an address that is not blocked is
    always answered 401 whatever the verdict; when the store accepts
    writes it appends exactly one row stamped with the clock, recording
    the source, the normalised payload and its length, the verdict, a
    profile exactly when anomalous, and the decoy URL exactly when
    anomalous and the bundle could be written; when writes fail the log
    is unchanged. *)
Theorem login_scored (model : option M) (r : Request) (w : World F) :
  db_reads_ok (w_db w) = true -> client_ip r ∉ map blk_ip (db_blocklist (w_db w)) ->
  let anom := is_anomaly_from_features model
                (features_from_request (w_db w) (w_now w) r (client_ip r)) in
  exists w' lf,
    api_login model r w = (Ok resp_login_fail, w') /\
    db_blocklist (w_db w') = db_blocklist (w_db w) /\
    db_logs (w_db w') =
      (if db_writes_ok (w_db w)
       then db_logs (w_db w) ++ [mkLogRow (next_rowid (map log_id (db_logs (w_db w)))) (w_now w) lf]
       else db_logs (w_db w))%list /\
    lf_ip lf = client_ip r /\
    lf_payload lf = (extract_payload_and_params r).1 /\
    lf_payload_len lf = Z.of_nat (String.length (lf_payload lf)) /\
    lf_anomaly lf = anom /\
    (lf_profile lf <> None <-> anom = true) /\
    lf_decoy_file lf = (if anom then bundle_url r (w_fs w) else None).
Proof. apply login_outcome. Qed.

Lemma read_failure_core (model : option M) (r : Request) (w : World F) :
  db_reads_ok (w_db w) = false ->
  flask_dispatch (api_login model r) w = (resp_internal_error, w) /\
  flask_dispatch (api_query model r) w = (resp_internal_error, w).
Proof.
  intros Hr. unfold flask_dispatch, api_login, api_query, login_row, query_outcome. pym_unfold.
  rewrite (blocklist_first_raise _ _ Hr). split; reflexivity.
Qed.

(** C5: when the store refuses reads, the blocklist
    check of both scoring endpoints raises and Flask answers 500: the
    gate does not fail open as the spec requires (the source is neither
    scored nor served the honeypot response). *)
Theorem read_failure_500 (model : option M) (r : Request) (w : World F) :
  db_reads_ok (w_db w) = false ->
  flask_dispatch (api_login model r) w = (resp_internal_error, w) /\
  flask_dispatch (api_query model r) w = (resp_internal_error, w).
Proof. apply read_failure_core. Qed.

(** C6: an anomalous query whose [q] is a truthy
    JSON value that is not a string (a number, list or dict) makes
    [q.upper()] raise after the fake name was drawn and the credentials
    bundle rewritten: Flask answers 500 and no forensic row is logged. *)
Theorem query_nonstring_crash (model : option M) (r : Request) (w : World F) :
  db_reads_ok (w_db w) = true -> client_ip r ∉ map blk_ip (db_blocklist (w_db w)) ->
  is_anomaly_from_features model (query_features (w_db w) (w_now w) r) = true ->
  py_truthy (query_param r) = true -> (forall s, query_param r <> JStr s) ->
  exists w',
    flask_dispatch (api_query model r) w = (resp_internal_error, w') /\
    w_db w' = w_db w /\
    w_fs w' = (gen_credentials_zip 50 (w_fs w) (fake_name (w_faker w)).2).1.2.
Proof.
  intros Hr Hn Ha Ht Hs. unfold flask_dispatch, api_query, query_outcome. pym_unfold.
  rewrite (blocklist_first_none _ _ Hr Hn). cbv beta iota. rewrite Ha.
  unfold deceive, draw_name, run_gen_credentials_zip, query_rows. pym_unfold.
  destruct (fake_name (w_faker w)) as [name fk]. simpl.
  destruct (gen_credentials_zip 50 (w_fs w) fk) as [[zp fs'] fk'] eqn:Hg. simpl.
  rewrite Ht. destruct (query_param r) eqn:Hq;
    try (exfalso; eapply Hs; reflexivity); simpl in Ht; try discriminate;
    eexists; repeat split; simpl; rewrite ?Hg; reflexivity.
Qed.

(** C2: a query from an address that is not blocked, on
    which the handler does not raise, is answered 200 with the verdict of
    the model on the query features, the decoy URL exactly when
    anomalous and the bundle was written, and one fabricated row exactly
    when anomalous and [q] is a string mentioning SELECT in any case; the
    log gains one row holding [str(q)] and the verdict when writes
    succeed. *)
Theorem query_scored (model : option M) (r : Request) (w : World F) :
  db_reads_ok (w_db w) = true -> client_ip r ∉ map blk_ip (db_blocklist (w_db w)) ->
  let anom := is_anomaly_from_features model (query_features (w_db w) (w_now w) r) in
  (anom = true -> query_crashes (query_param r) = false) ->
  let decoy := if anom then bundle_url r (w_fs w) else None in
  exists w' lf,
    api_query model r w =
      (Ok (200%Z, JObj [("status", JStr "ok");
                        ("result", JObj [("rows", JArr (if anom then anomalous_rows (query_param r) else []))]);
                        ("anomaly", JBool anom); ("decoy", decoy_json decoy)]), w') /\
    db_blocklist (w_db w') = db_blocklist (w_db w) /\
    db_logs (w_db w') =
      (if db_writes_ok (w_db w)
       then db_logs (w_db w) ++ [mkLogRow (next_rowid (map log_id (db_logs (w_db w)))) (w_now w) lf]
       else db_logs (w_db w))%list /\
    lf_ip lf = client_ip r /\ lf_payload lf = py_str (query_param r) /\
    lf_anomaly lf = anom /\ lf_decoy_file lf = decoy.
Proof.
  intros Hr Hn anom Hc decoy. unfold api_query, query_outcome. pym_unfold.
  rewrite (blocklist_first_none _ _ Hr Hn). cbv beta iota. fold anom.
  subst decoy. destruct anom.
  - destruct (deceive_spec r "data exfiltration" w) as [name [w1 [Hd [Hdb Hnow]]]].
    rewrite Hd, (query_rows_ok _ _ (Hc eq_refl)).
    destruct (extract_payload_and_params r) as [payload np]; simpl.
    log_step w2 Hn2 Hb2 Hlogs. rewrite Hdb, Hnow in *.
    eexists w2, _. repeat split; eauto.
  - destruct (extract_payload_and_params r) as [payload np]; simpl.
    log_step w2 Hn2 Hb2 Hlogs. eexists w2, _. repeat split; eauto.
Qed.

(** C13: an administrative block of a non-empty
    address string, with the store up, answers 200 and leaves the log
    alone; afterwards the address is on the blocklist (a second block of
    the same address changes nothing) and every later login or query
    from it is answered 403 without effect. *)
Theorem block_then_rejected (model : option M) (r : Request) (w : World F)
    (l : list (string * json)) (s : string) :
  get_json r = JObj l -> obj_get "ip" l = Some (JStr s) -> str_truthy s = true ->
  (forall e, bind_text (default (JStr "manual") (obj_get "reason" l)) <> Raise e) ->
  db_reads_ok (w_db w) = true -> db_writes_ok (w_db w) = true ->
  exists w',
    api_block r w = (Ok resp_block_ok, w') /\
    db_logs (w_db w') = db_logs (w_db w) /\
    s ∈ map blk_ip (db_blocklist (w_db w')) /\
    (s ∈ map blk_ip (db_blocklist (w_db w)) -> w' = w) /\
    (forall r', client_ip r' = s ->
       api_login model r' w' = (Ok resp_blocked, w') /\ api_query model r' w' = (Ok resp_blocked, w')).
Proof.
  intros Hj Hip Hs Hreason Hr Hw.
  unfold api_block. rewrite Hj, py_or_obj, Hip. simpl. rewrite Hs. simpl.
  unfold try_except, block_ip. pym_unfold. simpl.
  destruct (decide (s ∈ map blk_ip (db_blocklist (w_db w)))) as [Hin|Hnin].
  - destruct (blocklist_first_some _ _ Hr Hin) as [b Hb]. rewrite Hb.
    exists w. do 4 (split; [auto|]). intros r' <-. apply blocked_gate; auto.
  - rewrite (blocklist_first_none _ _ Hr Hnin).
    destruct (bind_text (default (JStr "manual") (obj_get "reason" l))) as [rs|e] eqn:Hb;
      [|exfalso; eapply Hreason; reflexivity].
    unfold commit_block. rewrite Hw, (existsb_blk_false _ _ Hnin).
    eexists. split; [reflexivity|]. simpl.
    assert (Hin' : s ∈ map blk_ip (db_blocklist (w_db w) ++
              [mkBlockRow (next_rowid (map blk_id (db_blocklist (w_db w)))) s rs (w_now w)])%list)
      by (rewrite map_app; set_solver).
    split; [done|]. split; [exact Hin'|]. split; [intros; contradiction|].
    intros r' <-. apply blocked_gate; [exact Hr | exact Hin'].
Qed.

(** C16: a JSON body for the block action that is
    truthy but not a dict (a list, string, number or true) makes
    [data.get] raise: Flask answers 500 and nothing changes. *)
Theorem block_nondict_crash (r : Request) (w : World F) :
  py_truthy (get_json r) = true -> (forall l, get_json r <> JObj l) ->
  flask_dispatch (api_block r) w = (resp_internal_error, w).
Proof.
  intros Ht Hn. unfold flask_dispatch, api_block, py_or. rewrite Ht.
  destruct (get_json r); try reflexivity. exfalso. eapply Hn. reflexivity.
Qed.

(** The decoy regeneration action
    always reports the employees and projects files, whether or not they
    could be written, and the credentials bundle only when it was
    written; on a read-only decoy directory nothing changes. *)
Theorem decoy_generate_reports_all (w : World F) :
  exists w',
    api_decoy_generate w =
      (Ok (200%Z, JObj [("status", JStr "ok");
                        ("files", JArr ([JStr "decoy_employees.csv"; JStr "decoy_projects.csv"] ++
                                        if fs_writable (w_fs w)
                                        then [JStr "credentials_backup.zip"] else [])%list)]), w') /\
    (fs_writable (w_fs w) = false -> w' = w).
Proof.
  assert (Hb : forall n, no_slash n -> str_truthy n = true ->
            str_truthy (path_join (fs_decoy_dir (w_fs w)) n) = true /\
            basename (path_join (fs_decoy_dir (w_fs w)) n) = n)
    by (intros; split; [apply path_join_truthy | apply basename_path_join]; auto).
  destruct (Hb "decoy_employees.csv") as [He1 He2]; [unfold no_slash; simpl; set_solver | reflexivity |].
  destruct (Hb "decoy_projects.csv") as [Hp1 Hp2]; [unfold no_slash; simpl; set_solver | reflexivity |].
  destruct (Hb "credentials_backup.zip") as [Hc1 Hc2]; [unfold no_slash; simpl; set_solver | reflexivity |].
  unfold api_decoy_generate. pym_unfold.
  destruct (run_gen_employees_csv_spec w) as [w1 [E1 [D1 [W1 U1]]]]. rewrite E1.
  destruct (run_gen_projects_csv_spec w1) as [w2 [E2 [D2 [W2 U2]]]]. rewrite E2.
  destruct (run_gen_credentials_zip_spec w2) as [w3 [E3 [D3 [W3 U3]]]]. rewrite E3.
  rewrite D2, D1, W2, W1. cbn [List.filter app].
  rewrite He1, Hp1. cbn [map]. rewrite He2, Hp2.
  destruct (fs_writable (w_fs w)) eqn:Hw; cbn [List.filter app map].
  - rewrite Hc1. cbn [map]. rewrite Hc2. eexists. split; [reflexivity | discriminate].
  - eexists. split; [reflexivity|]. intros _. rewrite U3, U2, U1 by congruence. reflexivity.
Qed.
End HandlerProperties.

(** ** Witnesses *)

Lemma login_scored_witness :
  db_reads_ok (w_db witness_world) = true /\
  client_ip witness_login_request ∉ map blk_ip (db_blocklist (w_db witness_world)) /\
  (let anom := is_anomaly_from_features witness_model
                 (features_from_request (w_db witness_world) (w_now witness_world)
                    witness_login_request (client_ip witness_login_request)) in
   exists w' lf,
     api_login witness_model witness_login_request witness_world = (Ok resp_login_fail, w') /\
     db_blocklist (w_db w') = db_blocklist (w_db witness_world) /\
     db_logs (w_db w') =
       (if db_writes_ok (w_db witness_world)
        then db_logs (w_db witness_world) ++
             [mkLogRow (next_rowid (map log_id (db_logs (w_db witness_world)))) (w_now witness_world) lf]
        else db_logs (w_db witness_world))%list /\
     lf_ip lf = client_ip witness_login_request /\
     lf_payload lf = (extract_payload_and_params witness_login_request).1 /\
     lf_payload_len lf = Z.of_nat (String.length (lf_payload lf)) /\
     lf_anomaly lf = anom /\
     (lf_profile lf <> None <-> anom = true) /\
     lf_decoy_file lf = (if anom then bundle_url witness_login_request (w_fs witness_world) else None)).
Proof.
  split; [reflexivity|]. split; [simpl; set_solver|].
  apply login_scored; [reflexivity | simpl; set_solver].
Defined.

Lemma query_scored_witness :
  db_reads_ok (w_db witness_world) = true /\
  client_ip witness_raw_request ∉ map blk_ip (db_blocklist (w_db witness_world)) /\
  (is_anomaly_from_features witness_model
     (query_features (w_db witness_world) (w_now witness_world) witness_raw_request) = true ->
   query_crashes (query_param witness_raw_request) = false) /\
  (let anom := is_anomaly_from_features witness_model
                 (query_features (w_db witness_world) (w_now witness_world) witness_raw_request) in
   let decoy := if anom then bundle_url witness_raw_request (w_fs witness_world) else None in
   exists w' lf,
     api_query witness_model witness_raw_request witness_world =
       (Ok (200%Z, JObj [("status", JStr "ok");
                         ("result", JObj [("rows", JArr (if anom then anomalous_rows (query_param witness_raw_request) else []))]);
                         ("anomaly", JBool anom); ("decoy", decoy_json decoy)]), w') /\
     db_blocklist (w_db w') = db_blocklist (w_db witness_world) /\
     db_logs (w_db w') =
       (if db_writes_ok (w_db witness_world)
        then db_logs (w_db witness_world) ++
             [mkLogRow (next_rowid (map log_id (db_logs (w_db witness_world)))) (w_now witness_world) lf]
        else db_logs (w_db witness_world))%list /\
     lf_ip lf = client_ip witness_raw_request /\ lf_payload lf = py_str (query_param witness_raw_request) /\
     lf_anomaly lf = anom /\ lf_decoy_file lf = decoy).
Proof.
  assert (Hc : is_anomaly_from_features witness_model
     (query_features (w_db witness_world) (w_now witness_world) witness_raw_request) = true ->
     query_crashes (query_param witness_raw_request) = false) by (intros _; reflexivity).
  split; [reflexivity|]. split; [simpl; set_solver|]. split; [exact Hc|].
  apply query_scored; [reflexivity | simpl; set_solver | exact Hc].
Defined.

Lemma blocked_source_short_circuits_witness :
  db_reads_ok (w_db witness_blocked_world) = true /\
  client_ip witness_login_request ∈ map blk_ip (db_blocklist (w_db witness_blocked_world)) /\
  api_login witness_model witness_login_request witness_blocked_world = (Ok resp_blocked, witness_blocked_world) /\
  api_query witness_model witness_login_request witness_blocked_world = (Ok resp_blocked, witness_blocked_world).
Proof.
  assert (Hin : client_ip witness_login_request ∈ map blk_ip (db_blocklist (w_db witness_blocked_world)))
    by (simpl; left).
  split; [reflexivity|]. split; [exact Hin|].
  apply blocked_source_short_circuits; [reflexivity | exact Hin].
Defined.

Lemma read_failure_500_witness :
  db_reads_ok (w_db witness_down_world) = false /\
  flask_dispatch (api_login witness_model witness_login_request) witness_down_world =
    (resp_internal_error, witness_down_world) /\
  flask_dispatch (api_query witness_model witness_login_request) witness_down_world =
    (resp_internal_error, witness_down_world).
Proof. split; [reflexivity|]. apply read_failure_500. reflexivity. Defined.

Lemma query_nonstring_crash_witness :
  db_reads_ok (w_db witness_world) = true /\
  client_ip (witness_json_request (JObj [("q", JNum 5)])) ∉ map blk_ip (db_blocklist (w_db witness_world)) /\
  is_anomaly_from_features witness_model
    (query_features (w_db witness_world) (w_now witness_world) (witness_json_request (JObj [("q", JNum 5)]))) = true /\
  py_truthy (query_param (witness_json_request (JObj [("q", JNum 5)]))) = true /\
  (forall s, query_param (witness_json_request (JObj [("q", JNum 5)])) <> JStr s) /\
  exists w',
    flask_dispatch (api_query witness_model (witness_json_request (JObj [("q", JNum 5)]))) witness_world =
      (resp_internal_error, w') /\
    w_db w' = w_db witness_world /\
    w_fs w' = (gen_credentials_zip 50 (w_fs witness_world) (fake_name (w_faker witness_world)).2).1.2.
Proof.
  assert (Hs : forall s, query_param (witness_json_request (JObj [("q", JNum 5)])) <> JStr s)
    by (intros s Hs; vm_compute in Hs; discriminate Hs).
  split; [reflexivity|]. split; [simpl; set_solver|]. split; [vm_compute; reflexivity|].
  split; [reflexivity|]. split; [exact Hs|].
  apply query_nonstring_crash; [reflexivity | simpl; set_solver | vm_compute; reflexivity | reflexivity | exact Hs].
Defined.

Lemma block_then_rejected_witness :
  get_json (witness_json_request (JObj [("ip", JStr "198.51.100.9")])) = JObj [("ip", JStr "198.51.100.9")] /\
  obj_get "ip" [("ip", JStr "198.51.100.9")] = Some (JStr "198.51.100.9") /\
  str_truthy "198.51.100.9" = true /\
  (forall e, bind_text (default (JStr "manual") (obj_get "reason" [("ip", JStr "198.51.100.9")])) <> Raise e) /\
  db_reads_ok (w_db witness_world) = true /\ db_writes_ok (w_db witness_world) = true /\
  exists w',
    api_block (witness_json_request (JObj [("ip", JStr "198.51.100.9")])) witness_world = (Ok resp_block_ok, w') /\
    db_logs (w_db w') = db_logs (w_db witness_world) /\
    "198.51.100.9" ∈ map blk_ip (db_blocklist (w_db w')) /\
    ("198.51.100.9" ∈ map blk_ip (db_blocklist (w_db witness_world)) -> w' = witness_world) /\
    (forall r', client_ip r' = "198.51.100.9" ->
       api_login witness_model r' w' = (Ok resp_blocked, w') /\ api_query witness_model r' w' = (Ok resp_blocked, w')).
Proof.
  assert (He : forall e, bind_text (default (JStr "manual") (obj_get "reason" [("ip", JStr "198.51.100.9")])) <> Raise e)
    by (intros e H; discriminate H).
  do 3 (split; [reflexivity|]). split; [exact He|]. do 2 (split; [reflexivity|]).
  apply (block_then_rejected witness_model _ _ [("ip", JStr "198.51.100.9")] "198.51.100.9"); try reflexivity. exact He.
Defined.

Lemma block_nondict_crash_witness :
  py_truthy (get_json (witness_json_request (JArr [JStr "198.51.100.9"]))) = true /\
  (forall l, get_json (witness_json_request (JArr [JStr "198.51.100.9"])) <> JObj l) /\
  flask_dispatch (api_block (witness_json_request (JArr [JStr "198.51.100.9"]))) witness_world =
    (resp_internal_error, witness_world).
Proof.
  assert (Hn : forall l, get_json (witness_json_request (JArr [JStr "198.51.100.9"])) <> JObj l)
    by (intros l H; discriminate H).
  split; [reflexivity|]. split; [exact Hn|]. apply block_nondict_crash; [reflexivity | exact Hn].
Defined.
