(* ===== verification/Alerts.v ===== *)
(** * The alert feed, [GET /api/alerts]

    [api_alerts] (src/Backend/app.py, lines 334-361) reads the [limit]
    query argument with [int(request.args.get('limit', 50))], outside any
    [try]; fetches the newest [limit] log rows with
    [Log.query.order_by(Log.id.desc()).limit(limit).all()], answering
    [[]] with status 500 when the query raises; and renders each row as a
    dict, reading its stored profile back with [json.loads] (a failure
    gives [None]).  SQLite treats a negative [LIMIT] as no limit.  Python's
    [int()] of a string is modelled on ASCII text: surrounding whitespace,
    an optional sign, decimal digits with single underscores between them.
    The feed changes nothing. *)
From S2P Require Import Prelude PyStr Json Loads Clock Request Store Features Detector Decoy Handlers.
From Stdlib Require Import Ascii String Decimal DecimalString DecimalPos.

Open Scope string_scope.

(** ** [int(s)] *)

(** [str.isspace()] on an ASCII character. *)
Definition py_space (c : ascii) : bool :=
  let n := nat_of_ascii c in (((9 <=? n) && (n <=? 13)) || ((28 <=? n) && (n <=? 32)))%nat.

Fixpoint lstrip_space (s : string) : string :=
  match s with
  | String c s' => if py_space c then lstrip_space s' else s
  | EmptyString => EmptyString
  end.

Definition rev_string (s : string) : string := string_of_list_ascii (List.rev (list_ascii_of_string s)).

(** [s.strip()]. *)
Definition py_strip (s : string) : string := rev_string (lstrip_space (rev_string (lstrip_space s))).

(** The digits of a decimal literal with single underscores between
    digits ([after_digit] says whether the previous character was a
    digit); [None] unless the text is such a literal. *)
Fixpoint int_digits (after_digit : bool) (s : string) : option string :=
  match s with
  | EmptyString => if after_digit then Some EmptyString else None
  | String c s' =>
      if is_digit c then match int_digits true s' with Some ds => Some (String c ds) | None => None end
      else if Ascii.eqb c "_" && after_digit then int_digits false s'
      else None
  end.

(** [int(s)] for a [str]: [None] where Python raises [ValueError]. *)
Definition py_int (s : string) : option Z :=
  let t := py_strip s in
  let '(neg, u) := match t with
                   | String c u => if Ascii.eqb c "-" then (true, u)
                                   else if Ascii.eqb c "+" then (false, u) else (false, t)
                   | EmptyString => (false, t)
                   end in
  match int_digits false u with
  | Some ds => match NilEmpty.uint_of_string ds with
               | Some d => Some (if neg then Z.opp (Z.of_uint d) else Z.of_uint d)
               | None => None
               end
  | None => None
  end.

(** [int(request.args.get('limit', 50))]. *)
Definition alerts_limit (r : Request) : res Z :=
  match md_get "limit" (req_args r) with
  | None => Ok 50%Z
  | Some s => match py_int s with Some n => Ok n | None => Raise ValueError end
  end.

(** ** The query and the rows *)

(** SQLite's [LIMIT n]: a negative bound is no bound. *)
Definition sql_limit {A} (n : Z) (l : list A) : list A :=
  if (n <? 0)%Z then l else firstn (Z.to_nat n) l.

(** [json.loads(l.profile) if l.profile else None], failures giving [None]. *)
Definition alert_profile (p : option string) : json :=
  match p with
  | Some t => if str_truthy t then default JNull (loads t) else JNull
  | None => JNull
  end.

Definition opt_str (o : option string) : json :=
  match o with Some s => JStr s | None => JNull end.

(** The dict of one row (lines 349-360). *)
Definition alert_row (l : LogRow) : json :=
  let f := log_fields l in
  JObj [("id", JNum (log_id l)); ("ip", JStr (lf_ip f)); ("path", JStr (lf_path f));
        ("method", JStr (lf_method f)); ("ua", JStr (lf_ua f)); ("payload", JStr (lf_payload f));
        ("timestamp", JStr (isoformat (log_timestamp l))); ("anomaly", JBool (lf_anomaly f));
        ("profile", alert_profile (lf_profile f)); ("decoy_file", opt_str (lf_decoy_file f))].

Section Alerts.
Context {F : Type}.

(** The handler.  [db_logs] is in rowid order, so [ORDER BY id DESC] is
    its reverse. *)
Definition api_alerts (r : Request) : PyM (World F) Response :=
  limit <- lift_res (alerts_limit r) ;;
  w <- st_get ;;
  if db_reads_ok (w_db w)
  then ret (200%Z, JArr (map alert_row (sql_limit limit (List.rev (db_logs (w_db w))))))
  else ret (500%Z, JArr []).
End Alerts.

(** A feed request with the given query string, for the witnesses. *)
Definition witness_alerts_request (args : list (string * string)) : Request :=
  mkRequest (Some "198.51.100.20") [] "/api/alerts" "GET" "http://honeypot.local/" false None
            (Some []) "" args.

(** ** Lemmas *)

Lemma int_digits_uint (d : uint) :
  d <> Nil -> int_digits false (NilEmpty.string_of_uint d) = Some (NilEmpty.string_of_uint d).
Proof.
  intros Hd. cut (forall b, d <> Nil \/ b = true ->
                   int_digits b (NilEmpty.string_of_uint d) = Some (NilEmpty.string_of_uint d)).
  { intros H. apply H. left. exact Hd. }
  clear Hd. induction d; intros b Hb; simpl;
    try (rewrite IHd by (right; reflexivity); reflexivity).
  destruct Hb as [Hb | ->]; [congruence | reflexivity].
Qed.

Lemma lstrip_space_id (s : string) :
  Forall (fun c => py_space c = false) (list_ascii_of_string s) -> lstrip_space s = s.
Proof. destruct s as [|c s]; simpl; [reflexivity|]. intros Hf. inversion Hf; subst. rewrite H1. reflexivity. Qed.

Lemma rev_string_involutive (s : string) : rev_string (rev_string s) = s.
Proof.
  unfold rev_string. rewrite list_ascii_of_string_of_list_ascii, rev_involutive.
  apply string_of_list_ascii_of_string.
Qed.

(** A text without whitespace is its own [strip()]. *)
Lemma py_strip_id (s : string) :
  Forall (fun c => py_space c = false) (list_ascii_of_string s) -> py_strip s = s.
Proof.
  intros Hf. unfold py_strip. rewrite (lstrip_space_id s Hf).
  rewrite lstrip_space_id; [apply rev_string_involutive|].
  unfold rev_string. rewrite list_ascii_of_string_of_list_ascii. apply Forall_rev. exact Hf.
Qed.

Lemma string_of_uint_no_space (d : uint) :
  Forall (fun c => py_space c = false) (list_ascii_of_string (NilEmpty.string_of_uint d)).
Proof. induction d; simpl; constructor; auto. Qed.

(** [int(str(z)) == z]. *)
Lemma py_int_z_to_string (z : Z) : py_int (z_to_string z) = Some z.
Proof.
  destruct z as [|p|p]; [reflexivity| |].
  - assert (E : z_to_string (Zpos p) = NilEmpty.string_of_uint (Pos.to_uint p))
      by (unfold z_to_string; simpl; pose proof (pos_to_uint_head p);
          destruct (Pos.to_uint p); (contradiction || reflexivity)).
    unfold py_int. rewrite E, py_strip_id by apply string_of_uint_no_space.
    pose proof (int_digits_uint (Pos.to_uint p) (DecimalPos.Unsigned.to_uint_nonnil p)) as Hi.
    pose proof (NilEmpty.usu (Pos.to_uint p)) as Hu. pose proof (z_of_uint_pos p) as Hz.
    pose proof (pos_to_uint_head p) as Hh.
    destruct (Pos.to_uint p); try contradiction; simpl in *; rewrite Hi; simpl; rewrite Hu, Hz; reflexivity.
  - assert (E : z_to_string (Zneg p) = String "-" (NilEmpty.string_of_uint (Pos.to_uint p)))
      by (unfold z_to_string; simpl; pose proof (pos_to_uint_head p);
          destruct (Pos.to_uint p); (contradiction || reflexivity)).
    unfold py_int. rewrite E, py_strip_id by (constructor; [reflexivity | apply string_of_uint_no_space]).
    cbv beta iota. simpl Ascii.eqb. cbv iota.
    rewrite (int_digits_uint (Pos.to_uint p) (DecimalPos.Unsigned.to_uint_nonnil p)), NilEmpty.usu, z_of_uint_pos.
    reflexivity.
Qed.

Section AlertsProperties.
Context {F : Type} `{Faker F} {M : Type} `{OutlierModel M}.

(** The feed on a readable store, for a parsed limit. *)
Lemma api_alerts_ok (r : Request) (w : World F) (n : Z) :
  db_reads_ok (w_db w) = true -> alerts_limit r = Ok n ->
  api_alerts r w = (Ok (200%Z, JArr (map alert_row (sql_limit n (List.rev (db_logs (w_db w)))))), w).
Proof. intros Hr Hl. unfold api_alerts. pym_unfold. rewrite Hl. simpl. rewrite Hr. reflexivity. Qed.

Lemma alerts_limit_text (r : Request) (n : Z) :
  md_get "limit" (req_args r) = Some (z_to_string n) -> alerts_limit r = Ok n.
Proof. intros Hm. unfold alerts_limit. rewrite Hm, py_int_z_to_string. reflexivity. Qed.

(** C21: with [?limit=n] for [n >= 0] on a readable store, the feed
    answers 200 with the newest [min(n, #rows)] log rows, newest first,
    and changes nothing. *)
Theorem alerts_newest_first (r : Request) (w : World F) (n : Z) :
  db_reads_ok (w_db w) = true -> md_get "limit" (req_args r) = Some (z_to_string n) -> (0 <= n)%Z ->
  api_alerts r w =
    (Ok (200%Z, JArr (map alert_row (firstn (Z.to_nat n) (List.rev (db_logs (w_db w)))))), w) /\
  List.length (firstn (Z.to_nat n) (List.rev (db_logs (w_db w)))) =
    Nat.min (Z.to_nat n) (List.length (db_logs (w_db w))).
Proof.
  intros Hr Hm Hn. rewrite (api_alerts_ok r w n Hr (alerts_limit_text r n Hm)). unfold sql_limit.
  replace (n <? 0)%Z with false by (symmetry; apply Z.ltb_ge; lia).
  split; [reflexivity|]. rewrite length_firstn, length_rev. reflexivity.
Qed.

(** C22: a negative [?limit] is no limit: SQLite reads [LIMIT -n] as no
    limit, so the feed returns every row, newest first. *)
Theorem alerts_negative_limit_unbounded (r : Request) (w : World F) (n : Z) :
  db_reads_ok (w_db w) = true -> md_get "limit" (req_args r) = Some (z_to_string n) -> (n < 0)%Z ->
  api_alerts r w = (Ok (200%Z, JArr (map alert_row (List.rev (db_logs (w_db w))))), w).
Proof.
  intros Hr Hm Hn. rewrite (api_alerts_ok r w n Hr (alerts_limit_text r n Hm)). unfold sql_limit.
  replace (n <? 0)%Z with true by (symmetry; apply Z.ltb_lt; lia). reflexivity.
Qed.

(** C23: a [?limit] that is not an integer makes [int()] raise outside the
    handler's [try]: Flask answers 500 and nothing changes, whatever the
    store. *)
Theorem alerts_bad_limit_500 (r : Request) (w : World F) (s : string) :
  md_get "limit" (req_args r) = Some s -> py_int s = None ->
  flask_dispatch (api_alerts r) w = (resp_internal_error, w).
Proof.
  intros Hm Hp. unfold flask_dispatch, api_alerts, alerts_limit. pym_unfold. rewrite Hm, Hp. reflexivity.
Qed.
End AlertsProperties.

Section ProfileRoundTrip.
Context {F : Type} `{Faker F} {M : Type} `{OutlierModel M}.

(** The deception profile of an anomalous login and the row that records it. *)
Lemma anomalous_login_row (model : option M) (r : Request) (w : World F) :
  db_reads_ok (w_db w) = true -> db_writes_ok (w_db w) = true ->
  client_ip r ∉ map blk_ip (db_blocklist (w_db w)) ->
  is_anomaly_from_features model (features_from_request (w_db w) (w_now w) r (client_ip r)) = true ->
  exists name w' lf,
    api_login model r w = (Ok resp_login_fail, w') /\
    db_reads_ok (w_db w') = true /\
    db_logs (w_db w') = (db_logs (w_db w) ++ [mkLogRow (next_rowid (map log_id (db_logs (w_db w)))) (w_now w) lf])%list /\
    lf_ip lf = client_ip r /\
    lf_profile lf = profile_text (Some (JObj [("name", JStr name); ("purpose", JStr "suspicious activity detected")])).
Proof.
  intros Hr Hw Hn Ha. unfold api_login, login_row. pym_unfold.
  rewrite (blocklist_first_none _ _ Hr Hn). cbv beta iota. rewrite Ha.
  destruct (deceive_spec r "suspicious activity detected" w) as [name [w1 [Hd [Hdb Hnow]]]].
  rewrite Hd. destruct (extract_payload_and_params r) as [payload np].
  log_step w2 Hn2 Hb2 Hlogs. rewrite Hdb, Hnow in *. rewrite Hw in Hlogs.
  eexists name, w2, _. split; [reflexivity|]. split; [congruence|]. split; [exact Hlogs|].
  split; reflexivity.
Qed.

(** C20: the deception profile an anomalous login stores as JSON text is
    read back by the alert feed as the same dict: after the login, the
    newest row of [/api/alerts] is the login's, with its source address
    and the profile [{name, purpose}] the handler built. *)
Theorem login_profile_in_feed (model : option M) (r r' : Request) (w : World F) :
  db_reads_ok (w_db w) = true -> db_writes_ok (w_db w) = true ->
  client_ip r ∉ map blk_ip (db_blocklist (w_db w)) ->
  is_anomaly_from_features model (features_from_request (w_db w) (w_now w) r (client_ip r)) = true ->
  md_get "limit" (req_args r') = None ->
  exists name w' l rows,
    api_login model r w = (Ok resp_login_fail, w') /\
    api_alerts r' w' = (Ok (200%Z, JArr (JObj l :: rows)), w') /\
    obj_get "ip" l = Some (JStr (client_ip r)) /\
    obj_get "profile" l = Some (JObj [("name", JStr name); ("purpose", JStr "suspicious activity detected")]).
Proof.
  intros Hr Hw Hn Ha Hm.
  destruct (anomalous_login_row model r w Hr Hw Hn Ha) as (name & w' & lf & Hl & Hr' & Hlogs & Hip & Hp).
  assert (Hlim : alerts_limit r' = Ok 50%Z) by (unfold alerts_limit; rewrite Hm; reflexivity).
  eexists name, w', _, _. split; [exact Hl|].
  rewrite (api_alerts_ok r' w' 50 Hr' Hlim), Hlogs, rev_app_distr. split; [reflexivity|].
  simpl. rewrite Hip, Hp. split; [reflexivity|].
  unfold alert_profile, profile_text. cbv iota.
  replace (py_truthy (JObj [("name", JStr name); ("purpose", JStr "suspicious activity detected")])) with true
    by reflexivity.
  replace (str_truthy (dumps true (JObj [("name", JStr name); ("purpose", JStr "suspicious activity detected")])))
    with true by reflexivity.
  rewrite loads_dumps_wf by reflexivity. reflexivity.
Qed.
End ProfileRoundTrip.

(** Python's [int()] reads back the decimal text of every integer:
    [int(str(z)) == z]. *)
Theorem int_str_roundtrip (z : Z) : py_int (z_to_string z) = Some z.
Proof. apply py_int_z_to_string. Qed.

(** ** Witnesses *)

Lemma alerts_newest_first_witness :
  db_reads_ok (w_db witness_world) = true /\
  md_get "limit" (req_args (witness_alerts_request [("limit", "5")])) = Some (z_to_string 5) /\
  (0 <= 5)%Z /\
  (api_alerts (witness_alerts_request [("limit", "5")]) witness_world =
     (Ok (200%Z, JArr (map alert_row (firstn (Z.to_nat 5) (List.rev (db_logs (w_db witness_world)))))),
      witness_world) /\
   List.length (firstn (Z.to_nat 5) (List.rev (db_logs (w_db witness_world)))) =
     Nat.min (Z.to_nat 5) (List.length (db_logs (w_db witness_world)))).
Proof.
  split; [reflexivity|]. split; [reflexivity|]. split; [lia|].
  apply (alerts_newest_first _ _ 5); [reflexivity | reflexivity | lia].
Defined.

Lemma alerts_negative_limit_unbounded_witness :
  db_reads_ok (w_db witness_world) = true /\
  md_get "limit" (req_args (witness_alerts_request [("limit", "-1")])) = Some (z_to_string (-1)) /\
  (-1 < 0)%Z /\
  api_alerts (witness_alerts_request [("limit", "-1")]) witness_world =
    (Ok (200%Z, JArr (map alert_row (List.rev (db_logs (w_db witness_world))))), witness_world).
Proof.
  split; [reflexivity|]. split; [reflexivity|]. split; [lia|].
  apply (alerts_negative_limit_unbounded _ _ (-1)); [reflexivity | reflexivity | lia].
Defined.

Lemma alerts_bad_limit_500_witness :
  md_get "limit" (req_args (witness_alerts_request [("limit", "ten")])) = Some "ten" /\
  py_int "ten" = None /\
  flask_dispatch (api_alerts (witness_alerts_request [("limit", "ten")])) witness_world =
    (resp_internal_error, witness_world).
Proof.
  split; [reflexivity|]. split; [vm_compute; reflexivity|].
  apply (alerts_bad_limit_500 _ _ "ten"); [reflexivity | vm_compute; reflexivity].
Defined.

Lemma login_profile_in_feed_witness :
  db_reads_ok (w_db witness_world) = true /\ db_writes_ok (w_db witness_world) = true /\
  client_ip witness_login_request ∉ map blk_ip (db_blocklist (w_db witness_world)) /\
  is_anomaly_from_features witness_model
    (features_from_request (w_db witness_world) (w_now witness_world) witness_login_request
       (client_ip witness_login_request)) = true /\
  md_get "limit" (req_args (witness_alerts_request [])) = None /\
  exists name w' l rows,
    api_login witness_model witness_login_request witness_world = (Ok resp_login_fail, w') /\
    api_alerts (witness_alerts_request []) w' = (Ok (200%Z, JArr (JObj l :: rows)), w') /\
    obj_get "ip" l = Some (JStr (client_ip witness_login_request)) /\
    obj_get "profile" l = Some (JObj [("name", JStr name); ("purpose", JStr "suspicious activity detected")]).
Proof.
  assert (Hn : client_ip witness_login_request ∉ map blk_ip (db_blocklist (w_db witness_world)))
    by (simpl; set_solver).
  assert (Ha : is_anomaly_from_features witness_model
    (features_from_request (w_db witness_world) (w_now witness_world) witness_login_request
       (client_ip witness_login_request)) = true) by (vm_compute; reflexivity).
  split; [reflexivity|]. split; [reflexivity|]. split; [exact Hn|]. split; [exact Ha|].
  split; [reflexivity|].
  apply login_profile_in_feed; [reflexivity | reflexivity | exact Hn | exact Ha | reflexivity].
Defined.
