(* ===== verification/Routes.v ===== *)
(** * The remaining routes: root, status, tables, download, export

    The routes of src/Backend/app.py that the scoring engine does not go
    through: [root] (lines 258-277) and [api_status] (279-301) describe
    the service; [api_tables] (303-323) advertises the decoy files and
    [download_fn] (325-332) serves them; [api_export_report] (478-501)
    writes a CSV report of the log.  All of them read the world; only the
    export writes (a file under [EXPORTS_DIR]).  A file served by
    [send_file] is represented by the body [{file: path}]: its bytes are
    not modelled.  The export's report is the [csv.writer] text of the
    logs it selects, newest first; its [since] argument selects them
    through [datetime.fromisoformat], a parameter (a value that does not
    parse is only logged).  The text [str(e)] of an exception is a
    parameter of the status route. *)
From S2P Require Import Prelude PyStr Json Csv Clock Request Store Features Detector Decoy Handlers.
From Stdlib Require Import Ascii String.

Open Scope string_scope.

(** ** Responses *)

(** [errorhandler(404)] (lines 506-525). *)
Definition resp_not_found : Response :=
  (404%Z, JObj [("status", JStr "error"); ("error", JStr "Not Found");
                ("message", JStr "The requested resource was not found on this server.");
                ("available_endpoints",
                  JArr (map JStr ["/"; "/api/status"; "/api/tables"; "/api/alerts"; "/api/login";
                                  "/api/query"; "/api/actions/block"; "/api/decoy/generate";
                                  "/api/export_report"; "/download/<filename>"]))]).

(** The body standing for a file sent by [send_file]. *)
Definition resp_file (path : string) : Response := (200%Z, JObj [("file", JStr path)]).

(** ** [root] and [api_status] *)

Definition root_body (now : Z) : json :=
  JObj [("status", JStr "ok"); ("service", JStr "Suraksha Mirage Backend"); ("version", JStr "1.0");
        ("endpoints", JObj [("api_info", JStr "/"); ("tables", JStr "/api/tables");
                            ("alerts", JStr "/api/alerts"); ("login", JStr "/api/login");
                            ("query", JStr "/api/query"); ("block_ip", JStr "/api/actions/block");
                            ("generate_decoys", JStr "/api/decoy/generate");
                            ("export_report", JStr "/api/export_report");
                            ("download", JStr "/download/<filename>")]);
        ("timestamp", JStr (isoformat now))].

(** The three decoy files [api_tables] advertises, with their row counts. *)
Definition TABLES : list (string * Z * string) :=
  [("employees", 200%Z, "decoy_employees.csv"); ("projects", 50%Z, "decoy_projects.csv");
   ("credentials", 50%Z, "credentials_backup.zip")].

(** [f"{base}/download/{name}"] with [base = request.url_root.rstrip('/')]. *)
Definition download_url (r : Request) (name : string) : string :=
  rstrip_char "/" (req_url_root r) ++ "/download/" ++ name.

Definition tables_body (r : Request) (now : Z) : json :=
  JObj (map (fun '(key, count, name) =>
               (key, JObj [("count", JNum count); ("download_url", JStr (download_url r name));
                           ("last_updated", JStr (isoformat now))])) TABLES).

(** The name of the file a download request asks for, and where it is
    looked up: [os.path.join(DECOY_DIR, os.path.basename(fn))]. *)
Definition download_path (fs : Fs) (fn : string) : string :=
  path_join (fs_decoy_dir fs) (basename fn).

(** The names [basename] can give that [os.path.exists] finds as
    directories: the decoy directory itself, [.] and [..]. *)
Definition dir_name (b : string) : bool :=
  String.eqb b "" || String.eqb b "." || String.eqb b "..".

(** [report_YYYYmmddHHMMSS.csv] under [EXPORTS_DIR]. *)
Definition export_path (fs : Fs) (now : Z) : string :=
  path_join (fs_exports_dir fs) ("report_" ++ strftime_compact now ++ ".csv").

Definition export_header : list string := ["id"; "ip"; "timestamp"; "path"; "anomaly"; "decoy_file"].

(** [w.writerow([l.id, l.ip, l.timestamp.isoformat(), l.path,
    int(bool(l.anomaly)), l.decoy_file or ''])] (line 499). *)
Definition export_row (l : LogRow) : list string :=
  [z_to_string (log_id l); lf_ip (log_fields l); isoformat (log_timestamp l);
   lf_path (log_fields l); z_to_string (flag (lf_anomaly (log_fields l)));
   default EmptyString (lf_decoy_file (log_fields l))].

Definition export_text (logs : list LogRow) : string :=
  csv_text (export_header :: map export_row logs).

(** The report of [logs] (lines 493-501): a directory that refuses the
    write leaves the file system as it was. *)
Definition write_export (fs : Fs) (now : Z) (logs : list LogRow) : Fs :=
  if fs_exports_writable fs then write_file fs (export_path fs now) (FText (export_text logs)) else fs.

(** A stored row whose report cells the CSV reader accepts: its id a
    SQLite rowid (a signed 64-bit integer) and its text columns within
    the reader's field limit. *)
Definition log_fits (l : LogRow) : Prop :=
  (Z.abs (log_id l) < 2 ^ 63)%Z /\
  (String.length (lf_ip (log_fields l)) <= field_limit)%nat /\
  (String.length (lf_path (log_fields l)) <= field_limit)%nat /\
  (String.length (default EmptyString (lf_decoy_file (log_fields l))) <= field_limit)%nat.

Section Routes.
Context {F : Type}.
(** [str(e)] of an exception. *)
Variable exc_text : PyExc -> string.
(** [datetime.datetime.fromisoformat(s)]: the wall-clock value it parses,
    in microseconds (what SQLite compares [timestamp] with), or [None]
    when it raises [ValueError]. *)
Variable fromisoformat : string -> option Z.

(** The rows [Log.query] selects (lines 480-487): all of them, or those
    stamped at or after [since] when it is given and parses (a value
    that does not parse is only logged). *)
Definition export_selection (r : Request) (logs : list LogRow) : list LogRow :=
  match md_get "since" (req_args r) with
  | Some since =>
      if str_truthy since then
        match fromisoformat since with
        | Some dt => List.filter (fun l => Z.leb dt (log_timestamp l)) logs
        | None => logs
        end
      else logs
  | None => logs
  end.

Definition api_root : PyM (World F) Response :=
  w <- st_get ;; ret (200%Z, root_body (w_now w)).

Definition api_status : PyM (World F) Response :=
  w <- st_get ;;
  if db_reads_ok (w_db w)
  then ret (200%Z, JObj [("status", JStr "healthy"); ("database", JStr "connected");
                         ("stats", JObj [("total_logs", JNum (zlen (db_logs (w_db w))));
                                         ("blocked_ips", JNum (zlen (db_blocklist (w_db w))))]);
                         ("timestamp", JStr (isoformat (w_now w)))])
  else ret (500%Z, JObj [("status", JStr "unhealthy"); ("database", JStr "error");
                         ("error", JStr (exc_text OperationalError));
                         ("timestamp", JStr (isoformat (w_now w)))]).

Definition api_tables (r : Request) : PyM (World F) Response :=
  w <- st_get ;; ret (200%Z, tables_body r (w_now w)).

(** [download_fn(fn)]: a missing file is [abort(404)]; [send_file] on a
    directory raises. *)
Definition download_fn (fn : string) : PyM (World F) Response :=
  w <- st_get ;;
  let safe := basename fn in
  let path := path_join (fs_decoy_dir (w_fs w)) safe in
  if dir_name safe then raise IsADirectoryError
  else if bool_decide (path ∈ dom (fs_files (w_fs w))) then ret (resp_file path)
  else ret resp_not_found.

(** [api_export_report()]: the query (500 on failure), the CSV (a failed
    write is only logged), and no [return]: Flask rejects the [None]. *)
Definition api_export_report (r : Request) : PyM (World F) Response :=
  w <- st_get ;;
  if negb (db_reads_ok (w_db w)) then ret resp_db_error
  else let logs := List.rev (export_selection r (db_logs (w_db w))) in
       st_put (mkWorld (w_db w) (write_export (w_fs w) (w_now w) logs) (w_faker w) (w_now w)) ;;
       raise TypeError.
End Routes.

(** ** Witness worlds *)

(** The witness world of the handlers after [/api/decoy/generate]. *)
Definition witness_generated : Response * World nat :=
  match api_decoy_generate witness_world with
  | (Ok resp, w') => (resp, w')
  | (Raise _, w') => (resp_internal_error, w')
  end.

(** Two logged logins, one second apart, and a report asked for from
    half a second after the first. *)
Definition witness_log (id ts : Z) : LogRow :=
  mkLogRow id ts (mkLogFields "203.0.113.7" "curl/7.68" "/api/login" "POST" "{}" 0 2 true None
                              (Some "http://honeypot.local/download/credentials_backup.zip")).

Definition witness_export_world : World nat :=
  mkWorld (mkDb [witness_log 1 0; witness_log 2 1000000] [] true true) witness_fs 0%nat 2000000%Z.

Definition witness_since : string := "1970-01-01T00:00:00.500000".

Definition witness_export_request : Request :=
  mkRequest (Some "198.51.100.4") [] "/api/export_report" "GET" "http://honeypot.local/" false None
            (Some []) EmptyString [("since", witness_since)].

Definition witness_fromisoformat (s : string) : option Z :=
  if String.eqb s witness_since then Some 500000%Z else None.

(** ** Lemmas *)

Lemma basename_acc_no_slash_out (acc p : string) : no_slash acc -> no_slash (basename_acc acc p).
Proof.
  unfold no_slash. revert acc. induction p as [|c p IH]; intros acc Hacc; simpl; [exact Hacc|].
  case_bool_decide as Hc; apply IH; [simpl; set_solver|].
  rewrite list_ascii_app. simpl. rewrite elem_of_app, list_elem_of_singleton. naive_solver.
Qed.

(** [os.path.basename] never leaves a directory separator. *)
Lemma basename_no_slash (p : string) : no_slash (basename p).
Proof. apply basename_acc_no_slash_out. unfold no_slash. simpl. set_solver. Qed.


Section RouteProperties.
Context {F : Type} `{Faker F}.

Lemma download_fn_confined (fn : string) (w : World F) (resp : Response) (w' : World F) :
  flask_dispatch (download_fn fn) w = (resp, w') ->
  w' = w /\
  (resp = resp_not_found \/ resp = resp_internal_error \/
   exists b, resp = resp_file (path_join (fs_decoy_dir (w_fs w)) b) /\ no_slash b /\
             dir_name b = false /\ path_join (fs_decoy_dir (w_fs w)) b ∈ dom (fs_files (w_fs w))).
Proof.
  unfold flask_dispatch, download_fn. pym_unfold. simpl.
  destruct (dir_name (basename fn)) eqn:Hd; [intros [= <- <-]; split; auto|].
  case_bool_decide as Hin; intros [= <- <-]; split; auto.
  right; right. exists (basename fn). repeat split; auto. apply basename_no_slash.
Qed.

(** C25: [/download/<fn>] never leaves the decoy directory: it answers
    404, or 500 when the name is a directory, or sends an existing file
    [DECOY_DIR/b] where [b] holds no directory separator and is not [.]
    or [..]; the world is unchanged. *)
Theorem download_confined (fn : string) (w : World F) (resp : Response) (w' : World F) :
  flask_dispatch (download_fn fn) w = (resp, w') ->
  w' = w /\
  (resp = resp_not_found \/ resp = resp_internal_error \/
   exists b, resp = resp_file (path_join (fs_decoy_dir (w_fs w)) b) /\ no_slash b /\
             dir_name b = false /\ path_join (fs_decoy_dir (w_fs w)) b ∈ dom (fs_files (w_fs w))).
Proof. apply download_fn_confined. Qed.
End RouteProperties.

(** [(t mod (a * b)) / a = (t / a) mod b]. *)
Lemma mod_div_compose (t a b : Z) : (0 < a)%Z -> (0 < b)%Z -> ((t mod (a * b)) / a = (t / a) mod b)%Z.
Proof.
  intros Ha Hb. pose proof (Z.div_mod t (a*b) ltac:(nia)) as E1.
  pose proof (Z.mod_pos_bound t (a*b) ltac:(nia)) as B1.
  set (q := (t / (a*b))%Z) in *. set (r := (t mod (a*b))%Z) in *.
  assert (Ht : (t / a = q * b + r / a)%Z).
  { rewrite E1 at 1. replace (a * b * q + r)%Z with (r + (q * b) * a)%Z by ring.
    rewrite Z.div_add by lia. lia. }
  rewrite Ht, Z.add_comm, Z.mod_add by lia. rewrite Z.mod_small; [reflexivity|].
  split; [apply Z.div_pos; lia|]. apply Z.div_lt_upper_bound; nia.
Qed.

(** Every field of [to_datetime t] but the microsecond is a function of
    the second [t / 10^6]; so is the export file name. *)
Lemma strftime_same_second (t1 t2 : Z) :
  (t1 / US_PER_SEC = t2 / US_PER_SEC)%Z -> strftime_compact t1 = strftime_compact t2.
Proof.
  intros E.
  assert (Hd : forall t, (t / US_PER_DAY = t / US_PER_SEC / 86400)%Z)
    by (intros t; unfold US_PER_DAY; rewrite Z.div_div by (unfold US_PER_SEC; lia);
        f_equal; unfold US_PER_SEC; lia).
  assert (Hs : forall t, ((t mod US_PER_DAY) / US_PER_SEC = (t / US_PER_SEC) mod 86400)%Z).
  { intros t. replace US_PER_DAY with (US_PER_SEC * 86400)%Z by reflexivity.
    apply mod_div_compose; unfold US_PER_SEC; lia. }
  assert (Hm : forall t k, (0 < k)%Z ->
            ((t mod US_PER_DAY) / (k * US_PER_SEC) = ((t / US_PER_SEC) mod 86400) / k)%Z).
  { intros t k Hk. rewrite (Z.mul_comm k), <- Z.div_div by (unfold US_PER_SEC; lia).
    rewrite Hs. reflexivity. }
  unfold strftime_compact, to_datetime.
  rewrite !Hd, !(Hm _ 3600), !(Hm _ 60), !Hs, E by lia. reflexivity.
Qed.

Section ExportProperties.
Context {F : Type}.

(** C27: [/api/export_report] never answers 200: the view returns [None],
    which Flask turns into a 500, after writing the report whenever the
    store is readable and the exports directory writable (and a store
    that cannot be read gives the 500 of the [db error] branch). *)
Theorem export_never_ok (fromisoformat : string -> option Z) (r : Request) (w : World F) :
  let '(resp, w') := flask_dispatch (api_export_report fromisoformat r) w in
  resp.1 = 500%Z /\
  (db_reads_ok (w_db w) = true -> fs_exports_writable (w_fs w) = true ->
   export_path (w_fs w) (w_now w) ∈ dom (fs_files (w_fs w'))) /\
  w_db w' = w_db w.
Proof.
  unfold flask_dispatch, api_export_report. pym_unfold. unfold st_put. simpl.
  destruct (db_reads_ok (w_db w)) eqn:Hr; simpl; [|split; [reflexivity | split; [discriminate | reflexivity]]].
  split; [reflexivity|]. split; [|reflexivity]. intros _ Hx.
  unfold write_export. rewrite Hx, write_file_dom. set_solver.
Qed.

(** Two exports in the same second write the same file: the second
    report overwrites the first. *)
Theorem export_same_second_collides (fs : Fs) (t1 t2 : Z) :
  (t1 / US_PER_SEC = t2 / US_PER_SEC)%Z -> export_path fs t1 = export_path fs t2.
Proof. intros E. unfold export_path. rewrite (strftime_same_second t1 t2 E). reflexivity. Qed.

Lemma export_row_fits (l : LogRow) :
  log_fits l -> Forall (fun f => String.length f <= field_limit)%nat (export_row l).
Proof.
  intros (Hid & Hip & Hpath & Hdf). unfold export_row.
  pose proof (z_to_string_bound (log_id l) 63 Hid).
  pose proof (isoformat_length (log_timestamp l)).
  assert (String.length (z_to_string (flag (lf_anomaly (log_fields l)))) = 1%nat)
    by (destruct (lf_anomaly _); reflexivity).
  pose proof field_limit_large. repeat (apply Forall_cons; split; [lia|]). constructor.
Qed.

Lemma export_selection_sub (fromisoformat : string -> option Z) (P : LogRow -> Prop) (r : Request) (logs : list LogRow) :
  Forall P logs -> Forall P (export_selection fromisoformat r logs).
Proof.
  intros Hl. unfold export_selection.
  repeat case_match; try exact Hl.
  apply List.Forall_forall. intros x Hx. apply filter_In in Hx as [Hx _].
  exact (proj1 (List.Forall_forall _ _) Hl x Hx).
Qed.

(** The report file reads back as the rows it was written from. *)
Lemma export_text_read (logs : list LogRow) :
  Forall log_fits logs -> csv_read (export_text logs) = Some (export_header :: map export_row logs).
Proof.
  intros Hl. apply csv_read_text_core. constructor.
  - pose proof field_limit_large. repeat (apply Forall_cons; split; [cbn [String.length]; lia|]). constructor.
  - apply Forall_map. eapply Forall_impl; [exact Hl|]. apply export_row_fits.
Qed.

(** C28: the report [/api/export_report] writes, read back with Python's
    [csv.reader], is its header followed by one row per selected log,
    newest first, each carrying the log's id, address, timestamp, path,
    verdict and decoy file; the selected logs are all of them, or those
    at or after a parseable [since]. *)
Theorem export_report_contents (fromisoformat : string -> option Z) (r : Request) (w : World F) :
  db_reads_ok (w_db w) = true -> fs_exports_writable (w_fs w) = true ->
  Forall log_fits (db_logs (w_db w)) ->
  exists d,
    fs_files (w_fs (flask_dispatch (api_export_report fromisoformat r) w).2) !! export_path (w_fs w) (w_now w)
      = Some (FText d) /\
    csv_read d = Some (export_header ::
                       map export_row (List.rev (export_selection fromisoformat r (db_logs (w_db w))))).
Proof.
  intros Hr Hx Hl. unfold flask_dispatch, api_export_report. pym_unfold. unfold st_put. rewrite Hr. simpl.
  unfold write_export. rewrite Hx, write_file_lookup. eexists; split; [reflexivity|].
  apply export_text_read, Forall_rev, export_selection_sub, Hl.
Qed.
End ExportProperties.

Section DecoyFiles.
Context {F : Type} `{Faker F}.

(** On a writable decoy directory, [api_decoy_generate] leaves the
    directory where it was and every file [api_tables] advertises in it. *)
Lemma decoy_generate_files (w : World F) (resp : Response) (w' : World F) :
  fs_writable (w_fs w) = true -> api_decoy_generate w = (Ok resp, w') ->
  fs_decoy_dir (w_fs w') = fs_decoy_dir (w_fs w) /\
  forall key count name, In (key, count, name) TABLES ->
    path_join (fs_decoy_dir (w_fs w)) name ∈ dom (fs_files (w_fs w')).
Proof.
  intros Hw. unfold api_decoy_generate, run_gen_employees_csv, run_gen_projects_csv,
    run_gen_credentials_zip. pym_unfold.
  gen_fs. destruct G as [-> G]. rewrite Hw in G. destruct G as [d1 ->]. simpl.
  gen_fs. destruct G as [-> G]. simpl in G. rewrite Hw in G. destruct G as [d2 ->]. simpl.
  gen_fs. simpl in G. rewrite Hw in G. destruct G as [-> [d3 [d4 ->]]]. simpl.
  intros E; inversion E; subst; clear E. simpl. split; [reflexivity|].
  intros key count name Hin. rewrite !dom_insert_L.
  simpl in Hin. repeat destruct Hin as [Hin | Hin]; try contradiction; inversion Hin; set_solver.
Qed.

(** The advertised names are plain file names, served as themselves. *)
Lemma tables_names_plain (key : string) (count : Z) (name : string) :
  In (key, count, name) TABLES -> basename name = name /\ dir_name name = false.
Proof.
  simpl. intros Hin. repeat destruct Hin as [Hin | Hin]; try contradiction; inversion Hin;
    split; reflexivity.
Qed.
End DecoyFiles.

Section TablesProperties.
Context {F : Type} `{Faker F}.

(** C24: after [/api/decoy/generate] on a writable decoy directory, every
    download link [/api/tables] advertises works: [/download/<name>]
    sends the file [DECOY_DIR/<name>] and changes nothing. *)
Theorem tables_links_served (w : World F) (resp : Response) (w' : World F)
    (key : string) (count : Z) (name : string) :
  fs_writable (w_fs w) = true -> api_decoy_generate w = (Ok resp, w') ->
  In (key, count, name) TABLES ->
  flask_dispatch (download_fn name) w' = (resp_file (path_join (fs_decoy_dir (w_fs w)) name), w').
Proof.
  intros Hw Hg Hin. destruct (decoy_generate_files w resp w' Hw Hg) as [Hd Hf].
  destruct (tables_names_plain key count name Hin) as [Hb Hn].
  unfold flask_dispatch, download_fn. pym_unfold. rewrite Hb, Hn, Hd.
  rewrite bool_decide_true by (eapply Hf; eauto). reflexivity.
Qed.
End TablesProperties.

(** ** Witnesses *)

Lemma download_confined_witness :
  flask_dispatch (download_fn "decoy_employees.csv") witness_generated.2 =
    (resp_file "/srv/honeypot/decoys/decoy_employees.csv", witness_generated.2) /\
  witness_generated.2 = witness_generated.2 /\
  (resp_file "/srv/honeypot/decoys/decoy_employees.csv" = resp_not_found \/
   resp_file "/srv/honeypot/decoys/decoy_employees.csv" = resp_internal_error \/
   exists b, resp_file "/srv/honeypot/decoys/decoy_employees.csv" =
               resp_file (path_join (fs_decoy_dir (w_fs witness_generated.2)) b) /\ no_slash b /\
             dir_name b = false /\
             path_join (fs_decoy_dir (w_fs witness_generated.2)) b ∈ dom (fs_files (w_fs witness_generated.2))).
Proof.
  assert (E : flask_dispatch (download_fn "decoy_employees.csv") witness_generated.2 =
    (resp_file "/srv/honeypot/decoys/decoy_employees.csv", witness_generated.2)) by (vm_compute; reflexivity).
  split; [exact E | apply (download_confined _ _ _ _ E)].
Defined.

Lemma export_same_second_collides_witness :
  (1000000 / US_PER_SEC = 1999999 / US_PER_SEC)%Z /\
  export_path witness_fs 1000000 = export_path witness_fs 1999999.
Proof.
  assert (E : (1000000 / US_PER_SEC = 1999999 / US_PER_SEC)%Z) by reflexivity.
  split; [exact E | apply (export_same_second_collides witness_fs _ _ E)].
Defined.

Lemma tables_links_served_witness :
  fs_writable (w_fs witness_world) = true /\
  api_decoy_generate witness_world = (Ok witness_generated.1, witness_generated.2) /\
  In ("employees", 200%Z, "decoy_employees.csv") TABLES /\
  flask_dispatch (download_fn "decoy_employees.csv") witness_generated.2 =
    (resp_file (path_join (fs_decoy_dir (w_fs witness_world)) "decoy_employees.csv"), witness_generated.2).
Proof.
  assert (Hw : fs_writable (w_fs witness_world) = true) by reflexivity.
  assert (Hg : api_decoy_generate witness_world = (Ok witness_generated.1, witness_generated.2))
    by (vm_compute; reflexivity).
  assert (Hin : In ("employees", 200%Z, "decoy_employees.csv") TABLES) by (left; reflexivity).
  split; [exact Hw | split; [exact Hg | split; [exact Hin |]]].
  apply (tables_links_served _ _ _ _ _ _ Hw Hg Hin).
Defined.

Lemma export_never_ok_witness :
  let '(resp, w') := flask_dispatch (api_export_report (fun _ => None) witness_login_request) witness_world in
  resp.1 = 500%Z /\
  (db_reads_ok (w_db witness_world) = true -> fs_exports_writable (w_fs witness_world) = true ->
   export_path (w_fs witness_world) (w_now witness_world) ∈ dom (fs_files (w_fs w'))) /\
  w_db w' = w_db witness_world.
Proof. exact (export_never_ok (fun _ => None) witness_login_request witness_world). Defined.

Lemma export_report_contents_witness :
  db_reads_ok (w_db witness_export_world) = true /\ fs_exports_writable (w_fs witness_export_world) = true /\
  Forall log_fits (db_logs (w_db witness_export_world)) /\
  exists d,
    fs_files (w_fs (flask_dispatch (api_export_report witness_fromisoformat witness_export_request)
                                   witness_export_world).2)
      !! export_path (w_fs witness_export_world) (w_now witness_export_world) = Some (FText d) /\
    csv_read d = Some (export_header ::
                       map export_row (List.rev (export_selection witness_fromisoformat witness_export_request
                                                                  (db_logs (w_db witness_export_world))))).
Proof.
  assert (Hf : Forall log_fits (db_logs (w_db witness_export_world))).
  { pose proof field_limit_large. unfold log_fits.
    unfold witness_export_world, witness_log. cbn [w_db db_logs].
    apply Forall_cons; split; [|apply Forall_cons; split; [|apply Forall_nil; exact I]];
      unfold log_fits; cbn -[field_limit]; lia. }
  split; [reflexivity|]. split; [reflexivity|]. split; [exact Hf|].
  exact (export_report_contents witness_fromisoformat witness_export_request witness_export_world
           eq_refl eq_refl Hf).
Defined.
