(* ===== verification/Config.v ===== *)
(** * The configured paths and what the download route can reach

    src/Backend/app.py places everything it stores under [BASE_DIR], the
    directory of the module (lines 24-28, 36): the decoy directory, the
    export directory, the pickled model and the SQLite file.  [BASE_DIR]
    itself ([os.path.abspath(os.path.dirname(__file__))]) depends on
    where the module is installed and is a parameter [base].  The two
    directories are made at import (lines 30-31, [setup_dirs]) over the
    set of existing directories ([Dirs]).  The main theorem joins these
    paths to [download_fn] (Routes.v): whatever [base] is and whatever
    name a client asks for, [/download] never sends the model, the
    database or an export report. *)
From S2P Require Import Prelude PyStr Json Decoy Handlers Routes.
From Stdlib Require Import Ascii String.

Open Scope string_scope.

(** Line 25. *)
Definition DECOY_DIR (base : string) : string := path_join base "decoys".
(** Line 26. *)
Definition EXPORTS_DIR (base : string) : string := path_join base "exports".
(** Line 27. *)
Definition MODEL_FILE (base : string) : string := path_join base "if_model.joblib".
(** Line 28. *)
Definition DB_FILE (base : string) : string := path_join base "logs.db".
(** Line 36: [app.config['SQLALCHEMY_DATABASE_URI']]. *)
Definition DATABASE_URI (base : string) : string := "sqlite:///" ++ DB_FILE base.

(** ** The directories *)

(** The directories that exist under [BASE_DIR], and whether a new one
    can be made there ([BASE_DIR] itself exists: the module is in it). *)
Record Dirs := mkDirs { dirs : gset string; dirs_creatable : bool }.

(** [os.makedirs(d, exist_ok=True)] for a [d] whose parent exists: an
    existing directory is fine, a new one is made, or the parent refuses. *)
Definition makedirs (d : string) : PyM Dirs unit :=
  fun ds =>
    if bool_decide (d ∈ dirs ds) then (Ok tt, ds)
    else if dirs_creatable ds then (Ok tt, mkDirs ({[d]} ∪ dirs ds) (dirs_creatable ds))
    else (Raise PermissionError, ds).

(** Lines 30-31. *)
Definition setup_dirs (base : string) : PyM Dirs unit :=
  makedirs (DECOY_DIR base) ;; makedirs (EXPORTS_DIR base).

(** ** Lemmas on [os.path.join] *)

(** The separator [os.path.join(a, b)] puts between [a] and a relative [b]. *)
Definition join_sep (a : string) : string :=
  if negb (str_truthy a) || ends_with_slash a then "" else "/".

Lemma path_join_rel (a : string) (c : ascii) (b : string) :
  c <> "/"%char -> path_join a (String c b) = a ++ join_sep a ++ String c b.
Proof.
  intros Hc. unfold path_join, join_sep. rewrite bool_decide_false by done.
  by destruct (negb (str_truthy a) || ends_with_slash a).
Qed.

Lemma ends_with_slash_app (a : string) (c : ascii) (b : string) :
  ends_with_slash (a ++ String c b) = ends_with_slash (String c b).
Proof. induction a as [|d a IH]; [done|]. rewrite <- IH. simpl. by destruct a. Qed.

Lemma string_app_cancel (a x y : string) : a ++ x = a ++ y -> x = y.
Proof. induction a as [|c a IH]; simpl; [done|]. intros [= H]. by apply IH. Qed.

(** The directory of a file joined below [base]: [base], the separator,
    the directory name, a [/] and the name. *)
Lemma path_join_dir (base : string) (c : ascii) (d b : string) :
  c <> "/"%char -> ends_with_slash (String c d) = false -> no_slash b ->
  path_join (path_join base (String c d)) b = base ++ join_sep base ++ String c d ++ "/" ++ b.
Proof.
  intros Hc Hd Hb. rewrite path_join_rel by done. unfold path_join.
  assert (Hsep : negb (str_truthy (base ++ join_sep base ++ String c d)) ||
                 ends_with_slash (base ++ join_sep base ++ String c d) = false).
  { rewrite <- string_app_assoc, ends_with_slash_app, Hd, orb_false_r.
    by destruct (base ++ join_sep base). }
  destruct b as [|e b].
  - rewrite Hsep. by rewrite !string_app_assoc.
  - rewrite bool_decide_false; [rewrite Hsep; by rewrite !string_app_assoc|].
    intros ->. apply Hb. simpl. set_solver.
Qed.

(** After lines 30-31 both directories exist, or the import stops with
    [PermissionError] because [BASE_DIR] refuses new directories. *)
Lemma setup_dirs_spec (base : string) (ds : Dirs) :
  match setup_dirs base ds with
  | (Ok _, ds') => DECOY_DIR base ∈ dirs ds' /\ EXPORTS_DIR base ∈ dirs ds' /\ dirs ds ⊆ dirs ds'
  | (Raise e, ds') => e = PermissionError /\ dirs_creatable ds = false /\ dirs ds ⊆ dirs ds'
  end.
Proof.
  unfold setup_dirs, bind, makedirs. destruct ds as [d c]. cbn [dirs dirs_creatable].
  case_bool_decide; [case_bool_decide|destruct c; [case_bool_decide|]];
    cbn [dirs dirs_creatable]; try destruct c; set_solver.
Qed.

Section Confinement.
Context {F : Type} `{Faker F}.

(** ** The download route *)

(** C26: whatever [BASE_DIR] is and whatever name a client sends,
    [/download/<fn>] never sends the pickled model, the SQLite database or
    a file of the export directory: the decoy directory holds none of
    them. *)
Theorem download_private_files (base fn : string) (w : World F) (resp : Response) (w' : World F) :
  fs_decoy_dir (w_fs w) = DECOY_DIR base ->
  flask_dispatch (download_fn fn) w = (resp, w') ->
  resp <> resp_file (MODEL_FILE base) /\ resp <> resp_file (DB_FILE base) /\
  (forall x, no_slash x -> resp <> resp_file (path_join (EXPORTS_DIR base) x)).
Proof.
  intros Hdir (_ & Hresp)%download_fn_confined.
  destruct Hresp as [-> | [-> | (b & -> & Hb & _)]]; [repeat split; discriminate..|].
  rewrite Hdir. unfold DECOY_DIR, MODEL_FILE, DB_FILE, EXPORTS_DIR.
  rewrite path_join_dir by (done || discriminate).
  split; [|split]; [..|intros x Hx; rewrite path_join_dir by (done || discriminate)];
    rewrite ?path_join_rel by discriminate; intros [= E]; apply string_app_cancel in E;
    apply string_app_cancel in E; discriminate.
Qed.
End Confinement.

(** ** Witness *)

Lemma download_private_files_witness :
  fs_decoy_dir (w_fs witness_generated.2) = DECOY_DIR "/srv/honeypot" /\
  flask_dispatch (download_fn "../logs.db") witness_generated.2 = (resp_not_found, witness_generated.2) /\
  resp_not_found <> resp_file (MODEL_FILE "/srv/honeypot") /\ resp_not_found <> resp_file (DB_FILE "/srv/honeypot") /\
  (forall x, no_slash x -> resp_not_found <> resp_file (path_join (EXPORTS_DIR "/srv/honeypot") x)).
Proof.
  assert (Hd : fs_decoy_dir (w_fs witness_generated.2) = DECOY_DIR "/srv/honeypot") by reflexivity.
  assert (E : flask_dispatch (download_fn "../logs.db") witness_generated.2 = (resp_not_found, witness_generated.2))
    by (vm_compute; reflexivity).
  split; [exact Hd|]. split; [exact E|]. exact (download_private_files _ _ _ _ _ Hd E).
Defined.
