(* ===== verification/Startup.v ===== *)
(** * Startup: the model and the decoy files before the first request

    At import time src/Backend/app.py loads the IsolationForest from
    [MODEL_FILE] or trains and saves a new one (lines 158-167, with
    [train_model] at 142-156), then makes sure the three decoy files
    exist, generating the missing ones (247-253).  The model file is a
    [ModelFile]: missing, holding a model, or holding something
    [joblib.load] cannot read.  Training is deterministic
    ([random_state=42]), so the classifier it fits is a parameter [clf];
    [joblib.dump] succeeds exactly when the directory is writable.  An
    exception that escapes the [except] branch stops the process before
    it serves anything: [startup] is then [None]. *)
From S2P Require Import Prelude PyStr Json Request Store Features Detector Decoy Handlers Routes.
From Stdlib Require Import Ascii String.

Open Scope string_scope.

(** ** The model file *)

Inductive ModelFile (M : Type) :=
| NoFile
| Good (m : M)
| Corrupt.
Arguments NoFile {M}.
Arguments Good {M} m.
Arguments Corrupt {M}.

Section ModelStartup.
Context {M : Type}.
(** The classifier [IsolationForest(random_state=42).fit(X)] returns. *)
Variable clf : M.
(** Whether [joblib.dump] can write [MODEL_FILE]. *)
Variable writable : bool.

Definition model_exists (f : ModelFile M) : bool :=
  match f with NoFile => false | _ => true end.

(** [train_model()]: fit, dump, return; a failed dump escapes. *)
Definition train_model : PyM (ModelFile M) M :=
  if writable then st_put (Good clf) ;; ret clf else raise PermissionError.

Definition joblib_load : PyM (ModelFile M) M :=
  f <- st_get ;;
  match f with
  | Good m => ret m
  | Corrupt => raise UnpicklingError
  | NoFile => raise FileNotFoundError
  end.

(** Lines 158-167: load if the file exists, else train; on any exception
    train again. *)
Definition load_or_train : PyM (ModelFile M) M :=
  try_except (f <- st_get ;; if model_exists f then joblib_load else train_model)
             (fun _ => train_model).
End ModelStartup.

(** ** The decoy files *)

Definition decoy_exists (fs : Fs) (name : string) : bool :=
  bool_decide (path_join (fs_decoy_dir fs) name ∈ dom (fs_files fs)).

Section DecoyStartup.
Context {F : Type} `{Faker F}.

(** One [if not os.path.exists(...): gen_...()] of lines 247-253. *)
Definition ensure_file {A} (name : string) (gen : PyM (World F) A) : PyM (World F) unit :=
  w <- st_get ;;
  if decoy_exists (w_fs w) name then ret tt else gen ;; ret tt.

Definition ensure_decoys : PyM (World F) unit :=
  ensure_file "decoy_employees.csv" run_gen_employees_csv ;;
  ensure_file "decoy_projects.csv" run_gen_projects_csv ;;
  ensure_file "credentials_backup.zip" run_gen_credentials_zip.

(** The module-level code in order: the model, then the decoys.  [None]
    when the process dies at import. *)
Definition startup {M : Type} (clf : M) (writable : bool) (mf : ModelFile M) (w : World F)
    : option (M * ModelFile M * World F) :=
  match load_or_train clf writable mf with
  | (Ok m, mf') => Some (m, mf', (ensure_decoys w).2)
  | (Raise _, _) => None
  end.
End DecoyStartup.

(** A world the startup code may move to: the same decoy directory with
    the same mode, holding at least the files it held. *)
Definition decoys_grow {F : Type} (w w' : World F) : Prop :=
  fs_decoy_dir (w_fs w') = fs_decoy_dir (w_fs w) /\
  fs_writable (w_fs w') = fs_writable (w_fs w) /\
  dom (fs_files (w_fs w)) ⊆ dom (fs_files (w_fs w')).

Section DecoyPredicates.
Context {F : Type}.

#[export] Instance decoys_grow_preorder : PreOrder (@decoys_grow F).
Proof.
  split; [intros w; repeat split; set_solver|].
  intros w1 w2 w3 (D12 & W12 & S12) (D23 & W23 & S23). repeat split; [congruence | congruence | set_solver].
Qed.

(** What a generator does for [ensure_file]: it never raises, keeps the
    decoy directory, and writes its file when the directory is writable,
    leaving the world alone otherwise. *)
Definition gen_writes {A} (name : string) (gen : PyM (World F) A) : Prop :=
  forall w, exists a, (gen w).1 = Ok a /\ decoys_grow w (gen w).2 /\
    (fs_writable (w_fs w) = true -> decoy_exists (w_fs (gen w).2) name = true) /\
    (fs_writable (w_fs w) = false -> (gen w).2 = w).

End DecoyPredicates.

(** ** Lemmas *)

Section ModelLemmas.
Context {M : Type}.

Lemma load_or_train_spec (clf : M) (writable : bool) (mf : ModelFile M) :
  load_or_train clf writable mf =
    match mf with
    | Good m => (Ok m, mf)
    | _ => if writable then (Ok clf, Good clf) else (Raise PermissionError, mf)
    end.
Proof. destruct mf, writable; reflexivity. Qed.
End ModelLemmas.

Section DecoyLemmas.
Context {F : Type} `{Faker F}.

Lemma write_file_grows (w : World F) (fn : string) (d : FileData) (fk : F) :
  decoys_grow w (mkWorld (w_db w) (write_file (w_fs w) fn d) fk (w_now w)).
Proof. split; [reflexivity|]. split; [reflexivity|]. simpl. rewrite dom_insert_L. set_solver. Qed.

Lemma run_gen_employees_writes : gen_writes "decoy_employees.csv" (run_gen_employees_csv (F:=F)).
Proof.
  intros w. unfold run_gen_employees_csv. gen_fs. destruct G as [-> G].
  destruct (fs_writable (w_fs w)) eqn:Hw; eexists; (split; [reflexivity|]).
  - destruct G as [d ->]. split; [apply write_file_grows|]. split; [|discriminate]. intros _.
    apply bool_decide_eq_true. simpl. rewrite dom_insert_L. set_solver.
  - destruct G as [-> ->]. destruct w. split; [reflexivity|]. split; [discriminate|]. intros _. reflexivity.
Qed.

Lemma run_gen_projects_writes : gen_writes "decoy_projects.csv" (run_gen_projects_csv (F:=F)).
Proof.
  intros w. unfold run_gen_projects_csv. gen_fs. destruct G as [-> G].
  destruct (fs_writable (w_fs w)) eqn:Hw; eexists; (split; [reflexivity|]).
  - destruct G as [d ->]. split; [apply write_file_grows|]. split; [|discriminate]. intros _.
    apply bool_decide_eq_true. simpl. rewrite dom_insert_L. set_solver.
  - destruct G as [-> ->]. destruct w. split; [reflexivity|]. split; [discriminate|]. intros _. reflexivity.
Qed.

Lemma run_gen_credentials_writes : gen_writes "credentials_backup.zip" (run_gen_credentials_zip (F:=F)).
Proof.
  intros w. unfold run_gen_credentials_zip. gen_fs.
  destruct (fs_writable (w_fs w)) eqn:Hw; eexists; (split; [reflexivity|]).
  - destruct G as [_ [d1 [d2 ->]]]. split.
    + split; [reflexivity|]. split; [reflexivity|]. simpl. rewrite !dom_insert_L. set_solver.
    + split; [|discriminate]. intros _. apply bool_decide_eq_true. simpl. rewrite !dom_insert_L. set_solver.
  - destruct G as [_ [-> ->]]. destruct w. split; [reflexivity|]. split; [discriminate|]. intros _. reflexivity.
Qed.

Lemma ensure_file_present {A} (name : string) (gen : PyM (World F) A) (w : World F) :
  decoy_exists (w_fs w) name = true -> ensure_file name gen w = (Ok tt, w).
Proof. intros He. unfold ensure_file. pym_unfold. rewrite He. reflexivity. Qed.

Lemma ensure_file_spec {A} (name : string) (gen : PyM (World F) A) (w : World F) :
  gen_writes name gen ->
  (ensure_file name gen w).1 = Ok tt /\ decoys_grow w (ensure_file name gen w).2 /\
  (fs_writable (w_fs w) = true -> decoy_exists (w_fs (ensure_file name gen w).2) name = true) /\
  (fs_writable (w_fs w) = false -> (ensure_file name gen w).2 = w).
Proof.
  intros Hg. unfold ensure_file. pym_unfold. simpl.
  destruct (decoy_exists (w_fs w) name) eqn:He.
  - simpl. split; [reflexivity|]. split; [reflexivity|]. auto.
  - destruct (Hg w) as (a & Ha & Hgr & Hwr & Hro). destruct (gen w) as [r w1]. simpl in *. subst r.
    auto.
Qed.

Lemma decoy_exists_grow (w w' : World F) (name : string) :
  decoys_grow w w' -> decoy_exists (w_fs w) name = true -> decoy_exists (w_fs w') name = true.
Proof.
  intros (Hd & _ & Hs) He. unfold decoy_exists in *. rewrite Hd.
  apply bool_decide_eq_true in He. apply bool_decide_eq_true. set_solver.
Qed.

(** The three checks of lines 247-253 in a row: they never raise; on a
    writable decoy directory every file [/api/tables] advertises exists
    afterwards; on a read-only one nothing changes. *)
Lemma ensure_decoys_spec (w : World F) :
  (ensure_decoys w).1 = Ok tt /\ decoys_grow w (ensure_decoys w).2 /\
  (fs_writable (w_fs w) = true -> forall key count name, In (key, count, name) TABLES ->
     decoy_exists (w_fs (ensure_decoys w).2) name = true) /\
  (fs_writable (w_fs w) = false -> (ensure_decoys w).2 = w).
Proof.
  destruct (ensure_file_spec _ _ w run_gen_employees_writes) as (R1 & G1 & X1 & U1).
  destruct (ensure_file "decoy_employees.csv" run_gen_employees_csv w) as [r1 w1] eqn:E1. simpl in *. subst r1.
  destruct (ensure_file_spec _ _ w1 run_gen_projects_writes) as (R2 & G2 & X2 & U2).
  destruct (ensure_file "decoy_projects.csv" run_gen_projects_csv w1) as [r2 w2] eqn:E2. simpl in *. subst r2.
  destruct (ensure_file_spec _ _ w2 run_gen_credentials_writes) as (R3 & G3 & X3 & U3).
  destruct (ensure_file "credentials_backup.zip" run_gen_credentials_zip w2) as [r3 w3] eqn:E3. simpl in *.
  assert (E : ensure_decoys w = (r3, w3)) by (unfold ensure_decoys, bind; rewrite E1, E2, E3; reflexivity).
  rewrite E. simpl.
  pose proof G1 as (_ & HW1 & _). pose proof G2 as (_ & HW2 & _).
  split; [exact R3|]. split; [etransitivity; [exact G1 | etransitivity; [exact G2 | exact G3]]|].
  split.
  - intros Hw key count name Hin. simpl in Hin.
    repeat destruct Hin as [Hin | Hin]; try contradiction; injection Hin as <- <- <-.
    + eapply decoy_exists_grow; [exact G3|]. eapply decoy_exists_grow; [exact G2|]. apply X1, Hw.
    + eapply decoy_exists_grow; [exact G3|]. apply X2. congruence.
    + apply X3. congruence.
  - intros Hw. rewrite U3, U2, U1 by congruence. reflexivity.
Qed.
End DecoyLemmas.

Section StartupLemmas.
Context {F : Type} `{Faker F}.

Lemma ensure_decoys_present (w : World F) :
  decoy_exists (w_fs w) "decoy_employees.csv" = true ->
  decoy_exists (w_fs w) "decoy_projects.csv" = true ->
  decoy_exists (w_fs w) "credentials_backup.zip" = true ->
  ensure_decoys w = (Ok tt, w).
Proof.
  intros He Hp Hc. unfold ensure_decoys, bind.
  rewrite (ensure_file_present _ _ w He), (ensure_file_present _ _ w Hp), (ensure_file_present _ _ w Hc).
  reflexivity.
Qed.

Lemma startup_spec {M : Type} (clf : M) (writable : bool) (mf : ModelFile M) (w : World F) :
  startup clf writable mf w =
    match mf with
    | Good m => Some (m, mf, (ensure_decoys w).2)
    | _ => if writable then Some (clf, Good clf, (ensure_decoys w).2) else None
    end.
Proof. unfold startup. rewrite load_or_train_spec. destruct mf, writable; reflexivity. Qed.

Lemma startup_world {M : Type} (clf : M) (writable : bool) (mf : ModelFile M) (w : World F) m mf' w' :
  startup clf writable mf w = Some (m, mf', w') -> w' = (ensure_decoys w).2 /\ mf' = Good m.
Proof. rewrite startup_spec. destruct mf, writable; intros [=]; subst; auto. Qed.
End StartupLemmas.

(** ** Properties of the startup code *)

Section StartupProperties.
Context {F : Type} `{Faker F}.

(** C33: the service starts with the model [MODEL_FILE] holds when it
    holds one; otherwise (no file, or a file [joblib.load] cannot read)
    it trains and saves a new one; the import dies, so nothing is
    served, exactly when no model can be loaded and the new one cannot
    be saved.  The [model is None] branch of the verdict is therefore
    never taken by a running service. *)
Theorem startup_model_outcome {M : Type} (clf : M) (writable : bool) (mf : ModelFile M) (w : World F) :
  startup clf writable mf w =
    match mf with
    | Good m => Some (m, mf, (ensure_decoys w).2)
    | _ => if writable then Some (clf, Good clf, (ensure_decoys w).2) else None
    end.
Proof. apply startup_spec. Qed.

(** A restart finds the model the first start used: whatever the
    training would now give and whatever the directory's mode, it loads
    the same model and does not retrain. *)
Theorem restart_same_model {M : Type} (clf : M) (writable : bool) (mf : ModelFile M) (w : World F)
    m mf' w' (clf' : M) (writable' : bool) (w2 : World F) :
  startup clf writable mf w = Some (m, mf', w') ->
  startup clf' writable' mf' w2 = Some (m, mf', (ensure_decoys w2).2).
Proof.
  intros Hs. destruct (startup_world clf writable mf w m mf' w' Hs) as [_ ->].
  rewrite startup_spec. reflexivity.
Qed.

(** Right after a start on a writable decoy directory, every
    download link [/api/tables] advertises is served. *)
Theorem startup_tables_served {M : Type} (clf : M) (writable : bool) (mf : ModelFile M) (w : World F)
    m mf' w' (key : string) (count : Z) (name : string) :
  startup clf writable mf w = Some (m, mf', w') -> fs_writable (w_fs w) = true ->
  In (key, count, name) TABLES ->
  flask_dispatch (download_fn name) w' = (resp_file (path_join (fs_decoy_dir (w_fs w)) name), w').
Proof.
  intros Hs Hw Hin. destruct (startup_world clf writable mf w m mf' w' Hs) as [-> _].
  destruct (ensure_decoys_spec w) as (_ & (Hd & _) & Hex & _).
  destruct (tables_names_plain key count name Hin) as [Hb Hn].
  pose proof (Hex Hw key count name Hin) as He. unfold decoy_exists in He. rewrite Hd in He.
  unfold flask_dispatch, download_fn. pym_unfold. rewrite Hb, Hn, Hd, He. reflexivity.
Qed.

(** The startup decoy check is idempotent: a second run (a restart)
    regenerates nothing and draws no fake data. *)
Theorem ensure_decoys_idempotent (w : World F) :
  ensure_decoys (ensure_decoys w).2 = (Ok tt, (ensure_decoys w).2).
Proof.
  destruct (ensure_decoys_spec w) as (R & (_ & HW & _) & Hex & Hro).
  destruct (fs_writable (w_fs w)) eqn:Hw.
  - apply ensure_decoys_present;
      [apply (Hex eq_refl "employees" 200%Z) | apply (Hex eq_refl "projects" 50%Z)
      | apply (Hex eq_refl "credentials" 50%Z)]; simpl; auto.
  - pose proof (Hro eq_refl) as Hw'. rewrite Hw'.
    destruct (ensure_decoys w) as [r w']. simpl in R, Hw'. subst. reflexivity.
Qed.
End StartupProperties.

(** ** Witnesses *)

Lemma restart_same_model_witness :
  startup 7%nat true NoFile witness_world = Some (7%nat, Good 7%nat, (ensure_decoys witness_world).2) /\
  startup 8%nat false (Good 7%nat) witness_world =
    Some (7%nat, Good 7%nat, (ensure_decoys witness_world).2).
Proof.
  assert (Hs : startup 7%nat true NoFile witness_world =
               Some (7%nat, Good 7%nat, (ensure_decoys witness_world).2)) by reflexivity.
  split; [exact Hs|]. exact (restart_same_model _ _ _ _ _ _ _ 8%nat false witness_world Hs).
Defined.

Lemma startup_tables_served_witness :
  startup 7%nat true NoFile witness_world = Some (7%nat, Good 7%nat, (ensure_decoys witness_world).2) /\
  fs_writable (w_fs witness_world) = true /\
  In ("projects", 50%Z, "decoy_projects.csv") TABLES /\
  flask_dispatch (download_fn "decoy_projects.csv") (ensure_decoys witness_world).2 =
    (resp_file (path_join (fs_decoy_dir (w_fs witness_world)) "decoy_projects.csv"),
     (ensure_decoys witness_world).2).
Proof.
  assert (Hs : startup 7%nat true NoFile witness_world =
               Some (7%nat, Good 7%nat, (ensure_decoys witness_world).2)) by reflexivity.
  assert (Hw : fs_writable (w_fs witness_world) = true) by reflexivity.
  assert (Hin : In ("projects", 50%Z, "decoy_projects.csv") TABLES) by (right; left; reflexivity).
  split; [exact Hs|]. split; [exact Hw|]. split; [exact Hin|].
  exact (startup_tables_served _ _ _ _ _ _ _ _ _ _ Hs Hw Hin).
Defined.
