(* ===== verification/Service.v ===== *)
(** * The whole application: routing a request to its view

    Flask dispatches a request by its path and method through the URL
    map that the [@app.route] decorators of src/Backend/app.py build.
    Each [rule_*] below is one decorator: its path pattern and its
    methods.  Werkzeug's matching is modelled as the application sees
    it: a static rule matches its path exactly (no trailing slash is
    added, the rules having none); [<path:fn>] matches any non-empty
    remainder that does not start with a slash; a [GET] rule also
    answers [HEAD]; [OPTIONS] is answered automatically for every rule.
    A path no rule matches goes to the JSON [errorhandler(404)]; a
    method the matched rule does not allow gets Werkzeug's own 405 page,
    for which no handler is registered.  [app] is the application's
    answer to one request: a JSON response of a view or a handler, or
    one of Werkzeug's default pages.  Rules do not overlap, so the order
    in which they are tried does not matter. *)
From S2P Require Import Prelude PyStr Json Clock Loads Request Store Features Detector Decoy Handlers Alerts Routes.
From Stdlib Require Import Ascii String.

Open Scope string_scope.

(** ** Views and rules *)

Inductive View :=
| VRoot | VStatus | VTables | VDownload (fn : string) | VAlerts
| VLogin | VQuery | VBlock | VDecoy | VExport.

Record Rule := mkRule {
  rule_match : string -> option View;
  rule_methods : list string
}.

Definition static_rule (p : string) (v : View) (methods : list string) : Rule :=
  mkRule (fun path => if String.eqb path p then Some v else None) methods.

(** The [path] converter: a non-empty remainder not starting with [/]. *)
Definition path_arg (s : string) : option string :=
  match s with
  | String c _ => if Ascii.eqb c "/" then None else Some s
  | EmptyString => None
  end.

Definition rule_root : Rule := static_rule "/" VRoot ["GET"].
Definition rule_status : Rule := static_rule "/api/status" VStatus ["GET"].
Definition rule_tables : Rule := static_rule "/api/tables" VTables ["GET"].
Definition rule_download : Rule :=
  mkRule (fun path => match strip_prefix "/download/" path with
                      | Some rest => option_map VDownload (path_arg rest)
                      | None => None
                      end) ["GET"].
Definition rule_alerts : Rule := static_rule "/api/alerts" VAlerts ["GET"].
Definition rule_login : Rule := static_rule "/api/login" VLogin ["POST"].
Definition rule_query : Rule := static_rule "/api/query" VQuery ["POST"].
Definition rule_block : Rule := static_rule "/api/actions/block" VBlock ["POST"].
Definition rule_decoy : Rule := static_rule "/api/decoy/generate" VDecoy ["POST"].
Definition rule_export : Rule := static_rule "/api/export_report" VExport ["GET"].

Definition url_map : list Rule :=
  [rule_root; rule_status; rule_tables; rule_download; rule_alerts;
   rule_login; rule_query; rule_block; rule_decoy; rule_export].

(** ** Matching *)

Inductive Dispatch :=
| DView (v : View)
| DNotFound
| DMethodNotAllowed
| DOptions.

Fixpoint match_path (rules : list Rule) (path : string) : option (View * list string) :=
  match rules with
  | [] => None
  | rl :: rules' =>
      match rule_match rl path with
      | Some v => Some (v, rule_methods rl)
      | None => match_path rules' path
      end
  end.

(** A [GET] rule also serves [HEAD]. *)
Definition method_allowed (methods : list string) (m : string) : bool :=
  existsb (String.eqb m) methods || (String.eqb m "HEAD" && existsb (String.eqb "GET") methods).

Definition route_of (method path : string) : Dispatch :=
  match match_path url_map path with
  | None => DNotFound
  | Some (v, methods) =>
      if String.eqb method "OPTIONS" then DOptions
      else if method_allowed methods method then DView v
      else DMethodNotAllowed
  end.

(** ** The application *)

(** What the client receives: a JSON response, or one of Werkzeug's
    default pages (the automatic [OPTIONS] answer, the HTML 405 page). *)
Inductive HttpOut :=
| JsonResp (resp : Response)
| DefaultPage (status : Z).

Section App.
Context {F : Type} `{Faker F} {M : Type} `{OutlierModel M}.
Variable model : option M.
(** [str(e)] of an exception, shown by [/api/status]. *)
Variable exc_text : PyExc -> string.
(** [datetime.fromisoformat], read by the export. *)
Variable fromisoformat : string -> option Z.

Local Notation W := (World F).

Definition view_handler (v : View) (r : Request) : PyM W Response :=
  match v with
  | VRoot => api_root
  | VStatus => api_status exc_text
  | VTables => api_tables r
  | VDownload fn => download_fn fn
  | VAlerts => api_alerts r
  | VLogin => api_login model r
  | VQuery => api_query model r
  | VBlock => api_block r
  | VDecoy => api_decoy_generate
  | VExport => api_export_report fromisoformat r
  end.

Definition app (r : Request) (w : W) : HttpOut * W :=
  match route_of (req_method r) (req_path r) with
  | DView v => let '(resp, w') := flask_dispatch (view_handler v r) w in (JsonResp resp, w')
  | DNotFound => (JsonResp resp_not_found, w)
  | DMethodNotAllowed => (DefaultPage 405%Z, w)
  | DOptions => (DefaultPage 200%Z, w)
  end.
End App.

(** [int(os.environ.get('PORT', 5000))] of lines 549-550: a [PORT]
    that is not an integer stops the process with [ValueError]. *)
Definition server_port (env_port : option string) : res Z :=
  match env_port with
  | None => Ok 5000%Z
  | Some s => match py_int s with Some p => Ok p | None => Raise ValueError end
  end.

(** ** The shape of a response *)

Definition status_codes : list Z := [200; 400; 401; 403; 404; 500]%Z.

(** [jsonify] of a dict with distinct keys, or of a list. *)
Definition body_typed (j : json) : bool :=
  match j with
  | JObj kv => bool_decide (NoDup (map fst kv))
  | JArr _ => true
  | _ => false
  end.

Definition resp_typed (resp : Response) : bool :=
  bool_decide (resp.1 ∈ status_codes) && body_typed resp.2.

(** [errorhandler(403)] (lines 537-544); no view calls [abort(403)]. *)
Definition resp_forbidden : Response :=
  (403%Z, JObj [("status", JStr "error"); ("error", JStr "Forbidden");
                ("message", JStr "Access denied. Your IP may be blocked.")]).

(** The body of the 403 handler: an ["error"] field ["Forbidden"]. *)
Definition forbidden_body (j : json) : bool :=
  match j with
  | JObj kv => match obj_get "error" kv with Some (JStr e) => String.eqb e "Forbidden" | _ => false end
  | _ => false
  end.

(** A typed answer that is not the 403 handler's. *)
Definition answer_ok (resp : Response) : bool :=
  resp_typed resp && negb (Z.eqb resp.1 403 && forbidden_body resp.2).

(** A handler all of whose answers are typed and none the 403 handler's. *)
Definition typed_handler {S} (h : PyM S Response) : Prop :=
  forall s, match (h s).1 with Ok resp => answer_ok resp = true | Raise _ => True end.

(** ** Lemmas *)

Lemma typed_dispatch {F} (h : PyM (World F) Response) (s : World F) :
  typed_handler h -> answer_ok (flask_dispatch h s).1 = true.
Proof.
  intros Hh. specialize (Hh s). unfold flask_dispatch.
  destruct (h s) as [[resp|e] s']; [exact Hh | reflexivity].
Qed.

Lemma answer_ok_spec (o : HttpOut) :
  match o with JsonResp resp => answer_ok resp = true | DefaultPage c => c = 405%Z \/ c = 200%Z end ->
  match o with
  | JsonResp resp => resp_typed resp = true /\ resp <> resp_forbidden
  | DefaultPage c => c = 405%Z \/ c = 200%Z
  end.
Proof.
  destruct o as [resp|c]; [|auto]. unfold answer_ok. intros Ha.
  apply andb_prop in Ha as [Ht Hf]. split; [exact Ht|]. intros ->. discriminate Hf.
Qed.

(** Prove a handler typed by running it on every branch. *)
Ltac typed_tac :=
  intros ?; pym_unfold; repeat (case_match; simplify_eq/=); try exact I; vm_compute; reflexivity.

Section Typing.
Context {F : Type} `{Faker F} {M : Type} `{OutlierModel M}.
Variable model : option M.
Variable exc_text : PyExc -> string.
Variable fromisoformat : string -> option Z.

Lemma api_login_typed (r : Request) : typed_handler (api_login (F:=F) model r).
Proof. unfold api_login, login_row, log_request, deceive, draw_name, run_gen_credentials_zip. typed_tac. Qed.

Lemma api_query_typed (r : Request) : typed_handler (api_query (F:=F) model r).
Proof.
  unfold api_query, query_outcome, query_rows, log_request, deceive, draw_name, run_gen_credentials_zip.
  typed_tac.
Qed.

Lemma api_block_typed (r : Request) : typed_handler (api_block (F:=F) r).
Proof. unfold api_block, block_ip. typed_tac. Qed.

Lemma api_decoy_generate_typed : typed_handler (api_decoy_generate (F:=F)).
Proof.
  unfold api_decoy_generate, run_gen_employees_csv, run_gen_projects_csv, run_gen_credentials_zip.
  typed_tac.
Qed.

Lemma api_alerts_typed (r : Request) : typed_handler (api_alerts (F:=F) r).
Proof. unfold api_alerts. typed_tac. Qed.

Lemma api_root_typed : typed_handler (api_root (F:=F)).
Proof. unfold api_root. typed_tac. Qed.

Lemma api_status_typed : typed_handler (api_status (F:=F) exc_text).
Proof. unfold api_status. typed_tac. Qed.

Lemma api_tables_typed (r : Request) : typed_handler (api_tables (F:=F) r).
Proof. unfold api_tables. typed_tac. Qed.

Lemma download_fn_typed (fn : string) : typed_handler (download_fn (F:=F) fn).
Proof. unfold download_fn. typed_tac. Qed.

Lemma api_export_report_typed (r : Request) : typed_handler (api_export_report (F:=F) fromisoformat r).
Proof. unfold api_export_report, st_put. typed_tac. Qed.
End Typing.

Lemma view_handler_typed {F : Type} `{Faker F} {M : Type} `{OutlierModel M}
    (model : option M) (exc_text : PyExc -> string) (fromisoformat : string -> option Z) (v : View) (r : Request) :
  typed_handler (view_handler (F:=F) model exc_text fromisoformat v r).
Proof.
  destruct v; simpl.
  - apply api_root_typed.
  - apply api_status_typed.
  - apply api_tables_typed.
  - apply download_fn_typed.
  - apply api_alerts_typed.
  - apply api_login_typed.
  - apply api_query_typed.
  - apply api_block_typed.
  - apply api_decoy_generate_typed.
  - apply api_export_report_typed.
Qed.

Lemma strip_prefix_app (p s : string) : strip_prefix p (p ++ s) = Some s.
Proof.
  induction p as [|c p IH]; str_simpl; [reflexivity|]. simpl. rewrite Ascii.eqb_refl. exact IH.
Qed.

(** [GET /download/<fn>] reaches [download_fn fn] when the path
    converter accepts [fn], and the 404 handler otherwise. *)
Lemma route_download (fn : string) :
  route_of "GET" ("/download/" ++ fn) =
    match path_arg fn with Some _ => DView (VDownload fn) | None => DNotFound end.
Proof.
  unfold route_of. str_simpl. cbn - [strip_prefix path_arg].
  replace (strip_prefix _ _) with (Some fn) by (symmetry; apply (strip_prefix_app "/download/" fn)).
  destruct (path_arg fn) as [a|] eqn:Hp; [|reflexivity].
  simpl. f_equal. f_equal. destruct fn as [|c fn']; [discriminate|]. simpl in Hp.
  destruct (Ascii.eqb c "/"); congruence.
Qed.

(** ** Properties *)

Section ServiceProperties.
Context {F : Type} `{Faker F} {M : Type} `{OutlierModel M}.

(** C10: every answer of the application has the type the clients expect:
    a JSON response whose status is one of 200, 400, 401, 403, 404 and
    500 and whose body is a list or a dict with distinct keys, whatever
    the request, the model and the state of the store and the disk, and
    never the body of the [errorhandler(403)], which no view reaches;
    the only other answers are Werkzeug's own pages, the automatic
    [OPTIONS] answer (200) and the HTML 405 page for a method a route
    does not allow. *)
Theorem app_responses_typed (model : option M) (exc_text : PyExc -> string) (fromisoformat : string -> option Z) (r : Request) (w : World F) :
  match (app model exc_text fromisoformat r w).1 with
  | JsonResp resp => resp_typed resp = true /\ resp <> resp_forbidden
  | DefaultPage c => c = 405%Z \/ c = 200%Z
  end.
Proof.
  apply answer_ok_spec. unfold app.
  destruct (route_of (req_method r) (req_path r)) as [v| | |]; simpl; auto.
  pose proof (typed_dispatch (view_handler model exc_text fromisoformat v r) w (view_handler_typed model exc_text fromisoformat v r)) as Ht.
  destruct (flask_dispatch (view_handler model exc_text fromisoformat v r) w). exact Ht.
Qed.
End ServiceProperties.

Section DownloadProperties.
Context {F : Type} `{Faker F} {M : Type} `{OutlierModel M}.

(** Through the router, no URL under [/download/] reaches a file
    outside the decoy directory: [GET /download/<fn>], whatever [fn]
    holds ([..], slashes, an empty name), is answered by the JSON 404,
    by the 500 of a directory, or with an existing file [DECOY_DIR/b]
    whose name [b] holds no separator and is not [.] or [..]; the world
    is unchanged. *)
Theorem app_download_confined (model : option M) (exc_text : PyExc -> string) (fromisoformat : string -> option Z)
    (r : Request) (fn : string) (w : World F) :
  req_method r = "GET" -> req_path r = "/download/" ++ fn ->
  (app model exc_text fromisoformat r w).2 = w /\
  ((app model exc_text fromisoformat r w).1 = JsonResp resp_not_found \/
   (app model exc_text fromisoformat r w).1 = JsonResp resp_internal_error \/
   exists b, (app model exc_text fromisoformat r w).1 = JsonResp (resp_file (path_join (fs_decoy_dir (w_fs w)) b)) /\
             no_slash b /\ dir_name b = false /\
             path_join (fs_decoy_dir (w_fs w)) b ∈ dom (fs_files (w_fs w))).
Proof.
  intros Hm Hp. unfold app. rewrite Hm, Hp, route_download.
  destruct (path_arg fn); [|simpl; auto]. simpl.
  destruct (flask_dispatch (download_fn fn) w) as [resp w'] eqn:E.
  destruct (download_fn_confined fn w resp w' E) as [-> Hr]. simpl. split; [reflexivity|].
  destruct Hr as [-> | [-> | [b Hb]]]; auto. right; right. exists b. destruct Hb as (-> & Hb). split; [reflexivity | exact Hb].
Qed.
End DownloadProperties.

(** ** Witnesses *)

Lemma app_download_confined_witness :
  let r := mkRequest (Some "203.0.113.7") [] "/download/../../etc/passwd" "GET"
                     "http://honeypot.local/" false None (Some []) "" [] in
  req_method r = "GET" /\ req_path r = "/download/" ++ "../../etc/passwd" /\
  (app witness_model (fun _ => "error") (fun _ => None) r witness_world).2 = witness_world /\
  ((app witness_model (fun _ => "error") (fun _ => None) r witness_world).1 = JsonResp resp_not_found \/
   (app witness_model (fun _ => "error") (fun _ => None) r witness_world).1 = JsonResp resp_internal_error \/
   exists b, (app witness_model (fun _ => "error") (fun _ => None) r witness_world).1 =
               JsonResp (resp_file (path_join (fs_decoy_dir (w_fs witness_world)) b)) /\
             no_slash b /\ dir_name b = false /\
             path_join (fs_decoy_dir (w_fs witness_world)) b ∈ dom (fs_files (w_fs witness_world))).
Proof.
  intros r.
  assert (Hm : req_method r = "GET") by reflexivity.
  assert (Hp : req_path r = "/download/" ++ "../../etc/passwd") by reflexivity.
  split; [exact Hm|]. split; [exact Hp|].
  exact (app_download_confined witness_model (fun _ => "error") (fun _ => None) r "../../etc/passwd" witness_world Hm Hp).
Defined.
