(* ===== verification/System.v ===== *)
(** * The running service: events, steps and reachable states

    Here requests are served one at a time, each handler as one atomic
    step (Concurrency.v interleaves their SQLite statements and shows
    that its serial schedules give this service).  Between requests the environment
    moves: the clock advances, the store becomes unreadable or read-only or
    recovers, the decoy directory changes permissions.  [step] is one such
    event; [run] a sequence of them; [reachable] the worlds that a sequence
    of events leads to from a well-formed start.  The theorems show that
    every request handler only appends to the two tables (so rowids stay
    increasing, blocked addresses stay unique and stamped rows are never
    in the future), that an address once blocked is never scored again,
    that the rate feature of a request excludes the request itself, and
    that a minute of silence empties the rate window. *)
From S2P Require Import Prelude PyStr Json Request Store Features Detector Decoy Handlers.
From Stdlib Require Import Ascii String Sorted.

Open Scope string_scope.

(** ** How a handler may change the world *)

(** The clock and the health switches stay put; both tables only grow,
    the new log rows stamped with the clock; well-formedness is kept. *)
Definition evolves {F : Type} (w w' : World F) : Prop :=
  w_now w' = w_now w /\
  db_reads_ok (w_db w') = db_reads_ok (w_db w) /\
  db_writes_ok (w_db w') = db_writes_ok (w_db w) /\
  (exists el, db_logs (w_db w') = (db_logs (w_db w) ++ el)%list /\
              Forall (fun l => log_timestamp l = w_now w) el) /\
  (exists eb, db_blocklist (w_db w') = (db_blocklist (w_db w) ++ eb)%list) /\
  (db_wf (w_db w) -> db_wf (w_db w')).

(** ** Events and steps *)

Inductive Event :=
| ELogin (r : Request)          (** [POST /api/login] *)
| EQuery (r : Request)          (** [POST /api/query] *)
| EBlock (r : Request)          (** [POST /api/actions/block] *)
| EDecoyGenerate                (** [POST /api/decoy/generate] *)
| ETick (dt : Z)                (** the clock advances by [dt] microseconds *)
| EStoreHealth (reads writes : bool)   (** the SQLite file changes health *)
| EDecoyDir (writable : bool).         (** the decoy directory changes mode *)

Definition set_health (db : Db) (reads writes : bool) : Db :=
  mkDb (db_logs db) (db_blocklist db) reads writes.

Definition set_writable (fs : Fs) (b : bool) : Fs :=
  mkFs (fs_decoy_dir fs) b (fs_files fs) (fs_exports_dir fs) (fs_exports_writable fs).

Section ServiceDefs.
Context {F : Type} `{Faker F} {M : Type} `{OutlierModel M}.
Variable model : option M.

Definition serve (h : PyM (World F) Response) (w : World F) : option Response * World F :=
  let '(resp, w') := flask_dispatch h w in (Some resp, w').

Definition step (w : World F) (e : Event) : option Response * World F :=
  match e with
  | ELogin r => serve (api_login model r) w
  | EQuery r => serve (api_query model r) w
  | EBlock r => serve (api_block r) w
  | EDecoyGenerate => serve api_decoy_generate w
  | ETick dt =>
      (None, if (0 <=? dt)%Z then mkWorld (w_db w) (w_fs w) (w_faker w) (w_now w + dt)%Z else w)
  | EStoreHealth rd wr =>
      (None, mkWorld (set_health (w_db w) rd wr) (w_fs w) (w_faker w) (w_now w))
  | EDecoyDir b => (None, mkWorld (w_db w) (set_writable (w_fs w) b) (w_faker w) (w_now w))
  end.

Fixpoint run (w : World F) (es : list Event) : list (option Response) * World F :=
  match es with
  | [] => ([], w)
  | e :: es' =>
      let '(o, w1) := step w e in
      let '(os, w2) := run w1 es' in (o :: os, w2)
  end.

(** No log row is stamped after the clock. *)
Definition stamped_past (w : World F) : Prop :=
  Forall (fun l => log_timestamp l <= w_now w)%Z (db_logs (w_db w)).

Definition service_inv (w : World F) : Prop := db_wf (w_db w) /\ stamped_past w.

(** The process starts on an empty database ([db.create_all()]). *)
Inductive reachable : World F -> Prop :=
| reach_init fs fk now : reachable (mkWorld empty_db fs fk now)
| reach_step w e : reachable w -> reachable (step w e).2.
End ServiceDefs.

(** The start of the witnesses' runs: an empty store at second 1. *)
Definition witness_start : World nat := mkWorld empty_db witness_fs 0%nat 1000000%Z.

(** ** Lemmas on handlers *)

Section Evolution.
Context {F : Type}.

#[export] Instance evolves_preorder : PreOrder (@evolves F).
Proof.
  split.
  - intros w. do 3 (split; [reflexivity|]).
    split; [exists []; rewrite app_nil_r; auto|].
    split; [exists []; rewrite app_nil_r; auto|]. auto.
  - intros w1 w2 w3 (N12 & R12 & W12 & [el1 [L12 F12]] & [eb1 B12] & WF12)
                    (N23 & R23 & W23 & [el2 [L23 F23]] & [eb2 B23] & WF23).
    do 3 (split; [congruence|]).
    split; [|split].
    + exists (el1 ++ el2)%list. rewrite L23, L12, app_assoc. split; [reflexivity|].
      apply Forall_app. split; [exact F12|]. rewrite N12 in F23. exact F23.
    + exists (eb1 ++ eb2)%list. rewrite B23, B12, app_assoc. reflexivity.
    + auto.
Qed.

Lemma evolves_same_db (w w' : World F) :
  w_db w' = w_db w -> w_now w' = w_now w -> evolves w w'.
Proof.
  intros Hd Hn. unfold evolves. rewrite Hd, Hn. do 3 (split; [reflexivity|]).
  split; [exists []; rewrite app_nil_r; auto|].
  split; [exists []; rewrite app_nil_r; auto|]. auto.
Qed.

Lemma commit_log_evolves (w : World F) lf db' :
  commit_log (w_db w) lf (w_now w) = Ok db' ->
  evolves w (mkWorld db' (w_fs w) (w_faker w) (w_now w)).
Proof.
  unfold commit_log. destruct (db_writes_ok (w_db w)) eqn:Hw; [|discriminate].
  intros [= <-]. unfold evolves; simpl.
  do 3 (split; [congruence|]).
  split; [eexists; split; [reflexivity | repeat constructor]|].
  split; [exists []; rewrite app_nil_r; reflexivity|].
  intros (Hl & Hb & Hn). split; [|split; assumption]. simpl.
  rewrite map_app. apply sorted_snoc_next_rowid. exact Hl.
Qed.

Lemma commit_block_evolves (w : World F) ip reason db' :
  commit_block (w_db w) ip reason (w_now w) = Ok db' ->
  evolves w (mkWorld db' (w_fs w) (w_faker w) (w_now w)).
Proof.
  unfold commit_block. destruct (db_writes_ok (w_db w)) eqn:Hw; [|discriminate].
  destruct (existsb _ _) eqn:He; [discriminate|].
  intros [= <-]. unfold evolves; simpl.
  do 3 (split; [congruence|]).
  split; [exists []; rewrite app_nil_r; split; [reflexivity | constructor]|].
  split; [eexists; reflexivity|].
  intros (Hl & Hb & Hn). split; [exact Hl|]. simpl. rewrite !map_app. split.
    + apply sorted_snoc_next_rowid. exact Hb.
    + apply NoDup_app. split; [exact Hn|]. split; [|apply NoDup_singleton].
      intros x Hx Hx'. apply list_elem_of_singleton in Hx'. subst x.
      apply list_elem_of_In, in_map_iff in Hx as [b [Hbe Hb']]. simpl in Hbe. rewrite <- Hbe in He.
      assert (existsb (fun b' => String.eqb (blk_ip b') (blk_ip b)) (db_blocklist (w_db w)) = true).
      { apply existsb_exists. exists b. split; [exact Hb'|].
        apply String.eqb_refl. }
      congruence.
Qed.
End Evolution.

Section HandlerEvolution.
Context {F : Type} `{Faker F} {M : Type} `{OutlierModel M}.
Variable model : option M.

Lemma lift_res_evolves {A} (x : res A) : preserves evolves (lift_res (F:=F) x).
Proof. intros w. apply evolves_same_db; reflexivity. Qed.

Lemma draw_name_evolves : preserves evolves (draw_name (F:=F)).
Proof. intros w. unfold draw_name. destruct (fake_name _). apply evolves_same_db; reflexivity. Qed.

Lemma run_gen_credentials_zip_evolves : preserves evolves (run_gen_credentials_zip (F:=F)).
Proof.
  intros w. unfold run_gen_credentials_zip. destruct (gen_credentials_zip _ _ _) as [[? ?] ?].
  apply evolves_same_db; reflexivity.
Qed.

Lemma run_gen_employees_csv_evolves : preserves evolves (run_gen_employees_csv (F:=F)).
Proof.
  intros w. unfold run_gen_employees_csv. destruct (gen_employees_csv _ _ _) as [[? ?] ?].
  apply evolves_same_db; reflexivity.
Qed.

Lemma run_gen_projects_csv_evolves : preserves evolves (run_gen_projects_csv (F:=F)).
Proof.
  intros w. unfold run_gen_projects_csv. destruct (gen_projects_csv _ _ _) as [[? ?] ?].
  apply evolves_same_db; reflexivity.
Qed.

Lemma log_request_evolves (lf : LogFields) : preserves evolves (log_request (F:=F) lf).
Proof.
  intros w. unfold log_request. destruct (commit_log _ _ _) eqn:E.
  - eapply commit_log_evolves. exact E.
  - simpl. reflexivity.
Qed.

Lemma block_ip_evolves (ip reason : json) : preserves evolves (block_ip (F:=F) ip reason).
Proof.
  intros w. unfold block_ip, bind, st_get, lift_res, ret, set_db. simpl.
  destruct (bind_text ip); simpl; [|reflexivity].
  destruct (blocklist_first _ _) as [[?|]|]; simpl; try reflexivity.
  destruct (bind_text reason); simpl; [|reflexivity].
  destruct (commit_block _ _ _ _) eqn:E; simpl; [|reflexivity].
  eapply commit_block_evolves. exact E.
Qed.
End HandlerEvolution.

Ltac evolve_tac :=
  repeat first
    [ apply block_ip_evolves
    | apply preserves_bind; [apply _ | | intros ?]
    | apply preserves_try; [apply _ | | intros ?]
    | apply preserves_ret; apply _
    | apply preserves_raise; apply _
    | apply preserves_get; apply _
    | apply lift_res_evolves
    | apply draw_name_evolves
    | apply run_gen_credentials_zip_evolves
    | apply run_gen_employees_csv_evolves
    | apply run_gen_projects_csv_evolves
    | apply log_request_evolves
    | progress unfold deceive, query_rows, login_row, query_outcome
    | case_match ].

Section HandlersEvolve.
Context {F : Type} `{Faker F} {M : Type} `{OutlierModel M}.
Variable model : option M.

Lemma api_login_evolves (r : Request) : preserves evolves (api_login (F:=F) model r).
Proof. unfold api_login. evolve_tac. Qed.

Lemma api_query_evolves (r : Request) : preserves evolves (api_query (F:=F) model r).
Proof. unfold api_query. evolve_tac. Qed.

Lemma api_block_evolves (r : Request) : preserves evolves (api_block (F:=F) r).
Proof. unfold api_block. evolve_tac. Qed.

Lemma api_decoy_generate_evolves : preserves evolves (api_decoy_generate (F:=F)).
Proof. unfold api_decoy_generate. evolve_tac. Qed.

Lemma flask_dispatch_evolves (h : PyM (World F) Response) (w : World F) :
  preserves evolves h -> evolves w (flask_dispatch h w).2.
Proof.
  intros Hh. specialize (Hh w). unfold flask_dispatch.
  destruct (h w) as [[?|?] ?]; exact Hh.
Qed.
End HandlersEvolve.

Section Service.
Context {F : Type} `{Faker F} {M : Type} `{OutlierModel M}.
Variable model : option M.

Lemma serve_evolves (h : PyM (World F) Response) (w : World F) :
  preserves evolves h -> evolves w (serve h w).2.
Proof.
  intros Hh. unfold serve. pose proof (flask_dispatch_evolves h w Hh) as E.
  destruct (flask_dispatch h w). exact E.
Qed.

Lemma step_request_evolves (w : World F) (e : Event) :
  match e with ETick _ | EStoreHealth _ _ | EDecoyDir _ => False | _ => True end ->
  evolves w (step model w e).2.
Proof.
  destruct e; simpl; intros []; apply serve_evolves.
  - apply api_login_evolves.
  - apply api_query_evolves.
  - apply api_block_evolves.
  - apply api_decoy_generate_evolves.
Qed.

Lemma evolves_inv (w w' : World F) : evolves w w' -> service_inv w -> service_inv w'.
Proof.
  intros (Hn & _ & _ & [el [Hl Hel]] & _ & Hwf) [Hw Hs]. split; [auto|].
  unfold stamped_past in *. rewrite Hl, Hn. apply Forall_app. split; [exact Hs|].
  eapply Forall_impl; [exact Hel|]. intros l ->. lia.
Qed.

Lemma step_inv (w : World F) (e : Event) : service_inv w -> service_inv (step model w e).2.
Proof.
  intros Hi. destruct e as [r|r|r| |dt|rd wr|b];
    try (apply evolves_inv with w; [apply step_request_evolves; exact I | exact Hi]).
  - simpl. destruct (0 <=? dt)%Z eqn:Hd; [|exact Hi].
    destruct Hi as [Hw Hs]. split; [exact Hw|]. apply Z.leb_le in Hd.
    unfold stamped_past in *. simpl. eapply Forall_impl; [exact Hs|]. intros l Hl. simpl in *. lia.
  - destruct Hi as [Hw Hs]. split; [exact Hw | exact Hs].
  - destruct Hi as [Hw Hs]. split; [exact Hw | exact Hs].
Qed.

Lemma reachable_inv (w : World F) : reachable model w -> service_inv w.
Proof.
  induction 1 as [fs fk now|w e _ IH].
  - split; [repeat constructor | constructor].
  - apply step_inv. exact IH.
Qed.

Lemma step_blocklist_grows (w : World F) (e : Event) :
  exists eb, db_blocklist (w_db (step model w e).2) = (db_blocklist (w_db w) ++ eb)%list.
Proof.
  destruct e as [r|r|r| |dt|rd wr|b] eqn:He;
    try (assert (Hr : evolves w (step model w e).2) by (apply step_request_evolves; subst e; exact I);
         subst e; destruct Hr as (_ & _ & _ & _ & Hb & _); exact Hb);
    exists []; rewrite app_nil_r; simpl; try reflexivity.
  destruct (0 <=? dt)%Z; reflexivity.
Qed.

Lemma run_blocklist_grows (w : World F) (es : list Event) :
  exists eb, db_blocklist (w_db (run model w es).2) = (db_blocklist (w_db w) ++ eb)%list.
Proof.
  revert w. induction es as [|e es IH]; intros w; simpl.
  - exists []. rewrite app_nil_r. reflexivity.
  - destruct (step model w e) as [o w1] eqn:Hs. destruct (run model w1 es) as [os w2] eqn:Hr. simpl.
    destruct (step_blocklist_grows w e) as [eb1 H1]. rewrite Hs in H1. simpl in H1.
    destruct (IH w1) as [eb2 H2]. rewrite Hr in H2. simpl in H2.
    exists (eb1 ++ eb2)%list. rewrite H2, H1, app_assoc. reflexivity.
Qed.
End Service.

Lemma zcount_none {A} (p : A -> bool) (l : list A) :
  Forall (fun x => p x = false) l -> zcount p l = 0%Z.
Proof. induction 1 as [|x l Hx _ IH]; simpl; [reflexivity|]. rewrite Hx. exact IH. Qed.

Lemma features_rpm (db : Db) (now : Z) (r : Request) (ip : string) :
  reqs_per_min (features_from_request db now r ip) = get_reqs_per_min db ip now.
Proof. unfold features_from_request. destruct (extract_payload_and_params r); reflexivity. Qed.

Section ServiceLemmas.
Context {F : Type} `{Faker F} {M : Type} `{OutlierModel M}.
Variable model : option M.

Lemma run_cons_snd (w : World F) (e : Event) (es : list Event) :
  (run model w (e :: es)).2 = (run model (step model w e).2 es).2.
Proof.
  simpl. destruct (step model w e) as [o w1]. simpl. destruct (run model w1 es). reflexivity.
Qed.

(** One login from a source that is not blocked, on a healthy store,
    adds one to its rate feature and keeps the store healthy. *)
Lemma login_step_rate (w : World F) (r : Request) :
  db_reads_ok (w_db w) = true -> db_writes_ok (w_db w) = true ->
  client_ip r ∉ map blk_ip (db_blocklist (w_db w)) ->
  let w' := (step model w (ELogin r)).2 in
  db_reads_ok (w_db w') = true /\ db_writes_ok (w_db w') = true /\
  db_blocklist (w_db w') = db_blocklist (w_db w) /\ w_now w' = w_now w /\
  get_reqs_per_min (w_db w') (client_ip r) (w_now w') =
    (get_reqs_per_min (w_db w) (client_ip r) (w_now w) + 1)%Z.
Proof.
  intros Hr Hw Hn w'.
  destruct (login_logs_row model r w Hr Hn) as (w1 & lf & Hl & Hb & Hlogs & Hip).
  pose proof (api_login_evolves model r w) as (Hnow & Hr1 & Hw1 & _). rewrite Hl in Hnow, Hr1, Hw1.
  simpl in Hnow, Hr1, Hw1.
  assert (Hw' : w' = w1) by (unfold w', step, serve, flask_dispatch; rewrite Hl; reflexivity).
  rewrite Hw'. repeat split; try congruence.
  unfold get_reqs_per_min, count_logs_since. rewrite Hr1, Hr, Hlogs, Hw, Hnow. simpl.
  rewrite zcount_snoc. simpl. rewrite Hip, String.eqb_refl.
  replace (w_now w - window_us <=? w_now w)%Z with true by (symmetry; apply Z.leb_le; unfold window_us; lia).
  reflexivity.
Qed.
(** [n] logins from a source that is not blocked, on a healthy store,
    add [n] to its rate and keep the store healthy and the clock still. *)
Lemma run_logins (w : World F) (r : Request) (n : nat) :
  db_reads_ok (w_db w) = true -> db_writes_ok (w_db w) = true ->
  client_ip r ∉ map blk_ip (db_blocklist (w_db w)) ->
  let w' := (run model w (repeat (ELogin r) n)).2 in
  db_reads_ok (w_db w') = true /\ db_writes_ok (w_db w') = true /\
  db_blocklist (w_db w') = db_blocklist (w_db w) /\
  get_reqs_per_min (w_db w') (client_ip r) (w_now w') =
    (get_reqs_per_min (w_db w) (client_ip r) (w_now w) + Z.of_nat n)%Z.
Proof.
  revert w. induction n as [|n IH]; intros w Hr Hw Hn; simpl repeat.
  - simpl. repeat split; auto. lia.
  - rewrite run_cons_snd.
    destruct (login_step_rate w r Hr Hw Hn) as (Hr1 & Hw1 & Hb1 & _ & Hc1).
    destruct (IH _ Hr1 Hw1 ltac:(rewrite Hb1; exact Hn)) as (Hr2 & Hw2 & Hb2 & Hc2).
    repeat split; auto; [congruence|]. rewrite Hc2, Hc1. lia.
Qed.
End ServiceLemmas.

(** ** Properties of the running service *)

Section ServiceProperties.
Context {F : Type} `{Faker F} {M : Type} `{OutlierModel M}.

(** C12: in every reachable state the rowids of both
    tables increase strictly, no address is blocked twice, and no log row
    is stamped after the clock. *)
Theorem service_invariant (model : option M) (w : World F) :
  reachable model w -> service_inv w.
Proof. apply reachable_inv. Qed.

(** C4: once an address is on the blocklist, after any
    sequence of events every login or query from it is answered 403 when
    the store can be read and 500 when it cannot, with the world
    unchanged: it is never scored again. *)
Theorem blocked_forever (model : option M) (w : World F) (es : list Event) (r : Request) :
  client_ip r ∈ map blk_ip (db_blocklist (w_db w)) ->
  let w' := (run model w es).2 in
  let resp := if db_reads_ok (w_db w') then resp_blocked else resp_internal_error in
  step model w' (ELogin r) = (Some resp, w') /\ step model w' (EQuery r) = (Some resp, w').
Proof.
  intros Hin w' resp. subst resp. destruct (run_blocklist_grows model w es) as [eb Heb]. fold w' in Heb.
  assert (Hin' : client_ip r ∈ map blk_ip (db_blocklist (w_db w')))
    by (rewrite Heb, map_app; set_solver).
  unfold step, serve.
  destruct (db_reads_ok (w_db w')) eqn:Hr.
  - unfold flask_dispatch.
    destruct (blocked_gate model r w' Hr Hin') as [-> ->]. split; reflexivity.
  - destruct (read_failure_core model r w' Hr) as [-> ->]. split; reflexivity.
Qed.

(** C8: the rate a login is scored with leaves the login itself out: on a
    healthy store, after [n] logins from a source that is not blocked and
    with no time passing, the next login's rate feature has grown by
    exactly [n], and that login is scored (its log row's verdict) on this
    feature vector, computed before its own row is committed (the spec's
    data model counts the current event, so the tenth request of a burst
    sees 9). *)
Theorem rate_excludes_current (model : option M) (w : World F) (r : Request) (n : nat) :
  db_reads_ok (w_db w) = true -> db_writes_ok (w_db w) = true ->
  client_ip r ∉ map blk_ip (db_blocklist (w_db w)) ->
  let w' := (run model w (repeat (ELogin r) n)).2 in
  let f := features_from_request (w_db w') (w_now w') r (client_ip r) in
  reqs_per_min f = (reqs_per_min (features_from_request (w_db w) (w_now w) r (client_ip r)) + Z.of_nat n)%Z /\
  exists w'' lf,
    api_login model r w' = (Ok resp_login_fail, w'') /\
    db_logs (w_db w'') =
      (db_logs (w_db w') ++ [mkLogRow (next_rowid (map log_id (db_logs (w_db w')))) (w_now w') lf])%list /\
    lf_anomaly lf = is_anomaly_from_features model f.
Proof.
  intros Hr Hw Hn w' f. subst w' f. rewrite !features_rpm.
  destruct (run_logins model w r n Hr Hw Hn) as (Hr' & Hw' & Hb' & Hc'). split; [exact Hc'|].
  destruct (login_outcome model r _ Hr' ltac:(rewrite Hb'; exact Hn))
    as (w'' & lf & Hl & _ & Hlogs & _ & _ & _ & Ha & _).
  rewrite Hw' in Hlogs. exists w'', lf. auto.
Qed.

(** C14: from any reachable state, once more than
    sixty seconds pass the rate feature of every source is 0. *)
Theorem rate_window_expires (model : option M) (w : World F) (dt : Z) (ip : string) :
  reachable model w -> (window_us < dt)%Z ->
  let w' := (step model w (ETick dt)).2 in get_reqs_per_min (w_db w') ip (w_now w') = 0%Z.
Proof.
  intros Hreach Hdt w'. destruct (reachable_inv model w Hreach) as [_ Hs].
  unfold w', step. replace (0 <=? dt)%Z with true by (symmetry; apply Z.leb_le; unfold window_us in *; lia).
  unfold get_reqs_per_min, count_logs_since. simpl.
  destruct (db_reads_ok (w_db w)); [|reflexivity].
  apply zcount_none. eapply Forall_impl; [exact Hs|]. intros l Hl. simpl in *.
  apply andb_false_iff. right. apply Z.leb_gt. lia.
Qed.
End ServiceProperties.

(** ** Witnesses *)

Lemma service_invariant_witness :
  reachable witness_model (step witness_model witness_start (ELogin witness_login_request)).2 /\
  service_inv (step witness_model witness_start (ELogin witness_login_request)).2.
Proof.
  assert (Hr : reachable witness_model (step witness_model witness_start (ELogin witness_login_request)).2)
    by (apply reach_step; apply reach_init).
  split; [exact Hr | apply (service_invariant witness_model); exact Hr].
Defined.

Lemma blocked_forever_witness :
  client_ip witness_login_request ∈ map blk_ip (db_blocklist (w_db witness_blocked_world)) /\
  (let w' := (run witness_model witness_blocked_world
                [ETick 5; EStoreHealth false true; EQuery witness_login_request]).2 in
   let resp := if db_reads_ok (w_db w') then resp_blocked else resp_internal_error in
   step witness_model w' (ELogin witness_login_request) = (Some resp, w') /\
   step witness_model w' (EQuery witness_login_request) = (Some resp, w')).
Proof.
  assert (Hin : client_ip witness_login_request ∈ map blk_ip (db_blocklist (w_db witness_blocked_world)))
    by (simpl; left).
  split; [exact Hin | apply blocked_forever; exact Hin].
Defined.

(** The tenth login of a burst sees 9 earlier requests. *)
Lemma rate_excludes_current_witness :
  db_reads_ok (w_db witness_start) = true /\ db_writes_ok (w_db witness_start) = true /\
  client_ip witness_login_request ∉ map blk_ip (db_blocklist (w_db witness_start)) /\
  (let w' := (run witness_model witness_start (repeat (ELogin witness_login_request) 9)).2 in
   reqs_per_min (features_from_request (w_db w') (w_now w') witness_login_request
                   (client_ip witness_login_request)) = 9%Z).
Proof.
  assert (Hn : client_ip witness_login_request ∉ map blk_ip (db_blocklist (w_db witness_start)))
    by (simpl; set_solver).
  split; [reflexivity|]. split; [reflexivity|]. split; [exact Hn|].
  pose proof (proj1 (rate_excludes_current witness_model witness_start witness_login_request 9
                eq_refl eq_refl Hn)) as E.
  cbv zeta in E |- *. rewrite E. vm_compute. reflexivity.
Defined.

Lemma rate_window_expires_witness :
  reachable witness_model witness_start /\ (window_us < 61000000)%Z /\
  (let w' := (step witness_model witness_start (ETick 61000000)).2 in
   get_reqs_per_min (w_db w') "203.0.113.7" (w_now w') = 0%Z).
Proof.
  assert (Hr : reachable witness_model witness_start) by apply reach_init.
  assert (Hd : (window_us < 61000000)%Z) by (unfold window_us; lia).
  split; [exact Hr|]. split; [exact Hd|]. apply rate_window_expires; [exact Hr | exact Hd].
Defined.
