(* ===== verification/Concurrency.v ===== *)
(** * Concurrent requests: handlers split at their store accesses

    Flask serves requests on several threads, and the SQLite store
    serialises each statement, not a whole handler.  This file cuts every
    request handler of Handlers.v at its store accesses into atomic
    steps, and lets a scheduler interleave the steps of several requests.
    A request in flight is a [Thread]:
    - a login ([api_login], src/Backend/app.py 363-397) or a query
      ([api_query], 399-451) reads the blocklist (the gate), then reads
      the rate window, judges and deceives (one step: the rate query and
      the decoy files touch different resources), then commits its log
      row;
    - a block action ([api_block], 453-468) parses its body and reads the
      blocklist ([Blocklist.query.filter_by(ip=ip).first()]), then
      commits the new row, which the UNIQUE constraint may reject;
    - a decoy regeneration ([api_decoy_generate], 470-476) only writes
      files and is one step.
    [thread_step] runs one step of a thread, [sched_step] one step of the
    thread a scheduler picks, [run_sched] a whole schedule, and [tstep]
    (threads only) and [cstep] (threads and the environment of System.v)
    are the step relations of the concurrent service. *)
From S2P Require Import Prelude PyStr Json Request Store Features Detector Decoy Handlers System.
From Stdlib Require Import Ascii String Sorted.

Open Scope string_scope.

(** ** Requests and threads *)

(** A request to one of the endpoints that change state. *)
Inductive Call :=
| CLogin (r : Request)
| CQuery (r : Request)
| CBlock (r : Request)
| CDecoy.

Definition call_event (c : Call) : Event :=
  match c with
  | CLogin r => ELogin r
  | CQuery r => EQuery r
  | CBlock r => EBlock r
  | CDecoy => EDecoyGenerate
  end.

(** Where a request in flight stands: not started, past the blocklist
    gate, holding the row it is about to commit, or answered. *)
Inductive Thread :=
| TLogin (r : Request)
| TLoginScore (r : Request)
| TQuery (r : Request)
| TQueryScore (r : Request)
| TLog (lf : LogFields) (resp : Response)
| TBlock (r : Request)
| TBlockCommit (ip : string) (reason : option string)
| TDecoy
| TDone (resp : Response).

Definition spawn (c : Call) : Thread :=
  match c with
  | CLogin r => TLogin r
  | CQuery r => TQuery r
  | CBlock r => TBlock r
  | CDecoy => TDecoy
  end.

Definition is_done (t : Thread) : bool :=
  match t with TDone _ => true | _ => false end.

(** The address a block request writes when its body is a dict whose
    ["ip"] is truthy and whose ["ip"] and ["reason"] bind as SQL text. *)
Definition block_target (r : Request) : option string :=
  match py_or (get_json r) (JObj []) with
  | JObj l =>
      let ip := default JNull (obj_get "ip" l) in
      let reason := default (JStr "manual") (obj_get "reason" l) in
      if py_truthy ip then
        match bind_text ip, bind_text reason with
        | Ok (Some s), Ok _ => Some s
        | _, _ => None
        end
      else None
  | _ => None
  end.

Section Threads.
Context {F : Type} `{Faker F} {M : Type} `{OutlierModel M}.
Variable model : option M.

Local Notation W := (World F).

(** ** The atomic steps *)

(** [if Blocklist.query.filter_by(ip=ip).first(): return 403]. *)
Definition gate (r : Request) (next : Thread) : PyM W Thread :=
  w <- st_get ;;
  blocked <- lift_res (blocklist_first (w_db w) (client_ip r)) ;;
  match blocked with
  | Some _ => ret (TDone resp_blocked)
  | None => ret next
  end.

(** The rest of [api_login] up to the commit: the features (the rate
    query), the verdict, the deception, and the row to log. *)
Definition login_score (r : Request) : PyM W Thread :=
  lf <- login_row model r ;;
  ret (TLog lf resp_login_fail).

(** The rest of [api_query] up to the commit. *)
Definition query_score (r : Request) : PyM W Thread :=
  out <- query_outcome model r ;;
  ret (TLog out.1 out.2).

(** [api_block] up to its commit: the body, the guard and the lookup. *)
Definition block_check (r : Request) : PyM W Thread :=
  match py_or (get_json r) (JObj []) with
  | JObj l =>
      let ip := default JNull (obj_get "ip" l) in
      let reason := default (JStr "manual") (obj_get "reason" l) in
      if negb (py_truthy ip) then ret (TDone resp_ip_required)
      else try_except
             (w <- st_get ;;
              ip_s <- lift_res (bind_text ip) ;;
              let ip_s := default "" ip_s in
              row <- lift_res (blocklist_first (w_db w) ip_s) ;;
              match row with
              | Some _ => ret (TDone resp_block_ok)
              | None =>
                  reason_s <- lift_res (bind_text reason) ;;
                  ret (TBlockCommit ip_s reason_s)
              end)
             (fun _ => ret (TDone resp_db_error))
  | _ => raise AttributeError
  end.

(** The commit of the block row, inside the same [try]. *)
Definition block_commit (ip : string) (reason : option string) : PyM W Thread :=
  try_except
    (w <- st_get ;;
     db' <- lift_res (commit_block (w_db w) ip reason (w_now w)) ;;
     set_db db' ;;
     ret (TDone resp_block_ok))
    (fun _ => ret (TDone resp_db_error)).

Definition thread_body (t : Thread) : PyM W Thread :=
  match t with
  | TLogin r => gate r (TLoginScore r)
  | TLoginScore r => login_score r
  | TQuery r => gate r (TQueryScore r)
  | TQueryScore r => query_score r
  | TLog lf resp => log_request lf ;; ret (TDone resp)
  | TBlock r => block_check r
  | TBlockCommit ip reason => block_commit ip reason
  | TDecoy => resp <- api_decoy_generate ;; ret (TDone resp)
  | TDone resp => ret (TDone resp)
  end.

(** One step; an exception ends the request with the 500 handler's
    answer, as [flask_dispatch] does. *)
Definition thread_step (t : Thread) (w : W) : Thread * W :=
  match thread_body t w with
  | (Ok t', w') => (t', w')
  | (Raise _, w') => (TDone resp_internal_error, w')
  end.

(** A thread running with no other thread in between, for [n] steps. *)
Fixpoint run_alone (n : nat) (t : Thread) (w : W) : Thread * W :=
  match n with
  | O => (t, w)
  | S n' => if is_done t then (t, w) else let '(t', w') := thread_step t w in run_alone n' t' w'
  end.

(** ** Schedules *)

(** The scheduler runs one step of thread [i]; a finished or missing
    thread is skipped. *)
Definition sched_step (s : list Thread * W) (i : nat) : list Thread * W :=
  match s.1 !! i with
  | Some t => if is_done t then s
              else let '(t', w') := thread_step t s.2 in (<[i := t']> s.1, w')
  | None => s
  end.

Definition run_sched (sched : list nat) (s : list Thread * W) : list Thread * W :=
  fold_left sched_step sched s.

(** Each request runs to its end before the next starts. *)
Definition serial_schedule (k n : nat) : list nat :=
  List.concat (map (fun i => repeat i 3) (seq k n)).

(** Any step of any unfinished thread. *)
Inductive tstep : list Thread * W -> list Thread * W -> Prop :=
| tstep_thread ts w i t :
    ts !! i = Some t -> is_done t = false ->
    tstep (ts, w) (<[i := (thread_step t w).1]> ts, (thread_step t w).2).

(** Threads and the environment: the clock, the store's health and the
    decoy directory's mode change between any two steps. *)
Inductive cstep : list Thread * W -> list Thread * W -> Prop :=
| cstep_thread s s' : tstep s s' -> cstep s s'
| cstep_env ts w e :
    match e with ETick _ | EStoreHealth _ _ | EDecoyDir _ => True | _ => False end ->
    cstep (ts, w) (ts, (step model w e).2).

(** The handler a call reaches. *)
Definition call_handler (c : Call) : PyM W Response :=
  match c with
  | CLogin r => api_login model r
  | CQuery r => api_query model r
  | CBlock r => api_block r
  | CDecoy => api_decoy_generate
  end.

(** What the threads of block requests guarantee at every point of any
    interleaving on a healthy store: each one with a target has not
    started, is about to commit its target, or has answered 200 or 500
    with its target blocked. *)
Definition block_inv (cs : list Call) (s : list Thread * W) : Prop :=
  db_reads_ok (w_db s.2) = true /\ db_writes_ok (w_db s.2) = true /\
  forall i r ip, cs !! i = Some (CBlock r) -> block_target r = Some ip ->
    s.1 !! i = Some (TBlock r) \/ (exists rs, s.1 !! i = Some (TBlockCommit ip rs)) \/
    (exists resp, s.1 !! i = Some (TDone resp) /\ (resp = resp_block_ok \/ resp = resp_db_error) /\
                  ip ∈ map blk_ip (db_blocklist (w_db s.2))).
End Threads.

(** ** Witness requests *)

(** [POST /api/actions/block] with body [{ip: 203.0.113.7}]. *)
Definition witness_block_request : Request :=
  witness_json_request (JObj [("ip", JStr "203.0.113.7")]).

(** ** Lemmas *)

Local Open Scope list_scope.

Section ThreadLemmas.
Context {F : Type} `{Faker F} {M : Type} `{OutlierModel M}.
Variable model : option M.

(** A thread that runs alone does what its handler does: after at most
    three steps it has answered as [flask_dispatch] of the handler and
    left the same world. *)
Lemma run_alone_handler (c : Call) (w : World F) :
  run_alone model 3 (spawn c) w =
    (TDone (flask_dispatch (call_handler model c) w).1, (flask_dispatch (call_handler model c) w).2).
Proof.
  destruct c as [r|r|r|]; cbn [spawn call_handler run_alone is_done];
    unfold thread_step, thread_body, flask_dispatch, gate, login_score, query_score,
      block_check, block_commit, api_login, api_query, api_block, block_ip; pym_unfold;
    repeat (case_match; simplify_eq; cbn [run_alone is_done fst snd]); try reflexivity.
Qed.

Lemma step_call (c : Call) (w : World F) :
  step model w (call_event c) = serve (call_handler model c) w.
Proof. destruct c; reflexivity. Qed.

Lemma sched_step_other (s : list Thread * World F) (i j : nat) :
  i <> j -> (sched_step model s i).1 !! j = s.1 !! j.
Proof.
  intros Hij. unfold sched_step. destruct (s.1 !! i) as [t|]; [|reflexivity].
  destruct (is_done t); [reflexivity|]. destruct (thread_step model t s.2). simpl.
  apply list_lookup_insert_ne. exact Hij.
Qed.

Lemma sched_step_length (s : list Thread * World F) (i : nat) :
  List.length (sched_step model s i).1 = List.length s.1.
Proof.
  unfold sched_step. destruct (s.1 !! i) as [t|]; [|reflexivity].
  destruct (is_done t); [reflexivity|]. destruct (thread_step model t s.2). simpl.
  apply length_insert.
Qed.

Lemma run_sched_done (n i : nat) (s : list Thread * World F) (t : Thread) :
  s.1 !! i = Some t -> is_done t = true -> run_sched model (repeat i n) s = s.
Proof.
  intros Hi Hd. induction n as [|n IH]; [reflexivity|].
  unfold run_sched in *. simpl. unfold sched_step at 2. rewrite Hi, Hd. exact IH.
Qed.

(** Scheduling one thread [n] times in a row runs it alone. *)
Lemma run_sched_repeat (n i : nat) (ts : list Thread) (t : Thread) (w : World F) :
  ts !! i = Some t ->
  run_sched model (repeat i n) (ts, w) =
    (<[i := (run_alone model n t w).1]> ts, (run_alone model n t w).2).
Proof.
  revert ts t w. induction n as [|n IH]; intros ts t w Hi; cbn [repeat run_alone].
  - rewrite list_insert_id by exact Hi. reflexivity.
  - destruct (is_done t) eqn:Hd.
    + rewrite list_insert_id by exact Hi. unfold run_sched. simpl. unfold sched_step at 2. simpl.
      rewrite Hi, Hd. apply (run_sched_done n i (ts, w) t Hi Hd).
    + unfold run_sched. simpl. unfold sched_step at 2. simpl. rewrite Hi, Hd.
      destruct (thread_step model t w) as [t1 w1] eqn:Hs. cbn [fst snd].
      unfold run_sched in IH. rewrite (IH _ t1 w1).
      * rewrite list_insert_insert_eq. reflexivity.
      * apply list_lookup_insert_eq. apply lookup_lt_Some in Hi. exact Hi.
Qed.

Lemma serial_schedule_S (k n : nat) :
  serial_schedule k (S n) = (repeat k 3 ++ serial_schedule (S k) n)%list.
Proof. reflexivity. Qed.

Lemma run_sched_app (s1 s2 : list nat) (s : list Thread * World F) :
  run_sched model (s1 ++ s2) s = run_sched model s2 (run_sched model s1 s).
Proof. unfold run_sched. apply fold_left_app. Qed.

(** The serial schedule, with the first [length dn] requests answered. *)
Lemma run_sched_serial (cs : list Call) (dn : list Response) (w : World F) :
  exists rs, (run model w (map call_event cs)).1 = map Some rs /\
    run_sched model (serial_schedule (List.length dn) (List.length cs)) (map TDone dn ++ map spawn cs, w) =
      (map TDone (dn ++ rs), (run model w (map call_event cs)).2).
Proof.
  revert dn w. induction cs as [|c cs IH]; intros dn w.
  - exists []. split; [reflexivity|]. cbn. rewrite !app_nil_r. reflexivity.
  - cbn [List.length map]. rewrite serial_schedule_S, run_sched_app.
    rewrite (run_sched_repeat 3 _ _ (spawn c))
      by (apply list_lookup_middle; rewrite length_map; reflexivity).
    rewrite run_alone_handler.
    rewrite (insert_middle (map TDone dn)) by (rewrite length_map; reflexivity). cbn [fst snd].
    destruct (flask_dispatch (call_handler model c) w) as [r w1] eqn:Hf. cbn [fst snd].
    destruct (IH (dn ++ [r])%list w1) as [rs [Hrs Hrun]].
    exists (r :: rs). rewrite run_cons_snd, step_call. unfold serve. rewrite Hf. cbn [fst snd].
    replace (S (List.length dn)) with (List.length (dn ++ [r])%list) by (rewrite length_app; simpl; lia).
    replace (map TDone dn ++ TDone r :: map spawn cs)%list with (map TDone (dn ++ [r]) ++ map spawn cs)%list
      by (rewrite map_app, <- app_assoc; reflexivity).
    rewrite Hrun, <- app_assoc. split; [|reflexivity].
    simpl. rewrite step_call. unfold serve. rewrite Hf. destruct (run model w1 _) as [os w2] eqn:Hr.
    simpl in *. rewrite Hrs. reflexivity.
Qed.

Lemma block_commit_evolves (ip : string) (reason : option string) :
  preserves evolves (block_commit (F:=F) ip reason).
Proof.
  intros w. unfold block_commit. pym_unfold. simpl.
  destruct (commit_block _ _ _ _) eqn:E; simpl; [|reflexivity].
  eapply commit_block_evolves. exact E.
Qed.

Lemma thread_body_evolves (t : Thread) : preserves evolves (thread_body (F:=F) model t).
Proof.
  destruct t; unfold thread_body, gate, login_score, query_score, block_check;
    first [apply block_commit_evolves | evolve_tac; apply api_decoy_generate_evolves | evolve_tac].
Qed.

Lemma thread_step_evolves (t : Thread) (w : World F) : evolves w (thread_step model t w).2.
Proof.
  pose proof (thread_body_evolves t w) as E. unfold thread_step.
  destruct (thread_body model t w) as [[?|?] ?]; exact E.
Qed.

(** Every step of the concurrent service keeps the service invariant. *)
Lemma cstep_inv (s s' : list Thread * World F) :
  cstep model s s' -> service_inv s.2 -> service_inv s'.2.
Proof.
  destruct 1 as [s s' [ts w i t _ _] | ts w e _]; simpl; intros Hi.
  - eapply evolves_inv; [apply thread_step_evolves | exact Hi].
  - apply step_inv. exact Hi.
Qed.

(** The first step of a block request with a target on a readable store:
    it finds the address already blocked, or moves on to the commit. *)
Lemma block_check_target (r : Request) (ip : string) (w : World F) :
  block_target r = Some ip -> db_reads_ok (w_db w) = true ->
  (thread_step model (TBlock r) w = (TDone resp_block_ok, w) /\ ip ∈ map blk_ip (db_blocklist (w_db w))) \/
  (exists rs, thread_step model (TBlock r) w = (TBlockCommit ip rs, w) /\
              ip ∉ map blk_ip (db_blocklist (w_db w))).
Proof.
  unfold block_target, thread_step, thread_body, block_check. intros Ht Hr. pym_unfold.
  destruct (py_or (get_json r) (JObj [])); try discriminate. cbv zeta in *.
  destruct (py_truthy _); [|discriminate]. simpl.
  destruct (bind_text (default JNull _)) as [[s|]|e]; try discriminate.
  destruct (bind_text (default (JStr "manual") _)) as [rs|e]; try discriminate.
  injection Ht as <-. simpl.
  destruct (blocklist_first (w_db w) s) as [[b|]|e] eqn:Hf; simpl.
  - left. split; [reflexivity|]. eapply blocklist_first_found. exact Hf.
  - right. eexists. split; [reflexivity|]. eapply blocklist_first_absent. exact Hf.
  - unfold blocklist_first in Hf. rewrite Hr in Hf. discriminate.
Qed.

(** The commit step on a writable store: the address ends up blocked,
    by this commit (200) or by the one the UNIQUE constraint saw (500). *)
Lemma block_commit_target (ip : string) (rs : option string) (w : World F) :
  db_writes_ok (w_db w) = true ->
  let '(t', w') := thread_step model (TBlockCommit ip rs) w in
  (t' = TDone resp_block_ok \/ t' = TDone resp_db_error) /\ ip ∈ map blk_ip (db_blocklist (w_db w')).
Proof.
  intros Hw. unfold thread_step, thread_body, block_commit. pym_unfold. simpl.
  destruct (commit_block_outcome (w_db w) ip rs (w_now w) Hw) as [[db' [E Hin]] | [E Hin]];
    rewrite E; simpl; auto.
Qed.

Lemma evolves_blocked (w w' : World F) (ip : string) :
  evolves w w' -> ip ∈ map blk_ip (db_blocklist (w_db w)) -> ip ∈ map blk_ip (db_blocklist (w_db w')).
Proof.
  intros (_ & _ & _ & _ & [eb Heb] & _) Hin. rewrite Heb, map_app. apply elem_of_app. left. exact Hin.
Qed.

Lemma block_inv_init (cs : list Call) (w : World F) :
  db_reads_ok (w_db w) = true -> db_writes_ok (w_db w) = true -> block_inv cs (map spawn cs, w).
Proof.
  intros Hr Hw. split; [exact Hr|]. split; [exact Hw|]. intros i r ip Hc _. left.
  simpl. rewrite (lookup_map_Some spawn cs i _ Hc). reflexivity.
Qed.

Lemma block_inv_tstep (cs : list Call) (s s' : list Thread * World F) :
  tstep model s s' -> block_inv cs s -> block_inv cs s'.
Proof.
  destruct 1 as [ts w j t Hj Hd]. intros (Hr & Hw & Hinv). cbn [fst snd] in *.
  pose proof (thread_step_evolves t w) as E.
  pose proof E as (_ & HR & HW & _).
  unfold block_inv; cbn [fst snd]. split; [congruence|]. split; [congruence|].
  intros i r ip Hc Ht. destruct (decide (i = j)) as [-> | Hne].
  - assert (Hlt : (j < List.length ts)%nat) by (eapply lookup_lt_Some; exact Hj).
    rewrite list_lookup_insert_eq by exact Hlt.
    destruct (Hinv j r ip Hc Ht) as [Hb | [[rs Hb] | [resp [Hb _]]]]; rewrite Hj in Hb; injection Hb as ->.
    + destruct (block_check_target r ip w Ht Hr) as [[-> Hin] | [rs [-> _]]]; simpl.
      * right; right. eexists. split; [reflexivity|]. split; [left; reflexivity | exact Hin].
      * right; left. eexists. reflexivity.
    + pose proof (block_commit_target ip rs w Hw) as Hc'.
      destruct (thread_step model (TBlockCommit ip rs) w) as [t' w'] eqn:Es. simpl.
      destruct Hc' as [Ht' Hin]. right; right. exists (match t' with TDone x => x | _ => resp_block_ok end).
      destruct Ht' as [-> | ->]; (split; [reflexivity|]); split; auto.
    + discriminate.
  - rewrite list_lookup_insert_ne by congruence.
    destruct (Hinv i r ip Hc Ht) as [Hb | [Hb | [resp (Hb & Hresp & Hin)]]]; auto.
    right; right. exists resp. split; [exact Hb|]. split; [exact Hresp|].
    eapply evolves_blocked; [exact E | exact Hin].
Qed.

Lemma sched_step_run (ts : list Thread) (w : World F) (i : nat) (t t' : Thread) (w' : World F) :
  ts !! i = Some t -> is_done t = false -> thread_step model t w = (t', w') ->
  sched_step model (ts, w) i = (<[i := t']> ts, w').
Proof. intros Hi Hd Hs. unfold sched_step. simpl. rewrite Hi, Hd, Hs. reflexivity. Qed.

(** A block request whose address is already blocked answers 200 at
    once; one whose address is not yet blocked moves on to the commit. *)
Lemma block_check_dup (r : Request) (ip : string) (w : World F) :
  block_target r = Some ip -> db_reads_ok (w_db w) = true -> ip ∈ map blk_ip (db_blocklist (w_db w)) ->
  thread_step model (TBlock r) w = (TDone resp_block_ok, w).
Proof.
  intros Ht Hr Hin. destruct (block_check_target r ip w Ht Hr) as [[E _] | [rs [_ Hn]]];
    [exact E | contradiction].
Qed.

Lemma block_check_fresh (r : Request) (ip : string) (w : World F) :
  block_target r = Some ip -> db_reads_ok (w_db w) = true -> ip ∉ map blk_ip (db_blocklist (w_db w)) ->
  exists rs, thread_step model (TBlock r) w = (TBlockCommit ip rs, w).
Proof.
  intros Ht Hr Hn. destruct (block_check_target r ip w Ht Hr) as [[_ Hin] | [rs [E _]]];
    [contradiction | exists rs; exact E].
Qed.

Lemma block_commit_fresh (ip : string) (rs : option string) (w : World F) :
  db_writes_ok (w_db w) = true -> ip ∉ map blk_ip (db_blocklist (w_db w)) ->
  exists w', thread_step model (TBlockCommit ip rs) w = (TDone resp_block_ok, w') /\
             ip ∈ map blk_ip (db_blocklist (w_db w')) /\ db_logs (w_db w') = db_logs (w_db w) /\
             evolves w w'.
Proof.
  intros Hw Hn.
  destruct (commit_block_outcome (w_db w) ip rs (w_now w) Hw) as [[db' [Ec Hin]] | [_ Hin]];
    [|contradiction].
  exists (mkWorld db' (w_fs w) (w_faker w) (w_now w)).
  unfold thread_step, thread_body, block_commit. pym_unfold. simpl. rewrite Ec. simpl.
  split; [reflexivity|]. split; [exact Hin|]. split; [eapply commit_block_logs; exact Ec|].
  eapply commit_block_evolves. exact Ec.
Qed.

Lemma block_commit_dup (ip : string) (rs : option string) (w : World F) :
  db_writes_ok (w_db w) = true -> ip ∈ map blk_ip (db_blocklist (w_db w)) ->
  thread_step model (TBlockCommit ip rs) w = (TDone resp_db_error, w).
Proof.
  intros Hw Hin. unfold thread_step, thread_body, block_commit, commit_block. pym_unfold. simpl.
  rewrite Hw. replace (existsb _ _) with true; [reflexivity|].
  symmetry. apply existsb_exists. apply list_elem_of_In, in_map_iff in Hin as [b [<- Hb]].
  exists b. split; [exact Hb | apply String.eqb_refl].
Qed.

Lemma block_inv_rtc (cs : list Call) (s s' : list Thread * World F) :
  rtc (tstep model) s s' -> block_inv cs s -> block_inv cs s'.
Proof. induction 1; eauto using block_inv_tstep. Qed.

(** Every schedule is an interleaving: it follows the step relation. *)
Lemma run_sched_rtc (sched : list nat) (s : list Thread * World F) :
  rtc (tstep model) s (run_sched model sched s).
Proof.
  revert s. induction sched as [|i sched IH]; intros [ts w]; [reflexivity|].
  unfold run_sched in *. simpl. unfold sched_step at 2. simpl.
  destruct (ts !! i) as [t|] eqn:Hi; [|apply IH].
  destruct (is_done t) eqn:Hd; [apply IH|].
  destruct (thread_step model t w) as [t' w'] eqn:Hs.
  eapply rtc_l; [|apply IH].
  replace (<[i:=t']> ts, w') with (<[i:=(thread_step model t w).1]> ts, (thread_step model t w).2)
    by (rewrite Hs; reflexivity).
  constructor; assumption.
Qed.

Lemma tstep_rtc_cstep (s s' : list Thread * World F) :
  rtc (tstep model) s s' -> rtc (cstep model) s s'.
Proof. induction 1; [reflexivity|]. eapply rtc_l; [apply cstep_thread|]; eassumption. Qed.

(** A login from an address not blocked passes the gate. *)
Lemma login_gate_pass (r : Request) (w : World F) :
  db_reads_ok (w_db w) = true -> client_ip r ∉ map blk_ip (db_blocklist (w_db w)) ->
  thread_step model (TLogin r) w = (TLoginScore r, w).
Proof.
  intros Hr Hn. unfold thread_step, thread_body, gate. pym_unfold.
  rewrite (blocklist_first_none _ _ Hr Hn). reflexivity.
Qed.

Lemma login_gate_blocked (r : Request) (w : World F) :
  db_reads_ok (w_db w) = true -> client_ip r ∈ map blk_ip (db_blocklist (w_db w)) ->
  thread_step model (TLogin r) w = (TDone resp_blocked, w).
Proof.
  intros Hr Hin. destruct (blocklist_first_some _ _ Hr Hin) as [b Hb].
  unfold thread_step, thread_body, gate. pym_unfold. rewrite Hb. reflexivity.
Qed.

(** The scoring step of a login never fails and leaves the store alone. *)
Lemma login_score_spec (r : Request) (w : World F) :
  exists lf w', thread_step model (TLoginScore r) w = (TLog lf resp_login_fail, w') /\
                lf_ip lf = client_ip r /\ w_db w' = w_db w /\ w_now w' = w_now w.
Proof.
  destruct (login_row_spec model r w) as (lf & w' & E & Hip & Hd & Hn).
  exists lf, w'. unfold thread_step, thread_body, login_score. pym_unfold. rewrite E. auto.
Qed.

(** The commit of a log row on a writable store appends it. *)
Lemma log_commit_spec (lf : LogFields) (resp : Response) (w : World F) :
  db_writes_ok (w_db w) = true ->
  exists w', thread_step model (TLog lf resp) w = (TDone resp, w') /\
    db_logs (w_db w') = db_logs (w_db w) ++ [mkLogRow (next_rowid (map log_id (db_logs (w_db w)))) (w_now w) lf] /\
    db_blocklist (w_db w') = db_blocklist (w_db w) /\ evolves w w'.
Proof.
  intros Hw. pose proof (thread_step_evolves (TLog lf resp) w) as E.
  destruct (log_request_spec lf w) as (w' & Hl & _ & _ & _ & _ & Hb & Hlogs).
  unfold thread_step, thread_body in *. pym_unfold. rewrite Hl in *. simpl in *.
  rewrite Hw in Hlogs. exists w'. auto.
Qed.
End ThreadLemmas.

(** One scheduled step of the thread whose step is [H]. *)
Ltac sched_run H :=
  erewrite sched_step_run; [| reflexivity | reflexivity | exact H].

Section ConcurrencyProperties.
Context {F : Type} `{Faker F} {M : Type} `{OutlierModel M}.

(** C29: under any interleaving of requests and environment events, rowids
    stay increasing, no address is blocked twice and no row is stamped in
    the future: SQLite's serialised statements and the UNIQUE constraint
    keep the store well formed. *)
Theorem concurrent_service_invariant (model : option M) (s s' : list Thread * World F) :
  rtc (cstep model) s s' -> service_inv s.2 -> service_inv s'.2.
Proof. induction 1; eauto using cstep_inv. Qed.

(** C30: no block is lost to concurrency: on a healthy store, under any
    interleaving of any requests, a block request with a target that has
    answered has answered 200 or 500, and its address is on the
    blocklist. *)
Theorem blocks_not_lost (model : option M) (cs : list Call) (w : World F)
    (s : list Thread * World F) (i : nat) (r : Request) (ip : string) (resp : Response) :
  db_reads_ok (w_db w) = true -> db_writes_ok (w_db w) = true ->
  rtc (tstep model) (map spawn cs, w) s ->
  cs !! i = Some (CBlock r) -> block_target r = Some ip -> s.1 !! i = Some (TDone resp) ->
  (resp = resp_block_ok \/ resp = resp_db_error) /\ ip ∈ map blk_ip (db_blocklist (w_db s.2)).
Proof.
  intros Hr Hw Hs Hc Ht Hd.
  destruct (block_inv_rtc model cs _ _ Hs (block_inv_init cs w Hr Hw)) as (_ & _ & Hinv).
  destruct (Hinv i r ip Hc Ht) as [Hb | [[rs Hb] | [resp' (Hb & Hresp & Hin)]]];
    rewrite Hd in Hb; [discriminate | discriminate |]. injection Hb as ->. auto.
Qed.

(** C31: the block action is idempotent only when the requests do not
    overlap: two requests for the same new address that both look it up
    before either commits get 200 and 500 (the second commit breaks the
    UNIQUE constraint), where one after the other both get 200. *)
Theorem duplicate_block_race (model : option M) (r1 r2 : Request) (ip : string) (w : World F) :
  db_reads_ok (w_db w) = true -> db_writes_ok (w_db w) = true ->
  ip ∉ map blk_ip (db_blocklist (w_db w)) ->
  block_target r1 = Some ip -> block_target r2 = Some ip ->
  (run_sched model [0; 1; 0; 1] ([TBlock r1; TBlock r2], w)).1 =
    [TDone resp_block_ok; TDone resp_db_error] /\
  (run_sched model [0; 0; 1; 1] ([TBlock r1; TBlock r2], w)).1 =
    [TDone resp_block_ok; TDone resp_block_ok].
Proof.
  intros Hr Hw Hn Ht1 Ht2.
  destruct (block_check_fresh model r1 ip w Ht1 Hr Hn) as [rs1 E1].
  destruct (block_check_fresh model r2 ip w Ht2 Hr Hn) as [rs2 E2].
  destruct (block_commit_fresh model ip rs1 w Hw Hn) as (w1 & C1 & Hin1 & _ & (_ & HR1 & HW1 & _)).
  pose proof (block_commit_dup model ip rs2 w1 ltac:(congruence) Hin1) as C2.
  pose proof (block_check_dup model r2 ip w1 Ht2 ltac:(congruence) Hin1) as D2.
  split; unfold run_sched; cbn [fold_left].
  - sched_run E1.
    sched_run E2.
    sched_run C1.
    sched_run C2. reflexivity.
  - sched_run E1.
    sched_run C1.
    sched_run D2. reflexivity.
Qed.

(** C32: a block does not stop a request already past the gate: a login
    that passed the blocklist check before a block of its address
    committed is still scored, logged and answered 401; had the block
    committed first, it would have been answered 403 with nothing
    logged. *)
Theorem block_misses_gated_login (model : option M) (r rb : Request) (w : World F) :
  db_reads_ok (w_db w) = true -> db_writes_ok (w_db w) = true ->
  client_ip r ∉ map blk_ip (db_blocklist (w_db w)) -> block_target rb = Some (client_ip r) ->
  let s := run_sched model [0; 1; 1; 0; 0] ([TLogin r; TBlock rb], w) in
  s.1 = [TDone resp_login_fail; TDone resp_block_ok] /\
  client_ip r ∈ map blk_ip (db_blocklist (w_db s.2)) /\
  (exists l, db_logs (w_db s.2) = db_logs (w_db w) ++ [l] /\ lf_ip (log_fields l) = client_ip r) /\
  let s' := run_sched model [1; 1; 0] ([TLogin r; TBlock rb], w) in
  s'.1 = [TDone resp_blocked; TDone resp_block_ok] /\ db_logs (w_db s'.2) = db_logs (w_db w).
Proof.
  intros Hr Hw Hn Ht. cbv zeta.
  pose proof (login_gate_pass model r w Hr Hn) as G.
  destruct (block_check_fresh model rb _ w Ht Hr Hn) as [rs B1].
  destruct (block_commit_fresh model _ rs w Hw Hn) as (w1 & B2 & Hin1 & Hl1 & (_ & HR1 & HW1 & _)).
  destruct (login_score_spec model r w1) as (lf & w2 & S & Hip & Hd2 & Hn2).
  destruct (log_commit_spec model lf resp_login_fail w2 ltac:(congruence)) as (w3 & L & Hl3 & Hb3 & _).
  pose proof (login_gate_blocked model r w1 ltac:(congruence) Hin1) as G'.
  unfold run_sched. cbn [fold_left].
  sched_run G.
  sched_run B1.
  sched_run B2.
  sched_run S.
  sched_run L. cbn [fst snd].
  split; [reflexivity|]. split; [rewrite Hb3, Hd2; exact Hin1|].
  split.
  - eexists. rewrite Hl3, Hd2, Hl1. split; [reflexivity | exact Hip].
  - sched_run B1.
    sched_run B2.
    sched_run G'. cbn [fst snd].
    split; [reflexivity | exact Hl1].
Qed.
End ConcurrencyProperties.

(** ** Witnesses *)

Lemma concurrent_service_invariant_witness :
  rtc (cstep witness_model) ([TBlock witness_block_request], witness_world)
      (run_sched witness_model [0; 0] ([TBlock witness_block_request], witness_world)) /\
  service_inv ([TBlock witness_block_request], witness_world).2 /\
  service_inv (run_sched witness_model [0; 0] ([TBlock witness_block_request], witness_world)).2.
Proof.
  assert (H1 := tstep_rtc_cstep witness_model _ _ (run_sched_rtc witness_model [0; 0]
                  ([TBlock witness_block_request], witness_world))).
  assert (H2 : service_inv ([TBlock witness_block_request], witness_world).2)
    by (split; [unfold db_wf; simpl; repeat constructor | constructor]).
  split; [exact H1|]. split; [exact H2|].
  exact (concurrent_service_invariant witness_model _ _ H1 H2).
Defined.

Lemma blocks_not_lost_witness :
  let s := run_sched witness_model [0; 0] ([TBlock witness_block_request], witness_world) in
  db_reads_ok (w_db witness_world) = true /\ db_writes_ok (w_db witness_world) = true /\
  rtc (tstep witness_model) (map spawn [CBlock witness_block_request], witness_world) s /\
  [CBlock witness_block_request] !! 0 = Some (CBlock witness_block_request) /\
  block_target witness_block_request = Some "203.0.113.7" /\
  s.1 !! 0 = Some (TDone resp_block_ok) /\
  (resp_block_ok = resp_block_ok \/ resp_block_ok = resp_db_error) /\
  "203.0.113.7" ∈ map blk_ip (db_blocklist (w_db s.2)).
Proof.
  cbv zeta.
  assert (Hr : db_reads_ok (w_db witness_world) = true) by reflexivity.
  assert (Hw : db_writes_ok (w_db witness_world) = true) by reflexivity.
  assert (Hs := run_sched_rtc witness_model [0; 0] ([TBlock witness_block_request], witness_world)).
  assert (Hc : [CBlock witness_block_request] !! 0 = Some (CBlock witness_block_request)) by reflexivity.
  assert (Ht : block_target witness_block_request = Some "203.0.113.7") by (vm_compute; reflexivity).
  assert (Hd : (run_sched witness_model [0; 0] ([TBlock witness_block_request], witness_world)).1 !! 0 =
               Some (TDone resp_block_ok)) by (vm_compute; reflexivity).
  do 6 (split; [assumption|]).
  exact (blocks_not_lost witness_model [CBlock witness_block_request] witness_world _ 0 _ _ _
           Hr Hw Hs Hc Ht Hd).
Defined.

Lemma duplicate_block_race_witness :
  db_reads_ok (w_db witness_world) = true /\ db_writes_ok (w_db witness_world) = true /\
  "203.0.113.7" ∉ map blk_ip (db_blocklist (w_db witness_world)) /\
  block_target witness_block_request = Some "203.0.113.7" /\
  (run_sched witness_model [0; 1; 0; 1] ([TBlock witness_block_request; TBlock witness_block_request],
                                          witness_world)).1 =
    [TDone resp_block_ok; TDone resp_db_error] /\
  (run_sched witness_model [0; 0; 1; 1] ([TBlock witness_block_request; TBlock witness_block_request],
                                          witness_world)).1 =
    [TDone resp_block_ok; TDone resp_block_ok].
Proof.
  assert (Hr : db_reads_ok (w_db witness_world) = true) by reflexivity.
  assert (Hw : db_writes_ok (w_db witness_world) = true) by reflexivity.
  assert (Hn : "203.0.113.7" ∉ map blk_ip (db_blocklist (w_db witness_world))) by apply not_elem_of_nil.
  assert (Ht : block_target witness_block_request = Some "203.0.113.7") by (vm_compute; reflexivity).
  do 4 (split; [assumption|]).
  exact (duplicate_block_race witness_model _ _ _ witness_world Hr Hw Hn Ht Ht).
Defined.

Lemma block_misses_gated_login_witness :
  db_reads_ok (w_db witness_world) = true /\ db_writes_ok (w_db witness_world) = true /\
  client_ip witness_login_request ∉ map blk_ip (db_blocklist (w_db witness_world)) /\
  block_target witness_block_request = Some (client_ip witness_login_request) /\
  let s := run_sched witness_model [0; 1; 1; 0; 0]
             ([TLogin witness_login_request; TBlock witness_block_request], witness_world) in
  s.1 = [TDone resp_login_fail; TDone resp_block_ok] /\
  client_ip witness_login_request ∈ map blk_ip (db_blocklist (w_db s.2)) /\
  (exists l, db_logs (w_db s.2) = db_logs (w_db witness_world) ++ [l] /\
             lf_ip (log_fields l) = client_ip witness_login_request) /\
  let s' := run_sched witness_model [1; 1; 0]
              ([TLogin witness_login_request; TBlock witness_block_request], witness_world) in
  s'.1 = [TDone resp_blocked; TDone resp_block_ok] /\ db_logs (w_db s'.2) = db_logs (w_db witness_world).
Proof.
  assert (Hr : db_reads_ok (w_db witness_world) = true) by reflexivity.
  assert (Hw : db_writes_ok (w_db witness_world) = true) by reflexivity.
  assert (Hn : client_ip witness_login_request ∉ map blk_ip (db_blocklist (w_db witness_world)))
    by apply not_elem_of_nil.
  assert (Ht : block_target witness_block_request = Some (client_ip witness_login_request))
    by (vm_compute; reflexivity).
  do 4 (split; [assumption|]).
  exact (block_misses_gated_login witness_model _ _ witness_world Hr Hw Hn Ht).
Defined.
